(** * Screens of the Cardputer text UI: serial-line parsers, teardown and factories

    A shallow embedding of the screen implementations of the firmware
    (wardrive, promiscuous wardrive, channel-time settings, network info,
    text input, handshaker, data detail) and of its keyboard driver,
    together with the properties their specification states about them
    and further properties read off the code.

    Conventions of the embedding:
    - a [const char *] is the [string] of the characters before the
      terminating NUL; a pointer into a line is an offset ([nat]) and the
      suffix it designates is obtained with [advance];
    - a fixed [char buf[N]] is a [buffer] (a list of [N] characters); a write
      outside of it is a memory fault, the [None] of the monad [M];
    - an [int] is a [Z] kept in the 32-bit range by [wrap_int];
    - calls into the collaborators that are not part of the screens (display,
      serial bridge, timers, allocator, screen manager) are recorded, in
      program order, in the [w_trace] of the [world];
    - [ESP_LOGx] diagnostics have no effect on any state below and are left
      out. *)

From Stdlib Require Import String Ascii List ZArith Lia Bool Arith.
From Stdlib Require Import Numbers.DecimalString.
Import ListNotations.

Local Open Scope string_scope.
Local Open Scope list_scope.

(** ** C characters and strings *)

Definition NUL : ascii := Ascii.zero.

(** [isdigit] and [isspace] of <ctype.h> in the "C" locale. *)
Definition isdigit (c : ascii) : bool :=
  let n := nat_of_ascii c in (48 <=? n)%nat && (n <=? 57)%nat.

Definition isspace (c : ascii) : bool :=
  let n := nat_of_ascii c in (n =? 32)%nat || ((9 <=? n)%nat && (n <=? 13)%nat).

Definition digit_val (c : ascii) : Z := Z.of_nat (nat_of_ascii c) - 48.

(** [strlen]. *)
Definition strlen (s : string) : nat := String.length s.

(** [p + n] for a pointer [p] into a string: the suffix after [n] characters. *)
Fixpoint advance (n : nat) (s : string) : string :=
  match n, s with
  | O, _ => s
  | S n', String _ s' => advance n' s'
  | S _, EmptyString => EmptyString
  end.

(** [s[i]]; the terminator is read at and (in this model) beyond [strlen s]. *)
Definition char_at (s : string) (i : nat) : ascii :=
  match String.get i s with
  | Some c => c
  | None => NUL
  end.

(** [*p]: the character under a pointer, NUL at the end of the string. *)
Definition deref (s : string) : ascii := char_at s 0.

(** [strchr s c] for [c <> NUL]: the offset of the first [c], [None] for the
    C result [NULL]. *)
Fixpoint strchr (s : string) (c : ascii) : option nat :=
  match s with
  | EmptyString => None
  | String a s' =>
      if Ascii.eqb a c then Some O else option_map S (strchr s' c)
  end.

(** [strstr s needle]: the offset of the first occurrence, [None] for [NULL]. *)
Fixpoint strstr (s needle : string) : option nat :=
  if String.prefix needle s then Some O
  else match s with
       | EmptyString => None
       | String _ s' => option_map S (strstr s' needle)
       end.

(** ** Fixed-size character buffers *)

Definition buffer := list ascii.

Definition sizeof (b : buffer) : nat := List.length b.

(** The [n] characters [strncpy] stores: those of [src], then NUL padding. *)
Fixpoint strncpy_chars (src : string) (n : nat) : list ascii :=
  match n with
  | O => []
  | S n' =>
      match src with
      | EmptyString => NUL :: strncpy_chars EmptyString n'
      | String c s' => c :: strncpy_chars s' n'
      end
  end.

(** [strncpy(dst, src, n)]; writing past the end of [dst] is a fault. *)
Definition strncpy (dst : buffer) (src : string) (n : nat) : option buffer :=
  if (n <=? sizeof dst)%nat then Some (strncpy_chars src n ++ skipn n dst)
  else None.

(** [dst[i] = c]; writing past the end of [dst] is a fault. *)
Definition store (dst : buffer) (i : nat) (c : ascii) : option buffer :=
  if (i <? sizeof dst)%nat then Some (firstn i dst ++ c :: skipn (S i) dst)
  else None.

(** The C string held by a buffer: its characters before the first NUL. *)
Fixpoint c_str (b : buffer) : string :=
  match b with
  | [] => EmptyString
  | c :: b' => if Ascii.eqb c NUL then EmptyString else String c (c_str b')
  end.

(** A buffer is a valid C string when a NUL lies inside it. *)
Definition nul_terminated (b : buffer) : Prop := In NUL b.

(** [snprintf(dst, sizeof dst, "%s", s)]: at most [sizeof dst - 1] characters
    and a NUL; the bytes after the NUL are left as they were. *)
Definition snprintf_s (dst : buffer) (s : string) : option buffer :=
  match sizeof dst with
  | O => Some dst
  | S m =>
      let k := Nat.min (strlen s) m in
      match strncpy dst s k with
      | Some d => store d k NUL
      | None => None
      end
  end.

(** A zero-initialised buffer, as [calloc] leaves it. *)
Definition zeroed (n : nat) : buffer := repeat NUL n.

(** ** Machine integers *)

Definition INT_MAX : Z := 2147483647.
Definition INT_MIN : Z := -2147483648.

(** Two's-complement wrap-around of [int] arithmetic on the 32-bit target. *)
Definition wrap_int (z : Z) : Z := (z + 2147483648) mod 4294967296 - 2147483648.

(** The digits [strtol] consumes in base 10, accumulated to a magnitude. *)
Fixpoint digits_acc (s : string) (acc : Z) : Z * string :=
  match s with
  | String c s' => if isdigit c then digits_acc s' (acc * 10 + digit_val c)
                   else (acc, s)
  | EmptyString => (acc, s)
  end.

Fixpoint skip_space (s : string) : string :=
  match s with
  | String c s' => if isspace c then skip_space s' else s
  | EmptyString => s
  end.

(** [strtol(s, &end, 10)] with a 32-bit [long]: leading white space, an
    optional sign, the longest run of digits; the value saturates at
    [LONG_MAX] / [LONG_MIN]. [None] when no digit can be converted
    (C returns 0 and [end = s]). The result pairs the value with [end]. *)
Definition strtol10 (s : string) : option (Z * string) :=
  let s1 := skip_space s in
  let '(neg, s2) :=
    match s1 with
    | String "-" r => (true, r)
    | String "+" r => (false, r)
    | _ => (false, s1)
    end in
  match s2 with
  | String c _ =>
      if isdigit c then
        let '(m, rest) := digits_acc s2 0 in
        Some (if neg then Z.max INT_MIN (- m) else Z.min INT_MAX m, rest)
      else None
  | EmptyString => None
  end.

(** ** [sscanf] for the directives the screens use *)

Inductive directive :=
| DLit (c : ascii)   (* an ordinary character: must match exactly *)
| DSpace             (* white space in the format: any run of white space *)
| DInt.              (* %d *)

(** The format string of a [sscanf] call, read into directives; the only
    conversion specification the screens use is [%d]. *)
Fixpoint parse_format (f : string) : list directive :=
  match f with
  | EmptyString => []
  | String "%" (String "d" r) => DInt :: parse_format r
  | String c r => (if isspace c then DSpace else DLit c) :: parse_format r
  end.

(** The values [sscanf] assigns, in order; scanning stops at the first
    directive that does not match. The C return value is the number of
    values assigned (or [EOF], which no caller tells apart from 0). *)
Fixpoint scan (ds : list directive) (s : string) : list Z :=
  match ds with
  | [] => []
  | DLit c :: ds' =>
      match s with
      | String a s' => if Ascii.eqb a c then scan ds' s' else []
      | EmptyString => []
      end
  | DSpace :: ds' => scan ds' (skip_space s)
  | DInt :: ds' =>
      match strtol10 s with
      | Some (v, rest) => v :: scan ds' rest
      | None => []
      end
  end.

Definition sscanf (s fmt : string) : list Z := scan (parse_format fmt) s.

(** [%d] of the printf family. *)
Definition fmt_d (z : Z) : string := NilZero.string_of_int (Z.to_int z).


(** Formatting into a local [char tmp[size]] with [snprintf]: the text is cut
    to [size - 1] characters. *)
Definition snprintf_local (size : nat) (s : string) : string :=
  String.substring 0 (size - 1) s.

(** ** Collaborators of the screens and the effect monad *)

Definition ptr := nat.
Definition NULL : ptr := O.

Definition esp_err_t := Z.
Definition ESP_OK : esp_err_t := 0%Z.

(** Modelled from the spec: the colour macros of text_ui.h, which is not
    under src/; only their identity matters to the screens. *)
Inductive ui_color :=
| UI_COLOR_TEXT | UI_COLOR_HIGHLIGHT | UI_COLOR_DIMMED
| UI_COLOR_TITLE | UI_COLOR_BORDER
| RGB565 (r g b : Z).

(** The text handed to a draw primitive. [TxtGps lat lon] stands for
    ["Last GPS: %.5f, %.5f"] printed from [strtod lat] and [strtod lon],
    whose floating-point rendering is kept symbolic. *)
Inductive ui_text :=
| Txt (s : string)
| TxtGps (lat lon : string).

(** The line consumers the screens register with the serial bridge. *)
Inductive line_callback :=
| CB_wardrive_promisc | CB_wardrive | CB_channel_time
| CB_network_info | CB_handshaker | CB_data_detail.

(** One constructor per external call of the screens. *)
Inductive event :=
| E_ui_clear
| E_ui_draw_title (title : string)
| E_ui_print (col row : Z) (text : ui_text) (color : ui_color)
| E_ui_print_center (row : Z) (text : ui_text) (color : ui_color)
| E_ui_draw_status (text : string)
| E_uart_send_command (cmd : string)
| E_uart_register_line_callback (cb : line_callback) (ctx : ptr)
| E_uart_clear_line_callback
| E_uart_set_wifi_connected (connected : bool)
| E_esp_timer_stop (h : ptr)
| E_esp_timer_delete (h : ptr)
| E_screen_manager_pop
| E_free (p : ptr).

(** The draw primitives of text_ui.h. *)
Definition is_draw (e : event) : bool :=
  match e with
  | E_ui_clear | E_ui_draw_title _ | E_ui_print _ _ _ _
  | E_ui_print_center _ _ _ | E_ui_draw_status _ => true
  | _ => false
  end.

(** The state outside of a screen's context block: the calls made so far,
    the heap, and the behaviour of the environment still to come. *)
Record world := mkWorld {
  w_trace : list event;        (* external calls, oldest first *)
  w_live : list ptr;           (* heap blocks currently allocated *)
  w_brk : ptr;                 (* next address the allocator hands out *)
  w_allocs : list bool;        (* outcome of the coming allocations *)
  w_sends : list esp_err_t     (* status of the coming uart_send_command *)
}.

(** A computation either faults on a memory error or yields a value and the
    next world. *)
Definition M (A : Type) : Type := world -> option (A * world).

Definition ret {A} (a : A) : M A := fun w => Some (a, w).

Definition bind {A B} (m : M A) (k : A -> M B) : M B :=
  fun w => match m w with
           | Some (a, w') => k a w'
           | None => None
           end.

Definition lift {A} (o : option A) : M A :=
  fun w => match o with
           | Some a => Some (a, w)
           | None => None
           end.

Declare Scope m_scope.
Delimit Scope m_scope with M.
Notation "x <- m ;; k" := (bind m (fun x => k))
  (at level 61, m at next level, right associativity) : m_scope.
Notation "m ;; k" := (bind m (fun _ => k))
  (at level 61, right associativity) : m_scope.

(** [p != NULL] for the result of a search. *)
Definition found {A} (o : option A) : bool :=
  match o with Some _ => true | None => false end.

(** The same sequencing for buffer operations alone. *)
Definition obind {A B} (o : option A) (k : A -> option B) : option B :=
  match o with
  | Some a => k a
  | None => None
  end.

Declare Scope o_scope.
Delimit Scope o_scope with O.
Notation "x <- m ;; k" := (obind m (fun x => k))
  (at level 61, m at next level, right associativity) : o_scope.

(** The idiom of the line parsers: [strncpy(dst, src, n); dst[n] = '\0';] *)
Definition copy_field (dst : buffer) (src : string) (n : nat) : option buffer :=
  (b <- strncpy dst src n ;; store b n NUL)%O.

Definition emit (e : event) : M unit :=
  fun w => Some (tt, mkWorld (w_trace w ++ [e]) (w_live w) (w_brk w)
                             (w_allocs w) (w_sends w)).

Definition ui_clear : M unit := emit E_ui_clear.
Definition ui_draw_title (t : string) : M unit := emit (E_ui_draw_title t).
Definition ui_print (col row : Z) (t : ui_text) (c : ui_color) : M unit :=
  emit (E_ui_print col row t c).
Definition ui_print_center (row : Z) (t : ui_text) (c : ui_color) : M unit :=
  emit (E_ui_print_center row t c).
Definition ui_draw_status (t : string) : M unit := emit (E_ui_draw_status t).

Definition uart_register_line_callback (cb : line_callback) (ctx : ptr)
  : M unit := emit (E_uart_register_line_callback cb ctx).
Definition uart_clear_line_callback : M unit :=
  emit E_uart_clear_line_callback.
Definition uart_set_wifi_connected (b : bool) : M unit :=
  emit (E_uart_set_wifi_connected b).

(** [uart_send_command]: the command goes out and the transport reports a
    status, [ESP_OK] once the scripted statuses are used up. *)
Definition uart_send_command (cmd : string) : M esp_err_t :=
  fun w =>
    let r := match w_sends w with r :: _ => r | [] => ESP_OK end in
    Some (r, mkWorld (w_trace w ++ [E_uart_send_command cmd]) (w_live w)
                     (w_brk w) (w_allocs w) (tl (w_sends w))).

Definition esp_timer_stop (h : ptr) : M unit := emit (E_esp_timer_stop h).
Definition esp_timer_delete (h : ptr) : M unit := emit (E_esp_timer_delete h).
Definition screen_manager_pop : M unit := emit E_screen_manager_pop.

(** [malloc] / [calloc] / [screen_alloc]: a fresh block, or [NULL] when the
    environment makes this request fail. *)
Definition alloc : M ptr :=
  fun w =>
    match w_allocs w with
    | false :: rest =>
        Some (NULL, mkWorld (w_trace w) (w_live w) (w_brk w) rest (w_sends w))
    | _ =>
        Some (w_brk w, mkWorld (w_trace w) (w_brk w :: w_live w)
                               (S (w_brk w)) (tl (w_allocs w)) (w_sends w))
    end.

(** [free(p)] for [p <> NULL]: releasing a block that is not allocated
    (a double or a wild free) is a fault. *)
Definition free (p : ptr) : M unit :=
  fun w =>
    if existsb (Nat.eqb p) (w_live w) then
      Some (tt, mkWorld (w_trace w ++ [E_free p])
                        (filter (fun q => negb (Nat.eqb p q)) (w_live w))
                        (w_brk w) (w_allocs w) (w_sends w))
    else None.

(** The events a computation adds, for reading statements. *)
Definition count_event (p : event -> bool) (t : list event) : nat :=
  List.length (filter p t).

Definition is_free_of (p : ptr) (e : event) : bool :=
  match e with E_free q => Nat.eqb p q | _ => false end.

Definition is_send (e : event) : bool :=
  match e with E_uart_send_command _ => true | _ => false end.

(** ** Promiscuous wardrive screen (src/unnamed/part_000, first file) *)

Module WardrivePromisc.

Inductive wardrive_state_t := STATE_WAITING_GPS | STATE_RUNNING | STATE_GPS_LOST.

Record wardrive_data_t := mk_data {
  state : wardrive_state_t;
  last_ssid : buffer;            (* char last_ssid[64] *)
  lat : buffer;                  (* char lat[16] *)
  lon : buffer;                  (* char lon[16] *)
  gps_wait_elapsed : Z;
  gps_wait_timeout : Z;
  unique_networks : Z;
  needs_redraw : bool;
  refresh_timer : ptr;           (* NULL when no timer was created *)
  self : ptr                     (* the screen_t owning this block *)
}.

Definition set_state v d :=
  mk_data v (last_ssid d) (lat d) (lon d) (gps_wait_elapsed d)
          (gps_wait_timeout d) (unique_networks d) (needs_redraw d)
          (refresh_timer d) (self d).
Definition set_last_ssid v d :=
  mk_data (state d) v (lat d) (lon d) (gps_wait_elapsed d)
          (gps_wait_timeout d) (unique_networks d) (needs_redraw d)
          (refresh_timer d) (self d).
Definition set_lat v d :=
  mk_data (state d) (last_ssid d) v (lon d) (gps_wait_elapsed d)
          (gps_wait_timeout d) (unique_networks d) (needs_redraw d)
          (refresh_timer d) (self d).
Definition set_lon v d :=
  mk_data (state d) (last_ssid d) (lat d) v (gps_wait_elapsed d)
          (gps_wait_timeout d) (unique_networks d) (needs_redraw d)
          (refresh_timer d) (self d).
Definition set_gps_wait v1 v2 d :=
  mk_data (state d) (last_ssid d) (lat d) (lon d) v1 v2
          (unique_networks d) (needs_redraw d) (refresh_timer d) (self d).
Definition set_unique_networks v d :=
  mk_data (state d) (last_ssid d) (lat d) (lon d) (gps_wait_elapsed d)
          (gps_wait_timeout d) v (needs_redraw d) (refresh_timer d) (self d).
Definition set_needs_redraw v d :=
  mk_data (state d) (last_ssid d) (lat d) (lon d) (gps_wait_elapsed d)
          (gps_wait_timeout d) (unique_networks d) v (refresh_timer d)
          (self d).

(** The context block as [wardrive_screen_create] initialises it. *)
Definition fresh (timer screen : ptr) : wardrive_data_t :=
  mk_data STATE_WAITING_GPS (zeroed 64) (zeroed 16) (zeroed 16) 0 0 0 false
          timer screen.

(** The [while] loop of [parse_lat_lon]: the number of characters of the Lon
    value, that is [lon_end - lon_start]. *)
Fixpoint lon_scan (s : string) : nat :=
  match s with
  | EmptyString => O
  | String c s' =>
      if Ascii.eqb c " " || Ascii.eqb c "010" || Ascii.eqb c "013" then O
      else if isdigit c || Ascii.eqb c "-" then S (lon_scan s')
      else if Ascii.eqb c "." then
        if isdigit (deref s') then S (lon_scan s') else O
      else O
  end.

Definition parse_lat_lon (str : string) (data : wardrive_data_t)
  : option wardrive_data_t :=
  match strstr str "Lat=" with
  | None => Some data
  | Some lat_ptr =>
      let lat_start := (lat_ptr + strlen "Lat=")%nat in
      match strchr (advance lat_start str) " " with
      | None => Some data
      | Some lat_len =>
          (data <- (if (lat_len <? sizeof (lat data))%nat then
                      b <- copy_field (lat data) (advance lat_start str) lat_len ;;
                      Some (set_lat b data)
                    else Some data) ;;
           let lat_end := (lat_start + lat_len)%nat in
           match strstr (advance lat_end str) "Lon=" with
           | None => Some data
           | Some lon_ptr =>
               let lon_start := (lat_end + lon_ptr + strlen "Lon=")%nat in
               let lon_len := lon_scan (advance lon_start str) in
               if (0 <? lon_len)%nat && (lon_len <? sizeof (lon data))%nat then
                 b <- copy_field (lon data) (advance lon_start str) lon_len ;;
                 Some (set_lon b data)
               else Some data
           end)%O
      end
  end.

(** The test that opens the CSV branch: a MAC-address-shaped prefix. *)
Definition is_mac_csv (line : string) : bool :=
  (18 <? strlen line)%nat
  && Ascii.eqb (char_at line 2) ":" && Ascii.eqb (char_at line 5) ":"
  && Ascii.eqb (char_at line 8) ":" && Ascii.eqb (char_at line 11) ":"
  && Ascii.eqb (char_at line 14) ":" && Ascii.eqb (char_at line 17) ",".

(** [field_starts[i] = v] for the local [const char *field_starts[9]]. *)
Fixpoint set_field (fs : list (option nat)) (i : nat) (v : nat)
  : list (option nat) :=
  match fs, i with
  | [], _ => []
  | _ :: r, O => Some v :: r
  | x :: r, S i' => x :: set_field r i' v
  end.

(** The loop counting commas and recording where the first nine fields
    start; [pos] is the offset of [s] in the line. The counter cannot
    overflow an [int] on a line that fits in memory and is kept as a [nat]. *)
Fixpoint scan_fields (s : string) (pos comma_count : nat)
         (field_starts : list (option nat)) : nat * list (option nat) :=
  match s with
  | EmptyString => (comma_count, field_starts)
  | String c s' =>
      if Ascii.eqb c "," then
        let comma_count := S comma_count in
        scan_fields s' (S pos) comma_count
          (if (comma_count <? 9)%nat
           then set_field field_starts comma_count (S pos)
           else field_starts)
      else scan_fields s' (S pos) comma_count field_starts
  end.

(** The CSV branch up to, and without, its [unique_networks++]. *)
Definition csv_extract (line : string) (data : wardrive_data_t)
  : option wardrive_data_t :=
  (let ssid_start := advance 18 line in
   data <- match strchr ssid_start "," with
           | Some ssid_len =>
               if (0 <? ssid_len)%nat
                  && (ssid_len <? sizeof (last_ssid data))%nat then
                 b <- copy_field (last_ssid data) ssid_start ssid_len ;;
                 Some (set_last_ssid b data)
               else Some data
           | None => Some data
           end ;;
   let '(comma_count, field_starts) :=
     scan_fields line 0 0 (set_field (repeat None 9) 0 0) in
   match (8 <=? comma_count)%nat, nth 6 field_starts None,
         nth 7 field_starts None with
   | true, Some lat_s, Some lon_s =>
       match strchr (advance lat_s line) ",", strchr (advance lon_s line) "," with
       | Some ll, Some lo =>
           data <- (if (0 <? ll)%nat && (ll <? sizeof (lat data))%nat then
                      b <- copy_field (lat data) (advance lat_s line) ll ;;
                      Some (set_lat b data)
                    else Some data) ;;
           if (0 <? lo)%nat && (lo <? sizeof (lon data))%nat then
             b <- copy_field (lon data) (advance lon_s line) lo ;;
             Some (set_lon b data)
           else Some data
       | _, _ => Some data
       end
   | _, _, _ => Some data
   end)%O.

Definition uart_line_callback (line : string)
           (user_data : option wardrive_data_t) : M (option wardrive_data_t) :=
  match user_data with
  | None => ret None
  | Some data =>
      (if is_mac_csv line then
         data <- lift (csv_extract line data) ;;
         let data := set_unique_networks
                       (wrap_int (unique_networks data + 1)) data in
         ret (Some (set_needs_redraw true data))
       else
       match strstr line "Still waiting for GPS fix" with
       | Some still_waiting =>
           let data :=
             match strchr (advance still_waiting line) "(" with
             | Some paren =>
                 match sscanf (advance (still_waiting + paren) line)
                              "(%d/%d seconds)" with
                 | [elapsed; timeout] => set_gps_wait elapsed timeout data
                 | _ => data
                 end
             | None => data
             end in
           ret (Some (set_needs_redraw true data))
       | None =>
       if found (strstr line "GPS fix obtained") then
         data <- lift (parse_lat_lon line (set_state STATE_RUNNING data)) ;;
         ret (Some (set_needs_redraw true data))
       else if found (strstr line "GPS fix lost") then
         ret (Some (set_needs_redraw true (set_state STATE_GPS_LOST data)))
       else if found (strstr line "GPS fix recovered") then
         data <- lift (parse_lat_lon line (set_state STATE_RUNNING data)) ;;
         ret (Some (set_needs_redraw true data))
       else
       match strstr line "Wardrive promisc:" with
       | Some promisc_stat =>
           match sscanf (advance promisc_stat line)
                        "Wardrive promisc: %d unique networks" with
           | [n] => ret (Some (set_needs_redraw true
                                 (set_unique_networks n data)))
           | _ => ret (Some data)
           end
       | None => ret (Some data)
       end
       end)%M
  end.

Definition draw_screen (data : wardrive_data_t) : M unit :=
  (ui_clear ;;
   ui_draw_title "Wardrive" ;;
   let row := 2%Z in
   match state data with
   | STATE_WAITING_GPS =>
       ui_print 0 row (Txt "Acquiring GPS Fix...") UI_COLOR_HIGHLIGHT ;;
       let row := (row + 2)%Z in
       if (0 <? gps_wait_timeout data)%Z then
         ui_print 0 row
           (Txt (snprintf_local 48
                   ("Waiting: " ++ fmt_d (gps_wait_elapsed data) ++ "/"
                    ++ fmt_d (gps_wait_timeout data) ++ " seconds")))
           UI_COLOR_DIMMED
       else ui_print 0 row (Txt "Need clear view of the sky.") UI_COLOR_DIMMED
   | _ =>
       ui_print 0 row
         (Txt (snprintf_local 48
                 ("Wardriving, " ++ fmt_d (unique_networks data)
                  ++ " networks found.")))
         UI_COLOR_TEXT ;;
       let row := (row + 2)%Z in
       (if negb (Ascii.eqb (nth 0 (last_ssid data) NUL) NUL) then
          ui_print 0 row
            (Txt (snprintf_local 80 ("Last SSID: " ++ c_str (last_ssid data))))
            UI_COLOR_TEXT
        else ui_print 0 row (Txt "Last SSID: -") UI_COLOR_DIMMED) ;;
       let row := (row + 2)%Z in
       match state data with
       | STATE_GPS_LOST =>
           ui_print 0 row (Txt "GPS fix lost! Pausing...") UI_COLOR_HIGHLIGHT
       | _ =>
           if negb (Ascii.eqb (nth 0 (lat data) NUL) NUL)
              && negb (Ascii.eqb (nth 0 (lon data) NUL) NUL) then
             ui_print 0 row (TxtGps (c_str (lat data)) (c_str (lon data)))
                      UI_COLOR_DIMMED
           else ui_print 0 row (Txt "Last GPS: Waiting...") UI_COLOR_DIMMED
       end
   end ;;
   ui_draw_status "ESC: Stop & Exit")%M.

(** The timer callback; [arg] is the context block, whose [self] designates
    the screen that [draw_screen] reads the same block back from. *)
Definition refresh_timer_callback (arg : option wardrive_data_t)
  : M (option wardrive_data_t) :=
  match arg with
  | Some data =>
      if needs_redraw data && negb (Nat.eqb (self data) NULL) then
        (let data := set_needs_redraw false data in
         draw_screen data ;;
         ret (Some data))%M
      else ret (Some data)
  | None => ret None
  end.

(** [on_destroy]; [user_data] is the context block of the screen, its
    address and its contents, or [None] for a [NULL] pointer. *)
Definition on_destroy (user_data : option (ptr * wardrive_data_t)) : M unit :=
  ((match user_data with
    | Some (_, data) =>
        if negb (Nat.eqb (refresh_timer data) NULL) then
          esp_timer_stop (refresh_timer data) ;;
          esp_timer_delete (refresh_timer data)
        else ret tt
    | None => ret tt
    end) ;;
   uart_clear_line_callback ;;
   match user_data with
   | Some (p, _) => free p
   | None => ret tt
   end)%M.

End WardrivePromisc.

(** ** Wardrive screen (src/main/screens/wardrive_screen.c) *)

Module Wardrive.

Definition MAX_LOG_LINE : nat := 128.

Inductive wardrive_state_t := STATE_WAITING_GPS | STATE_RUNNING.

Record wardrive_data_t := mk_data {
  state : wardrive_state_t;
  last_log_line : buffer;        (* char last_log_line[MAX_LOG_LINE] *)
  last_ssid : buffer;            (* char last_ssid[64] *)
  lat : buffer;                  (* char lat[16] *)
  lon : buffer;                  (* char lon[16] *)
  needs_redraw : bool;
  refresh_timer : ptr;
  self : ptr
}.

Definition set_state v d :=
  mk_data v (last_log_line d) (last_ssid d) (lat d) (lon d) (needs_redraw d)
          (refresh_timer d) (self d).
Definition set_last_log_line v d :=
  mk_data (state d) v (last_ssid d) (lat d) (lon d) (needs_redraw d)
          (refresh_timer d) (self d).
Definition set_last_ssid v d :=
  mk_data (state d) (last_log_line d) v (lat d) (lon d) (needs_redraw d)
          (refresh_timer d) (self d).
Definition set_lat v d :=
  mk_data (state d) (last_log_line d) (last_ssid d) v (lon d) (needs_redraw d)
          (refresh_timer d) (self d).
Definition set_lon v d :=
  mk_data (state d) (last_log_line d) (last_ssid d) (lat d) v (needs_redraw d)
          (refresh_timer d) (self d).
Definition set_needs_redraw v d :=
  mk_data (state d) (last_log_line d) (last_ssid d) (lat d) (lon d) v
          (refresh_timer d) (self d).

(** The context block as [wardrive_screen_create] initialises it. *)
Definition fresh (timer screen : ptr) : wardrive_data_t :=
  mk_data STATE_WAITING_GPS (zeroed MAX_LOG_LINE) (zeroed 64) (zeroed 16)
          (zeroed 16) false timer screen.

Definition is_mac_csv (line : string) : bool :=
  (18 <? strlen line)%nat
  && Ascii.eqb (char_at line 2) ":" && Ascii.eqb (char_at line 5) ":"
  && Ascii.eqb (char_at line 8) ":" && Ascii.eqb (char_at line 11) ":"
  && Ascii.eqb (char_at line 14) ":" && Ascii.eqb (char_at line 17) ",".

(** The body of the CSV test: the SSID between the first two commas. *)
Definition csv_branch (line : string) (data : wardrive_data_t)
  : option wardrive_data_t :=
  let ssid_start := advance 18 line in
  match strchr ssid_start "," with
  | Some ssid_len =>
      if (0 <? ssid_len)%nat && (ssid_len <? sizeof (last_ssid data))%nat then
        (b <- copy_field (last_ssid data) ssid_start ssid_len ;;
         Some (set_needs_redraw true (set_last_ssid b data)))%O
      else Some data
  | None => Some data
  end.

(** The ["GPS: Lat="] branch once the marker is found at [gps_found]. *)
Definition gps_branch (line : string) (gps_found : nat)
           (data : wardrive_data_t) : option wardrive_data_t :=
  let lat_start := (gps_found + strlen "GPS: Lat=")%nat in
  match strchr (advance lat_start line) " " with
  | Some lat_len =>
      (data <- (if (lat_len <? sizeof (lat data))%nat then
                  b <- copy_field (lat data) (advance lat_start line) lat_len ;;
                  Some (set_lat b data)
                else Some data) ;;
       let lat_end := (lat_start + lat_len)%nat in
       data <- match strstr (advance lat_end line) "Lon=" with
               | Some lon_ptr =>
                   let lon_start := (lat_end + lon_ptr + strlen "Lon=")%nat in
                   match strchr (advance lon_start line) " " with
                   | Some lon_len =>
                       if (lon_len <? sizeof (lon data))%nat then
                         b <- copy_field (lon data) (advance lon_start line)
                                         lon_len ;;
                         Some (set_lon b data)
                       else Some data
                   | None => Some data
                   end
               | None => Some data
               end ;;
       Some (set_needs_redraw true data))%O
  | None => Some data
  end.

(** The loop that blanks trailing newlines and spaces; [e] is the index
    [end - data->last_log_line]. *)
Fixpoint trim_trailing (b : buffer) (e : nat) : option buffer :=
  match e with
  | O => Some b
  | S e' =>
      let c := nth e b NUL in
      if Ascii.eqb c "010" || Ascii.eqb c "013" || Ascii.eqb c " " then
        (b <- store b e NUL ;; trim_trailing b e')%O
      else Some b
  end.

(** The ["Logged "] branch once the marker is found at [found_at]. *)
Definition logged_branch (line : string) (found_at : nat)
           (data : wardrive_data_t) : option wardrive_data_t :=
  let found_s := advance found_at line in
  if found (strstr found_s "networks to") then
    (b <- strncpy (last_log_line data) found_s (MAX_LOG_LINE - 1) ;;
     b <- store b (MAX_LOG_LINE - 1) NUL ;;
     b <- trim_trailing b (strlen (c_str b) - 1) ;;
     Some (set_needs_redraw true (set_last_log_line b data)))%O
  else Some data.

(** The recognizers that follow the CSV test. *)
Definition later_recognizers (line : string) (data : wardrive_data_t)
  : option wardrive_data_t :=
  if found (strstr line "GPS fix obtained") then
    Some (set_needs_redraw true (set_state STATE_RUNNING data))
  else
    match strstr line "GPS: Lat=" with
    | Some gps_found => gps_branch line gps_found data
    | None =>
        match strstr line "Logged " with
        | Some found_at => logged_branch line found_at data
        | None => Some data
        end
    end.

Definition uart_line_callback (line : string)
           (user_data : option wardrive_data_t) : M (option wardrive_data_t) :=
  match user_data with
  | None => ret None
  | Some data =>
      (data <- lift (if is_mac_csv line then csv_branch line data
                     else Some data) ;;
       (* no return after the CSV branch: the line is processed further *)
       data <- lift (later_recognizers line data) ;;
       ret (Some data))%M
  end.

Definition draw_screen (data : wardrive_data_t) : M unit :=
  (ui_clear ;;
   ui_draw_title "Wardrive" ;;
   let row := 2%Z in
   match state data with
   | STATE_WAITING_GPS =>
       ui_print 0 row (Txt "Acquiring GPS Fix,") UI_COLOR_HIGHLIGHT ;;
       let row := (row + 1)%Z in
       ui_print 0 row (Txt "need clear view of the sky.") UI_COLOR_HIGHLIGHT
   | STATE_RUNNING =>
       (if negb (Ascii.eqb (nth 0 (last_log_line data) NUL) NUL) then
          ui_print 0 row (Txt (c_str (last_log_line data))) UI_COLOR_TEXT
        else ui_print 0 row (Txt "Scanning networks...") UI_COLOR_DIMMED) ;;
       let row := (row + 2)%Z in
       (if negb (Ascii.eqb (nth 0 (last_ssid data) NUL) NUL) then
          ui_print 0 row
            (Txt (snprintf_local 80 ("Last SSID: " ++ c_str (last_ssid data))))
            UI_COLOR_TEXT
        else ui_print 0 row (Txt "Last SSID: -") UI_COLOR_DIMMED) ;;
       let row := (row + 2)%Z in
       if negb (Ascii.eqb (nth 0 (lat data) NUL) NUL)
          && negb (Ascii.eqb (nth 0 (lon data) NUL) NUL) then
         ui_print 0 row (TxtGps (c_str (lat data)) (c_str (lon data)))
                  UI_COLOR_DIMMED
       else ui_print 0 row (Txt "Last GPS: Waiting...") UI_COLOR_DIMMED
   end ;;
   ui_draw_status "ESC: Stop & Exit")%M.

Definition refresh_timer_callback (arg : option wardrive_data_t)
  : M (option wardrive_data_t) :=
  match arg with
  | Some data =>
      if needs_redraw data && negb (Nat.eqb (self data) NULL) then
        (let data := set_needs_redraw false data in
         draw_screen data ;;
         ret (Some data))%M
      else ret (Some data)
  | None => ret None
  end.

Definition on_destroy (user_data : option (ptr * wardrive_data_t)) : M unit :=
  ((match user_data with
    | Some (_, data) =>
        if negb (Nat.eqb (refresh_timer data) NULL) then
          esp_timer_stop (refresh_timer data) ;;
          esp_timer_delete (refresh_timer data)
        else ret tt
    | None => ret tt
    end) ;;
   uart_clear_line_callback ;;
   match user_data with
   | Some (p, _) => free p
   | None => ret tt
   end)%M.

End Wardrive.

(** ** Keys and screens *)

(** Modelled from the spec: the key codes of keyboard.h, which is not under
    src/: the navigation, ESC/ENTER/BACKSPACE and alphanumeric keys the
    screens below test for, and [KEY_OTHER] for every other code. *)
Inductive key_code_t :=
| KEY_UP | KEY_DOWN | KEY_LEFT | KEY_RIGHT
| KEY_ENTER | KEY_SPACE | KEY_ESC | KEY_Q | KEY_BACKSPACE | KEY_DEL
| KEY_OTHER (code : nat).

(** A [screen_t] returned by a factory: its address, and the address and
    contents of the context block its [user_data] points to. *)
Record screen_t (D : Type) := mk_screen {
  screen_addr : ptr;
  user_data_addr : ptr;
  user_data : D
}.
Arguments mk_screen {D}.
Arguments screen_addr {D}.
Arguments user_data_addr {D}.
Arguments user_data {D}.

(** ** Channel-time settings screen (src/unnamed/part_000, second file) *)

Module ChannelTime.

Definition MIN_TIME_MS : Z := 100.
Definition MAX_TIME_MS : Z := 1500.
Definition STEP_LARGE : Z := 10.
Definition FIELD_MIN : Z := 0.
Definition FIELD_MAX : Z := 1.
Definition FIELD_COUNT : Z := 2.

Record channel_time_data_t := mk_data {
  min_value : Z;
  max_value : Z;
  edited_min : Z;
  edited_max : Z;
  selected_field : Z;
  loading : bool;
  loading_count : Z;
  saved : bool;
  needs_redraw : bool;
  status_msg : buffer            (* char status_msg[64] *)
}.

Definition set_min_value v d :=
  mk_data v (max_value d) (edited_min d) (edited_max d) (selected_field d)
          (loading d) (loading_count d) (saved d) (needs_redraw d)
          (status_msg d).
Definition set_max_value v d :=
  mk_data (min_value d) v (edited_min d) (edited_max d) (selected_field d)
          (loading d) (loading_count d) (saved d) (needs_redraw d)
          (status_msg d).
Definition set_edited_min v d :=
  mk_data (min_value d) (max_value d) v (edited_max d) (selected_field d)
          (loading d) (loading_count d) (saved d) (needs_redraw d)
          (status_msg d).
Definition set_edited_max v d :=
  mk_data (min_value d) (max_value d) (edited_min d) v (selected_field d)
          (loading d) (loading_count d) (saved d) (needs_redraw d)
          (status_msg d).
Definition set_selected_field v d :=
  mk_data (min_value d) (max_value d) (edited_min d) (edited_max d) v
          (loading d) (loading_count d) (saved d) (needs_redraw d)
          (status_msg d).
Definition set_loading v d :=
  mk_data (min_value d) (max_value d) (edited_min d) (edited_max d)
          (selected_field d) v (loading_count d) (saved d) (needs_redraw d)
          (status_msg d).
Definition set_loading_count v d :=
  mk_data (min_value d) (max_value d) (edited_min d) (edited_max d)
          (selected_field d) (loading d) v (saved d) (needs_redraw d)
          (status_msg d).
Definition set_saved v d :=
  mk_data (min_value d) (max_value d) (edited_min d) (edited_max d)
          (selected_field d) (loading d) (loading_count d) v (needs_redraw d)
          (status_msg d).
Definition set_needs_redraw v d :=
  mk_data (min_value d) (max_value d) (edited_min d) (edited_max d)
          (selected_field d) (loading d) (loading_count d) (saved d) v
          (status_msg d).
Definition set_status_msg v d :=
  mk_data (min_value d) (max_value d) (edited_min d) (edited_max d)
          (selected_field d) (loading d) (loading_count d) (saved d)
          (needs_redraw d) v.

(** [data->status_msg[0] = '\0';] *)
Definition clear_status (d : channel_time_data_t) : option channel_time_data_t :=
  (b <- store (status_msg d) 0 NUL ;; Some (set_status_msg b d))%O.

(** [snprintf(data->status_msg, sizeof(data->status_msg), msg);] *)
Definition print_status (msg : string) (d : channel_time_data_t)
  : option channel_time_data_t :=
  (b <- snprintf_s (status_msg d) msg ;; Some (set_status_msg b d))%O.

(** The scan to the first digit of [parse_integer_response]. *)
Fixpoint skip_to_digit (s : string) : string :=
  match s with
  | String c s' => if isdigit c then s else skip_to_digit s'
  | EmptyString => s
  end.

(** [line] is [None] for a [NULL] pointer. *)
Definition parse_integer_response (line : option string) : Z :=
  match line with
  | None => -1
  | Some line =>
      let line := skip_space line in
      let start := skip_to_digit line in
      match start with
      | EmptyString => -1
      | _ => match strtol10 start with
             | Some (value, _) => value
             | None => 0
             end
      end
  end.

(** Returns the verdict and the block with its [status_msg] updated. *)
Definition validate_values (data : channel_time_data_t)
  : option (bool * channel_time_data_t) :=
  (if (edited_min data <? MIN_TIME_MS)%Z || (MAX_TIME_MS <? edited_min data)%Z
   then d <- print_status "Min must be 100-1500 ms" data ;; Some (false, d)
   else if (edited_max data <? MIN_TIME_MS)%Z
           || (MAX_TIME_MS <? edited_max data)%Z
   then d <- print_status "Max must be 100-1500 ms" data ;; Some (false, d)
   else if (edited_max data <=? edited_min data)%Z
   then d <- print_status "Min must be < Max" data ;; Some (false, d)
   else Some (true, data))%O.

(** The line consumer. Its [user_data] is the screen; [data] is the context
    block read through it. *)
Definition on_uart_response (line : option string)
           (data : channel_time_data_t) : M channel_time_data_t :=
  match line with
  | None => ret data
  | Some l =>
      if (loading_count data <=? 0)%Z then ret data
      else
        let data :=
          if found (strstr l "min") then
            let value := parse_integer_response line in
            if (0 <=? value)%Z then
              set_loading_count (wrap_int (loading_count data - 1))
                (set_edited_min value (set_min_value value data))
            else data
          else if found (strstr l "max") then
            let value := parse_integer_response line in
            if (0 <=? value)%Z then
              set_loading_count (wrap_int (loading_count data - 1))
                (set_edited_max value (set_max_value value data))
            else data
          else
            let value := parse_integer_response line in
            if (0 <=? value)%Z && (0 <? loading_count data)%Z then
              if (loading_count data =? 2)%Z then
                set_loading_count (wrap_int (loading_count data - 1))
                  (set_edited_min value (set_min_value value data))
              else if (loading_count data =? 1)%Z then
                set_loading_count (wrap_int (loading_count data - 1))
                  (set_edited_max value (set_max_value value data))
              else data
            else data in
        if (loading_count data =? 0)%Z then
          (data <- lift (clear_status (set_loading false data)) ;;
           uart_clear_line_callback ;;
           ret (set_needs_redraw true data))%M
        else ret data
  end.

Definition on_tick (data : channel_time_data_t) : M channel_time_data_t :=
  if needs_redraw data then ret (set_needs_redraw false data) else ret data.

(** ["%s%4d"]: the number right-justified in four columns. *)
Fixpoint spaces (n : nat) : string :=
  match n with O => EmptyString | S n' => String " " (spaces n') end.

Definition fmt_4d (z : Z) : string :=
  let s := fmt_d z in spaces (4 - strlen s) ++ s.

Definition draw_screen (data : channel_time_data_t) : M unit :=
  (ui_clear ;;
   ui_draw_title "Channel Time" ;;
   (if loading data then
      ui_print_center 3 (Txt "Loading...") UI_COLOR_DIMMED
    else
      ui_print 0 2 (Txt "Min (ms):") UI_COLOR_TEXT ;;
      let min_color := if (selected_field data =? FIELD_MIN)%Z
                       then UI_COLOR_TITLE else UI_COLOR_TEXT in
      let min_indicator := if (selected_field data =? FIELD_MIN)%Z
                           then "> " else "  " in
      ui_print 12 2
        (Txt (snprintf_local 32 (min_indicator ++ fmt_4d (edited_min data))))
        min_color ;;
      ui_print 0 3 (Txt "Max (ms):") UI_COLOR_TEXT ;;
      let max_color := if (selected_field data =? FIELD_MAX)%Z
                       then UI_COLOR_TITLE else UI_COLOR_TEXT in
      let max_indicator := if (selected_field data =? FIELD_MAX)%Z
                           then "> " else "  " in
      ui_print 12 3
        (Txt (snprintf_local 32 (max_indicator ++ fmt_4d (edited_max data))))
        max_color ;;
      ui_print 0 5 (Txt "UP/DOWN: Select field") UI_COLOR_DIMMED ;;
      ui_print 0 6 (Txt "</>: Adjust value") UI_COLOR_DIMMED ;;
      if negb (Ascii.eqb (nth 0 (status_msg data) NUL) NUL) then
        ui_print 0 8 (Txt (c_str (status_msg data))) UI_COLOR_BORDER
      else if saved data then ui_print 0 8 (Txt "Saved!") UI_COLOR_TITLE
      else ret tt) ;;
   ui_draw_status "UP/DOWN:Field </>:Adj ENTER:Save ESC:Back")%M.

(** The statements shared by the four navigation cases. *)
Definition unsave (data : channel_time_data_t) : option channel_time_data_t :=
  clear_status (set_saved false data).

(** The body of [case KEY_ENTER: case KEY_SPACE:]. *)
Definition on_key_enter (data : channel_time_data_t) : M channel_time_data_t :=
  (v <- lift (validate_values data) ;;
   let '(ok, data) := v in
   if negb ok then
     draw_screen data ;; ret data
   else
     let cmd_min := snprintf_local 64
                      ("channel_time set min " ++ fmt_d (edited_min data)) in
     let cmd_max := snprintf_local 64
                      ("channel_time set max " ++ fmt_d (edited_max data)) in
     ret1 <- uart_send_command cmd_min ;;
     ret2 <- uart_send_command cmd_max ;;
     data <- (if (ret1 =? ESP_OK)%Z && (ret2 =? ESP_OK)%Z then
                lift (clear_status
                        (set_saved true
                           (set_max_value (edited_max data)
                              (set_min_value (edited_min data) data))))
              else lift (print_status "Send failed!" data)) ;;
     draw_screen data ;;
     ret data)%M.

Definition on_key (key : key_code_t) (data : channel_time_data_t)
  : M channel_time_data_t :=
  if loading data then
    match key with
    | KEY_ESC | KEY_Q | KEY_BACKSPACE =>
        (uart_clear_line_callback ;; screen_manager_pop ;; ret data)%M
    | _ => ret data
    end
  else
    match key with
    | KEY_UP =>
        (data <- lift (unsave
                   (if (0 <? selected_field data)%Z
                    then set_selected_field
                           (wrap_int (selected_field data - 1)) data
                    else set_selected_field (FIELD_COUNT - 1) data)) ;;
         draw_screen data ;; ret data)%M
    | KEY_DOWN =>
        (data <- lift (unsave
                   (if (selected_field data <? FIELD_COUNT - 1)%Z
                    then set_selected_field
                           (wrap_int (selected_field data + 1)) data
                    else set_selected_field 0 data)) ;;
         draw_screen data ;; ret data)%M
    | KEY_LEFT =>
        (data <- lift (unsave data) ;;
         let data :=
           if (selected_field data =? FIELD_MIN)%Z then
             let v := wrap_int (edited_min data - STEP_LARGE) in
             set_edited_min (if (v <? MIN_TIME_MS)%Z then MIN_TIME_MS else v)
                            data
           else
             let v := wrap_int (edited_max data - STEP_LARGE) in
             set_edited_max (if (v <? MIN_TIME_MS)%Z then MIN_TIME_MS else v)
                            data in
         draw_screen data ;; ret data)%M
    | KEY_RIGHT =>
        (data <- lift (unsave data) ;;
         let data :=
           if (selected_field data =? FIELD_MIN)%Z then
             let v := wrap_int (edited_min data + STEP_LARGE) in
             set_edited_min (if (MAX_TIME_MS <? v)%Z then MAX_TIME_MS else v)
                            data
           else
             let v := wrap_int (edited_max data + STEP_LARGE) in
             set_edited_max (if (MAX_TIME_MS <? v)%Z then MAX_TIME_MS else v)
                            data in
         draw_screen data ;; ret data)%M
    | KEY_ENTER | KEY_SPACE => on_key_enter data
    | KEY_ESC | KEY_Q | KEY_BACKSPACE =>
        (uart_clear_line_callback ;; screen_manager_pop ;; ret data)%M
    | _ => ret data
    end.

(** [on_destroy]; [user_data] is [None] when [self->user_data] is [NULL]. *)
Definition on_destroy (user_data : option (ptr * channel_time_data_t))
  : M unit :=
  (uart_clear_line_callback ;;
   match user_data with
   | Some (p, _) => free p
   | None => ret tt
   end)%M.

Definition on_resume (self : screen_t channel_time_data_t)
  : M channel_time_data_t :=
  (let data := user_data self in
   data <- lift (clear_status
             (set_needs_redraw false
                (set_saved false
                   (set_loading_count 2 (set_loading true data))))) ;;
   let data := set_selected_field FIELD_MIN data in
   uart_register_line_callback CB_channel_time (screen_addr self) ;;
   uart_send_command "channel_time read min" ;;
   uart_send_command "channel_time read max" ;;
   draw_screen data ;;
   ret data)%M.


End ChannelTime.

(** Modelled from the spec: [wifi_network_t] of uart_handler.h, which is not
    under src/; the fields are those the screens read. *)
Record wifi_network_t := mk_network {
  ssid : buffer;
  bssid : buffer;
  security : buffer;
  rssi : Z;
  channel : Z
}.

(** ** Network info screen (src/unnamed/part_001) *)

Module NetworkInfo.

Inductive info_state_t := STATE_VIEW | STATE_CONNECTING | STATE_RESULT.

Record network_info_data_t := mk_data {
  network : wifi_network_t;      (* copy of the network data *)
  password : buffer;             (* char password[65] *)
  state : info_state_t;
  success : bool;
  result_msg : buffer;           (* char result_msg[64] *)
  needs_redraw : bool;
  needs_push_password : bool;
  self : ptr
}.

(** The parameter block of the factory; [np_network] is a borrowed pointer,
    [None] when [NULL]. *)
Record network_info_params_t := mk_params {
  np_network : option wifi_network_t
}.

Definition set_state v d :=
  mk_data (network d) (password d) v (success d) (result_msg d)
          (needs_redraw d) (needs_push_password d) (self d).
Definition set_success v d :=
  mk_data (network d) (password d) (state d) v (result_msg d)
          (needs_redraw d) (needs_push_password d) (self d).
Definition set_result_msg v d :=
  mk_data (network d) (password d) (state d) (success d) v
          (needs_redraw d) (needs_push_password d) (self d).
Definition set_needs_redraw v d :=
  mk_data (network d) (password d) (state d) (success d) (result_msg d)
          v (needs_push_password d) (self d).

Definition is_connecting (s : info_state_t) : bool :=
  match s with STATE_CONNECTING => true | _ => false end.

(** The outcome shared by the two branches of the line consumer. *)
Definition connection_result (ok : bool) (msg : string)
           (data : network_info_data_t) : M (option network_info_data_t) :=
  (let data := set_success ok data in
   b <- lift (snprintf_s (result_msg data) msg) ;;
   let data := set_state STATE_RESULT (set_result_msg b data) in
   uart_set_wifi_connected ok ;;
   ret (Some (set_needs_redraw true data)))%M.

Definition uart_line_callback (line : string)
           (user_data : option network_info_data_t)
  : M (option network_info_data_t) :=
  match user_data with
  | None => ret None
  | Some data =>
      if negb (is_connecting (state data)) then ret (Some data)
      else if found (strstr line "SUCCESS:") && found (strstr line "Connected")
      then connection_result true "Connected!" data
      else if found (strstr line "FAILED:")
      then connection_result false "Connection failed" data
      else ret (Some data)
  end.

(** [net->ssid[0] ? net->ssid : "[Hidden]"] *)
Definition ssid_or_hidden (net : wifi_network_t) : string :=
  if negb (Ascii.eqb (nth 0 (ssid net) NUL) NUL) then c_str (ssid net)
  else "[Hidden]".

Definition draw_screen (data : network_info_data_t) : M unit :=
  (let net := network data in
   ui_clear ;;
   ui_draw_title "Network Info" ;;
   match state data with
   | STATE_CONNECTING =>
       ui_print_center 2
         (Txt (snprintf_local 32 (String.substring 0 28 (ssid_or_hidden net))))
         UI_COLOR_HIGHLIGHT ;;
       ui_print_center 4 (Txt "Connecting...") UI_COLOR_DIMMED ;;
       ui_draw_status "Please wait..."
   | STATE_RESULT =>
       ui_print_center 2
         (Txt (snprintf_local 32 (String.substring 0 28 (ssid_or_hidden net))))
         UI_COLOR_HIGHLIGHT ;;
       (if success data then
          ui_print_center 4 (Txt (c_str (result_msg data))) UI_COLOR_HIGHLIGHT ;;
          ui_print_center 5 (Txt "ENTER: ARP Menu") UI_COLOR_TEXT
        else
          ui_print_center 4 (Txt (c_str (result_msg data))) UI_COLOR_TEXT ;;
          ui_print_center 5 (Txt "ENTER: Try again") UI_COLOR_DIMMED) ;;
       ui_draw_status "ENTER:Continue ESC:Back"
   | STATE_VIEW =>
       ui_print 0 1
         (Txt (snprintf_local 32
                 (if negb (Ascii.eqb (nth 0 (ssid net) NUL) NUL)
                  then "SSID: " ++ String.substring 0 21 (c_str (ssid net))
                  else "SSID: [Hidden]")))
         UI_COLOR_TEXT ;;
       ui_print 0 2 (Txt (snprintf_local 32 ("BSSID: " ++ c_str (bssid net))))
                UI_COLOR_TEXT ;;
       ui_print 0 3
         (Txt (snprintf_local 32
                 ("Security: " ++ String.substring 0 18 (c_str (security net)))))
         UI_COLOR_TEXT ;;
       ui_print 0 4
         (Txt (snprintf_local 32 ("Signal: " ++ fmt_d (rssi net) ++ " dBm")))
         UI_COLOR_TEXT ;;
       ui_print 0 5
         (Txt (snprintf_local 32 ("Channel: " ++ fmt_d (channel net))))
         UI_COLOR_TEXT ;;
       ui_print_center 6 (Txt "[ENTER to Connect]") UI_COLOR_HIGHLIGHT ;;
       ui_draw_status "ENTER:Connect ESC:Back"
   end)%M.

Definition on_destroy (user_data : option (ptr * network_info_data_t))
  : M unit :=
  (uart_clear_line_callback ;;
   match user_data with
   | Some (p, _) => free p
   | None => ret tt
   end)%M.

(** The factory; [params] is the block handed over by the caller, [None]
    for a [NULL] pointer. The result is [None] for [NULL]. *)
Definition network_info_screen_create
           (params : option (ptr * network_info_params_t))
  : M (option (screen_t network_info_data_t)) :=
  match params with
  | None => ret None
  | Some (info_params, mk_params None) =>
      (free info_params ;; ret None)%M
  | Some (info_params, mk_params (Some net)) =>
      (screen <- alloc ;;
       if Nat.eqb screen NULL then
         free info_params ;; ret None
       else
         p <- alloc ;;
         if Nat.eqb p NULL then
           free screen ;; free info_params ;; ret None
         else
           let data := mk_data net (zeroed 65) STATE_VIEW false (zeroed 64)
                               false false screen in
           free info_params ;;
           draw_screen data ;;
           ret (Some (mk_screen screen p data)))%M
  end.

End NetworkInfo.

(** ** Text input screen (src/main/screens/text_input_screen.c) *)

Module TextInput.

Section WithMaxLen.

(** [TEXT_INPUT_MAX_LEN] is defined in text_input_screen.h, which is not
    under src/. *)
Variable TEXT_INPUT_MAX_LEN : nat.

Record text_input_data_t := mk_data {
  title : buffer;                (* char title[32] *)
  hint : buffer;                 (* char hint[48] *)
  input : buffer;                (* char input[TEXT_INPUT_MAX_LEN + 1] *)
  cursor_pos : Z;
  on_submit : ptr;               (* text_input_callback_t, NULL when unset *)
  callback_user_data : ptr
}.

(** The parameter block: [tp_title] and [tp_hint] are [None] when [NULL]. *)
Record text_input_params_t := mk_params {
  tp_title : option string;
  tp_hint : option string;
  tp_on_submit : ptr;
  tp_user_data : ptr
}.

Definition draw_screen (data : text_input_data_t) : M unit :=
  (ui_clear ;;
   ui_draw_title (c_str (title data)) ;;
   let row := 2%Z in
   ui_print 0 row
     (Txt (snprintf_local (TEXT_INPUT_MAX_LEN + 2) (c_str (input data) ++ "_")))
     UI_COLOR_HIGHLIGHT ;;
   let row := (row + 2)%Z in
   (if negb (Ascii.eqb (nth 0 (hint data) NUL) NUL) then
      ui_print 0 row (Txt (c_str (hint data))) UI_COLOR_DIMMED
    else ret tt) ;;
   ui_draw_status "ENTER:OK ESC:Cancel")%M.

Definition on_destroy (user_data : option (ptr * text_input_data_t)) : M unit :=
  match user_data with
  | Some (p, _) => free p
  | None => ret tt
  end.

(** The factory; [params] is [None] for a [NULL] pointer, and so is the
    result. *)
Definition text_input_screen_create
           (params : option (ptr * text_input_params_t))
  : M (option (screen_t text_input_data_t)) :=
  match params with
  | None => ret None
  | Some (input_params, ip) =>
      (screen <- alloc ;;
       if Nat.eqb screen NULL then
         free input_params ;; ret None
       else
         p <- alloc ;;
         if Nat.eqb p NULL then
           free screen ;; free input_params ;; ret None
         else
           t <- lift (match tp_title ip with
                      | Some s => strncpy (zeroed 32) s (32 - 1)
                      | None => Some (zeroed 32)
                      end) ;;
           h <- lift (match tp_hint ip with
                      | Some s => strncpy (zeroed 48) s (48 - 1)
                      | None => Some (zeroed 48)
                      end) ;;
           i <- lift (store (zeroed (TEXT_INPUT_MAX_LEN + 1)) 0 NUL) ;;
           let data := mk_data t h i 0 (tp_on_submit ip) (tp_user_data ip) in
           free input_params ;;
           draw_screen data ;;
           ret (Some (mk_screen screen p data)))%M
  end.

End WithMaxLen.

End TextInput.

(** ** Handshaker screen (src/main/screens/gps_module_screen.h, third file) *)

Module Handshaker.

Section WithSsidLen.

(** [MAX_SSID_LEN] is defined in uart_handler.h, which is not under src/. *)
Variable MAX_SSID_LEN : nat.

Definition MAX_CAPTURED : Z := 8.

Record handshaker_screen_data_t := mk_data {
  networks : option (ptr * list wifi_network_t);   (* owned array, or NULL *)
  count : Z;
  captured_ssids : list buffer;  (* char [MAX_CAPTURED][MAX_SSID_LEN] *)
  captured_count : Z;
  needs_redraw : bool;
  refresh_timer : ptr;
  self : ptr
}.

Definition set_captured v n d :=
  mk_data (networks d) (count d) v n (needs_redraw d) (refresh_timer d)
          (self d).
Definition set_needs_redraw v d :=
  mk_data (networks d) (count d) (captured_ssids d) (captured_count d) v
          (refresh_timer d) (self d).

Definition marker : string := "Complete 4-way handshake saved for SSID: ".

(** [strncmp(a, b, n) == 0] for C strings [a] and [b]. *)
Definition strncmp_eq (a b : string) (n : nat) : bool :=
  String.eqb (String.substring 0 n a) (String.substring 0 n b).

(** [rows[i] = b] in a two-dimensional array; outside of it, a fault. *)
Fixpoint store_row (rows : list buffer) (i : nat) (b : buffer)
  : option (list buffer) :=
  match rows, i with
  | [], _ => None
  | _ :: r, O => Some (b :: r)
  | x :: r, S i' => option_map (cons x) (store_row r i' b)
  end.

Definition uart_line_callback (line : string)
           (user_data : option handshaker_screen_data_t)
  : M (option handshaker_screen_data_t) :=
  match user_data with
  | None => ret None
  | Some data =>
      match strstr line marker with
      | Some found_at =>
          if (captured_count data <? MAX_CAPTURED)%Z then
            let ssid_start := advance (found_at + strlen marker) line in
            let ssid_len :=
              match strchr ssid_start " " with
              | Some n => n
              | None => strlen ssid_start
              end in
            let ssid_len := if (MAX_SSID_LEN <=? ssid_len)%nat
                            then (MAX_SSID_LEN - 1)%nat else ssid_len in
            let already_captured :=
              existsb (fun row => strncmp_eq (c_str row) ssid_start ssid_len
                                  && Ascii.eqb (nth ssid_len row NUL) NUL)
                      (firstn (Z.to_nat (captured_count data))
                              (captured_ssids data)) in
            if already_captured then ret (Some data)
            else
              (let i := Z.to_nat (captured_count data) in
               row <- lift (nth_error (captured_ssids data) i) ;;
               row <- lift (b <- strncpy row ssid_start ssid_len ;;
                            store b ssid_len NUL)%O ;;
               rows <- lift (store_row (captured_ssids data) i row) ;;
               let data := set_captured rows
                             (wrap_int (captured_count data + 1)) data in
               ret (Some (set_needs_redraw true data)))%M
          else ret (Some data)
      | None => ret (Some data)
      end
  end.

(** The loop that joins the attacked SSIDs in [char networks_line[64]];
    [len] is the running sum of the [snprintf] results, [line] the text the
    buffer holds, and [fuel] bounds the iterations still possible. Reading
    past the [networks] array is a fault. *)
Fixpoint join_networks (fuel : nat) (nets : list wifi_network_t) (i : nat)
         (n : Z) (line : string) (len : nat) : option string :=
  match fuel with
  | O => Some line
  | S fuel' =>
      if (Z.of_nat i <? n)%Z && (len <? 50)%nat then
        match nth_error nets i with
        | Some net =>
            let s := if negb (Ascii.eqb (nth 0 (ssid net) NUL) NUL)
                     then c_str (ssid net) else "[Hidden]" in
            let sep := if (0 <? i)%nat then ", " else "" in
            join_networks fuel' nets (S i) n
              (String.substring 0 63 (line ++ sep ++ s))
              (len + strlen sep + strlen s)
        | None => None
        end
      else Some line
  end.

(** The rows of captured SSIDs: rows 5 and 6 at most. *)
Fixpoint draw_captured (rows : list buffer) (i : nat) (n : Z) (row : Z)
  : M unit :=
  match rows with
  | b :: rest =>
      if (Z.of_nat i <? n)%Z && (row <? 7)%Z then
        (ui_print 0 row
           (Txt (snprintf_local 48
                   (" " ++ String.substring 0 18 (c_str b) ++ " - Complete!")))
           (RGB565 0 255 0) ;;
         draw_captured rest (S i) n (row + 1)%Z)%M
      else ret tt
  | [] => ret tt
  end.

Definition draw_screen (data : handshaker_screen_data_t) : M unit :=
  (ui_clear ;;
   ui_draw_title "Handshaker Running" ;;
   let row := 1%Z in
   ui_print 0 row (Txt "Attacking:") UI_COLOR_DIMMED ;;
   let row := (row + 1)%Z in
   networks_line <- lift (join_networks (Z.to_nat (count data))
                            (match networks data with
                             | Some (_, nets) => nets
                             | None => []
                             end) 0 (count data) "" 0) ;;
   let networks_line :=
     if (29 <? strlen networks_line)%nat
     then (String.substring 0 26 networks_line ++ "...")%string
     else networks_line in
   ui_print 0 row (Txt networks_line) UI_COLOR_TEXT ;;
   let row := (row + 2)%Z in
   (if (0 <? captured_count data)%Z then
      ui_print 0 row (Txt "Captured:") UI_COLOR_HIGHLIGHT ;;
      draw_captured (captured_ssids data) 0 (captured_count data) (row + 1)%Z
    else ui_print 0 row (Txt "Waiting for handshake...") UI_COLOR_DIMMED) ;;
   ui_draw_status "ESC: Stop")%M.

Definition refresh_timer_callback (arg : option handshaker_screen_data_t)
  : M (option handshaker_screen_data_t) :=
  match arg with
  | Some data =>
      if needs_redraw data && negb (Nat.eqb (self data) NULL) then
        (let data := set_needs_redraw false data in
         draw_screen data ;;
         ret (Some data))%M
      else ret (Some data)
  | None => ret None
  end.

Definition on_destroy (user_data : option (ptr * handshaker_screen_data_t))
  : M unit :=
  ((match user_data with
    | Some (_, data) =>
        if negb (Nat.eqb (refresh_timer data) NULL) then
          esp_timer_stop (refresh_timer data) ;;
          esp_timer_delete (refresh_timer data)
        else ret tt
    | None => ret tt
    end) ;;
   uart_clear_line_callback ;;
   match user_data with
   | Some (p, data) =>
       (match networks data with
        | Some (nets, _) => free nets
        | None => ret tt
        end) ;;
       free p
   | None => ret tt
   end)%M.

End WithSsidLen.

End Handshaker.

(** ** Data detail screen (src/main/screens/gps_module_screen.h, second file)

    Of this screen the line consumer and the teardown are embedded; its
    text wrapping and drawing are not needed below. *)

Module DataDetail.

Inductive detail_state_t := STATE_VIEW | STATE_CONNECTING | STATE_RESULT.

Record data_detail_data_t := mk_data {
  title : buffer;                (* char title[DETAIL_MAX_TITLE_LEN] *)
  lines : list ptr;              (* char *lines[MAX_LINES], NULL when unset *)
  line_count : Z;
  scroll_offset : Z;
  connect_ssid : buffer;         (* char connect_ssid[33] *)
  connect_password : buffer;     (* char connect_password[65] *)
  has_connect : bool;
  state : detail_state_t;
  connect_success : bool;
  result_msg : buffer;           (* char result_msg[64] *)
  needs_redraw : bool;
  self : ptr
}.

Definition set_result ok msg d :=
  mk_data (title d) (lines d) (line_count d) (scroll_offset d)
          (connect_ssid d) (connect_password d) (has_connect d)
          STATE_RESULT ok msg (needs_redraw d) (self d).
Definition set_needs_redraw v d :=
  mk_data (title d) (lines d) (line_count d) (scroll_offset d)
          (connect_ssid d) (connect_password d) (has_connect d)
          (state d) (connect_success d) (result_msg d) v (self d).

Definition is_connecting (s : detail_state_t) : bool :=
  match s with STATE_CONNECTING => true | _ => false end.

(** The outcome shared by the two branches of the line consumer. *)
Definition connection_result (ok : bool) (msg : string)
           (data : data_detail_data_t) : M (option data_detail_data_t) :=
  (b <- lift (snprintf_s (result_msg data) msg) ;;
   let data := set_result ok b data in
   uart_set_wifi_connected ok ;;
   ret (Some (set_needs_redraw true data)))%M.

Definition uart_line_callback (line : string)
           (user_data : option data_detail_data_t)
  : M (option data_detail_data_t) :=
  match user_data with
  | None => ret None
  | Some data =>
      if negb (is_connecting (state data)) then ret (Some data)
      else if found (strstr line "SUCCESS:") && found (strstr line "Connected")
      then connection_result true "Connected!" data
      else if found (strstr line "FAILED:")
      then connection_result false "Connection failed" data
      else ret (Some data)
  end.

(** The loop of [on_destroy] over [lines[0 .. line_count - 1]]. *)
Fixpoint free_lines (ls : list ptr) : M unit :=
  match ls with
  | [] => ret tt
  | l :: rest =>
      ((if negb (Nat.eqb l NULL) then free l else ret tt) ;;
       free_lines rest)%M
  end.

Definition on_destroy (user_data : option (ptr * data_detail_data_t))
  : M unit :=
  (uart_clear_line_callback ;;
   match user_data with
   | Some (p, data) =>
       free_lines (firstn (Z.to_nat (line_count data)) (lines data)) ;;
       free p
   | None => ret tt
   end)%M.

End DataDetail.

(** ** Vocabulary of the statements *)

(** Modelled from the spec: the single consumer slot of the serial line
    bridge (uart_handler.c is not under src/). [register] replaces the slot,
    [clear] empties it; the slot is empty at boot. *)
Definition registered_consumer (t : list event) : option (line_callback * ptr) :=
  fold_left (fun slot e =>
               match e with
               | E_uart_register_line_callback cb ctx => Some (cb, ctx)
               | E_uart_clear_line_callback => None
               | _ => slot
               end) t None.

(** A screen about to be destroyed, with the [user_data] its [on_destroy]
    finds. *)
Inductive destroyed_screen :=
| Destroy_wardrive_promisc
    (user_data : option (ptr * WardrivePromisc.wardrive_data_t))
| Destroy_wardrive (user_data : option (ptr * Wardrive.wardrive_data_t))
| Destroy_handshaker
    (user_data : option (ptr * Handshaker.handshaker_screen_data_t))
| Destroy_channel_time
    (user_data : option (ptr * ChannelTime.channel_time_data_t))
| Destroy_network_info
    (user_data : option (ptr * NetworkInfo.network_info_data_t))
| Destroy_data_detail
    (user_data : option (ptr * DataDetail.data_detail_data_t)).

Definition on_destroy_of (s : destroyed_screen) : M unit :=
  match s with
  | Destroy_wardrive_promisc ud => WardrivePromisc.on_destroy ud
  | Destroy_wardrive ud => Wardrive.on_destroy ud
  | Destroy_handshaker ud => Handshaker.on_destroy ud
  | Destroy_channel_time ud => ChannelTime.on_destroy ud
  | Destroy_network_info ud => NetworkInfo.on_destroy ud
  | Destroy_data_detail ud => DataDetail.on_destroy ud
  end.

(** The periodic timer the screen holds: the handle in its context block,
    [NULL] where there is no block or no timer. *)
Definition timer_of (s : destroyed_screen) : ptr :=
  match s with
  | Destroy_wardrive_promisc (Some (_, d)) => WardrivePromisc.refresh_timer d
  | Destroy_wardrive (Some (_, d)) => Wardrive.refresh_timer d
  | Destroy_handshaker (Some (_, d)) => Handshaker.refresh_timer d
  | _ => NULL
  end.

(** The address of the context block, when there is one. *)
Definition context_of (s : destroyed_screen) : option ptr :=
  match s with
  | Destroy_wardrive_promisc ud => option_map fst ud
  | Destroy_wardrive ud => option_map fst ud
  | Destroy_handshaker ud => option_map fst ud
  | Destroy_channel_time ud => option_map fst ud
  | Destroy_network_info ud => option_map fst ud
  | Destroy_data_detail ud => option_map fst ud
  end.

(** The heap blocks the screen owns, in the order [on_destroy] frees them:
    the secondary buffers, then the context block. *)
Definition owned_blocks (s : destroyed_screen) : list ptr :=
  match s with
  | Destroy_handshaker (Some (p, d)) =>
      match Handshaker.networks d with
      | Some (nets, _) => [nets; p]
      | None => [p]
      end
  | Destroy_data_detail (Some (p, d)) =>
      filter (fun l => negb (Nat.eqb l NULL))
             (firstn (Z.to_nat (DataDetail.line_count d))
                     (DataDetail.lines d))
        ++ [p]
  | _ => match context_of s with
         | Some p => [p]
         | None => []
         end
  end.

(** The teardown calls of [on_destroy] that are not frees: the timer, when
    the screen holds one, is stopped and deleted, and the line consumer is
    cleared. *)
Definition teardown_calls (s : destroyed_screen) : list event :=
  (if Nat.eqb (timer_of s) NULL then []
   else [E_esp_timer_stop (timer_of s); E_esp_timer_delete (timer_of s)])
    ++ [E_uart_clear_line_callback].

(** Making the calls [es], and freeing the blocks [bs], one after the
    other. *)
Fixpoint emit_all (es : list event) : M unit :=
  match es with
  | [] => ret tt
  | e :: rest => bind (emit e) (fun _ => emit_all rest)
  end.

Fixpoint free_all (bs : list ptr) : M unit :=
  match bs with
  | [] => ret tt
  | b :: rest => bind (free b) (fun _ => free_all rest)
  end.

(** In the trace [t], every [free] comes after the line consumer has been
    cleared and, when the screen holds a timer, after the timer has been
    stopped and then deleted. *)
Definition teardown_precedes_free (timer : ptr) (t : list event) : Prop :=
  forall pre post p,
    t = pre ++ E_free p :: post ->
    In E_uart_clear_line_callback pre /\
    (timer <> NULL ->
     exists a b c,
       pre = a ++ E_esp_timer_stop timer :: b ++ E_esp_timer_delete timer :: c).

(** A call that runs outside of the main loop: a line handed to a screen's
    line consumer by the receive context, or the firing of a screen's
    refresh timer in the timer-service context. *)
Inductive async_call :=
| Line_wardrive_promisc
    (line : string) (user_data : option WardrivePromisc.wardrive_data_t)
| Line_wardrive (line : string) (user_data : option Wardrive.wardrive_data_t)
| Line_channel_time
    (line : option string) (data : ChannelTime.channel_time_data_t)
| Line_network_info
    (line : string) (user_data : option NetworkInfo.network_info_data_t)
| Line_handshaker (MAX_SSID_LEN : nat)
    (line : string) (user_data : option Handshaker.handshaker_screen_data_t)
| Line_data_detail
    (line : string) (user_data : option DataDetail.data_detail_data_t)
| Timer_wardrive_promisc (arg : option WardrivePromisc.wardrive_data_t)
| Timer_wardrive (arg : option Wardrive.wardrive_data_t)
| Timer_handshaker (arg : option Handshaker.handshaker_screen_data_t).

(** Running the call: the result is the call with the context block as the
    callback leaves it. *)
Definition run_async (c : async_call) : M async_call :=
  match c with
  | Line_wardrive_promisc l ud =>
      bind (WardrivePromisc.uart_line_callback l ud)
           (fun ud' => ret (Line_wardrive_promisc l ud'))
  | Line_wardrive l ud =>
      bind (Wardrive.uart_line_callback l ud)
           (fun ud' => ret (Line_wardrive l ud'))
  | Line_channel_time l d =>
      bind (ChannelTime.on_uart_response l d)
           (fun d' => ret (Line_channel_time l d'))
  | Line_network_info l ud =>
      bind (NetworkInfo.uart_line_callback l ud)
           (fun ud' => ret (Line_network_info l ud'))
  | Line_handshaker n l ud =>
      bind (Handshaker.uart_line_callback n l ud)
           (fun ud' => ret (Line_handshaker n l ud'))
  | Line_data_detail l ud =>
      bind (DataDetail.uart_line_callback l ud)
           (fun ud' => ret (Line_data_detail l ud'))
  | Timer_wardrive_promisc arg =>
      bind (WardrivePromisc.refresh_timer_callback arg)
           (fun arg' => ret (Timer_wardrive_promisc arg'))
  | Timer_wardrive arg =>
      bind (Wardrive.refresh_timer_callback arg)
           (fun arg' => ret (Timer_wardrive arg'))
  | Timer_handshaker arg =>
      bind (Handshaker.refresh_timer_callback arg)
           (fun arg' => ret (Timer_handshaker arg'))
  end.

Definition is_timer (c : async_call) : bool :=
  match c with
  | Timer_wardrive_promisc _ | Timer_wardrive _ | Timer_handshaker _ => true
  | _ => false
  end.

(** The timer call with [needs_redraw] cleared in its context block. *)
Definition flag_cleared (c : async_call) : async_call :=
  match c with
  | Timer_wardrive_promisc (Some d) =>
      Timer_wardrive_promisc (Some (WardrivePromisc.set_needs_redraw false d))
  | Timer_wardrive (Some d) =>
      Timer_wardrive (Some (Wardrive.set_needs_redraw false d))
  | Timer_handshaker (Some d) =>
      Timer_handshaker (Some (Handshaker.set_needs_redraw false d))
  | _ => c
  end.

(** A timer callback that finds its context with [needs_redraw] set and a
    screen to draw. *)
Definition timer_finds_redraw (c : async_call) : bool :=
  match c with
  | Timer_wardrive_promisc (Some d) =>
      WardrivePromisc.needs_redraw d
      && negb (Nat.eqb (WardrivePromisc.self d) NULL)
  | Timer_wardrive (Some d) =>
      Wardrive.needs_redraw d && negb (Nat.eqb (Wardrive.self d) NULL)
  | Timer_handshaker (Some d) =>
      Handshaker.needs_redraw d && negb (Nat.eqb (Handshaker.self d) NULL)
  | _ => false
  end.

(** A computation whose external calls all satisfy [p]. *)
Definition emits_only (p : event -> bool) {A} (m : M A) : Prop :=
  forall w a w',
    m w = Some (a, w') ->
    exists added, w_trace w' = w_trace w ++ added /\ forallb p added = true.

Definition not_draw (e : event) : bool := negb (is_draw e).

(** The world after the calls [added]: nothing but the trace has changed. *)
Definition after (added : list event) (w : world) : world :=
  mkWorld (w_trace w ++ added) (w_live w) (w_brk w) (w_allocs w) (w_sends w).

(** A computation that, when it returns, has made calls that all satisfy
    [p] and has changed nothing else of the world: no block was allocated
    or freed and no command was sent. *)
Definition calls_only (p : event -> bool) {A} (m : M A) : Prop :=
  forall w a w',
    m w = Some (a, w') ->
    exists added, w' = after added w /\ forallb p added = true.

(** The two calls the line consumers make. *)
Definition consumer_call (e : event) : bool :=
  match e with
  | E_uart_clear_line_callback | E_uart_set_wifi_connected _ => true
  | _ => false
  end.

(** *** CSV rows, in the words of the specification *)

Fixpoint count_commas (s : string) : nat :=
  match s with
  | EmptyString => O
  | String c s' =>
      if Ascii.eqb c "," then S (count_commas s') else count_commas s'
  end.

(** The offset at which the [k]-th comma-separated field starts; [None]
    when the line has fewer than [k] commas. *)
Fixpoint field_start (k : nat) (s : string) : option nat :=
  match k with
  | O => Some O
  | S k' =>
      match s with
      | EmptyString => None
      | String c s' =>
          option_map S (if Ascii.eqb c "," then field_start k' s'
                        else field_start k s')
      end
  end.

(** The text from offset [off] up to the next comma; [None] when no comma
    closes it. *)
Definition field_at (off : nat) (line : string) : option string :=
  match strchr (advance off line) "," with
  | Some n => Some (String.substring off n line)
  | None => None
  end.

(** The [k]-th field of a row, when it is there and closed by a comma. *)
Definition csv_field (k : nat) (line : string) : option string :=
  match field_start k line with
  | Some off => field_at off line
  | None => None
  end.

(** The SSID of a MAC-CSV row: the text after the 18-character MAC prefix. *)
Definition ssid_field (line : string) : option string := field_at 18 line.

(** The buffer holds the C string [f]: its characters and a NUL, in bounds. *)
Definition holds (b : buffer) (f : string) : Prop :=
  (strlen f < sizeof b)%nat /\
  firstn (strlen f) b = list_ascii_of_string f /\
  nth (strlen f) b NUL = NUL.

(** What a row does to one parsed field: the buffer holds the field of the
    row, or keeps its prior value; it keeps it when the field is missing or
    not closed by a comma, when it is empty and when it does not fit the
    buffer with its terminator. *)
Definition field_committed (before after : buffer) (field : option string)
  : Prop :=
  sizeof after = sizeof before /\
  (after = before \/ exists f, field = Some f /\ holds after f) /\
  (field = None -> after = before) /\
  (forall f, field = Some f ->
             (sizeof before <= strlen f)%nat \/ f = EmptyString ->
             after = before).





Definition promisc_sizes (d : WardrivePromisc.wardrive_data_t) : Prop :=
  sizeof (WardrivePromisc.last_ssid d) = 64%nat /\
  sizeof (WardrivePromisc.lat d) = 16%nat /\
  sizeof (WardrivePromisc.lon d) = 16%nat.

Definition wardrive_sizes (d : Wardrive.wardrive_data_t) : Prop :=
  sizeof (Wardrive.last_log_line d) = Wardrive.MAX_LOG_LINE /\
  sizeof (Wardrive.last_ssid d) = 64%nat /\
  sizeof (Wardrive.lat d) = 16%nat /\
  sizeof (Wardrive.lon d) = 16%nat.

(** *** The last field of a record, in the words of the specification *)

(** The text [post] behind the last field of a line ends the field: it is
    empty, or its first character is not a digit, not a ['-'] and not a
    ['.'] followed by a digit. *)
Definition ends_last_field (post : string) : bool :=
  match post with
  | EmptyString => true
  | String c rest =>
      negb (isdigit c || Ascii.eqb c "-"
            || (Ascii.eqb c "."
                && match rest with
                   | String c' _ => isdigit c'
                   | EmptyString => false
                   end))
  end.

(** *** Bare integer extraction, in the words of the specification *)

(** The digits at the head of a string. *)
Fixpoint leading_digits (s : string) : string :=
  match s with
  | String c s' => if isdigit c then String c (leading_digits s') else EmptyString
  | EmptyString => EmptyString
  end.

(** The first run of digits of a string, empty when it has no digit. *)
Fixpoint first_digit_run (s : string) : string :=
  match s with
  | String c s' => if isdigit c then leading_digits s else first_digit_run s'
  | EmptyString => EmptyString
  end.

Definition decimal_value (digits : string) : Z :=
  fold_left (fun acc c => (acc * 10 + digit_val c)%Z)
            (list_ascii_of_string digits) 0%Z.

(** Skip to the first digit run and read it as an integer, which an [int]
    holds up to [INT_MAX]; [None] when the line has no digit. *)
Definition bare_integer (line : string) : option Z :=
  match first_digit_run line with
  | EmptyString => None
  | run => Some (Z.min INT_MAX (decimal_value run))
  end.

(** The countdown values are those of the context block before the line. *)
Definition countdown_unchanged (d d' : WardrivePromisc.wardrive_data_t) : Prop :=
  WardrivePromisc.gps_wait_elapsed d' = WardrivePromisc.gps_wait_elapsed d /\
  WardrivePromisc.gps_wait_timeout d' = WardrivePromisc.gps_wait_timeout d.

(** *** Saving the channel times *)

(** The edited values pass [validate_values]. *)
Definition values_valid (d : ChannelTime.channel_time_data_t) : Prop :=
  (100 <= ChannelTime.edited_min d <= 1500)%Z /\
  (100 <= ChannelTime.edited_max d <= 1500)%Z /\
  (ChannelTime.edited_min d < ChannelTime.edited_max d)%Z.

(** The message [validate_values] leaves for the first check that fails. *)
Definition validation_message (d : ChannelTime.channel_time_data_t) : string :=
  if (ChannelTime.edited_min d <? 100)%Z || (1500 <? ChannelTime.edited_min d)%Z
  then "Min must be 100-1500 ms"
  else if (ChannelTime.edited_max d <? 100)%Z
          || (1500 <? ChannelTime.edited_max d)%Z
  then "Max must be 100-1500 ms"
  else "Min must be < Max".

(** The status the transport reports for the [k]-th coming send. *)
Definition send_status (k : nat) (w : world) : esp_err_t :=
  nth k (w_sends w) ESP_OK.

(** The commands sent in a trace, in order. *)
Definition sent_commands (t : list event) : list string :=
  flat_map (fun e => match e with
                     | E_uart_send_command cmd => [cmd]
                     | _ => []
                     end) t.

Definition set_min_command (d : ChannelTime.channel_time_data_t) : string :=
  "channel_time set min " ++ fmt_d (ChannelTime.edited_min d).

Definition set_max_command (d : ChannelTime.channel_time_data_t) : string :=
  "channel_time set max " ++ fmt_d (ChannelTime.edited_max d).

(** A computation that always returns, changes nothing of the world but
    the trace, and adds only events that satisfy [p]. *)
Definition runs_emitting (p : event -> bool) {A} (m : M A) : Prop :=
  forall w,
    exists a added,
      m w = Some (a, mkWorld (w_trace w ++ added) (w_live w) (w_brk w)
                             (w_allocs w) (w_sends w)) /\
      forallb p added = true.

(** *** Factories and their parameter block *)

(** The live blocks lie below the break, so that a new block is fresh. *)
Definition heap_ok (w : world) : Prop :=
  forall p, In p (w_live w) -> (0 < p < w_brk w)%nat.

(** Whether the [k]-th coming allocation succeeds. *)
Definition alloc_succeeds (k : nat) (w : world) : bool :=
  nth k (w_allocs w) true.

Definition times_freed (p : ptr) (t : list event) : nat :=
  count_event (is_free_of p) t.

(** A call of one of the parameterized factories on a parameter block at
    address [params]. *)
Inductive factory_call :=
| Create_text_input (TEXT_INPUT_MAX_LEN : nat)
    (params : ptr) (ip : TextInput.text_input_params_t)
| Create_network_info
    (params : ptr) (ip : NetworkInfo.network_info_params_t).

Definition params_of (c : factory_call) : ptr :=
  match c with
  | Create_text_input _ p _ => p
  | Create_network_info p _ => p
  end.

(** The factory rejects the parameters: a network-info block without a
    network. *)
Definition params_rejected (c : factory_call) : bool :=
  match c with
  | Create_text_input _ _ _ => false
  | Create_network_info _ ip =>
      match NetworkInfo.np_network ip with
      | Some _ => false
      | None => true
      end
  end.

(** The factory call; the result is the address of the screen, [None] for
    [NULL]. *)
Definition run_factory (c : factory_call) : M (option ptr) :=
  match c with
  | Create_text_input n p ip =>
      bind (TextInput.text_input_screen_create n (Some (p, ip)))
           (fun r => ret (option_map screen_addr r))
  | Create_network_info p ip =>
      bind (NetworkInfo.network_info_screen_create (Some (p, ip)))
           (fun r => ret (option_map screen_addr r))
  end.

(** *** Lines delivered one after the other *)

(** The serial bridge handing the lines [ls], in order, to a line consumer
    and its context. *)
Fixpoint deliver {D} (cb : string -> option D -> M (option D))
         (ls : list string) (user_data : option D) : M (option D) :=
  match ls with
  | [] => ret user_data
  | l :: rest => bind (cb l user_data) (fun ud => deliver cb rest ud)
  end.

(** A line as the bridge delivers it holds no NUL before its end. *)
Definition c_string (s : string) : bool :=
  forallb (fun c => negb (Ascii.eqb c NUL)) (list_ascii_of_string s).

(** The characters the wardrive screen removes from the end of a log line:
    newline, carriage return and space. *)
Definition is_trailing (c : ascii) : bool :=
  Ascii.eqb c "010" || Ascii.eqb c "013" || Ascii.eqb c " ".

(** *** Redraws *)

Definition is_ui_clear (e : event) : bool :=
  match e with E_ui_clear => true | _ => false end.

(** A draw primitive other than [ui_clear]: the title, a row or the status
    bar. *)
Definition draws_content (e : event) : bool :=
  is_draw e && negb (is_ui_clear e).

(** The [networks] array holds the [count] entries [draw_screen] reads. *)
Definition networks_readable (d : Handshaker.handshaker_screen_data_t) : Prop :=
  (Handshaker.count d
   <= Z.of_nat (List.length (match Handshaker.networks d with
                             | Some (_, nets) => nets
                             | None => []
                             end)))%Z.

(** *** Captured handshakes *)

(** The context block of the handshaker screen as declared: eight rows of
    [MAX_SSID_LEN] characters, of which [captured_count] are in use. *)
Definition handshaker_sizes (MAX_SSID_LEN : nat)
           (d : Handshaker.handshaker_screen_data_t) : Prop :=
  (0 < MAX_SSID_LEN)%nat /\
  List.length (Handshaker.captured_ssids d) = 8%nat /\
  Forall (fun row => sizeof row = MAX_SSID_LEN) (Handshaker.captured_ssids d) /\
  (0 <= Handshaker.captured_count d <= Handshaker.MAX_CAPTURED)%Z.

(** The SSIDs captured so far, oldest first. *)
Definition captured (d : Handshaker.handshaker_screen_data_t) : list string :=
  map c_str (firstn (Z.to_nat (Handshaker.captured_count d))
                    (Handshaker.captured_ssids d)).

(** The SSID a capture line names: the text after the marker up to the
    first space or the end of the line, cut to [MAX_SSID_LEN - 1]
    characters; [None] when the line does not carry the marker. *)
Definition captured_ssid_of (MAX_SSID_LEN : nat) (line : string)
  : option string :=
  match strstr line Handshaker.marker with
  | Some k =>
      let s := advance (k + strlen Handshaker.marker) line in
      let len := match strchr s " " with
                 | Some m => m
                 | None => strlen s
                 end in
      Some (String.substring 0 (Nat.min len (MAX_SSID_LEN - 1)) s)
  | None => None
  end.

Definition already_captured (s : string)
           (d : Handshaker.handshaker_screen_data_t) : bool :=
  existsb (String.eqb s) (captured d).

(** The rows of a trace that show a captured handshake: the rows printed
    in bright green. *)
Definition capture_rows (t : list event) : list event :=
  filter (fun e => match e with
                   | E_ui_print _ _ _ (RGB565 _ _ _) => true
                   | _ => false
                   end) t.

(** The row that shows the captured SSID [s] on display row [row]. *)
Definition capture_row (row_ssid : Z * string) : event :=
  E_ui_print 0 (fst row_ssid)
    (Txt (" " ++ String.substring 0 18 (snd row_ssid) ++ " - Complete!"))
    (RGB565 0 255 0).

(** *** Connection attempts *)

(** What a line says about a pending connection attempt: [Some true] for a
    success report, [Some false] for a failure report. *)
Definition reported_outcome (line : string) : option bool :=
  if found (strstr line "SUCCESS:") && found (strstr line "Connected")
  then Some true
  else if found (strstr line "FAILED:") then Some false
  else None.

(** The first outcome reported in a sequence of lines. *)
Fixpoint first_outcome (ls : list string) : option bool :=
  match ls with
  | [] => None
  | l :: rest =>
      match reported_outcome l with
      | Some ok => Some ok
      | None => first_outcome rest
      end
  end.

Definition outcome_message (ok : bool) : string :=
  if ok then "Connected!" else "Connection failed".

(** The calls a connection attempt makes when its lines report [o]. *)
Definition outcome_calls (o : option bool) : list event :=
  match o with
  | Some ok => [E_uart_set_wifi_connected ok]
  | None => []
  end.

(** *** Editing the channel times *)

(** The keys [keys] pressed one after the other on the channel-time
    settings screen. *)
Fixpoint press (keys : list key_code_t) (d : ChannelTime.channel_time_data_t)
  : M ChannelTime.channel_time_data_t :=
  match keys with
  | [] => ret d
  | k :: rest => bind (ChannelTime.on_key k d) (fun d' => press rest d')
  end.

(** The screen once its values are loaded: both edited values within the
    limits, one of the two fields selected, the message buffer as declared. *)
Definition settled (d : ChannelTime.channel_time_data_t) : Prop :=
  ChannelTime.loading d = false /\
  sizeof (ChannelTime.status_msg d) = 64%nat /\
  (ChannelTime.MIN_TIME_MS <= ChannelTime.edited_min d
   <= ChannelTime.MAX_TIME_MS)%Z /\
  (ChannelTime.MIN_TIME_MS <= ChannelTime.edited_max d
   <= ChannelTime.MAX_TIME_MS)%Z /\
  (ChannelTime.selected_field d = ChannelTime.FIELD_MIN \/
   ChannelTime.selected_field d = ChannelTime.FIELD_MAX).

(** The edited value of the selected field. *)
Definition selected_value (d : ChannelTime.channel_time_data_t) : Z :=
  if (ChannelTime.selected_field d =? ChannelTime.FIELD_MIN)%Z
  then ChannelTime.edited_min d else ChannelTime.edited_max d.

(** The edited value of the other field. *)
Definition other_value (d : ChannelTime.channel_time_data_t) : Z :=
  if (ChannelTime.selected_field d =? ChannelTime.FIELD_MIN)%Z
  then ChannelTime.edited_max d else ChannelTime.edited_min d.

(** *** Loading the channel times *)




(** ** Keyboard driver (src/main/drivers/keyboard_k132.c) *)

Module Keyboard.

(** Modelled from the spec: the key codes of keyboard.h, which is not under
    src/: the names the driver and the text input screen use, taken as
    distinct codes. *)
Inductive key_code_t :=
| KEY_NONE
| KEY_GRAVE | KEY_1 | KEY_2 | KEY_3 | KEY_4 | KEY_5 | KEY_6 | KEY_7 | KEY_8
| KEY_9 | KEY_0 | KEY_MINUS | KEY_EQUAL | KEY_BACKSPACE
| KEY_TAB | KEY_Q | KEY_W | KEY_E | KEY_R | KEY_T | KEY_Y | KEY_U | KEY_I
| KEY_O | KEY_P | KEY_LBRACKET | KEY_RBRACKET | KEY_BACKSLASH
| KEY_FN | KEY_SHIFT | KEY_A | KEY_S | KEY_D | KEY_F | KEY_G | KEY_H | KEY_J
| KEY_K | KEY_L | KEY_SEMICOLON | KEY_APOSTROPHE | KEY_ENTER
| KEY_CTRL | KEY_OPT | KEY_ALT | KEY_Z | KEY_X | KEY_C | KEY_V | KEY_B
| KEY_N | KEY_M | KEY_COMMA | KEY_DOT | KEY_SLASH | KEY_SPACE
| KEY_ESC | KEY_UP | KEY_DOWN | KEY_LEFT | KEY_RIGHT | KEY_CAPSLOCK | KEY_DEL.

Definition K132_ADDR_A0 : Z := 8.
Definition K132_ADDR_A1 : Z := 9.
Definition K132_ADDR_A2 : Z := 11.

Definition K132_ROWS : Z := 8.
Definition K132_COLS : Z := 7.

Definition k132_col_pins : list Z := [13; 15; 3; 4; 5; 6; 7]%Z.

(** The keyboard layout map (4 rows x 14 columns). *)
Definition key_value_map : list (list key_code_t) :=
  [[KEY_GRAVE; KEY_1; KEY_2; KEY_3; KEY_4; KEY_5; KEY_6; KEY_7; KEY_8; KEY_9;
    KEY_0; KEY_MINUS; KEY_EQUAL; KEY_BACKSPACE];
   [KEY_TAB; KEY_Q; KEY_W; KEY_E; KEY_R; KEY_T; KEY_Y; KEY_U; KEY_I; KEY_O;
    KEY_P; KEY_LBRACKET; KEY_RBRACKET; KEY_BACKSLASH];
   [KEY_FN; KEY_SHIFT; KEY_A; KEY_S; KEY_D; KEY_F; KEY_G; KEY_H; KEY_J; KEY_K;
    KEY_L; KEY_SEMICOLON; KEY_APOSTROPHE; KEY_ENTER];
   [KEY_CTRL; KEY_OPT; KEY_ALT; KEY_Z; KEY_X; KEY_C; KEY_V; KEY_B; KEY_N;
    KEY_M; KEY_COMMA; KEY_DOT; KEY_SLASH; KEY_SPACE]].

Record x_map_t := mk_x_map { x_1 : Z; x_2 : Z }.

Definition x_map_chart : list x_map_t :=
  [mk_x_map 0 1; mk_x_map 2 3; mk_x_map 4 5; mk_x_map 6 7; mk_x_map 8 9;
   mk_x_map 10 11; mk_x_map 12 13].

(** Arithmetic on [uint8_t]. *)
Definition wrap_u8 (z : Z) : Z := z mod 256.

(** The static variables of the driver. [key_queue] is [None] while the
    handle is [NULL]; a queue holds the keys sent and not yet received,
    oldest first, sixteen at most. [key_callback] is [None] for [NULL]. *)
Record keyboard_t := mk_keyboard {
  key_queue : option (list key_code_t);
  key_callback : option ptr;
  last_key : key_code_t;
  keyboard_initialized : bool;
  fn_held : bool;
  shift_held : bool;
  ctrl_held : bool;
  capslock_state : bool;
  text_input_mode : bool;
  key_state : list (list bool)   (* bool key_state[K132_ROWS][K132_COLS] *)
}.

Definition set_key_queue v k :=
  mk_keyboard v (key_callback k) (last_key k) (keyboard_initialized k)
    (fn_held k) (shift_held k) (ctrl_held k) (capslock_state k)
    (text_input_mode k) (key_state k).
Definition set_last_key v k :=
  mk_keyboard (key_queue k) (key_callback k) v (keyboard_initialized k)
    (fn_held k) (shift_held k) (ctrl_held k) (capslock_state k)
    (text_input_mode k) (key_state k).
Definition set_fn_held v k :=
  mk_keyboard (key_queue k) (key_callback k) (last_key k)
    (keyboard_initialized k) v (shift_held k) (ctrl_held k)
    (capslock_state k) (text_input_mode k) (key_state k).
Definition set_shift_held v k :=
  mk_keyboard (key_queue k) (key_callback k) (last_key k)
    (keyboard_initialized k) (fn_held k) v (ctrl_held k)
    (capslock_state k) (text_input_mode k) (key_state k).
Definition set_ctrl_held v k :=
  mk_keyboard (key_queue k) (key_callback k) (last_key k)
    (keyboard_initialized k) (fn_held k) (shift_held k) v
    (capslock_state k) (text_input_mode k) (key_state k).
Definition set_capslock_state v k :=
  mk_keyboard (key_queue k) (key_callback k) (last_key k)
    (keyboard_initialized k) (fn_held k) (shift_held k) (ctrl_held k)
    v (text_input_mode k) (key_state k).
Definition set_key_state v k :=
  mk_keyboard (key_queue k) (key_callback k) (last_key k)
    (keyboard_initialized k) (fn_held k) (shift_held k) (ctrl_held k)
    (capslock_state k) (text_input_mode k) v.

(** The static initialisers. *)
Definition boot : keyboard_t :=
  mk_keyboard None None KEY_NONE false false false false false false
    (repeat (repeat false 7) 8).

(** The calls into the GPIO driver. *)
Inductive gpio_mode := GPIO_MODE_OUTPUT | GPIO_MODE_INPUT.

Inductive gpio_call :=
| Gpio_config (pin_bit_mask : Z) (mode : gpio_mode) (pull_up_en : bool)
| Gpio_set_level (pin : Z) (level : Z).

(** [set_row_select]: the three calls of [gpio_set_level], in order. *)
Definition set_row_select (row : Z) : list gpio_call :=
  [Gpio_set_level K132_ADDR_A0 (Z.land (Z.shiftr row 0) 1);
   Gpio_set_level K132_ADDR_A1 (Z.land (Z.shiftr row 1) 1);
   Gpio_set_level K132_ADDR_A2 (Z.land (Z.shiftr row 2) 1)].

Definition update_modifier_state (key : key_code_t) (pressed : bool)
           (k : keyboard_t) : keyboard_t :=
  match key with
  | KEY_FN => set_fn_held pressed k
  | KEY_SHIFT => set_shift_held pressed k
  | KEY_CTRL => set_ctrl_held pressed k
  | KEY_CAPSLOCK => set_capslock_state pressed k
  | _ => k
  end.

Definition is_modifier_key (key : key_code_t) : bool :=
  match key with
  | KEY_FN | KEY_OPT | KEY_SHIFT | KEY_CTRL | KEY_ALT | KEY_CAPSLOCK => true
  | _ => false
  end.

(** [raw_to_xy]: [Some (x, y)] when the function returns [true] and has
    stored [x] and [y]. The arguments are [uint8_t] values. *)
Definition raw_to_xy (raw_row raw_col : Z) : option (Z * Z) :=
  if (K132_ROWS <=? raw_row)%Z || (K132_COLS <=? raw_col)%Z then None
  else
    let row := wrap_u8 (if (3 <? raw_row)%Z then raw_row - 4 else raw_row) in
    let row := wrap_u8 (3 - row) in
    let m := nth (Z.to_nat raw_col) x_map_chart (mk_x_map 0 0) in
    let col := wrap_u8 (if (3 <? raw_row)%Z then x_1 m else x_2 m) in
    if (4 <=? row)%Z || (14 <=? col)%Z then None
    else Some (col, row).

(** [xQueueSend(key_queue, &key, 0)] of FreeRTOS on a queue created with
    sixteen slots: when the queue is full the key is not stored (the status
    is not looked at); sending to a [NULL] handle is a fault. *)
Definition xQueueSend (q : option (list key_code_t)) (key : key_code_t)
  : option (option (list key_code_t)) :=
  match q with
  | None => None
  | Some l => if (List.length l <? 16)%nat then Some (Some (l ++ [key]))
              else Some (Some l)
  end.

(** [handle_key_event]; the result lists the invocations
    [key_callback(key, true)] made, as the callback and the key. [None] is
    a fault. *)
Definition handle_key_event (raw_row raw_col : Z) (pressed : bool)
           (k : keyboard_t) : option (keyboard_t * list (ptr * key_code_t)) :=
  match raw_to_xy raw_row raw_col with
  | None => Some (k, [])
  | Some (x, y) =>
      let key := nth (Z.to_nat x) (nth (Z.to_nat y) key_value_map []) KEY_NONE in
      let k := update_modifier_state key pressed k in
      if is_modifier_key key then Some (k, [])
      else if negb pressed then Some (k, [])
      else
        let key :=
          match key with
          | KEY_GRAVE =>
              let esc_active := if text_input_mode k then fn_held k else true in
              if esc_active then KEY_ESC else key
          | _ =>
              let arrow_active :=
                if text_input_mode k then fn_held k else true in
              if arrow_active then
                match key with
                | KEY_SEMICOLON => KEY_UP
                | KEY_DOT => KEY_DOWN
                | KEY_COMMA => KEY_LEFT
                | KEY_SLASH => KEY_RIGHT
                | _ => key
                end
              else key
          end in
        match key with
        | KEY_NONE => Some (k, [])
        | _ =>
            let k := set_last_key key k in
            match xQueueSend (key_queue k) key with
            | None => None
            | Some q =>
                let k := set_key_queue q k in
                Some (k, match key_callback k with
                         | Some cb => [(cb, key)]
                         | None => []
                         end)
            end
        end
  end.

(** [key_state[row][col] = v]; outside of the array, a fault. *)
Definition store_key_state (ks : list (list bool)) (row col : nat) (v : bool)
  : option (list (list bool)) :=
  match nth_error ks row with
  | Some r =>
      if (col <? List.length r)%nat then
        Some (firstn row ks ++ (firstn col r ++ v :: skipn (S col) r)
                :: skipn (S row) ks)
      else None
  | None => None
  end.

(** The hardware as [scan_keyboard] sees it: the level read on a pin of
    [k132_col_pins] while the address lines select [row]. *)
Definition gpio_levels := Z -> Z -> Z.

(** The inner loop of [scan_keyboard]: the columns [col], [col + 1], ... of
    one row; [n] is the number of columns left. *)
Fixpoint scan_cols (gpio_get_level : gpio_levels) (row : Z) (col : Z) (n : nat)
         (k : keyboard_t) : option (keyboard_t * list (ptr * key_code_t)) :=
  match n with
  | O => Some (k, [])
  | S n' =>
      let pressed :=
        (gpio_get_level row
           (nth (Z.to_nat col) k132_col_pins 0%Z) =? 0)%Z in
      match nth_error (key_state k) (Z.to_nat row) with
      | Some r =>
          match nth_error r (Z.to_nat col) with
          | Some old =>
              if negb (Bool.eqb pressed old) then
                match store_key_state (key_state k) (Z.to_nat row)
                                      (Z.to_nat col) pressed with
                | Some ks =>
                    match handle_key_event row col pressed
                                           (set_key_state ks k) with
                    | Some (k1, c1) =>
                        match scan_cols gpio_get_level row (col + 1) n' k1 with
                        | Some (k2, c2) => Some (k2, c1 ++ c2)
                        | None => None
                        end
                    | None => None
                    end
                | None => None
                end
              else scan_cols gpio_get_level row (col + 1) n' k
          | None => None
          end
      | None => None
      end
  end.

(** The outer loop: the rows [row], [row + 1], ...; [n] rows are left. *)
Fixpoint scan_rows (gpio_get_level : gpio_levels) (row : Z) (n : nat)
         (k : keyboard_t)
  : option (keyboard_t * list (ptr * key_code_t) * list gpio_call) :=
  match n with
  | O => Some (k, [], [])
  | S n' =>
      match scan_cols gpio_get_level row 0 (Z.to_nat K132_COLS) k with
      | Some (k1, c1) =>
          match scan_rows gpio_get_level (row + 1) n' k1 with
          | Some (k2, c2, g2) => Some (k2, c1 ++ c2, set_row_select row ++ g2)
          | None => None
          end
      | None => None
      end
  end.

Definition scan_keyboard (gpio_get_level : gpio_levels) (k : keyboard_t)
  : option (keyboard_t * list (ptr * key_code_t) * list gpio_call) :=
  if negb (keyboard_initialized k) then Some (k, [], [])
  else scan_rows gpio_get_level 0 (Z.to_nat K132_ROWS) k.




Definition keyboard_process := scan_keyboard.



Definition keyboard_is_shift_held (k : keyboard_t) : bool := shift_held k.


End Keyboard.

(** *** The key matrix *)

(** The key wired at a position of the scan matrix, read through
    [raw_to_xy] and the layout map as [handle_key_event] does. *)
Definition key_at (raw_row raw_col : Z) : option Keyboard.key_code_t :=
  match Keyboard.raw_to_xy raw_row raw_col with
  | Some (x, y) =>
      Some (nth (Z.to_nat x) (nth (Z.to_nat y) Keyboard.key_value_map [])
                Keyboard.KEY_NONE)
  | None => None
  end.

(** The positions of the scan matrix, row by row. *)
Definition matrix_cells : list (Z * Z) :=
  list_prod [0; 1; 2; 3; 4; 5; 6; 7]%Z [0; 1; 2; 3; 4; 5; 6]%Z.

Definition cell_eqb (a b : Z * Z) : bool :=
  (fst a =? fst b)%Z && (snd a =? snd b)%Z.


(** *** Scanning the matrix *)







(** [dst[i] = c] for an [int] index [i]; outside of [dst], a fault. *)
Definition store_at (dst : buffer) (i : Z) (c : ascii) : option buffer :=
  if (i <? 0)%Z then None else store dst (Z.to_nat i) c.

(** ** Key handling of the text input screen
       (src/main/screens/text_input_screen.c) *)

Module TextInputKeys.

Definition set_input v (d : TextInput.text_input_data_t) :=
  TextInput.mk_data (TextInput.title d) (TextInput.hint d) v
    (TextInput.cursor_pos d) (TextInput.on_submit d)
    (TextInput.callback_user_data d).
Definition set_cursor_pos v (d : TextInput.text_input_data_t) :=
  TextInput.mk_data (TextInput.title d) (TextInput.hint d) (TextInput.input d)
    v (TextInput.on_submit d) (TextInput.callback_user_data d).

(** [key_to_char]; [kb] is the keyboard driver that [keyboard_is_shift_held]
    asks. The result is NUL for "no valid character". *)
Definition key_to_char (kb : Keyboard.keyboard_t) (key : Keyboard.key_code_t)
  : ascii :=
  let shift := Keyboard.keyboard_is_shift_held kb in
  match key with
  | Keyboard.KEY_Q => if shift then "Q" else "q"
  | Keyboard.KEY_W => if shift then "W" else "w"
  | Keyboard.KEY_E => if shift then "E" else "e"
  | Keyboard.KEY_R => if shift then "R" else "r"
  | Keyboard.KEY_T => if shift then "T" else "t"
  | Keyboard.KEY_Y => if shift then "Y" else "y"
  | Keyboard.KEY_U => if shift then "U" else "u"
  | Keyboard.KEY_I => if shift then "I" else "i"
  | Keyboard.KEY_O => if shift then "O" else "o"
  | Keyboard.KEY_P => if shift then "P" else "p"
  | Keyboard.KEY_A => if shift then "A" else "a"
  | Keyboard.KEY_S => if shift then "S" else "s"
  | Keyboard.KEY_D => if shift then "D" else "d"
  | Keyboard.KEY_F => if shift then "F" else "f"
  | Keyboard.KEY_G => if shift then "G" else "g"
  | Keyboard.KEY_H => if shift then "H" else "h"
  | Keyboard.KEY_J => if shift then "J" else "j"
  | Keyboard.KEY_K => if shift then "K" else "k"
  | Keyboard.KEY_L => if shift then "L" else "l"
  | Keyboard.KEY_Z => if shift then "Z" else "z"
  | Keyboard.KEY_X => if shift then "X" else "x"
  | Keyboard.KEY_C => if shift then "C" else "c"
  | Keyboard.KEY_V => if shift then "V" else "v"
  | Keyboard.KEY_B => if shift then "B" else "b"
  | Keyboard.KEY_N => if shift then "N" else "n"
  | Keyboard.KEY_M => if shift then "M" else "m"
  | Keyboard.KEY_1 => if shift then "!" else "1"
  | Keyboard.KEY_2 => if shift then "@" else "2"
  | Keyboard.KEY_3 => if shift then "#" else "3"
  | Keyboard.KEY_4 => if shift then "$" else "4"
  | Keyboard.KEY_5 => if shift then "%" else "5"
  | Keyboard.KEY_6 => if shift then "^" else "6"
  | Keyboard.KEY_7 => if shift then "&" else "7"
  | Keyboard.KEY_8 => if shift then "*" else "8"
  | Keyboard.KEY_9 => if shift then "(" else "9"
  | Keyboard.KEY_0 => if shift then ")" else "0"
  | Keyboard.KEY_SPACE => " "
  | _ => NUL
  end%char.

Section WithMaxLen.

Variable TEXT_INPUT_MAX_LEN : nat.

(** The call [data->on_submit(data->input, data->callback_user_data)], the
    last thing [on_key] does when it makes it: the callback, the text it
    is handed and its context. *)
Definition submission := (ptr * string * ptr)%type.

(** [on_key]; the result is the context block and the submission made, if
    any. *)
Definition on_key (kb : Keyboard.keyboard_t) (key : Keyboard.key_code_t)
           (data : TextInput.text_input_data_t)
  : M (TextInput.text_input_data_t * option submission) :=
  match key with
  | Keyboard.KEY_ENTER =>
      if (0 <? TextInput.cursor_pos data)%Z
         && negb (Nat.eqb (TextInput.on_submit data) NULL)
      then ret (data, Some (TextInput.on_submit data,
                            c_str (TextInput.input data),
                            TextInput.callback_user_data data))
      else ret (data, None)
  | Keyboard.KEY_ESC =>
      (screen_manager_pop ;; ret (data, None))%M
  | Keyboard.KEY_BACKSPACE | Keyboard.KEY_DEL =>
      if (0 <? TextInput.cursor_pos data)%Z then
        (let data := set_cursor_pos
                       (wrap_int (TextInput.cursor_pos data - 1)) data in
         b <- lift (store_at (TextInput.input data)
                             (TextInput.cursor_pos data) NUL) ;;
         let data := set_input b data in
         TextInput.draw_screen TEXT_INPUT_MAX_LEN data ;;
         ret (data, None))%M
      else ret (data, None)
  | _ =>
      let ch := key_to_char kb key in
      if negb (Ascii.eqb ch NUL)
         && (TextInput.cursor_pos data <? Z.of_nat TEXT_INPUT_MAX_LEN)%Z
      then
        (b <- lift (store_at (TextInput.input data)
                             (TextInput.cursor_pos data) ch) ;;
         let data := set_cursor_pos
                       (wrap_int (TextInput.cursor_pos data + 1))
                       (set_input b data) in
         b <- lift (store_at (TextInput.input data)
                             (TextInput.cursor_pos data) NUL) ;;
         let data := set_input b data in
         TextInput.draw_screen TEXT_INPUT_MAX_LEN data ;;
         ret (data, None))%M
      else ret (data, None)
  end.

End WithMaxLen.

End TextInputKeys.

(** *** Reading the text input screen *)

Definition key_code_eq_dec (a b : Keyboard.key_code_t) : {a = b} + {a <> b}.
Proof. decide equality. Defined.

(** The context block of the text input screen between two key presses:
    the text lies in [input] with its terminator, and the cursor stands
    behind its last character. *)
Definition text_input_ok (n : nat) (d : TextInput.text_input_data_t) : Prop :=
  sizeof (TextInput.input d) = (n + 1)%nat /\
  (strlen (c_str (TextInput.input d)) <= n)%nat /\
  TextInput.cursor_pos d = Z.of_nat (strlen (c_str (TextInput.input d))).

(** What a key makes of the text [t] in a field of [n] characters. *)
Definition typed (n : nat) (kb : Keyboard.keyboard_t)
           (key : Keyboard.key_code_t) (t : string) : string :=
  match key with
  | Keyboard.KEY_ENTER | Keyboard.KEY_ESC => t
  | Keyboard.KEY_BACKSPACE | Keyboard.KEY_DEL =>
      String.substring 0 (strlen t - 1) t
  | _ =>
      let ch := TextInputKeys.key_to_char kb key in
      if Ascii.eqb ch NUL || negb (strlen t <? n)%nat then t
      else (t ++ String ch EmptyString)%string
  end.

(** The keys of a list pressed one after the other, each with the state of
    the keyboard at its time; the submissions made are collected. *)
Fixpoint press_keys (n : nat)
         (keys : list (Keyboard.keyboard_t * Keyboard.key_code_t))
         (d : TextInput.text_input_data_t)
  : M (TextInput.text_input_data_t * list TextInputKeys.submission) :=
  match keys with
  | [] => ret (d, [])
  | (kb, key) :: rest =>
      (r <- TextInputKeys.on_key n kb key d ;;
       r' <- press_keys n rest (fst r) ;;
       ret (fst r', match snd r with
                    | Some s => s :: snd r'
                    | None => snd r'
                    end))%M
  end.

(** The characters of a list of key presses. *)
Fixpoint chars_of (keys : list (Keyboard.keyboard_t * Keyboard.key_code_t))
  : string :=
  match keys with
  | [] => EmptyString
  | (kb, key) :: rest => String (TextInputKeys.key_to_char kb key) (chars_of rest)
  end.

Definition types_a_char (k : Keyboard.keyboard_t * Keyboard.key_code_t) : bool :=
  negb (Ascii.eqb (TextInputKeys.key_to_char (fst k) (snd k)) NUL).

(** The submission a key makes on the block [d]. *)
Definition submits (key : Keyboard.key_code_t)
           (d : TextInput.text_input_data_t)
  : option TextInputKeys.submission :=
  match key with
  | Keyboard.KEY_ENTER =>
      if (0 <? strlen (c_str (TextInput.input d)))%nat
         && negb (Nat.eqb (TextInput.on_submit d) NULL)
      then Some (TextInput.on_submit d, c_str (TextInput.input d),
                 TextInput.callback_user_data d)
      else None
  | _ => None
  end.

(** The screen was redrawn from [w] to [w'], showing the text [t] with the
    cursor mark behind it. *)
Definition redrawn_with (t : string) (w w' : world) : Prop :=
  exists frame,
    w' = after (E_ui_clear :: frame) w /\
    In (E_ui_print 0 2 (Txt (t ++ "_")) UI_COLOR_HIGHLIGHT) frame /\
    forallb draws_content frame = true.

Definition deletes (k : Keyboard.keyboard_t * Keyboard.key_code_t) : bool :=
  match snd k with
  | Keyboard.KEY_BACKSPACE | Keyboard.KEY_DEL => true
  | _ => false
  end.

(** ** Handlers of the network info screen (src/unnamed/part_001) *)

Module NetworkInfoKeys.

Import NetworkInfo.

Definition set_password v (d : network_info_data_t) :=
  mk_data (network d) v (state d) (success d) (result_msg d)
          (needs_redraw d) (needs_push_password d) (self d).
Definition set_needs_push_password v (d : network_info_data_t) :=
  mk_data (network d) (password d) (state d) (success d) (result_msg d)
          (needs_redraw d) v (self d).

(** The call [screen_manager_push(create, params)], the last thing a
    handler does when it makes it. *)
Inductive push_request :=
| Push_text_input (params : ptr) (ip : TextInput.text_input_params_t)
| Push_arp_hosts.                 (* arp_hosts_screen_create, NULL *)

(** [on_password_submitted]; [p] is the address of the context block
    [data], which the line consumer is registered with. [data->self] is
    the screen of the block, so that [draw_screen(data->self)] draws
    [data]. *)
Definition on_password_submitted (text : string) (p : ptr)
           (data : network_info_data_t) : M network_info_data_t :=
  (b <- lift (copy_field (password data) text (65 - 1)) ;;
   let data := set_password b data in
   screen_manager_pop ;;
   let data := set_state STATE_CONNECTING data in
   draw_screen data ;;
   uart_register_line_callback CB_network_info p ;;
   _ <- uart_send_command
          (snprintf_local 128
             ("wifi_connect " ++ c_str (ssid (network data)) ++ " "
                              ++ c_str (password data))) ;;
   ret data)%M.

Section WithCallback.

(** The address of [on_password_submitted], as stored in the parameter
    block of the text input screen. *)
Variable on_password_submitted_addr : ptr.

(** [on_tick]; [p] is the address of the context block. *)
Definition on_tick (p : ptr) (data : network_info_data_t)
  : M (network_info_data_t * option push_request) :=
  if needs_push_password data then
    (let data := set_needs_push_password false data in
     params <- alloc ;;
     if negb (Nat.eqb params NULL) then
       ret (data, Some (Push_text_input params
                          (TextInput.mk_params (Some "Enter Password")
                             (Some "WiFi password")
                             on_password_submitted_addr p)))
     else ret (data, None))%M
  else if needs_redraw data then
    (let data := set_needs_redraw false data in
     draw_screen data ;;
     ret (data, None))%M
  else ret (data, None).

End WithCallback.

Definition on_key (key : Keyboard.key_code_t) (data : network_info_data_t)
  : M (network_info_data_t * option push_request) :=
  match state data with
  | STATE_RESULT =>
      match key with
      | Keyboard.KEY_ENTER | Keyboard.KEY_SPACE =>
          if success data then
            (uart_clear_line_callback ;;
             ret (data, Some Push_arp_hosts))%M
          else
            (let data := set_state STATE_VIEW data in
             draw_screen data ;;
             ret (data, None))%M
      | Keyboard.KEY_ESC | Keyboard.KEY_BACKSPACE =>
          (uart_clear_line_callback ;;
           screen_manager_pop ;;
           ret (data, None))%M
      | _ => ret (data, None)
      end
  | STATE_CONNECTING =>
      match key with
      | Keyboard.KEY_ESC =>
          (uart_clear_line_callback ;;
           screen_manager_pop ;;
           ret (data, None))%M
      | _ => ret (data, None)
      end
  | STATE_VIEW =>
      match key with
      | Keyboard.KEY_ENTER | Keyboard.KEY_SPACE =>
          ret (set_needs_push_password true data, None)
      | Keyboard.KEY_ESC | Keyboard.KEY_Q | Keyboard.KEY_BACKSPACE =>
          (screen_manager_pop ;; ret (data, None))%M
      | _ => ret (data, None)
      end
  end.

Definition on_resume (data : network_info_data_t) : M unit :=
  draw_screen data.

End NetworkInfoKeys.

(** * Properties *)

Example strstr_ex : strstr "GPS fix obtained: Lat=1" "Lat=" = Some 18%nat.
Proof. reflexivity. Qed.
Example sscanf_ex : sscanf "(7/30 seconds)" "(%d/%d seconds)" = [7%Z; 30%Z].
Proof. reflexivity. Qed.
Example fmt_d_ex : fmt_d (-120) = "-120" /\ fmt_d 0 = "0".
Proof. split; reflexivity. Qed.

(** ** Teardown order of [on_destroy] *)

Lemma free_run :
  forall p w,
    In p (w_live w) ->
    free p w =
    Some (tt, mkWorld (w_trace w ++ [E_free p])
                      (filter (fun q => negb (Nat.eqb p q)) (w_live w))
                      (w_brk w) (w_allocs w) (w_sends w)).
Proof.
  intros p w Hin. unfold free.
  assert (E : existsb (Nat.eqb p) (w_live w) = true).
  { apply existsb_exists. exists p. split; [exact Hin | apply Nat.eqb_refl]. }
  rewrite E. reflexivity.
Qed.

Lemma freed_block_is_gone :
  forall p l, ~ In p (filter (fun q => negb (Nat.eqb p q)) l).
Proof.
  intros p l H. apply filter_In in H as [_ H].
  rewrite Nat.eqb_refl in H. discriminate.
Qed.

Lemma other_block_stays :
  forall p q l,
    p <> q -> In q l -> In q (filter (fun x => negb (Nat.eqb p x)) l).
Proof.
  intros p q l Hne Hin. apply filter_In. split; [exact Hin|].
  apply negb_true_iff, Nat.eqb_neq. exact Hne.
Qed.

Lemma free_result :
  forall p w u w',
    free p w = Some (u, w') -> w_trace w' = w_trace w ++ [E_free p].
Proof.
  intros p w u w' H. unfold free in H.
  destruct (existsb (Nat.eqb p) (w_live w)); [|discriminate].
  injection H as _ H. subst w'. reflexivity.
Qed.

(** Splitting a trace at a [free]: the cases for what stands first. *)
Lemma split_at_free_cons :
  forall (e : event) (t pre post : list event) (p : ptr),
    e :: t = pre ++ E_free p :: post ->
    (pre = [] /\ e = E_free p /\ t = post) \/
    (exists pre', pre = e :: pre' /\ t = pre' ++ E_free p :: post).
Proof.
  intros e t [|x pre] post p H; simpl in H; injection H as -> ->.
  - left. auto.
  - right. eauto.
Qed.

Lemma teardown_with_timer :
  forall (h : ptr) (frees : list event),
    teardown_precedes_free h
      ([E_esp_timer_stop h; E_esp_timer_delete h; E_uart_clear_line_callback]
         ++ frees).
Proof.
  intros h frees pre post p H. simpl in H.
  apply split_at_free_cons in H.
  destruct H as [(_ & H & _) | (pre1 & -> & H)]; [discriminate H|].
  apply split_at_free_cons in H.
  destruct H as [(_ & H & _) | (pre2 & -> & H)]; [discriminate H|].
  apply split_at_free_cons in H.
  destruct H as [(_ & H & _) | (pre3 & -> & H)]; [discriminate H|].
  split.
  - simpl. auto.
  - intros _. exists [], [], (E_uart_clear_line_callback :: pre3). reflexivity.
Qed.

Lemma teardown_without_timer :
  forall (frees : list event),
    teardown_precedes_free NULL (E_uart_clear_line_callback :: frees).
Proof.
  intros frees pre post p H.
  apply split_at_free_cons in H.
  destruct H as [(_ & H & _) | (? & -> & H)]; [discriminate H|].
  split; [simpl; auto | intros Hn; exfalso; apply Hn; reflexivity].
Qed.

Lemma emit_all_run :
  forall es w,
    emit_all es w =
    Some (tt, mkWorld (w_trace w ++ es) (w_live w) (w_brk w) (w_allocs w)
                      (w_sends w)).
Proof.
  induction es as [|e es IH]; intros w; simpl.
  - rewrite app_nil_r. destruct w; reflexivity.
  - unfold bind, emit. rewrite IH. simpl. rewrite <- app_assoc. reflexivity.
Qed.

Lemma free_all_trace :
  forall bs w u w',
    free_all bs w = Some (u, w') ->
    w_trace w' = w_trace w ++ map E_free bs.
Proof.
  induction bs as [|b bs IH]; intros w u w' H; simpl in H.
  - injection H as _ <-. rewrite app_nil_r. reflexivity.
  - unfold bind in H. destruct (free b w) as [[u1 w1]|] eqn:F; [|discriminate].
    apply free_result in F. apply IH in H. rewrite H, F, <- app_assoc.
    reflexivity.
Qed.

Lemma free_all_runs :
  forall bs w,
    NoDup bs ->
    (forall b, In b bs -> In b (w_live w)) ->
    exists w', free_all bs w = Some (tt, w').
Proof.
  induction bs as [|b bs IH]; intros w Hnd Hlive; simpl.
  - eexists. reflexivity.
  - inversion Hnd as [|? ? Hnotin Hnd']; subst.
    unfold bind. rewrite free_run by (apply Hlive; left; reflexivity).
    apply IH; [exact Hnd'|].
    intros q Hq. cbn [w_live]. apply other_block_stays.
    + intros ->. exact (Hnotin Hq).
    + apply Hlive. right. exact Hq.
Qed.

(** The loop over the wrapped lines frees those that are set. *)
Lemma free_lines_free_all :
  forall ls w,
    DataDetail.free_lines ls w =
    free_all (filter (fun l => negb (Nat.eqb l NULL)) ls) w.
Proof.
  induction ls as [|l ls IH]; intros w; [reflexivity|].
  simpl. destruct (negb (Nat.eqb l NULL)); simpl.
  - unfold bind. destruct (free l w) as [[u w1]|]; [apply IH | reflexivity].
  - unfold bind, ret. apply IH.
Qed.

Lemma free_all_app :
  forall bs1 bs2 w,
    free_all (bs1 ++ bs2) w = bind (free_all bs1) (fun _ => free_all bs2) w.
Proof.
  induction bs1 as [|b bs1 IH]; intros bs2 w; simpl; [reflexivity|].
  unfold bind. destruct (free b w) as [[u w1]|]; [|reflexivity].
  rewrite IH. reflexivity.
Qed.

Ltac unfold_teardown :=
  cbn [negb app free_all];
  unfold bind, ret, esp_timer_stop, esp_timer_delete,
    uart_clear_line_callback, emit;
  cbn [w_trace w_live w_brk w_allocs w_sends];
  rewrite <- ?app_assoc; cbn [app];
  repeat match goal with
    | |- context [free ?p ?w] => destruct (free p w) as [[[] ?]|]
    end;
  try reflexivity.

(** Every [on_destroy] is its teardown calls followed by the release of the
    blocks the screen owns. *)
Lemma on_destroy_shape :
  forall s w,
    on_destroy_of s w =
    bind (emit_all (teardown_calls s)) (fun _ => free_all (owned_blocks s)) w.
Proof.
  intros s w. unfold bind at 1. rewrite emit_all_run.
  destruct s as [[[p d]|] | [[p d]|] | [[p d]|] | [[p d]|] | [[p d]|]
                 | [[p d]|]];
    unfold teardown_calls, owned_blocks;
    cbn [on_destroy_of timer_of context_of option_map fst];
    try reflexivity.
  - unfold WardrivePromisc.on_destroy.
    destruct (Nat.eqb (WardrivePromisc.refresh_timer d) NULL);
      unfold_teardown.
  - unfold Wardrive.on_destroy.
    destruct (Nat.eqb (Wardrive.refresh_timer d) NULL); unfold_teardown.
  - unfold Handshaker.on_destroy.
    destruct (Nat.eqb (Handshaker.refresh_timer d) NULL);
      destruct (Handshaker.networks d) as [[nets ?]|]; unfold_teardown.
  - unfold ChannelTime.on_destroy.
    change (Nat.eqb NULL NULL) with true. unfold_teardown.
  - unfold NetworkInfo.on_destroy.
    change (Nat.eqb NULL NULL) with true. unfold_teardown.
  - unfold DataDetail.on_destroy.
    change (Nat.eqb NULL NULL) with true. cbn [app].
    rewrite free_all_app. cbn [free_all].
    unfold bind, ret, uart_clear_line_callback, emit.
    cbn [w_trace w_live w_brk w_allocs w_sends].
    rewrite free_lines_free_all.
    destruct (free_all _ _) as [[u w1]|]; [|reflexivity].
    destruct (free p w1) as [[[] w2]|]; reflexivity.
Qed.

(** C1. Every [on_destroy] of a screen that holds a line-consumer
    registration or a refresh timer (both wardrive screens, the handshaker,
    the channel-time settings, the network-info and the data-detail screen)
    clears the consumer, and stops and then deletes the timer of a screen
    that holds one, before it frees any block: whenever the handler returns,
    the trace it adds is the teardown calls followed by the frees of the
    blocks the screen owns, the context block among them, so that every
    [free] comes after the teardown steps; and the handler does return when
    the blocks it owns are allocated and distinct. *)
Theorem on_destroy_teardown_before_free :
  forall (s : destroyed_screen) (w : world),
    (forall w',
        on_destroy_of s w = Some (tt, w') ->
        exists added,
          w_trace w' = w_trace w ++ added /\
          In E_uart_clear_line_callback added /\
          (timer_of s <> NULL ->
           In (E_esp_timer_stop (timer_of s)) added /\
           In (E_esp_timer_delete (timer_of s)) added) /\
          (forall p, context_of s = Some p -> In (E_free p) added) /\
          teardown_precedes_free (timer_of s) added) /\
    (NoDup (owned_blocks s) ->
     (forall b, In b (owned_blocks s) -> In b (w_live w)) ->
     exists w', on_destroy_of s w = Some (tt, w')).
Proof.
  intros s w. split.
  - intros w' H. rewrite on_destroy_shape in H.
    unfold bind in H. rewrite emit_all_run in H.
    apply free_all_trace in H. cbn [w_trace] in H.
    exists (teardown_calls s ++ map E_free (owned_blocks s)).
    split; [rewrite H, app_assoc; reflexivity|].
    unfold teardown_calls.
    destruct (Nat.eqb_spec (timer_of s) NULL) as [Hn | Hn].
    + split; [simpl; auto|].
      split; [intros Hc; contradiction|].
      split.
      * intros p Hp. simpl. right. apply in_map.
        destruct s as [[[q d]|] | [[q d]|] | [[q d]|] | [[q d]|] | [[q d]|]
                       | [[q d]|]];
          simpl in Hp; try discriminate Hp; injection Hp as ->;
          unfold owned_blocks; simpl; auto.
        -- destruct (Handshaker.networks d) as [[nets ?]|]; simpl; auto.
        -- apply in_or_app. right. simpl. auto.
      * rewrite Hn. apply teardown_without_timer.
    + split; [simpl; auto|].
      split; [intros _; simpl; auto|].
      split.
      * intros p Hp. simpl. do 3 right. apply in_map.
        destruct s as [[[q d]|] | [[q d]|] | [[q d]|] | [[q d]|] | [[q d]|]
                       | [[q d]|]];
          simpl in Hp; try discriminate Hp; injection Hp as ->;
          unfold owned_blocks; simpl; auto.
        -- destruct (Handshaker.networks d) as [[nets ?]|]; simpl; auto.
        -- apply in_or_app. right. simpl. auto.
      * apply teardown_with_timer.
  - intros Hnd Hlive. rewrite on_destroy_shape.
    unfold bind. rewrite emit_all_run.
    apply free_all_runs; [exact Hnd | exact Hlive].
Qed.

Lemma on_destroy_teardown_before_free_witness :
  let s := Destroy_wardrive_promisc (Some (7, WardrivePromisc.fresh 3 1)) in
  let w := mkWorld [] [7; 1] 10 [] [] in
  let w' := mkWorld [E_esp_timer_stop 3; E_esp_timer_delete 3;
                     E_uart_clear_line_callback; E_free 7]
                    [1] 10 [] [] in
  on_destroy_of s w = Some (tt, w') /\
  exists added,
    w_trace w' = w_trace w ++ added /\
    In E_uart_clear_line_callback added /\
    (timer_of s <> NULL ->
     In (E_esp_timer_stop (timer_of s)) added /\
     In (E_esp_timer_delete (timer_of s)) added) /\
    (forall p, context_of s = Some p -> In (E_free p) added) /\
    teardown_precedes_free (timer_of s) added.
Proof.
  intros s w w'. split.
  - reflexivity.
  - apply (proj1 (on_destroy_teardown_before_free s w) w'). reflexivity.
Defined.

(** ** Which calls draw *)

Lemma after_nil : forall w, after [] w = w.
Proof. intros w. unfold after. rewrite app_nil_r. destruct w; reflexivity. Qed.

Lemma after_after :
  forall a b w, after b (after a w) = after (a ++ b) w.
Proof.
  intros a b w. unfold after. cbn [w_trace w_live w_brk w_allocs w_sends].
  rewrite app_assoc. reflexivity.
Qed.

Section CallsOnly.

Variable p : event -> bool.

Lemma calls_only_ret : forall A (a : A), calls_only p (ret a).
Proof.
  intros A a w a' w' [= <- <-]. exists []. rewrite after_nil. auto.
Qed.

Lemma calls_only_lift : forall A (o : option A), calls_only p (lift o).
Proof.
  intros A [a|] w a' w' H; [|discriminate].
  injection H as <- <-. exists []. rewrite after_nil. auto.
Qed.

Lemma calls_only_bind :
  forall A B (m : M A) (k : A -> M B),
    calls_only p m -> (forall a, calls_only p (k a)) -> calls_only p (bind m k).
Proof.
  intros A B m k Hm Hk w b w' H. unfold bind in H.
  destruct (m w) as [[a w1]|] eqn:E; [|discriminate].
  destruct (Hm _ _ _ E) as (t1 & -> & F1).
  destruct (Hk a _ _ _ H) as (t2 & -> & F2).
  exists (t1 ++ t2). rewrite after_after. split; [reflexivity|].
  rewrite forallb_app, F1, F2. reflexivity.
Qed.

Lemma calls_only_emit : forall e, p e = true -> calls_only p (emit e).
Proof.
  intros e He w a w' H. unfold emit in H. injection H as _ <-.
  exists [e]. simpl. rewrite He. auto.
Qed.

End CallsOnly.

Ltac calls_step :=
  first
    [ apply calls_only_ret
    | apply calls_only_lift
    | apply calls_only_emit; reflexivity
    | apply calls_only_bind; [|intros ?]
    | match goal with
      | |- calls_only _ (if ?b then _ else _) => destruct b
      | |- calls_only _ (match ?x with _ => _ end) => destruct x
      | |- calls_only _ (let '(_, _) := ?x in _) => destruct x
      end ].

Lemma draw_captured_draws :
  forall rows i n row, calls_only is_draw (Handshaker.draw_captured rows i n row).
Proof.
  induction rows as [|b rows IH]; intros i n row; simpl.
  - apply calls_only_ret.
  - destruct ((Z.of_nat i <? n)%Z && (row <? 7)%Z); [|apply calls_only_ret].
    apply calls_only_bind; [apply calls_only_emit; reflexivity|].
    intros _. apply IH.
Qed.

(** The line consumers call nothing but [uart_clear_line_callback] and
    [uart_set_wifi_connected]. *)
Lemma promisc_line_callback_calls :
  forall l ud,
    calls_only consumer_call (WardrivePromisc.uart_line_callback l ud).
Proof.
  intros l ud. unfold WardrivePromisc.uart_line_callback.
  repeat calls_step.
Qed.

Lemma wardrive_line_callback_calls :
  forall l ud, calls_only consumer_call (Wardrive.uart_line_callback l ud).
Proof.
  intros l ud. unfold Wardrive.uart_line_callback.
  repeat calls_step.
Qed.

Lemma channel_time_line_callback_calls :
  forall l d, calls_only consumer_call (ChannelTime.on_uart_response l d).
Proof.
  intros l d. unfold ChannelTime.on_uart_response, uart_clear_line_callback.
  destruct l as [l|]; [|apply calls_only_ret].
  destruct (ChannelTime.loading_count d <=? 0)%Z; [apply calls_only_ret|].
  match goal with |- calls_only _ (if ?b then _ else _) => destruct b end;
    repeat calls_step.
Qed.

Lemma network_info_line_callback_calls :
  forall l ud, calls_only consumer_call (NetworkInfo.uart_line_callback l ud).
Proof.
  intros l ud.
  unfold NetworkInfo.uart_line_callback, NetworkInfo.connection_result,
    uart_set_wifi_connected.
  repeat calls_step.
Qed.

Lemma handshaker_line_callback_calls :
  forall n l ud,
    calls_only consumer_call (Handshaker.uart_line_callback n l ud).
Proof.
  intros n l ud. unfold Handshaker.uart_line_callback.
  repeat calls_step.
Qed.

Lemma data_detail_line_callback_calls :
  forall l ud, calls_only consumer_call (DataDetail.uart_line_callback l ud).
Proof.
  intros l ud.
  unfold DataDetail.uart_line_callback, DataDetail.connection_result,
    uart_set_wifi_connected.
  repeat calls_step.
Qed.

Lemma consumer_calls_draw_nothing :
  forall t, forallb consumer_call t = true -> forallb not_draw t = true.
Proof.
  induction t as [|e t IH]; simpl; [reflexivity|].
  intros H. apply andb_true_iff in H as [He Ht].
  rewrite (IH Ht). destruct e; try discriminate He; reflexivity.
Qed.

Lemma no_draw_in :
  forall t, forallb not_draw t = true -> existsb is_draw t = false.
Proof.
  induction t as [|e t IH]; simpl; [reflexivity|].
  unfold not_draw at 1. intros H. apply andb_true_iff in H as [He Ht].
  apply negb_true_iff in He. rewrite He, (IH Ht). reflexivity.
Qed.

(** A [draw_screen] that returns has called [ui_clear] first and draw
    primitives only. *)
Lemma redraw_trace :
  forall (k : M unit) w u w',
    calls_only is_draw k ->
    bind ui_clear (fun _ => k) w = Some (u, w') ->
    exists rest,
      w' = after (E_ui_clear :: rest) w /\
      forallb is_draw rest = true.
Proof.
  intros k w u w' Hk H. unfold bind, ui_clear, emit in H.
  destruct (Hk _ _ _ H) as (rest & -> & F).
  exists rest. split; [|exact F].
  unfold after. cbn [w_trace w_live w_brk w_allocs w_sends].
  rewrite <- app_assoc. reflexivity.
Qed.

Lemma line_consumer_case :
  forall A (m : M A) (wrap : A -> async_call) (c0 : async_call) w c' w',
    calls_only consumer_call m ->
    bind m (fun x => ret (wrap x)) w = Some (c', w') ->
    exists added,
      w' = after added w /\
      existsb is_draw added = false /\
      (false = true ->
       exists rest, added = E_ui_clear :: rest /\ forallb is_draw rest = true) /\
      (false = false -> forallb not_draw added = true) /\
      (false = false -> forallb consumer_call added = true) /\
      (false = true -> c' = c0 /\ added = []).
Proof.
  intros A m wrap c0 w c' w' Hm H. unfold bind in H.
  destruct (m w) as [[a w1]|] eqn:E; [|discriminate].
  injection H as _ <-.
  destruct (Hm _ _ _ E) as (added & -> & F).
  exists added. split; [reflexivity|].
  pose proof (consumer_calls_draw_nothing added F) as N.
  split; [apply no_draw_in, N|]. split; [discriminate|].
  split; [auto|]. split; [auto | discriminate].
Qed.

Lemma timer_case :
  forall A (flag : bool) (k : M unit) (a b : A) (wrap : A -> async_call)
         w c' w',
    calls_only is_draw k ->
    bind (if flag then bind (bind ui_clear (fun _ => k)) (fun _ => ret a)
          else ret b) (fun x => ret (wrap x)) w = Some (c', w') ->
    exists added,
      w' = after added w /\
      existsb is_draw added = flag /\
      (flag = true ->
       exists rest, added = E_ui_clear :: rest /\ forallb is_draw rest = true) /\
      (flag = false -> forallb not_draw added = true) /\
      (true = false -> forallb consumer_call added = true) /\
      (true = true ->
       if flag then c' = wrap a else c' = wrap b /\ added = []).
Proof.
  intros A flag k a b wrap w c' w' Hk H. destruct flag.
  - unfold bind at 1 2 in H. unfold ret in H.
    destruct (bind ui_clear (fun _ => k) w) as [[u1 w1]|] eqn:E;
      [|discriminate].
    injection H as <- <-.
    destruct (redraw_trace _ _ _ _ Hk E) as (rest & -> & F).
    exists (E_ui_clear :: rest). split; [reflexivity|].
    split; [reflexivity|]. split; [eauto|]. split; [discriminate|].
    split; [discriminate | reflexivity].
  - injection H as <- <-. exists []. rewrite after_nil.
    split; [reflexivity|]. split; [reflexivity|].
    split; [discriminate|]. split; [reflexivity|].
    split; [discriminate | auto].
Qed.

Lemma idle_timer_case :
  forall A (wrap : option A -> async_call) w c' w',
    bind (ret None) (fun x => ret (wrap x)) w = Some (c', w') ->
    exists added,
      w' = after added w /\
      existsb is_draw added = false /\
      (false = true ->
       exists rest, added = E_ui_clear :: rest /\ forallb is_draw rest = true) /\
      (false = false -> forallb not_draw added = true) /\
      (true = false -> forallb consumer_call added = true) /\
      (true = true -> c' = wrap None /\ added = []).
Proof.
  intros A wrap w c' w' H. injection H as <- <-.
  exists []. rewrite after_nil.
  split; [reflexivity|]. split; [reflexivity|]. split; [discriminate|].
  split; [reflexivity|]. split; [discriminate | auto].
Qed.

(** C2, as amended. A call made outside of the main loop changes nothing
    of the world but the list of calls made. A line consumer calls nothing
    but [uart_clear_line_callback] and [uart_set_wifi_connected], so no
    draw primitive, no stack operation, no [free] and no send. A
    refresh-timer callback that finds [needs_redraw] set and a screen
    attached leaves the context block with the flag cleared and calls
    [ui_clear] and then draw primitives only, through [draw_screen]; a
    timer callback that finds nothing to redraw calls nothing and leaves
    the context block as it is. *)
Theorem draw_only_from_timer_redraw :
  forall (c : async_call) (w : world) (c' : async_call) (w' : world),
    run_async c w = Some (c', w') ->
    exists added,
      w' = after added w /\
      existsb is_draw added = timer_finds_redraw c /\
      (timer_finds_redraw c = true ->
       exists rest, added = E_ui_clear :: rest /\ forallb is_draw rest = true) /\
      (timer_finds_redraw c = false -> forallb not_draw added = true) /\
      (is_timer c = false -> forallb consumer_call added = true) /\
      (is_timer c = true ->
       if timer_finds_redraw c then c' = flag_cleared c
       else c' = c /\ added = []).
Proof.
  intros c w c' w' H.
  destruct c as [l ud | l ud | l d | l ud | n l ud | l ud | arg | arg | arg];
    cbn [run_async] in H; cbn [timer_finds_redraw is_timer].
  - eapply line_consumer_case; [apply promisc_line_callback_calls | exact H].
  - eapply line_consumer_case; [apply wardrive_line_callback_calls | exact H].
  - eapply line_consumer_case;
      [apply channel_time_line_callback_calls | exact H].
  - eapply line_consumer_case;
      [apply network_info_line_callback_calls | exact H].
  - eapply line_consumer_case;
      [apply handshaker_line_callback_calls | exact H].
  - eapply line_consumer_case;
      [apply data_detail_line_callback_calls | exact H].
  - destruct arg as [d|]; [|exact (idle_timer_case _ _ w c' w' H)].
    unfold WardrivePromisc.refresh_timer_callback in H.
    cbn [flag_cleared].
    eapply timer_case; [|exact H].
    unfold ui_draw_title, ui_print, ui_draw_status; repeat calls_step.
  - destruct arg as [d|]; [|exact (idle_timer_case _ _ w c' w' H)].
    unfold Wardrive.refresh_timer_callback in H.
    cbn [flag_cleared].
    eapply timer_case; [|exact H].
    unfold ui_draw_title, ui_print, ui_draw_status; repeat calls_step.
  - destruct arg as [d|]; [|exact (idle_timer_case _ _ w c' w' H)].
    unfold Handshaker.refresh_timer_callback in H.
    cbn [flag_cleared].
    eapply timer_case; [|exact H].
    unfold ui_draw_title, ui_print, ui_draw_status;
      repeat first [apply draw_captured_draws | calls_step].
Qed.

(** C2, as stated, fails: the refresh timer of the promiscuous wardrive
    screen, fired with [needs_redraw] set, clears the flag and draws the
    screen from the timer context. *)
Lemma timer_callback_draws :
  let d := WardrivePromisc.set_needs_redraw true (WardrivePromisc.fresh 3 1) in
  let w := mkWorld [] [] 1 [] [] in
  exists d' w',
    WardrivePromisc.refresh_timer_callback (Some d) w = Some (Some d', w') /\
    WardrivePromisc.needs_redraw d' = false /\
    w_trace w' =
      [E_ui_clear; E_ui_draw_title "Wardrive";
       E_ui_print 0 2 (Txt "Acquiring GPS Fix...") UI_COLOR_HIGHLIGHT;
       E_ui_print 0 4 (Txt "Need clear view of the sky.") UI_COLOR_DIMMED;
       E_ui_draw_status "ESC: Stop & Exit"] /\
    existsb is_draw (w_trace w') = true.
Proof.
  intros d w. eexists. eexists.
  split; [vm_compute; reflexivity|].
  split; [reflexivity|]. split; reflexivity.
Qed.

Lemma draw_only_from_timer_redraw_witness :
  let d := WardrivePromisc.set_needs_redraw true (WardrivePromisc.fresh 3 1) in
  let c := Timer_wardrive_promisc (Some d) in
  let w := mkWorld [] [] 1 [] [] in
  let c' := Timer_wardrive_promisc
              (Some (WardrivePromisc.set_needs_redraw false d)) in
  let w' := mkWorld
              [E_ui_clear; E_ui_draw_title "Wardrive";
               E_ui_print 0 2 (Txt "Acquiring GPS Fix...") UI_COLOR_HIGHLIGHT;
               E_ui_print 0 4 (Txt "Need clear view of the sky.")
                          UI_COLOR_DIMMED;
               E_ui_draw_status "ESC: Stop & Exit"] [] 1 [] [] in
  run_async c w = Some (c', w') /\
  exists added,
    w' = after added w /\
    existsb is_draw added = timer_finds_redraw c /\
    (timer_finds_redraw c = true ->
     exists rest, added = E_ui_clear :: rest /\ forallb is_draw rest = true) /\
    (timer_finds_redraw c = false -> forallb not_draw added = true) /\
    (is_timer c = false -> forallb consumer_call added = true) /\
    (is_timer c = true ->
     if timer_finds_redraw c then c' = flag_cleared c
     else c' = c /\ added = []).
Proof.
  intros d c w c' w'.
  assert (H : run_async c w = Some (c', w')) by reflexivity.
  split; [exact H|].
  exact (draw_only_from_timer_redraw c w c' w' H).
Defined.

(** ** Buffers and C strings *)

Lemma strncpy_chars_length :
  forall n src, List.length (strncpy_chars src n) = n.
Proof.
  induction n as [|n IH]; intros src; simpl; [reflexivity|].
  destruct src; simpl; rewrite IH; reflexivity.
Qed.

Lemma copy_result :
  forall (dst : buffer) (src : string) (n : nat),
    (n < sizeof dst)%nat ->
    (b <- strncpy dst src n ;; store b n NUL)%O
    = Some (strncpy_chars src n ++ NUL :: skipn (S n) dst).
Proof.
  intros dst src n Hn. unfold strncpy, obind, sizeof in *.
  destruct (Nat.leb_spec n (List.length dst)) as [_|Hc]; [|lia].
  unfold store, sizeof.
  rewrite length_app, strncpy_chars_length, length_skipn.
  destruct (Nat.ltb_spec n (n + (List.length dst - n))) as [_|Hc]; [|lia].
  f_equal.
  rewrite firstn_app, strncpy_chars_length, Nat.sub_diag.
  rewrite firstn_all2 by (rewrite strncpy_chars_length; lia).
  simpl firstn. rewrite app_nil_r. f_equal. f_equal.
  rewrite skipn_app, strncpy_chars_length.
  rewrite skipn_all2 by (rewrite strncpy_chars_length; lia).
  replace (S n - n)%nat with 1%nat by lia.
  rewrite app_nil_l, skipn_skipn. reflexivity.
Qed.

Lemma copy_sizeof :
  forall (dst : buffer) (src : string) (n : nat),
    (n < sizeof dst)%nat ->
    sizeof (strncpy_chars src n ++ NUL :: skipn (S n) dst) = sizeof dst.
Proof.
  intros dst src n Hn. unfold sizeof in *.
  rewrite length_app, strncpy_chars_length. cbn [Datatypes.length].
  rewrite length_skipn. lia.
Qed.

Lemma strchr_bound :
  forall s c n, strchr s c = Some n -> (n < strlen s)%nat.
Proof.
  induction s as [|a s IH]; intros c n H; simpl in H; [discriminate|].
  destruct (Ascii.eqb a c).
  - injection H as <-. unfold strlen. simpl. lia.
  - destruct (strchr s c) as [m|] eqn:E; [|discriminate].
    injection H as <-. apply IH in E. unfold strlen in *. simpl. lia.
Qed.

Lemma strncpy_chars_substring :
  forall n s, (n <= strlen s)%nat ->
    strncpy_chars s n = list_ascii_of_string (String.substring 0 n s).
Proof.
  induction n as [|n IH]; intros s Hn.
  - destruct s; reflexivity.
  - destruct s as [|a s]; unfold strlen in *; simpl in Hn; [lia|].
    simpl. f_equal. apply IH. unfold strlen. lia.
Qed.

Lemma substring_advance :
  forall off n s,
    String.substring off n s = String.substring 0 n (advance off s).
Proof.
  induction off as [|off IH]; intros n s.
  - reflexivity.
  - destruct s as [|a s]; simpl.
    + destruct n; reflexivity.
    + apply IH.
Qed.

Lemma substring_length_le :
  forall n s, (n <= strlen s)%nat -> strlen (String.substring 0 n s) = n.
Proof.
  induction n as [|n IH]; intros s Hn.
  - destruct s; reflexivity.
  - destruct s as [|a s]; unfold strlen in *; simpl in Hn; [lia|].
    simpl. f_equal. apply IH. unfold strlen. lia.
Qed.

(** A guarded copy of the field found at [off]: the statement of
    [field_committed] for it. *)
Lemma guarded_copy_committed :
  forall (dst : buffer) (line : string) (off n : nat),
    strchr (advance off line) "," = Some n ->
    (0 < n)%nat -> (n < sizeof dst)%nat ->
    field_committed dst
      (strncpy_chars (advance off line) n ++ NUL :: skipn (S n) dst)
      (field_at off line).
Proof.
  intros dst line off n Hc Hpos Hn.
  pose proof (strchr_bound _ _ _ Hc) as Hb.
  assert (Hlen : strlen (String.substring off n line) = n).
  { rewrite substring_advance. apply substring_length_le. lia. }
  unfold field_committed, field_at. rewrite Hc.
  split; [apply copy_sizeof; exact Hn|].
  split; [|split].
  - right. eexists. split; [reflexivity|].
    unfold holds. rewrite Hlen.
    split; [rewrite copy_sizeof by exact Hn; exact Hn|].
    split.
    + rewrite firstn_app, strncpy_chars_length, Nat.sub_diag.
      rewrite firstn_all2 by (rewrite strncpy_chars_length; lia).
      simpl. rewrite app_nil_r, substring_advance.
      apply strncpy_chars_substring. lia.
    + rewrite app_nth2; rewrite strncpy_chars_length; [|lia].
      rewrite Nat.sub_diag. reflexivity.
  - discriminate.
  - intros f [= <-] [Hbig | Hempty].
    + rewrite Hlen in Hbig. lia.
    + rewrite Hempty in Hlen. simpl in Hlen. lia.
Qed.

Lemma unchanged_committed :
  forall (dst : buffer) (field : option string), field_committed dst dst field.
Proof.
  intros dst field. unfold field_committed. auto.
Qed.

(** ** The comma scan of the CSV branch *)

Lemma set_field_length :
  forall fs i v, List.length (WardrivePromisc.set_field fs i v) = List.length fs.
Proof.
  induction fs as [|x fs IH]; intros [|i] v; simpl; auto.
Qed.

Lemma set_field_nth :
  forall fs i v k,
    nth k (WardrivePromisc.set_field fs i v) None =
    if (k =? i)%nat && (i <? List.length fs)%nat then Some v
    else nth k fs None.
Proof.
  induction fs as [|x fs IH]; intros i v k.
  - simpl. rewrite andb_false_r. destruct i, k; reflexivity.
  - destruct i as [|i], k as [|k]; simpl; try reflexivity.
    rewrite IH. reflexivity.
Qed.

Lemma field_start_0 : forall s, field_start 0 s = Some O.
Proof. intros [|c s]; reflexivity. Qed.

Lemma scan_fields_spec :
  forall s pos cc fs,
    List.length fs = 9%nat ->
    fst (WardrivePromisc.scan_fields s pos cc fs) = (cc + count_commas s)%nat /\
    forall k,
      nth k (snd (WardrivePromisc.scan_fields s pos cc fs)) None =
      if (cc <? k)%nat && (k <? 9)%nat then
        match field_start (k - cc) s with
        | Some o => Some (pos + o)%nat
        | None => nth k fs None
        end
      else nth k fs None.
Proof.
  induction s as [|c s IH]; intros pos cc fs Hlen.
  - simpl. split; [lia|]. intros k.
    destruct (Nat.ltb_spec cc k); simpl; [|reflexivity].
    destruct (k <? 9)%nat; [|reflexivity].
    destruct (k - cc)%nat eqn:E; [lia|reflexivity].
  - simpl. destruct (Ascii.eqb c ",") eqn:Ec.
    + set (fs1 := if (S cc <? 9)%nat
                  then WardrivePromisc.set_field fs (S cc) (S pos) else fs).
      assert (Hlen1 : List.length fs1 = 9%nat).
      { unfold fs1. destruct (S cc <? 9)%nat; [|exact Hlen].
        rewrite set_field_length. exact Hlen. }
      destruct (IH (S pos) (S cc) fs1 Hlen1) as [Hc Hk].
      split; [rewrite Hc; lia|].
      intros k. rewrite Hk.
      assert (Hfs1 : nth k fs1 None =
                     if (k =? S cc)%nat && (S cc <? 9)%nat then Some (S pos)
                     else nth k fs None).
      { unfold fs1. destruct (Nat.ltb_spec (S cc) 9).
        - rewrite set_field_nth, Hlen.
          destruct (Nat.ltb_spec (S cc) 9); [reflexivity|lia].
        - rewrite andb_false_r. reflexivity. }
      rewrite Hfs1.
      destruct (Nat.ltb_spec (S cc) k), (Nat.ltb_spec cc k),
        (Nat.ltb_spec k 9), (Nat.eqb_spec k (S cc)), (Nat.ltb_spec (S cc) 9);
        simpl; try lia; try reflexivity.
      * replace (k - cc)%nat with (S (k - S cc)) by lia.
        cbn [field_start]. rewrite ?Ec.
        destruct (field_start (k - S cc) s); simpl; [f_equal; lia|reflexivity].
      * subst k. replace (S cc - cc)%nat with 1%nat by lia.
        cbn [field_start]. rewrite ?Ec, field_start_0.
        simpl. f_equal. lia.
    + destruct (IH (S pos) cc fs Hlen) as [Hc Hk].
      split; [exact Hc|].
      intros k. rewrite Hk.
      destruct ((cc <? k)%nat && (k <? 9)%nat) eqn:E; [|reflexivity].
      apply andb_true_iff in E as [E1 _]. apply Nat.ltb_lt in E1.
      destruct (k - cc)%nat eqn:Ek; [lia|]. cbn [field_start]. rewrite ?Ec.
      destruct (field_start (S n) s); simpl; [f_equal; lia|reflexivity].
Qed.

Lemma scan_fields_line :
  forall line,
    let r := WardrivePromisc.scan_fields line 0 0
               (WardrivePromisc.set_field (repeat None 9) 0 0) in
    fst r = count_commas line /\
    nth 6 (snd r) None = field_start 6 line /\
    nth 7 (snd r) None = field_start 7 line.
Proof.
  intros line r.
  destruct (scan_fields_spec line 0 0
              (WardrivePromisc.set_field (repeat None 9) 0 0) eq_refl)
    as [Hc Hk].
  fold r in Hc, Hk. split; [exact Hc|].
  split; rewrite Hk; simpl.
  - destruct (field_start 6 line); reflexivity.
  - destruct (field_start 7 line); reflexivity.
Qed.

(** ** The CSV branch of the promiscuous wardrive screen *)

Lemma guarded_copy :
  forall A (g : buffer -> A) (a : A) (cond : bool) dst src n,
    (cond = true -> (n < sizeof dst)%nat) ->
    (if cond
     then (b <- copy_field dst src n ;; Some (g b))%O
     else Some a)
    = Some (if cond
            then g (strncpy_chars src n ++ NUL :: skipn (S n) dst) else a).
Proof.
  intros A g a [|] dst src n H; [|reflexivity].
  unfold copy_field. rewrite copy_result by auto.
  reflexivity.
Qed.

Lemma guard_bound :
  forall n m, (0 <? n)%nat && (n <? m)%nat = true -> (0 < n < m)%nat.
Proof.
  intros n m H. apply andb_true_iff in H as [H1 H2].
  apply Nat.ltb_lt in H1, H2. lia.
Qed.

(** The commit of one guarded field copy, whichever way the guard goes. *)
Lemma guarded_field_committed :
  forall dst line off n,
    strchr (advance off line) "," = Some n ->
    field_committed dst
      (if (0 <? n)%nat && (n <? sizeof dst)%nat
       then strncpy_chars (advance off line) n ++ NUL :: skipn (S n) dst
       else dst)
      (field_at off line).
Proof.
  intros dst line off n Hc.
  destruct ((0 <? n)%nat && (n <? sizeof dst)%nat) eqn:G.
  - apply guard_bound in G. apply guarded_copy_committed; [exact Hc|lia|lia].
  - apply unchanged_committed.
Qed.

Lemma csv_extract_spec :
  forall line d,
    promisc_sizes d ->
    exists d',
      WardrivePromisc.csv_extract line d = Some d' /\
      WardrivePromisc.state d' = WardrivePromisc.state d /\
      WardrivePromisc.gps_wait_elapsed d' = WardrivePromisc.gps_wait_elapsed d /\
      WardrivePromisc.gps_wait_timeout d' = WardrivePromisc.gps_wait_timeout d /\
      WardrivePromisc.unique_networks d' = WardrivePromisc.unique_networks d /\
      WardrivePromisc.needs_redraw d' = WardrivePromisc.needs_redraw d /\
      WardrivePromisc.refresh_timer d' = WardrivePromisc.refresh_timer d /\
      WardrivePromisc.self d' = WardrivePromisc.self d /\
      field_committed (WardrivePromisc.last_ssid d)
                      (WardrivePromisc.last_ssid d') (ssid_field line) /\
      field_committed (WardrivePromisc.lat d) (WardrivePromisc.lat d')
                      (csv_field 6 line) /\
      field_committed (WardrivePromisc.lon d) (WardrivePromisc.lon d')
                      (csv_field 7 line) /\
      ((count_commas line < 8)%nat ->
       WardrivePromisc.lat d' = WardrivePromisc.lat d /\
       WardrivePromisc.lon d' = WardrivePromisc.lon d).
Proof.
  intros line d (Hs & Hla & Hlo).
  unfold WardrivePromisc.csv_extract.
  assert (Hssid :
    exists d1,
      match strchr (advance 18 line) "," with
      | Some ssid_len =>
          if (0 <? ssid_len)%nat
             && (ssid_len <? sizeof (WardrivePromisc.last_ssid d))%nat
          then (b <- copy_field (WardrivePromisc.last_ssid d)
                       (advance 18 line) ssid_len ;;
                Some (WardrivePromisc.set_last_ssid b d))%O
          else Some d
      | None => Some d
      end = Some d1 /\
      (exists b, d1 = WardrivePromisc.set_last_ssid b d /\
                 field_committed (WardrivePromisc.last_ssid d) b
                                 (ssid_field line))).
  { unfold ssid_field.
    destruct (strchr (advance 18 line) ",") as [n|] eqn:Es.
    - rewrite guarded_copy by (intros G; apply guard_bound in G; lia).
      eexists. split; [reflexivity|].
      pose proof (guarded_field_committed (WardrivePromisc.last_ssid d)
                    line 18 n Es) as C.
      destruct ((0 <? n)%nat
                && (n <? sizeof (WardrivePromisc.last_ssid d))%nat).
      + eexists. split; [reflexivity | exact C].
      + exists (WardrivePromisc.last_ssid d). split; [destruct d; reflexivity|].
        exact C.
    - exists d. split; [reflexivity|].
      exists (WardrivePromisc.last_ssid d). split; [destruct d; reflexivity|].
      apply unchanged_committed. }
  destruct Hssid as (d1 & -> & b & -> & Cs).
  cbn [obind].
  destruct (scan_fields_line line) as (Hcc & H6 & H7).
  destruct (WardrivePromisc.scan_fields line 0 0
              (WardrivePromisc.set_field (repeat None 9) 0 0)) as [cc fs].
  cbn [fst snd] in Hcc, H6, H7. rewrite H6, H7, Hcc. clear H6 H7 Hcc cc fs.
  assert (Hkeep :
    exists d',
      Some (WardrivePromisc.set_last_ssid b d) = Some d' /\
      WardrivePromisc.state d' = WardrivePromisc.state d /\
      WardrivePromisc.gps_wait_elapsed d' = WardrivePromisc.gps_wait_elapsed d /\
      WardrivePromisc.gps_wait_timeout d' = WardrivePromisc.gps_wait_timeout d /\
      WardrivePromisc.unique_networks d' = WardrivePromisc.unique_networks d /\
      WardrivePromisc.needs_redraw d' = WardrivePromisc.needs_redraw d /\
      WardrivePromisc.refresh_timer d' = WardrivePromisc.refresh_timer d /\
      WardrivePromisc.self d' = WardrivePromisc.self d /\
      field_committed (WardrivePromisc.last_ssid d)
                      (WardrivePromisc.last_ssid d') (ssid_field line) /\
      field_committed (WardrivePromisc.lat d) (WardrivePromisc.lat d')
                      (csv_field 6 line) /\
      field_committed (WardrivePromisc.lon d) (WardrivePromisc.lon d')
                      (csv_field 7 line) /\
      ((count_commas line < 8)%nat ->
       WardrivePromisc.lat d' = WardrivePromisc.lat d /\
       WardrivePromisc.lon d' = WardrivePromisc.lon d)).
  { eexists. split; [reflexivity|]. simpl.
    repeat (split; [first [reflexivity | exact Cs
                          | apply unchanged_committed]|]).
    auto. }
  destruct (Nat.leb_spec 8 (count_commas line)) as [H8|H8]; [|exact Hkeep].
  unfold csv_field in Hkeep |- *.
  destruct (field_start 6 line) as [lat_s|]; [|exact Hkeep].
  destruct (field_start 7 line) as [lon_s|]; [|exact Hkeep].
  destruct (strchr (advance lat_s line) ",") as [ll|] eqn:Ela; [|exact Hkeep].
  destruct (strchr (advance lon_s line) ",") as [lo|] eqn:Elo; [|exact Hkeep].
  clear Hkeep.
  rewrite guarded_copy
    by (simpl; intros G; apply guard_bound in G; lia).
  cbn [obind].
  rewrite guarded_copy
    by (intros G; apply guard_bound in G; exact (proj2 G)).
  eexists. split; [reflexivity|].
  pose proof (guarded_field_committed (WardrivePromisc.lat d) line lat_s ll Ela)
    as Cla.
  pose proof (guarded_field_committed (WardrivePromisc.lon d) line lon_s lo Elo)
    as Clo.
  simpl in *.
  destruct ((0 <? ll)%nat && (ll <? sizeof (WardrivePromisc.lat d))%nat);
    simpl in *;
    destruct ((0 <? lo)%nat && (lo <? sizeof (WardrivePromisc.lon d))%nat);
    simpl;
    repeat (split; [first [reflexivity | assumption]|]); intros; lia.
Qed.

(** ** The recognizers of the wardrive screen never write out of bounds *)

Lemma wardrive_csv_branch_spec :
  forall line d,
    wardrive_sizes d ->
    exists d1,
      Wardrive.csv_branch line d = Some d1 /\
      Wardrive.state d1 = Wardrive.state d /\
      Wardrive.last_log_line d1 = Wardrive.last_log_line d /\
      Wardrive.lat d1 = Wardrive.lat d /\
      Wardrive.lon d1 = Wardrive.lon d /\
      field_committed (Wardrive.last_ssid d) (Wardrive.last_ssid d1)
                      (ssid_field line).
Proof.
  intros line d (_ & Hs & _ & _).
  unfold Wardrive.csv_branch, ssid_field.
  destruct (strchr (advance 18 line) ",") as [n|] eqn:Es.
  - rewrite guarded_copy by (intros G; apply guard_bound in G; lia).
    eexists. split; [reflexivity|].
    pose proof (guarded_field_committed (Wardrive.last_ssid d) line 18 n Es)
      as C.
    destruct ((0 <? n)%nat && (n <? sizeof (Wardrive.last_ssid d))%nat);
      simpl; auto 10.
  - exists d. repeat (split; [reflexivity|]). apply unchanged_committed.
Qed.

Lemma store_result :
  forall b i c,
    (i < sizeof b)%nat ->
    exists b', store b i c = Some b' /\ sizeof b' = sizeof b.
Proof.
  intros b i c Hi. unfold store.
  destruct (Nat.ltb_spec i (sizeof b)) as [_|Hc]; [|lia].
  eexists. split; [reflexivity|]. unfold sizeof in *.
  rewrite length_app, length_firstn. cbn [Datatypes.length].
  rewrite length_skipn. lia.
Qed.

Lemma trim_trailing_result :
  forall e b,
    (e < sizeof b)%nat ->
    exists b', Wardrive.trim_trailing b e = Some b' /\ sizeof b' = sizeof b.
Proof.
  induction e as [|e IH]; intros b He.
  - exists b. auto.
  - cbn [Wardrive.trim_trailing].
    destruct (Ascii.eqb (nth (S e) b NUL) "010" ||
              Ascii.eqb (nth (S e) b NUL) "013" ||
              Ascii.eqb (nth (S e) b NUL) " ").
    + destruct (store_result b (S e) NUL He) as (b1 & -> & Hb1).
      cbn [obind]. destruct (IH b1) as (b2 & -> & Hb2); [lia|].
      exists b2. split; [reflexivity | lia].
    + exists b. auto.
Qed.

Lemma c_str_length :
  forall b, (strlen (c_str b) <= sizeof b)%nat.
Proof.
  induction b as [|c b IH]; simpl; [lia|].
  destruct (Ascii.eqb c NUL); unfold strlen, sizeof in *; simpl; lia.
Qed.

Ltac wardrive_fields :=
  unfold wardrive_sizes, Wardrive.set_lat, Wardrive.set_lon,
    Wardrive.set_last_log_line, Wardrive.set_needs_redraw, Wardrive.set_state;
  cbn [Wardrive.last_log_line Wardrive.last_ssid Wardrive.lat Wardrive.lon
       Wardrive.state].

Lemma wardrive_gps_branch_spec :
  forall line k d,
    wardrive_sizes d ->
    exists d2,
      Wardrive.gps_branch line k d = Some d2 /\ wardrive_sizes d2 /\
      Wardrive.last_ssid d2 = Wardrive.last_ssid d /\
      Wardrive.state d2 = Wardrive.state d.
Proof.
  intros line k d (Hl & Hs & Hla & Hlo).
  unfold Wardrive.gps_branch.
  destruct (strchr (advance (k + strlen "GPS: Lat=") line) " ") as [n|];
    [|exists d; unfold wardrive_sizes; auto 10].
  rewrite guarded_copy by (apply Nat.ltb_lt).
  cbn [obind].
  set (d1 := if (n <? sizeof (Wardrive.lat d))%nat then _ else d).
  assert (H1 : wardrive_sizes d1 /\
               Wardrive.last_ssid d1 = Wardrive.last_ssid d /\
               Wardrive.state d1 = Wardrive.state d).
  { unfold d1. destruct (Nat.ltb_spec n (sizeof (Wardrive.lat d))).
    - wardrive_fields. rewrite copy_sizeof by assumption. auto 10.
    - unfold wardrive_sizes. auto 10. }
  clearbody d1. destruct H1 as ((Hl1 & Hs1 & Hla1 & Hlo1) & Hss1 & Hst1).
  assert (Hlon :
    exists d2,
      match strstr (advance (k + strlen "GPS: Lat=" + n) line) "Lon=" with
      | Some lon_ptr =>
          match strchr (advance (k + strlen "GPS: Lat=" + n + lon_ptr
                                 + strlen "Lon=") line) " " with
          | Some lon_len =>
              if (lon_len <? sizeof (Wardrive.lon d1))%nat
              then (b <- copy_field (Wardrive.lon d1)
                           (advance (k + strlen "GPS: Lat=" + n + lon_ptr
                                     + strlen "Lon=") line) lon_len ;;
                    Some (Wardrive.set_lon b d1))%O
              else Some d1
          | None => Some d1
          end
      | None => Some d1
      end = Some d2 /\ wardrive_sizes d2 /\
      Wardrive.last_ssid d2 = Wardrive.last_ssid d1 /\
      Wardrive.state d2 = Wardrive.state d1).
  { destruct (strstr _ "Lon=") as [lp|];
      [|exists d1; unfold wardrive_sizes; auto 10].
    destruct (strchr _ " ") as [m|];
      [|exists d1; unfold wardrive_sizes; auto 10].
    rewrite guarded_copy by (apply Nat.ltb_lt).
    eexists. split; [reflexivity|].
    destruct (Nat.ltb_spec m (sizeof (Wardrive.lon d1))).
    - wardrive_fields. rewrite copy_sizeof by assumption. auto 10.
    - unfold wardrive_sizes. auto 10. }
  destruct Hlon as (d2 & -> & (Hl2 & Hs2 & Hla2 & Hlo2) & Hss2 & Hst2).
  cbn [obind]. eexists. split; [reflexivity|].
  wardrive_fields. rewrite Hss2, Hst2. auto 10.
Qed.

Lemma strncpy_result :
  forall dst src n,
    (n <= sizeof dst)%nat ->
    exists b, strncpy dst src n = Some b /\ sizeof b = sizeof dst.
Proof.
  intros dst src n Hn. unfold strncpy.
  destruct (Nat.leb_spec n (sizeof dst)) as [_|Hc]; [|lia].
  eexists. split; [reflexivity|]. unfold sizeof in *.
  rewrite length_app, strncpy_chars_length, length_skipn. lia.
Qed.

Lemma wardrive_logged_branch_spec :
  forall line k d,
    wardrive_sizes d ->
    exists d2,
      Wardrive.logged_branch line k d = Some d2 /\ wardrive_sizes d2 /\
      Wardrive.last_ssid d2 = Wardrive.last_ssid d /\
      Wardrive.state d2 = Wardrive.state d.
Proof.
  intros line k d (Hl & Hs & Hla & Hlo).
  unfold Wardrive.logged_branch.
  destruct (found (strstr (advance k line) "networks to"));
    [|exists d; unfold wardrive_sizes; auto 10].
  destruct (strncpy_result (Wardrive.last_log_line d) (advance k line)
              (Wardrive.MAX_LOG_LINE - 1)) as (b1 & -> & Hb1);
    [rewrite Hl; unfold Wardrive.MAX_LOG_LINE; lia|].
  cbn [obind].
  destruct (store_result b1 (Wardrive.MAX_LOG_LINE - 1) NUL) as (b2 & -> & Hb2);
    [rewrite Hb1, Hl; unfold Wardrive.MAX_LOG_LINE; lia|].
  cbn [obind].
  destruct (trim_trailing_result (strlen (c_str b2) - 1) b2) as (b3 & -> & Hb3).
  { pose proof (c_str_length b2). rewrite Hb2, Hb1, Hl in *.
    unfold Wardrive.MAX_LOG_LINE in *. lia. }
  cbn [obind]. eexists. split; [reflexivity|].
  wardrive_fields. rewrite Hb3, Hb2, Hb1. auto.
Qed.

Lemma wardrive_later_recognizers_spec :
  forall line d,
    wardrive_sizes d ->
    exists d2,
      Wardrive.later_recognizers line d = Some d2 /\ wardrive_sizes d2 /\
      Wardrive.last_ssid d2 = Wardrive.last_ssid d.
Proof.
  intros line d Hd. unfold Wardrive.later_recognizers.
  destruct (found (strstr line "GPS fix obtained")).
  - eexists. split; [reflexivity|]. split; [exact Hd | reflexivity].
  - destruct (strstr line "GPS: Lat=") as [k|].
    + destruct (wardrive_gps_branch_spec line k d Hd) as (d2 & E & H2 & Hs & _).
      eauto.
    + destruct (strstr line "Logged ") as [k|].
      * destruct (wardrive_logged_branch_spec line k d Hd)
          as (d2 & E & H2 & Hs & _).
        eauto.
      * exists d. auto.
Qed.










(** ** Labeled Lat/Lon extraction *)

Lemma advance_app :
  forall pre n s, advance (strlen pre + n) (pre ++ s)%string = advance n s.
Proof.
  induction pre as [|c pre IH]; intros n s; simpl; [reflexivity|apply IH].
Qed.

(** The scan of the Lon value stops exactly where the specification ends
    the last field. *)
Lemma lon_scan_ends :
  forall post,
    WardrivePromisc.lon_scan post = O <-> ends_last_field post = true.
Proof.
  intros [|c r]; [split; reflexivity|].
  cbn [WardrivePromisc.lon_scan ends_last_field].
  assert (Hd : isdigit (deref r)
               = match r with
                 | String c' _ => isdigit c'
                 | EmptyString => false
                 end) by (destruct r; reflexivity).
  rewrite Hd. clear Hd.
  generalize (WardrivePromisc.lon_scan r).
  generalize (match r with
              | String c' _ => isdigit c'
              | EmptyString => false
              end).
  intros b n.
  destruct c as [b0 b1 b2 b3 b4 b5 b6 b7].
  destruct b0, b1, b2, b3, b4, b5, b6, b7; destruct b;
    cbn; split; intros H; first [reflexivity | discriminate H].
Qed.

Lemma promisc_lat_lon_example :
  forall pre post d,
    promisc_sizes d ->
    strstr (pre ++ "Lat=12.345 Lon=-6.78" ++ post)%string "Lat="
    = Some (strlen pre) ->
    ends_last_field post = true ->
    exists d',
      WardrivePromisc.parse_lat_lon
        (pre ++ "Lat=12.345 Lon=-6.78" ++ post)%string d = Some d' /\
      c_str (WardrivePromisc.lat d') = "12.345" /\
      c_str (WardrivePromisc.lon d') = "-6.78" /\
      WardrivePromisc.last_ssid d' = WardrivePromisc.last_ssid d /\
      WardrivePromisc.state d' = WardrivePromisc.state d.
Proof.
  intros pre post d (Hs & Hla & Hlo) Hfind Hpost.
  apply lon_scan_ends in Hpost.
  unfold WardrivePromisc.parse_lat_lon. rewrite Hfind.
  rewrite advance_app.
  change (advance (strlen "Lat=") ("Lat=12.345 Lon=-6.78" ++ post)%string)
    with ("12.345 Lon=-6.78" ++ post)%string.
  change (strchr ("12.345 Lon=-6.78" ++ post)%string " ") with (Some 6%nat).
  rewrite Hla. cbn [Nat.ltb Nat.leb].
  unfold copy_field. rewrite copy_result by lia. cbn [obind].
  replace (strlen pre + strlen "Lat=" + 6)%nat with (strlen pre + 10)%nat
    by (simpl; lia).
  rewrite (advance_app pre 10).
  change (advance 10 ("Lat=12.345 Lon=-6.78" ++ post)%string)
    with (" Lon=-6.78" ++ post)%string.
  change (strstr (" Lon=-6.78" ++ post)%string "Lon=") with (Some 1%nat).
  cbv beta iota.
  replace (strlen pre + 10 + 1 + strlen "Lon=")%nat
    with (strlen pre + 15)%nat by (simpl; lia).
  rewrite (advance_app pre 15).
  change (advance 15 ("Lat=12.345 Lon=-6.78" ++ post)%string)
    with ("-6.78" ++ post)%string.
  assert (Hscan : WardrivePromisc.lon_scan ("-6.78" ++ post)%string = 5%nat).
  { simpl. rewrite Hpost. reflexivity. }
  rewrite Hscan.
  set (d1 := WardrivePromisc.set_lat _ d).
  assert (Hlo1 : sizeof (WardrivePromisc.lon d1) = 16%nat) by exact Hlo.
  rewrite Hlo1. cbn [Nat.ltb Nat.leb andb].
  rewrite copy_result by (rewrite Hlo1; lia). cbn [obind].
  eexists. split; [reflexivity|].
  simpl. auto.
Qed.

Lemma promisc_lat_without_space :
  forall str d,
    (forall k, strstr str "Lat=" = Some k ->
               strchr (advance (k + strlen "Lat=") str) " " = None) ->
    WardrivePromisc.parse_lat_lon str d = Some d.
Proof.
  intros str d H. unfold WardrivePromisc.parse_lat_lon.
  destruct (strstr str "Lat=") as [k|]; [|reflexivity].
  rewrite (H k eq_refl). reflexivity.
Qed.

(** Evaluating the searches on a literal line. *)
Ltac eval_searches :=
  repeat match goal with
    | |- context [strchr (advance ?n ?s) ?c] =>
        let v := eval vm_compute in (strchr (advance n s) c) in
        change (strchr (advance n s) c) with v; cbv beta iota
    | |- context [strstr (advance ?n ?s) ?c] =>
        let v := eval vm_compute in (strstr (advance n s) c) in
        change (strstr (advance n s) c) with v; cbv beta iota
    | |- context [strstr ?s ?c] =>
        let v := eval vm_compute in (strstr s c) in
        change (strstr s c) with v; cbv beta iota
    | |- context [found ?o] =>
        let v := eval vm_compute in (found o) in
        change (found o) with v; cbv beta iota
    end.

Lemma wardrive_gps_line_with_space :
  forall d w,
    wardrive_sizes d ->
    exists d',
      Wardrive.uart_line_callback "GPS: Lat=12.345 Lon=-6.78 " (Some d) w
      = Some (Some d', w) /\
      c_str (Wardrive.lat d') = "12.345" /\
      c_str (Wardrive.lon d') = "-6.78".
Proof.
  intros d w (Hl & Hs & Hla & Hlo).
  unfold Wardrive.uart_line_callback.
  change (Wardrive.is_mac_csv "GPS: Lat=12.345 Lon=-6.78 ") with false.
  unfold bind, lift, ret, Wardrive.later_recognizers, Wardrive.gps_branch.
  eval_searches.
  rewrite Hla. cbn [Nat.ltb Nat.leb].
  unfold copy_field. rewrite copy_result by lia. cbn [obind].
  set (d1 := Wardrive.set_lat _ d).
  assert (Hlo1 : sizeof (Wardrive.lon d1) = 16%nat) by exact Hlo.
  rewrite Hlo1. cbn [Nat.ltb Nat.leb].
  rewrite copy_result by (rewrite Hlo1; lia). cbn [obind].
  eexists. split; [reflexivity|]. simpl. auto.
Qed.

Lemma wardrive_gps_line_without_space :
  forall d w,
    wardrive_sizes d ->
    exists d',
      Wardrive.uart_line_callback "GPS: Lat=12.345 Lon=-6.78" (Some d) w
      = Some (Some d', w) /\
      c_str (Wardrive.lat d') = "12.345" /\
      Wardrive.lon d' = Wardrive.lon d.
Proof.
  intros d w (Hl & Hs & Hla & Hlo).
  unfold Wardrive.uart_line_callback.
  change (Wardrive.is_mac_csv "GPS: Lat=12.345 Lon=-6.78") with false.
  unfold bind, lift, ret, Wardrive.later_recognizers, Wardrive.gps_branch.
  eval_searches.
  rewrite Hla. cbn [Nat.ltb Nat.leb].
  unfold copy_field. rewrite copy_result by lia. cbn [obind].
  eexists. split; [reflexivity|]. simpl. auto.
Qed.

Lemma wardrive_gps_without_marker :
  forall d w,
    Wardrive.uart_line_callback "Lat=12.345 Lon=-6.78" (Some d) w
    = Some (Some d, w).
Proof. intros d w. reflexivity. Qed.

Lemma wardrive_lat_without_space :
  forall line k d,
    strchr (advance (k + strlen "GPS: Lat=") line) " " = None ->
    Wardrive.gps_branch line k d = Some d.
Proof.
  intros line k d H. unfold Wardrive.gps_branch. rewrite H. reflexivity.
Qed.

(** C4, as amended. [parse_lat_lon] of the promiscuous wardrive screen, on a
    line whose first ["Lat="] opens ["Lat=12.345 Lon=-6.78"], yields lat
    ["12.345"] and lon ["-6.78"] whenever the text behind the Lon value
    ends the last field in the words of the specification: it is empty, or
    its first character is not a digit, not a ['-'] and not a ['.'] before
    a digit. So do the lines ["Lat=12.345 Lon=-6.78"] and
    ["Lat=12.345 Lon=-6.78."], with the period at the end of the line. The
    scan of the Lon value stops at exactly these texts. When no space
    follows the Lat value nothing is changed. The older wardrive screen
    recognises ["GPS: Lat="] only and ends the Lon value at the next
    space: with a space after it both values are stored, without one lat
    is stored and lon keeps its prior value, and a line without that
    marker, or without a space after the Lat value, changes neither. *)
Theorem lat_lon_extraction :
  (forall pre post d,
      promisc_sizes d ->
      strstr (pre ++ "Lat=12.345 Lon=-6.78" ++ post)%string "Lat="
      = Some (strlen pre) ->
      ends_last_field post = true ->
      exists d',
        WardrivePromisc.parse_lat_lon
          (pre ++ "Lat=12.345 Lon=-6.78" ++ post)%string d = Some d' /\
        c_str (WardrivePromisc.lat d') = "12.345" /\
        c_str (WardrivePromisc.lon d') = "-6.78") /\
  (forall d,
      promisc_sizes d ->
      (exists d',
          WardrivePromisc.parse_lat_lon "Lat=12.345 Lon=-6.78" d = Some d' /\
          c_str (WardrivePromisc.lat d') = "12.345" /\
          c_str (WardrivePromisc.lon d') = "-6.78") /\
      (exists d',
          WardrivePromisc.parse_lat_lon "Lat=12.345 Lon=-6.78." d = Some d' /\
          c_str (WardrivePromisc.lat d') = "12.345" /\
          c_str (WardrivePromisc.lon d') = "-6.78")) /\
  (forall post,
      WardrivePromisc.lon_scan post = O <-> ends_last_field post = true) /\
  (forall str d,
      (forall k, strstr str "Lat=" = Some k ->
                 strchr (advance (k + strlen "Lat=") str) " " = None) ->
      WardrivePromisc.parse_lat_lon str d = Some d) /\
  (forall d w,
      wardrive_sizes d ->
      exists d',
        Wardrive.uart_line_callback "GPS: Lat=12.345 Lon=-6.78 " (Some d) w
        = Some (Some d', w) /\
        c_str (Wardrive.lat d') = "12.345" /\
        c_str (Wardrive.lon d') = "-6.78") /\
  (forall d w,
      wardrive_sizes d ->
      exists d',
        Wardrive.uart_line_callback "GPS: Lat=12.345 Lon=-6.78" (Some d) w
        = Some (Some d', w) /\
        c_str (Wardrive.lat d') = "12.345" /\
        Wardrive.lon d' = Wardrive.lon d) /\
  (forall d w,
      Wardrive.uart_line_callback "Lat=12.345 Lon=-6.78" (Some d) w
      = Some (Some d, w)) /\
  (forall line k d,
      strchr (advance (k + strlen "GPS: Lat=") line) " " = None ->
      Wardrive.gps_branch line k d = Some d).
Proof.
  split.
  { intros pre post d Hd Hfind Hpost.
    destruct (promisc_lat_lon_example pre post d Hd Hfind Hpost)
      as (d' & E & Hla & Hlo & _).
    eauto. }
  split.
  { intros d Hd. split.
    - destruct (promisc_lat_lon_example "" "" d Hd eq_refl eq_refl)
        as (d' & E & Hla & Hlo & _).
      eauto.
    - destruct (promisc_lat_lon_example "" "." d Hd eq_refl eq_refl)
        as (d' & E & Hla & Hlo & _).
      eauto. }
  split; [exact lon_scan_ends|].
  split; [exact promisc_lat_without_space|].
  split; [exact wardrive_gps_line_with_space|].
  split; [exact wardrive_gps_line_without_space|].
  split; [exact wardrive_gps_without_marker|].
  exact wardrive_lat_without_space.
Qed.

Lemma lat_lon_extraction_witness :
  let pre := "GPS fix recovered: " in
  let post := "." in
  let d := WardrivePromisc.fresh 3 1 in
  (promisc_sizes d /\
   strstr (pre ++ "Lat=12.345 Lon=-6.78" ++ post)%string "Lat="
   = Some (strlen pre) /\
   ends_last_field post = true) /\
  exists d',
    WardrivePromisc.parse_lat_lon
      "GPS fix recovered: Lat=12.345 Lon=-6.78." d = Some d' /\
    c_str (WardrivePromisc.lat d') = "12.345" /\
    c_str (WardrivePromisc.lon d') = "-6.78".
Proof.
  intros pre post d.
  assert (H : promisc_sizes d /\
              strstr (pre ++ "Lat=12.345 Lon=-6.78" ++ post)%string "Lat="
              = Some (strlen pre) /\
              ends_last_field post = true).
  { split; [repeat split; reflexivity|]. split; reflexivity. }
  split; [exact H|].
  exact (proj1 lat_lon_extraction pre post d
               (proj1 H) (proj1 (proj2 H)) (proj2 (proj2 H))).
Defined.

(** C4, as stated, fails on the older wardrive screen: behind the marker
    ["GPS: Lat="] a Lon value at the end of the line is not stored, with
    or without a trailing period, and a trailing period that a space
    follows is kept in the value. *)
Lemma wardrive_lon_at_end_of_line_is_dropped :
  let w := mkWorld [] [] 1 [] [] in
  let d := Wardrive.fresh 3 1 in
  (exists d',
      Wardrive.uart_line_callback "GPS: Lat=12.345 Lon=-6.78" (Some d) w
      = Some (Some d', w) /\
      c_str (Wardrive.lat d') = "12.345" /\
      c_str (Wardrive.lon d') <> "-6.78") /\
  (exists d',
      Wardrive.uart_line_callback "GPS: Lat=12.345 Lon=-6.78." (Some d) w
      = Some (Some d', w) /\
      c_str (Wardrive.lat d') = "12.345" /\
      c_str (Wardrive.lon d') <> "-6.78") /\
  (exists d',
      Wardrive.uart_line_callback "GPS: Lat=12.345 Lon=-6.78. " (Some d) w
      = Some (Some d', w) /\
      c_str (Wardrive.lat d') = "12.345" /\
      c_str (Wardrive.lon d') = "-6.78.").
Proof.
  intros w d. split; [|split].
  - eexists. split; [vm_compute; reflexivity|].
    split; [reflexivity | discriminate].
  - eexists. split; [vm_compute; reflexivity|].
    split; [reflexivity | discriminate].
  - eexists. split; [vm_compute; reflexivity|].
    split; reflexivity.
Qed.

(** ** Order of the recognizers *)

(** C5, as amended. In the promiscuous wardrive screen a MAC-CSV row is
    handled by the CSV recognizer alone: the consumer returns with the CSV
    fields committed, the network count incremented and [needs_redraw] set,
    and with the GPS state and the countdown values untouched, whatever
    else the line contains. In the older wardrive screen the CSV branch
    does not return: the later recognizers run on the same line after it,
    so a row that contains ["GPS fix obtained"] also moves the screen to
    [STATE_RUNNING]. *)
Theorem csv_row_recognizer_order :
  (forall line d w,
      WardrivePromisc.is_mac_csv line = true ->
      promisc_sizes d ->
      exists d1 d',
        WardrivePromisc.csv_extract line d = Some d1 /\
        WardrivePromisc.uart_line_callback line (Some d) w
        = Some (Some d', w) /\
        WardrivePromisc.last_ssid d' = WardrivePromisc.last_ssid d1 /\
        WardrivePromisc.lat d' = WardrivePromisc.lat d1 /\
        WardrivePromisc.lon d' = WardrivePromisc.lon d1 /\
        WardrivePromisc.state d' = WardrivePromisc.state d /\
        WardrivePromisc.gps_wait_elapsed d'
        = WardrivePromisc.gps_wait_elapsed d /\
        WardrivePromisc.gps_wait_timeout d'
        = WardrivePromisc.gps_wait_timeout d /\
        WardrivePromisc.unique_networks d'
        = wrap_int (WardrivePromisc.unique_networks d + 1) /\
        WardrivePromisc.needs_redraw d' = true) /\
  (forall line d w,
      Wardrive.is_mac_csv line = true ->
      wardrive_sizes d ->
      exists d1 d',
        Wardrive.csv_branch line d = Some d1 /\
        Wardrive.later_recognizers line d1 = Some d' /\
        Wardrive.uart_line_callback line (Some d) w = Some (Some d', w) /\
        (found (strstr line "GPS fix obtained") = true ->
         Wardrive.state d' = Wardrive.STATE_RUNNING)).
Proof.
  split.
  - intros line d w Hcsv Hd.
    destruct (csv_extract_spec line d Hd)
      as (d1 & E & Hst & He & Ht & Hu & _).
    unfold WardrivePromisc.uart_line_callback. rewrite Hcsv.
    unfold bind, lift, ret. rewrite E.
    exists d1. eexists. split; [reflexivity|]. split; [reflexivity|].
    cbn. rewrite Hu. auto 10.
  - intros line d w Hcsv Hd.
    destruct (wardrive_csv_branch_spec line d Hd)
      as (d1 & E & Hst & Hlog & Hla & Hlo & Cs).
    assert (Hd1 : wardrive_sizes d1).
    { destruct Hd as (Zl & Zs & Zla & Zlo), Cs as (Z1 & _).
      unfold wardrive_sizes. rewrite Hlog, Hla, Hlo, Z1. auto. }
    destruct (wardrive_later_recognizers_spec line d1 Hd1)
      as (d2 & E2 & _).
    exists d1, d2.
    split; [exact E|]. split; [exact E2|].
    unfold Wardrive.uart_line_callback. rewrite Hcsv.
    unfold bind, lift, ret. rewrite E, E2.
    split; [reflexivity|].
    intros Hfix. unfold Wardrive.later_recognizers in E2.
    rewrite Hfix in E2. injection E2 as <-. reflexivity.
Qed.

Lemma csv_row_recognizer_order_witness :
  let line := "AA:BB:CC:DD:EE:FF,GPS fix obtained,[WPA2]" in
  let d := WardrivePromisc.fresh 3 1 in
  let w := mkWorld [] [] 1 [] [] in
  (WardrivePromisc.is_mac_csv line = true /\ promisc_sizes d) /\
  exists d1 d',
    WardrivePromisc.csv_extract line d = Some d1 /\
    WardrivePromisc.uart_line_callback line (Some d) w = Some (Some d', w) /\
    WardrivePromisc.last_ssid d' = WardrivePromisc.last_ssid d1 /\
    WardrivePromisc.lat d' = WardrivePromisc.lat d1 /\
    WardrivePromisc.lon d' = WardrivePromisc.lon d1 /\
    WardrivePromisc.state d' = WardrivePromisc.state d /\
    WardrivePromisc.gps_wait_elapsed d' = WardrivePromisc.gps_wait_elapsed d /\
    WardrivePromisc.gps_wait_timeout d' = WardrivePromisc.gps_wait_timeout d /\
    WardrivePromisc.unique_networks d'
    = wrap_int (WardrivePromisc.unique_networks d + 1) /\
    WardrivePromisc.needs_redraw d' = true.
Proof.
  intros line d w.
  assert (H : WardrivePromisc.is_mac_csv line = true /\ promisc_sizes d).
  { split; [reflexivity|]. repeat split; reflexivity. }
  split; [exact H|].
  exact (proj1 csv_row_recognizer_order line d w (proj1 H) (proj2 H)).
Defined.

(** C5, as stated, fails on the older wardrive screen: a MAC-CSV row that
    contains ["GPS fix obtained"] is also taken by the GPS-fix recognizer. *)
Lemma wardrive_csv_row_falls_through :
  let line := "AA:BB:CC:DD:EE:FF,GPS fix obtained,[WPA2]" in
  let d := Wardrive.fresh 3 1 in
  let w := mkWorld [] [] 1 [] [] in
  Wardrive.is_mac_csv line = true /\
  Wardrive.state d = Wardrive.STATE_WAITING_GPS /\
  exists d',
    Wardrive.uart_line_callback line (Some d) w = Some (Some d', w) /\
    c_str (Wardrive.last_ssid d') = "GPS fix obtained" /\
    Wardrive.state d' = Wardrive.STATE_RUNNING.
Proof.
  intros line d w. split; [reflexivity|]. split; [reflexivity|].
  eexists. split; [reflexivity|]. split; reflexivity.
Qed.

(** ** Responses of the channel-time settings screen *)

Lemma digit_not_space : forall c, isdigit c = true -> isspace c = false.
Proof.
  intros c. unfold isdigit, isspace. cbv zeta. intros H.
  apply andb_true_iff in H as [H1 H2]. apply Nat.leb_le in H1, H2.
  apply orb_false_iff. split.
  - apply Nat.eqb_neq. lia.
  - apply andb_false_iff. right. apply Nat.leb_gt. lia.
Qed.

Lemma skip_to_digit_skip_space :
  forall s,
    ChannelTime.skip_to_digit (skip_space s) = ChannelTime.skip_to_digit s.
Proof.
  induction s as [|c s IH]; [reflexivity|].
  simpl. destruct (isspace c) eqn:Es.
  - rewrite IH. destruct (isdigit c) eqn:Ed; [|reflexivity].
    rewrite (digit_not_space c Ed) in Es. discriminate.
  - reflexivity.
Qed.

Lemma digits_acc_value :
  forall s acc,
    fst (digits_acc s acc) =
    fold_left (fun a c => (a * 10 + digit_val c)%Z)
              (list_ascii_of_string (leading_digits s)) acc.
Proof.
  induction s as [|c s IH]; intros acc; [reflexivity|].
  simpl. destruct (isdigit c); [|reflexivity].
  simpl. apply IH.
Qed.

Lemma strtol10_on_digit :
  forall c r,
    isdigit c = true ->
    strtol10 (String c r) =
    Some (Z.min INT_MAX (fst (digits_acc (String c r) 0)),
          snd (digits_acc (String c r) 0)).
Proof.
  intros c r Hd.
  destruct c as [b0 b1 b2 b3 b4 b5 b6 b7].
  destruct b0, b1, b2, b3, b4, b5, b6, b7; try discriminate Hd;
    unfold strtol10; cbn [skip_space isspace isdigit nat_of_ascii];
    simpl; destruct (digits_acc r _); reflexivity.
Qed.

Lemma skip_to_digit_cases :
  forall s,
    (ChannelTime.skip_to_digit s = EmptyString /\
     first_digit_run s = EmptyString) \/
    (exists c r,
        ChannelTime.skip_to_digit s = String c r /\ isdigit c = true /\
        first_digit_run s = String c (leading_digits r)).
Proof.
  induction s as [|c s IH]; [left; auto|].
  simpl. destruct (isdigit c) eqn:Ed.
  - right. exists c, s. auto.
  - exact IH.
Qed.

(** [parse_integer_response] is the bare-integer extraction of the
    specification, with [-1] for "no digit". *)
Lemma parse_integer_response_spec :
  forall line,
    ChannelTime.parse_integer_response (Some line) =
    match bare_integer line with
    | Some v => v
    | None => (-1)%Z
    end.
Proof.
  intros line. unfold ChannelTime.parse_integer_response, bare_integer.
  rewrite skip_to_digit_skip_space.
  destruct (skip_to_digit_cases line) as [[-> ->] | (c & r & -> & Hd & ->)];
    [reflexivity|].
  rewrite (strtol10_on_digit c r Hd), digits_acc_value.
  simpl leading_digits. rewrite Hd. reflexivity.
Qed.

Lemma decimal_fold_nonneg :
  forall l acc,
    (0 <= acc)%Z ->
    (forall c, In c l -> isdigit c = true) ->
    (0 <= fold_left (fun a c => (a * 10 + digit_val c)%Z) l acc)%Z.
Proof.
  induction l as [|c l IH]; intros acc Hacc Hl; simpl; [exact Hacc|].
  apply IH.
  - assert (Hc : isdigit c = true) by (apply Hl; left; reflexivity).
    unfold isdigit in Hc. cbv zeta in Hc.
    apply andb_true_iff in Hc as [H1 _]. apply Nat.leb_le in H1.
    unfold digit_val. lia.
  - intros c' Hc'. apply Hl. right. exact Hc'.
Qed.

Lemma leading_digits_are_digits :
  forall s c, In c (list_ascii_of_string (leading_digits s)) -> isdigit c = true.
Proof.
  induction s as [|a s IH]; intros c Hc; simpl in Hc; [contradiction|].
  destruct (isdigit a) eqn:Ea; simpl in Hc; [|contradiction].
  destruct Hc as [<- | Hc]; [exact Ea | apply IH, Hc].
Qed.

Lemma bare_integer_range :
  forall line v, bare_integer line = Some v -> (0 <= v <= INT_MAX)%Z.
Proof.
  intros line v H. unfold bare_integer in H.
  destruct (skip_to_digit_cases line) as [[_ E] | (c & r & _ & Hd & E)];
    rewrite E in H; [discriminate|].
  injection H as <-.
  assert (0 <= decimal_value (String c (leading_digits r)))%Z.
  { unfold decimal_value. apply decimal_fold_nonneg; [lia|].
    intros x Hx. apply (leading_digits_are_digits (String c r)).
    simpl. rewrite Hd. exact Hx. }
  unfold INT_MAX in *. lia.
Qed.

(** The state after the first of the two expected responses. *)
Lemma first_response :
  forall line d w v,
    ChannelTime.loading_count d = 2%Z ->
    ChannelTime.parse_integer_response (Some line) = v ->
    (0 <= v)%Z ->
    ChannelTime.on_uart_response (Some line) d w =
    Some (ChannelTime.set_loading_count 1
            (if found (strstr line "min") then
               ChannelTime.set_edited_min v (ChannelTime.set_min_value v d)
             else if found (strstr line "max") then
               ChannelTime.set_edited_max v (ChannelTime.set_max_value v d)
             else
               ChannelTime.set_edited_min v (ChannelTime.set_min_value v d)),
          w).
Proof.
  intros line d w v Hc Hv Hpos.
  unfold ChannelTime.on_uart_response. rewrite Hc, Hv.
  apply Z.leb_le in Hpos. rewrite Hpos.
  change (2 <=? 0)%Z with false. change (0 <? 2)%Z with true.
  change (2 =? 2)%Z with true. change (wrap_int (2 - 1)) with 1%Z.
  cbv beta iota zeta. cbn [andb].
  destruct (found (strstr line "min")); [reflexivity|].
  destruct (found (strstr line "max")); reflexivity.
Qed.

(** The state after the second response: loading is over and the line
    consumer is cleared. *)
Lemma second_response :
  forall line d w v,
    ChannelTime.loading_count d = 1%Z ->
    sizeof (ChannelTime.status_msg d) = 64%nat ->
    ChannelTime.parse_integer_response (Some line) = v ->
    (0 <= v)%Z ->
    exists d' w',
      ChannelTime.on_uart_response (Some line) d w = Some (d', w') /\
      w_trace w' = w_trace w ++ [E_uart_clear_line_callback] /\
      ChannelTime.loading d' = false /\
      ChannelTime.loading_count d' = 0%Z /\
      ChannelTime.needs_redraw d' = true /\
      (if found (strstr line "min") then
         ChannelTime.min_value d' = v /\ ChannelTime.edited_min d' = v /\
         ChannelTime.max_value d' = ChannelTime.max_value d /\
         ChannelTime.edited_max d' = ChannelTime.edited_max d
       else
         ChannelTime.max_value d' = v /\ ChannelTime.edited_max d' = v /\
         ChannelTime.min_value d' = ChannelTime.min_value d /\
         ChannelTime.edited_min d' = ChannelTime.edited_min d).
Proof.
  intros line d w v Hc Hs Hv Hpos.
  unfold ChannelTime.on_uart_response. rewrite Hc, Hv.
  apply Z.leb_le in Hpos. rewrite Hpos.
  change (1 <=? 0)%Z with false. change (0 <? 1)%Z with true.
  change (1 =? 2)%Z with false. change (1 =? 1)%Z with true.
  change (wrap_int (1 - 1)) with 0%Z.
  cbv beta iota zeta. cbn [andb].
  assert (Hst : forall x, sizeof (ChannelTime.status_msg x) = 64%nat ->
                exists b, store (ChannelTime.status_msg x) 0 NUL = Some b).
  { intros x Hx. unfold store. rewrite Hx. eexists. reflexivity. }
  destruct (found (strstr line "min")) eqn:Emin;
    [|destruct (found (strstr line "max")) eqn:Emax];
    cbn [ChannelTime.loading_count ChannelTime.set_loading_count];
    change (0 =? 0)%Z with true; cbv beta iota;
    unfold bind, lift, ChannelTime.clear_status, obind;
    cbn [ChannelTime.status_msg ChannelTime.set_loading
         ChannelTime.set_loading_count ChannelTime.set_edited_min
         ChannelTime.set_min_value ChannelTime.set_edited_max
         ChannelTime.set_max_value];
    destruct (Hst d Hs) as (b & ->);
    (eexists; eexists; split; [reflexivity|]; cbn; auto 10).
Qed.

Lemma registered_after_clear :
  forall t, registered_consumer (t ++ [E_uart_clear_line_callback]) = None.
Proof.
  intros t. unfold registered_consumer. rewrite fold_left_app. reflexivity.
Qed.

(** C6, as amended. In the loading state with two responses outstanding,
    the responses ["max: 300"] and ["min: 100"], in either order, leave
    [min_value = edited_min = 100] and [max_value = edited_max = 300], end
    the loading state and clear the line consumer. A response that names
    neither "min" nor "max" is read by skipping to its first digit run, and
    goes by the number of responses outstanding: to min when both are, to
    max when one is. Two such responses in a row go to min and then to
    max; one that follows a labelled response goes to max, whichever label
    that response had. *)
Theorem channel_time_loads_both_values :
  forall d w,
    ChannelTime.loading d = true ->
    ChannelTime.loading_count d = 2%Z ->
    sizeof (ChannelTime.status_msg d) = 64%nat ->
    (forall first second,
        (first = "max: 300" /\ second = "min: 100") \/
        (first = "min: 100" /\ second = "max: 300") ->
        exists d1 d2 w2,
          ChannelTime.on_uart_response (Some first) d w = Some (d1, w) /\
          ChannelTime.on_uart_response (Some second) d1 w = Some (d2, w2) /\
          ChannelTime.min_value d2 = 100%Z /\
          ChannelTime.edited_min d2 = 100%Z /\
          ChannelTime.max_value d2 = 300%Z /\
          ChannelTime.edited_max d2 = 300%Z /\
          ChannelTime.loading d2 = false /\
          w_trace w2 = w_trace w ++ [E_uart_clear_line_callback] /\
          registered_consumer (w_trace w2) = None) /\
    (forall l1 l2 v1 v2,
        strstr l1 "min" = None -> strstr l1 "max" = None ->
        strstr l2 "min" = None -> strstr l2 "max" = None ->
        bare_integer l1 = Some v1 -> bare_integer l2 = Some v2 ->
        exists d1 d2 w2,
          ChannelTime.on_uart_response (Some l1) d w = Some (d1, w) /\
          ChannelTime.min_value d1 = v1 /\
          ChannelTime.edited_min d1 = v1 /\
          ChannelTime.max_value d1 = ChannelTime.max_value d /\
          ChannelTime.loading d1 = true /\
          ChannelTime.on_uart_response (Some l2) d1 w = Some (d2, w2) /\
          ChannelTime.min_value d2 = v1 /\
          ChannelTime.edited_min d2 = v1 /\
          ChannelTime.max_value d2 = v2 /\
          ChannelTime.edited_max d2 = v2 /\
          ChannelTime.loading d2 = false /\
          registered_consumer (w_trace w2) = None) /\
    (forall line,
        ChannelTime.parse_integer_response (Some line) =
        match bare_integer line with
        | Some v => v
        | None => (-1)%Z
        end) /\
    (forall l1 l2 v1 v2,
        strstr l1 "min" <> None \/ strstr l1 "max" <> None ->
        strstr l2 "min" = None -> strstr l2 "max" = None ->
        bare_integer l1 = Some v1 -> bare_integer l2 = Some v2 ->
        exists d1 d2 w2,
          ChannelTime.on_uart_response (Some l1) d w = Some (d1, w) /\
          ChannelTime.loading d1 = true /\
          ChannelTime.loading_count d1 = 1%Z /\
          ChannelTime.on_uart_response (Some l2) d1 w = Some (d2, w2) /\
          ChannelTime.max_value d2 = v2 /\
          ChannelTime.edited_max d2 = v2 /\
          ChannelTime.min_value d2
          = (if found (strstr l1 "min") then v1 else ChannelTime.min_value d) /\
          ChannelTime.edited_min d2
          = (if found (strstr l1 "min") then v1 else ChannelTime.edited_min d) /\
          ChannelTime.loading d2 = false /\
          registered_consumer (w_trace w2) = None).
Proof.
  intros d w Hl Hc Hs.
  split; [|split; [|split; [exact parse_integer_response_spec|]]].
  - intros first second [[-> ->] | [-> ->]].
    + rewrite (first_response "max: 300" d w 300 Hc eq_refl) by lia.
      destruct (second_response "min: 100"
                  (ChannelTime.set_loading_count 1
                     (ChannelTime.set_edited_max 300
                        (ChannelTime.set_max_value 300 d)))
                  w 100 eq_refl Hs eq_refl)
        as (d2 & w2 & E & Ht & Hl2 & _ & _ & H); [lia|].
      exists (ChannelTime.set_loading_count 1
                (ChannelTime.set_edited_max 300
                   (ChannelTime.set_max_value 300 d))), d2, w2.
      change (found (strstr "min: 100" "min")) with true in H.
      cbn in H. destruct H as (H1 & H2 & H3 & H4).
      split; [reflexivity|]. split; [exact E|].
      rewrite Ht, registered_after_clear. auto 10.
    + rewrite (first_response "min: 100" d w 100 Hc eq_refl) by lia.
      destruct (second_response "max: 300"
                  (ChannelTime.set_loading_count 1
                     (ChannelTime.set_edited_min 100
                        (ChannelTime.set_min_value 100 d)))
                  w 300 eq_refl Hs eq_refl)
        as (d2 & w2 & E & Ht & Hl2 & _ & _ & H); [lia|].
      exists (ChannelTime.set_loading_count 1
                (ChannelTime.set_edited_min 100
                   (ChannelTime.set_min_value 100 d))), d2, w2.
      change (found (strstr "max: 300" "min")) with false in H.
      cbn in H. destruct H as (H1 & H2 & H3 & H4).
      split; [reflexivity|]. split; [exact E|].
      rewrite Ht, registered_after_clear. auto 10.
  - intros l1 l2 v1 v2 Hmin1 Hmax1 Hmin2 Hmax2 Hv1 Hv2.
    pose proof (bare_integer_range _ _ Hv1) as R1.
    pose proof (bare_integer_range _ _ Hv2) as R2.
    assert (P1 : ChannelTime.parse_integer_response (Some l1) = v1)
      by (rewrite parse_integer_response_spec, Hv1; reflexivity).
    assert (P2 : ChannelTime.parse_integer_response (Some l2) = v2)
      by (rewrite parse_integer_response_spec, Hv2; reflexivity).
    rewrite (first_response l1 d w v1 Hc P1) by lia.
    rewrite Hmin1, Hmax1. cbn [found].
    destruct (second_response l2
                (ChannelTime.set_loading_count 1
                   (ChannelTime.set_edited_min v1
                      (ChannelTime.set_min_value v1 d)))
                w v2 eq_refl Hs P2)
      as (d2 & w2 & E & Ht & Hl2 & _ & _ & H); [lia|].
    rewrite Hmin2 in H. cbn in H. destruct H as (H1 & H2 & H3 & H4).
    eexists. exists d2, w2.
    split; [reflexivity|]. cbn.
    rewrite Ht, registered_after_clear. auto 15.
  - intros l1 l2 v1 v2 Hlab Hmin2 Hmax2 Hv1 Hv2.
    pose proof (bare_integer_range _ _ Hv1) as R1.
    pose proof (bare_integer_range _ _ Hv2) as R2.
    assert (P1 : ChannelTime.parse_integer_response (Some l1) = v1)
      by (rewrite parse_integer_response_spec, Hv1; reflexivity).
    assert (P2 : ChannelTime.parse_integer_response (Some l2) = v2)
      by (rewrite parse_integer_response_spec, Hv2; reflexivity).
    rewrite (first_response l1 d w v1 Hc P1) by lia.
    match goal with
    | |- context [Some (?x, w) = Some (_, w)] => set (d1 := x)
    end.
    assert (Hd1 : ChannelTime.loading d1 = true /\
                  ChannelTime.loading_count d1 = 1%Z /\
                  sizeof (ChannelTime.status_msg d1) = 64%nat /\
                  ChannelTime.min_value d1
                  = (if found (strstr l1 "min") then v1
                     else ChannelTime.min_value d) /\
                  ChannelTime.edited_min d1
                  = (if found (strstr l1 "min") then v1
                     else ChannelTime.edited_min d)).
    { unfold d1.
      destruct (strstr l1 "min") as [k|] eqn:Emin; cbn [found].
      - cbn. auto.
      - destruct (strstr l1 "max") as [k|] eqn:Emax; cbn [found].
        + cbn. auto.
        + destruct Hlab as [H|H]; congruence. }
    destruct Hd1 as (Hl1 & Hc1 & Hs1 & Hm1 & He1).
    destruct (second_response l2 d1 w v2 Hc1 Hs1 P2)
      as (d2 & w2 & E & Ht & Hl2 & _ & _ & H); [lia|].
    rewrite Hmin2 in H. cbn [found] in H. destruct H as (H1 & H2 & H3 & H4).
    exists d1, d2, w2.
    split; [reflexivity|]. split; [exact Hl1|]. split; [exact Hc1|].
    split; [exact E|]. split; [exact H1|]. split; [exact H2|].
    split; [rewrite H3; exact Hm1|]. split; [rewrite H4; exact He1|].
    split; [exact Hl2|].
    rewrite Ht. apply registered_after_clear.
Qed.

Lemma channel_time_loads_both_values_witness :
  let d := ChannelTime.mk_data 100 300 100 300 0 true 2 false false
                               (zeroed 64) in
  let w := mkWorld [] [] 1 [] [] in
  (ChannelTime.loading d = true /\ ChannelTime.loading_count d = 2%Z /\
   sizeof (ChannelTime.status_msg d) = 64%nat) /\
  exists d1 d2 w2,
    ChannelTime.on_uart_response (Some "max: 300") d w = Some (d1, w) /\
    ChannelTime.on_uart_response (Some "min: 100") d1 w = Some (d2, w2) /\
    ChannelTime.min_value d2 = 100%Z /\
    ChannelTime.edited_min d2 = 100%Z /\
    ChannelTime.max_value d2 = 300%Z /\
    ChannelTime.edited_max d2 = 300%Z /\
    ChannelTime.loading d2 = false /\
    w_trace w2 = w_trace w ++ [E_uart_clear_line_callback] /\
    registered_consumer (w_trace w2) = None.
Proof.
  intros d w.
  assert (H : ChannelTime.loading d = true /\
              ChannelTime.loading_count d = 2%Z /\
              sizeof (ChannelTime.status_msg d) = 64%nat).
  { repeat split; reflexivity. }
  split; [exact H|].
  apply (proj1 (channel_time_loads_both_values d w (proj1 H)
                  (proj1 (proj2 H)) (proj2 (proj2 H)))).
  left. split; reflexivity.
Defined.

(** C6, as stated, fails: the unlabeled response ["150"] that follows
    ["max: 300"] is the first unlabeled response, and it goes to max; min
    is never loaded. *)
Lemma unlabeled_response_after_max_goes_to_max :
  let d := ChannelTime.mk_data 111 222 111 222 0 true 2 false false
                               (zeroed 64) in
  let w := mkWorld [] [] 1 [] [] in
  strstr "150" "min" = None /\ strstr "150" "max" = None /\
  exists d1 d2 w2,
    ChannelTime.on_uart_response (Some "max: 300") d w = Some (d1, w) /\
    ChannelTime.on_uart_response (Some "150") d1 w = Some (d2, w2) /\
    ChannelTime.min_value d2 = 111%Z /\
    ChannelTime.min_value d2 <> 150%Z /\
    ChannelTime.edited_min d2 <> 150%Z /\
    ChannelTime.max_value d2 = 150%Z /\
    ChannelTime.edited_max d2 = 150%Z /\
    ChannelTime.loading d2 = false.
Proof.
  intros d w. split; [reflexivity|]. split; [reflexivity|].
  eexists. eexists. eexists.
  split; [vm_compute; reflexivity|].
  split; [vm_compute; reflexivity|].
  repeat split; try reflexivity; discriminate.
Qed.

(** ** The countdown recognizer *)

Lemma advance_add :
  forall n m s, advance (n + m) s = advance m (advance n s).
Proof.
  induction n as [|n IH]; intros m s; [reflexivity|].
  destruct s as [|c s]; simpl.
  - destruct m; reflexivity.
  - apply IH.
Qed.

Lemma strchr_advance :
  forall s c p, strchr s c = Some p -> advance p s = String c (advance (S p) s).
Proof.
  induction s as [|a s IH]; intros c p H; simpl in H; [discriminate|].
  destruct (Ascii.eqb_spec a c) as [->|Hne].
  - injection H as <-. reflexivity.
  - destruct (strchr s c) as [q|] eqn:E; [|discriminate].
    injection H as <-. simpl. apply (IH _ _ E).
Qed.

Lemma scan_without_conversion :
  forall ds s,
    forallb (fun d => match d with DInt => false | _ => true end) ds = true ->
    scan ds s = [].
Proof.
  induction ds as [|d ds IH]; intros s H; [reflexivity|].
  simpl in H. apply andb_true_iff in H as [Hd Hds].
  destruct d; [| |discriminate]; simpl.
  - destruct s as [|a s]; [reflexivity|].
    destruct (Ascii.eqb a c); [apply IH, Hds | reflexivity].
  - apply IH, Hds.
Qed.

(** What [sscanf(paren, "(%d/%d seconds)", ...)] assigns, by the text after
    the parenthesis: the text after the second integer does not matter. *)
Lemma sscanf_countdown :
  forall tail,
    sscanf (String "(" tail) "(%d/%d seconds)" =
    match strtol10 tail with
    | Some (e, String c r1) =>
        if Ascii.eqb c "/" then
          match strtol10 r1 with
          | Some (t, _) => [e; t]
          | None => [e]
          end
        else [e]
    | Some (e, EmptyString) => [e]
    | None => []
    end.
Proof.
  intros tail. unfold sscanf.
  change (parse_format "(%d/%d seconds)")
    with ([DLit "("; DInt; DLit "/"; DInt]
            ++ [DSpace; DLit "s"; DLit "e"; DLit "c"; DLit "o"; DLit "n";
                DLit "d"; DLit "s"; DLit ")"]).
  cbn [scan app]. change (Ascii.eqb "(" "(") with true. cbv iota.
  destruct (strtol10 tail) as [[e r]|]; [|reflexivity].
  destruct r as [|c r1]; [reflexivity|].
  destruct (Ascii.eqb c "/"); [|reflexivity].
  destruct (strtol10 r1) as [[t r2]|]; [|reflexivity].
  f_equal. f_equal.
  exact (scan_without_conversion
           [DLit "s"; DLit "e"; DLit "c"; DLit "o"; DLit "n"; DLit "d";
            DLit "s"; DLit ")"] (skip_space r2) eq_refl).
Qed.

(** C7, as amended. The line
    ["Still waiting for GPS fix... (7/30 seconds)"] sets
    [gps_wait_elapsed = 7] and [gps_wait_timeout = 30]. A line with the
    marker and no parenthesis after it, or whose first parenthesis is not
    followed by an integer, a ['/'] and a second integer, leaves both
    values unchanged. When the two integers are there, both values are set,
    whatever follows the second integer. *)
Theorem countdown_recognizer :
  (forall d w,
      exists d',
        WardrivePromisc.uart_line_callback
          "Still waiting for GPS fix... (7/30 seconds)" (Some d) w
        = Some (Some d', w) /\
        WardrivePromisc.gps_wait_elapsed d' = 7%Z /\
        WardrivePromisc.gps_wait_timeout d' = 30%Z) /\
  (forall line k d w,
      WardrivePromisc.is_mac_csv line = false ->
      strstr line "Still waiting for GPS fix" = Some k ->
      exists d',
        WardrivePromisc.uart_line_callback line (Some d) w
        = Some (Some d', w) /\
        WardrivePromisc.needs_redraw d' = true /\
        match strchr (advance k line) "(" with
        | None => countdown_unchanged d d'
        | Some p =>
            let tail := advance (k + S p) line in
            (strtol10 tail = None -> countdown_unchanged d d') /\
            (forall e r,
                strtol10 tail = Some (e, r) ->
                (forall r1, r <> String "/" r1) ->
                countdown_unchanged d d') /\
            (forall e r1,
                strtol10 tail = Some (e, String "/" r1) ->
                strtol10 r1 = None ->
                countdown_unchanged d d') /\
            (forall e r1 t r2,
                strtol10 tail = Some (e, String "/" r1) ->
                strtol10 r1 = Some (t, r2) ->
                WardrivePromisc.gps_wait_elapsed d' = e /\
                WardrivePromisc.gps_wait_timeout d' = t)
        end).
Proof.
  split.
  - intros d w. eexists. split; [vm_compute; reflexivity|].
    split; reflexivity.
  - intros line k d w Hcsv Hk.
    unfold WardrivePromisc.uart_line_callback. rewrite Hcsv, Hk.
    unfold ret.
    destruct (strchr (advance k line) "(") as [p|] eqn:Ep.
    + rewrite advance_add, (strchr_advance _ _ _ Ep), sscanf_countdown.
      rewrite <- advance_add. cbv zeta.
      eexists. split; [reflexivity|]. split; [reflexivity|].
      destruct (strtol10 (advance (k + S p) line)) as [[e r]|].
      * destruct r as [|c r1].
        { repeat split; try discriminate. }
        destruct (Ascii.eqb_spec c "/") as [->|Hc].
        { destruct (strtol10 r1) as [[t r2]|] eqn:E2.
          - split; [discriminate|].
            split; [intros e0 r0 [= <- <-] Hr; exfalso; exact (Hr r1 eq_refl)|].
            split; [intros e0 r0 [= <- <-] Hn; congruence|].
            intros e0 r0 t0 r3 [= <- <-] Ht.
            rewrite E2 in Ht. injection Ht as <- <-. split; reflexivity.
          - split; [discriminate|].
            split; [intros; split; reflexivity|].
            split; [intros; split; reflexivity|].
            intros e0 r0 t0 r3 [= <- <-] Ht. congruence. }
        { split; [discriminate|].
          split; [intros; split; reflexivity|].
          split; [intros e0 r0 [= _ Hx _]; exfalso; exact (Hc Hx)|].
          intros e0 r0 t0 r3 [= _ Hx _]. exfalso. exact (Hc Hx). }
      * split; [intros; split; reflexivity|].
        repeat split; discriminate.
    + eexists. split; [reflexivity|]. split; [reflexivity|].
      split; reflexivity.
Qed.

Lemma countdown_recognizer_witness :
  let line := "12:34 Still waiting for GPS fix (x) (7/30 seconds)" in
  let d := WardrivePromisc.fresh 3 1 in
  let w := mkWorld [] [] 1 [] [] in
  (WardrivePromisc.is_mac_csv line = false /\
   strstr line "Still waiting for GPS fix" = Some 6%nat) /\
  exists d',
    WardrivePromisc.uart_line_callback line (Some d) w = Some (Some d', w) /\
    countdown_unchanged d d'.
Proof.
  intros line d w.
  assert (H : WardrivePromisc.is_mac_csv line = false /\
              strstr line "Still waiting for GPS fix" = Some 6%nat).
  { split; reflexivity. }
  split; [exact H|].
  destruct (proj2 countdown_recognizer line 6%nat d w (proj1 H) (proj2 H))
    as (d' & E & _ & Hm).
  exists d'. split; [exact E|].
  change (strchr (advance 6 line) "(") with (Some 26%nat) in Hm.
  apply (proj1 Hm). reflexivity.
Defined.

(** C7, as stated, fails: the text after the second integer is not
    compared with the pattern, so parentheses that do not read
    ["(N/M seconds)"] still set both values. *)
Lemma countdown_ignores_pattern_tail :
  let d := WardrivePromisc.fresh 3 1 in
  let w := mkWorld [] [] 1 [] [] in
  WardrivePromisc.gps_wait_elapsed d = 0%Z /\
  WardrivePromisc.gps_wait_timeout d = 0%Z /\
  (exists d',
      WardrivePromisc.uart_line_callback
        "Still waiting for GPS fix... (7/30 minutes)" (Some d) w
      = Some (Some d', w) /\
      WardrivePromisc.gps_wait_elapsed d' = 7%Z /\
      WardrivePromisc.gps_wait_timeout d' = 30%Z) /\
  (exists d',
      WardrivePromisc.uart_line_callback
        "Still waiting for GPS fix... (7/30" (Some d) w
      = Some (Some d', w) /\
      WardrivePromisc.gps_wait_elapsed d' = 7%Z /\
      WardrivePromisc.gps_wait_timeout d' = 30%Z).
Proof.
  intros d w. split; [reflexivity|]. split; [reflexivity|].
  split; eexists; (split; [vm_compute; reflexivity|]); split; reflexivity.
Qed.

(** ** Saving the channel times *)

Lemma world_eta :
  forall w, mkWorld (w_trace w) (w_live w) (w_brk w) (w_allocs w) (w_sends w) = w.
Proof. intros []. reflexivity. Qed.

Lemma runs_emitting_ret :
  forall p A (a : A), runs_emitting p (ret a).
Proof.
  intros p A a w. exists a, []. rewrite app_nil_r, world_eta. auto.
Qed.

Lemma runs_emitting_emit :
  forall (p : event -> bool) e, p e = true -> runs_emitting p (emit e).
Proof.
  intros p e He w. exists tt, [e]. simpl. rewrite He. auto.
Qed.

Lemma runs_emitting_bind :
  forall p A B (m : M A) (k : A -> M B),
    runs_emitting p m -> (forall a, runs_emitting p (k a)) ->
    runs_emitting p (bind m k).
Proof.
  intros p A B m k Hm Hk w.
  destruct (Hm w) as (a & t1 & E1 & F1).
  destruct (Hk a (mkWorld (w_trace w ++ t1) (w_live w) (w_brk w)
                          (w_allocs w) (w_sends w)))
    as (b & t2 & E2 & F2).
  exists b, (t1 ++ t2). unfold bind. rewrite E1, E2. simpl.
  rewrite app_assoc, forallb_app, F1, F2. auto.
Qed.

Ltac runs_step :=
  first
    [ apply runs_emitting_ret
    | apply runs_emitting_emit; reflexivity
    | apply runs_emitting_bind; [|intros ?]
    | match goal with
      | |- runs_emitting _ (if ?b then _ else _) => destruct b
      | |- runs_emitting _ (match ?x with _ => _ end) => destruct x
      end ].

Lemma channel_time_draw_screen_runs :
  forall d, runs_emitting is_draw (ChannelTime.draw_screen d).
Proof.
  intros d.
  unfold ChannelTime.draw_screen, ui_clear, ui_draw_title, ui_print,
    ui_print_center, ui_draw_status.
  repeat runs_step.
Qed.

Lemma draws_send_nothing :
  forall t, forallb is_draw t = true -> sent_commands t = [].
Proof.
  induction t as [|e t IH]; intros H; [reflexivity|].
  simpl in H. apply andb_true_iff in H as [He Ht].
  unfold sent_commands in *. simpl. rewrite (IH Ht).
  destruct e; try discriminate He; reflexivity.
Qed.

Lemma snprintf_s_result :
  forall dst s,
    (strlen s < sizeof dst)%nat ->
    snprintf_s dst s =
    Some (strncpy_chars s (strlen s) ++ NUL :: skipn (S (strlen s)) dst).
Proof.
  intros dst s H. unfold snprintf_s.
  destruct (sizeof dst) as [|m] eqn:E; [lia|].
  rewrite Nat.min_l by lia.
  pose proof (copy_result dst s (strlen s)) as C.
  unfold obind in C. rewrite E in C. specialize (C H).
  destruct (strncpy dst s (strlen s)); [exact C | discriminate C].
Qed.

(** In the valid range the commands fit [char cmd[64]] untruncated. *)
Lemma set_command_fits :
  forall (prefix : string) (v : Z),
    prefix = "channel_time set min " \/ prefix = "channel_time set max " ->
    (100 <= v <= 1500)%Z ->
    snprintf_local 64 (prefix ++ fmt_d v) = (prefix ++ fmt_d v)%string.
Proof.
  intros prefix v Hp Hv.
  assert (Hall :
    forallb (fun n =>
               String.eqb
                 (snprintf_local 64 ("channel_time set min "
                                       ++ fmt_d (Z.of_nat n)))
                 ("channel_time set min " ++ fmt_d (Z.of_nat n))
               && String.eqb
                    (snprintf_local 64 ("channel_time set max "
                                          ++ fmt_d (Z.of_nat n)))
                    ("channel_time set max " ++ fmt_d (Z.of_nat n)))
            (seq 100 1401) = true) by (vm_compute; reflexivity).
  rewrite forallb_forall in Hall.
  specialize (Hall (Z.to_nat v)). rewrite in_seq, Z2Nat.id in Hall by lia.
  assert (Hin : (100 <= Z.to_nat v < 100 + 1401)%nat) by lia.
  apply Hall in Hin. apply andb_true_iff in Hin as [H1 H2].
  apply String.eqb_eq in H1, H2.
  destruct Hp as [-> | ->]; assumption.
Qed.

Lemma print_status_result :
  forall msg d,
    sizeof (ChannelTime.status_msg d) = 64%nat ->
    (strlen msg < 64)%nat ->
    exists b,
      ChannelTime.print_status msg d = Some (ChannelTime.set_status_msg b d) /\
      b = strncpy_chars msg (strlen msg)
            ++ NUL :: skipn (S (strlen msg)) (ChannelTime.status_msg d) /\
      sizeof b = 64%nat.
Proof.
  intros msg d Hs Hm. unfold ChannelTime.print_status.
  rewrite snprintf_s_result by lia. cbn [obind].
  eexists. split; [reflexivity|]. split; [reflexivity|].
  rewrite copy_sizeof by lia. exact Hs.
Qed.

Lemma clear_status_result :
  forall d,
    sizeof (ChannelTime.status_msg d) = 64%nat ->
    exists b,
      ChannelTime.clear_status d = Some (ChannelTime.set_status_msg b d) /\
      c_str b = EmptyString /\ sizeof b = 64%nat.
Proof.
  intros d Hs. unfold ChannelTime.clear_status.
  destruct (store_result (ChannelTime.status_msg d) 0 NUL) as (b & E & Hb);
    [lia|].
  rewrite E. cbn [obind]. exists b. split; [reflexivity|].
  split; [|lia].
  unfold store in E. rewrite Hs in E. cbn [Nat.ltb Nat.leb] in E.
  injection E as <-. reflexivity.
Qed.

Lemma values_valid_dec :
  forall d, values_valid d \/ ~ values_valid d.
Proof.
  intros d. unfold values_valid.
  destruct (Z_le_dec 100 (ChannelTime.edited_min d)),
    (Z_le_dec (ChannelTime.edited_min d) 1500),
    (Z_le_dec 100 (ChannelTime.edited_max d)),
    (Z_le_dec (ChannelTime.edited_max d) 1500),
    (Z_lt_dec (ChannelTime.edited_min d) (ChannelTime.edited_max d));
    try (left; lia); right; lia.
Qed.

Lemma validate_values_valid :
  forall d, values_valid d -> ChannelTime.validate_values d = Some (true, d).
Proof.
  intros d (Hmin & Hmax & Hlt). unfold ChannelTime.validate_values,
    ChannelTime.MIN_TIME_MS, ChannelTime.MAX_TIME_MS.
  destruct (Z.ltb_spec (ChannelTime.edited_min d) 100); [lia|].
  destruct (Z.ltb_spec 1500 (ChannelTime.edited_min d)); [lia|].
  destruct (Z.ltb_spec (ChannelTime.edited_max d) 100); [lia|].
  destruct (Z.ltb_spec 1500 (ChannelTime.edited_max d)); [lia|].
  destruct (Z.leb_spec (ChannelTime.edited_max d) (ChannelTime.edited_min d));
    [lia|].
  reflexivity.
Qed.

Lemma validate_values_invalid :
  forall d,
    ~ values_valid d ->
    sizeof (ChannelTime.status_msg d) = 64%nat ->
    exists b,
      ChannelTime.validate_values d
      = Some (false, ChannelTime.set_status_msg b d) /\
      c_str b = validation_message d /\ sizeof b = 64%nat.
Proof.
  intros d Hinv Hs.
  unfold ChannelTime.validate_values, validation_message,
    ChannelTime.MIN_TIME_MS, ChannelTime.MAX_TIME_MS.
  destruct ((ChannelTime.edited_min d <? 100)%Z
            || (1500 <? ChannelTime.edited_min d)%Z) eqn:E1.
  { destruct (print_status_result "Min must be 100-1500 ms" d Hs)
      as (b & -> & -> & Hb); [simpl; lia|].
    cbn [obind]. eexists. split; [reflexivity|].
    split; [reflexivity | exact Hb]. }
  destruct ((ChannelTime.edited_max d <? 100)%Z
            || (1500 <? ChannelTime.edited_max d)%Z) eqn:E2.
  { destruct (print_status_result "Max must be 100-1500 ms" d Hs)
      as (b & -> & -> & Hb); [simpl; lia|].
    cbn [obind]. eexists. split; [reflexivity|].
    split; [reflexivity | exact Hb]. }
  destruct (Z.leb_spec (ChannelTime.edited_max d) (ChannelTime.edited_min d)).
  { destruct (print_status_result "Min must be < Max" d Hs)
      as (b & -> & -> & Hb); [simpl; lia|].
    cbn [obind]. eexists. split; [reflexivity|].
    split; [reflexivity | exact Hb]. }
  exfalso. apply Hinv.
  apply orb_false_iff in E1 as [A1 A2], E2 as [B1 B2].
  apply Z.ltb_ge in A1, A2, B1, B2. unfold values_valid. lia.
Qed.

Lemma sent_commands_app :
  forall t1 t2, sent_commands (t1 ++ t2) = sent_commands t1 ++ sent_commands t2.
Proof. intros t1 t2. unfold sent_commands. apply flat_map_app. Qed.

Lemma second_send_status :
  forall w, match tl (w_sends w) with r :: _ => r | [] => ESP_OK end
            = send_status 1 w.
Proof.
  intros w. unfold send_status. destruct (w_sends w) as [|r0 [|r1 rs]]; reflexivity.
Qed.

Lemma first_send_status :
  forall w, match w_sends w with r :: _ => r | [] => ESP_OK end
            = send_status 0 w.
Proof.
  intros w. unfold send_status. destruct (w_sends w); reflexivity.
Qed.

(** ENTER on values that do not pass validation. *)
Lemma enter_rejected :
  forall d w,
    ~ values_valid d ->
    sizeof (ChannelTime.status_msg d) = 64%nat ->
    exists b draws,
      ChannelTime.on_key_enter d w
      = Some (ChannelTime.set_status_msg b d,
              mkWorld (w_trace w ++ draws) (w_live w) (w_brk w)
                      (w_allocs w) (w_sends w)) /\
      forallb is_draw draws = true /\
      c_str b = validation_message d /\ sizeof b = 64%nat.
Proof.
  intros d w Hinv Hs.
  destruct (validate_values_invalid d Hinv Hs) as (b & E & Hb & Zb).
  unfold ChannelTime.on_key_enter, bind, lift. rewrite E. cbn [negb].
  destruct (channel_time_draw_screen_runs (ChannelTime.set_status_msg b d) w)
    as (u & draws & Ed & Fd).
  rewrite Ed. exists b, draws. auto.
Qed.

(** ENTER on values that pass validation: both commands go out, once each,
    and the outcome depends on the two statuses. *)
Lemma enter_accepted :
  forall d w,
    values_valid d ->
    sizeof (ChannelTime.status_msg d) = 64%nat ->
    exists d' draws,
      ChannelTime.on_key_enter d w
      = Some (d',
              mkWorld (w_trace w
                         ++ [E_uart_send_command (set_min_command d);
                             E_uart_send_command (set_max_command d)]
                         ++ draws)
                      (w_live w) (w_brk w) (w_allocs w)
                      (tl (tl (w_sends w)))) /\
      forallb is_draw draws = true /\
      ChannelTime.loading d' = ChannelTime.loading d /\
      ChannelTime.edited_min d' = ChannelTime.edited_min d /\
      ChannelTime.edited_max d' = ChannelTime.edited_max d /\
      sizeof (ChannelTime.status_msg d') = 64%nat /\
      if (send_status 0 w =? ESP_OK)%Z && (send_status 1 w =? ESP_OK)%Z then
        ChannelTime.min_value d' = ChannelTime.edited_min d /\
        ChannelTime.max_value d' = ChannelTime.edited_max d /\
        ChannelTime.saved d' = true /\
        c_str (ChannelTime.status_msg d') = EmptyString
      else
        ChannelTime.min_value d' = ChannelTime.min_value d /\
        ChannelTime.max_value d' = ChannelTime.max_value d /\
        ChannelTime.saved d' = ChannelTime.saved d /\
        c_str (ChannelTime.status_msg d') = "Send failed!".
Proof.
  intros d w Hv Hs.
  pose proof Hv as (Hmin & Hmax & _).
  unfold ChannelTime.on_key_enter, bind at 1, lift.
  rewrite (validate_values_valid d Hv). cbn [negb].
  rewrite (set_command_fits "channel_time set min " _ (or_introl eq_refl) Hmin).
  rewrite (set_command_fits "channel_time set max " _ (or_intror eq_refl) Hmax).
  fold (set_min_command d). fold (set_max_command d).
  unfold bind at 1, uart_send_command at 1. rewrite first_send_status.
  unfold bind at 1, uart_send_command at 1. cbn [w_sends w_trace w_live w_brk w_allocs].
  rewrite second_send_status.
  destruct ((send_status 0 w =? ESP_OK)%Z && (send_status 1 w =? ESP_OK)%Z).
  - destruct (clear_status_result
                (ChannelTime.set_saved true
                   (ChannelTime.set_max_value (ChannelTime.edited_max d)
                      (ChannelTime.set_min_value (ChannelTime.edited_min d) d))))
      as (b & E & Hb & Zb); [exact Hs|].
    unfold bind at 1, lift. rewrite E.
    match goal with
    | |- context [bind (ChannelTime.draw_screen ?x) _ ?w1] =>
        destruct (channel_time_draw_screen_runs x w1) as (u & draws & Ed & Fd)
    end.
    unfold bind. rewrite Ed. cbn [w_sends w_trace w_live w_brk w_allocs].
    eexists. exists draws. rewrite <- !app_assoc. cbn [app].
    split; [reflexivity|]. cbn. auto 10.
  - destruct (print_status_result "Send failed!" d Hs)
      as (b & E & Hb & Zb); [simpl; lia|].
    unfold bind at 1, lift. rewrite E.
    match goal with
    | |- context [bind (ChannelTime.draw_screen ?x) _ ?w1] =>
        destruct (channel_time_draw_screen_runs x w1) as (u & draws & Ed & Fd)
    end.
    unfold bind. rewrite Ed. cbn [w_sends w_trace w_live w_brk w_allocs].
    eexists. exists draws. rewrite <- !app_assoc. cbn [app].
    split; [reflexivity|]. subst b. cbn. auto 10.
Qed.

Lemma on_key_enter_or_space :
  forall key d,
    key = KEY_ENTER \/ key = KEY_SPACE ->
    ChannelTime.loading d = false ->
    ChannelTime.on_key key d = ChannelTime.on_key_enter d.
Proof.
  intros key d [-> | ->] Hl; unfold ChannelTime.on_key; rewrite Hl;
    reflexivity.
Qed.

(** C10. Outside the loading state, ENTER (or SPACE) sends the two
    ["channel_time set"] commands exactly when
    [100 <= edited_min <= 1500], [100 <= edited_max <= 1500] and
    [edited_min < edited_max]; otherwise it sends nothing, keeps
    [min_value] and [max_value], and sets [status_msg] to the message of
    the first check that fails. *)
Theorem enter_sends_iff_valid :
  forall key d w,
    key = KEY_ENTER \/ key = KEY_SPACE ->
    ChannelTime.loading d = false ->
    sizeof (ChannelTime.status_msg d) = 64%nat ->
    exists d' w' added,
      ChannelTime.on_key key d w = Some (d', w') /\
      w_trace w' = w_trace w ++ added /\
      (values_valid d <->
       sent_commands added = [set_min_command d; set_max_command d]) /\
      (~ values_valid d ->
       sent_commands added = [] /\
       ChannelTime.min_value d' = ChannelTime.min_value d /\
       ChannelTime.max_value d' = ChannelTime.max_value d /\
       c_str (ChannelTime.status_msg d') = validation_message d).
Proof.
  intros key d w Hkey Hl Hs.
  rewrite (on_key_enter_or_space key d Hkey Hl).
  destruct (values_valid_dec d) as [Hv | Hinv].
  - destruct (enter_accepted d w Hv Hs) as (d' & draws & E & Fd & _).
    eexists. eexists. eexists. split; [exact E|].
    split; [reflexivity|].
    rewrite sent_commands_app, (draws_send_nothing draws Fd).
    split; [|contradiction]. split; [reflexivity | intros _; exact Hv].
  - destruct (enter_rejected d w Hinv Hs) as (b & draws & E & Fd & Hb & _).
    eexists. eexists. eexists. split; [exact E|].
    split; [reflexivity|].
    rewrite (draws_send_nothing draws Fd).
    split; [split; [contradiction | discriminate]|].
    intros _. cbn. auto.
Qed.

Lemma enter_sends_iff_valid_witness :
  let d := ChannelTime.mk_data 100 300 200 150 0 false 0 false false
                               (zeroed 64) in
  let w := mkWorld [] [] 1 [] [] in
  ((KEY_ENTER = KEY_ENTER \/ KEY_ENTER = KEY_SPACE) /\
   ChannelTime.loading d = false /\
   sizeof (ChannelTime.status_msg d) = 64%nat) /\
  exists d' w' added,
    ChannelTime.on_key KEY_ENTER d w = Some (d', w') /\
    w_trace w' = w_trace w ++ added /\
    (values_valid d <->
     sent_commands added = [set_min_command d; set_max_command d]) /\
    (~ values_valid d ->
     sent_commands added = [] /\
     ChannelTime.min_value d' = ChannelTime.min_value d /\
     ChannelTime.max_value d' = ChannelTime.max_value d /\
     c_str (ChannelTime.status_msg d') = validation_message d).
Proof.
  intros d w.
  assert (H : (KEY_ENTER = KEY_ENTER \/ KEY_ENTER = KEY_SPACE) /\
              ChannelTime.loading d = false /\
              sizeof (ChannelTime.status_msg d) = 64%nat).
  { split; [left; reflexivity|]. split; reflexivity. }
  split; [exact H|].
  exact (enter_sends_iff_valid KEY_ENTER d w (proj1 H) (proj1 (proj2 H))
                               (proj2 (proj2 H))).
Defined.

(** C8. When ENTER (or SPACE) is pressed on valid values and either send
    reports a failure, [status_msg] reads ["Send failed!"] and [min_value]
    and [max_value] are unchanged; each command has been sent once, with no
    resend; the screen is left ready for the same key, which sends the same
    two commands again and saves the values when both sends succeed. *)
Theorem send_failure_is_reported :
  forall key d w,
    key = KEY_ENTER \/ key = KEY_SPACE ->
    ChannelTime.loading d = false ->
    sizeof (ChannelTime.status_msg d) = 64%nat ->
    values_valid d ->
    send_status 0 w <> ESP_OK \/ send_status 1 w <> ESP_OK ->
    exists d' w' added,
      ChannelTime.on_key key d w = Some (d', w') /\
      w_trace w' = w_trace w ++ added /\
      c_str (ChannelTime.status_msg d') = "Send failed!" /\
      ChannelTime.min_value d' = ChannelTime.min_value d /\
      ChannelTime.max_value d' = ChannelTime.max_value d /\
      sent_commands added = [set_min_command d; set_max_command d] /\
      ChannelTime.loading d' = false /\
      values_valid d' /\
      (send_status 2 w = ESP_OK -> send_status 3 w = ESP_OK ->
       exists d'' w'' added',
         ChannelTime.on_key key d' w' = Some (d'', w'') /\
         w_trace w'' = w_trace w' ++ added' /\
         sent_commands added' = [set_min_command d; set_max_command d] /\
         ChannelTime.min_value d'' = ChannelTime.edited_min d /\
         ChannelTime.max_value d'' = ChannelTime.edited_max d /\
         ChannelTime.saved d'' = true /\
         c_str (ChannelTime.status_msg d'') = EmptyString).
Proof.
  intros key d w Hkey Hl Hs Hv Hfail.
  rewrite (on_key_enter_or_space key d Hkey Hl).
  destruct (enter_accepted d w Hv Hs)
    as (d' & draws & E & Fd & Hl' & Hemin & Hemax & Hs' & Hout).
  assert (Hcond : (send_status 0 w =? ESP_OK)%Z
                  && (send_status 1 w =? ESP_OK)%Z = false).
  { apply andb_false_iff.
    destruct Hfail as [H0 | H1]; [left | right]; apply Z.eqb_neq; assumption. }
  rewrite Hcond in Hout. destruct Hout as (Hmin' & Hmax' & _ & Hmsg).
  assert (Hv' : values_valid d').
  { unfold values_valid. rewrite Hemin, Hemax. exact Hv. }
  eexists. eexists. eexists. split; [exact E|].
  split; [reflexivity|].
  rewrite sent_commands_app, (draws_send_nothing draws Fd).
  split; [exact Hmsg|]. split; [exact Hmin'|]. split; [exact Hmax'|].
  split; [reflexivity|]. split; [congruence|]. split; [exact Hv'|].
  intros H2 H3.
  rewrite (on_key_enter_or_space key d' Hkey) by congruence.
  match goal with
  | |- context [ChannelTime.on_key_enter d' ?w1] =>
      destruct (enter_accepted d' w1 Hv' Hs')
        as (d'' & draws' & E' & Fd' & _ & _ & _ & _ & Hout')
  end.
  assert (Hok : (send_status 0
                   (mkWorld
                      (w_trace w
                         ++ [E_uart_send_command (set_min_command d);
                             E_uart_send_command (set_max_command d)]
                         ++ draws)
                      (w_live w) (w_brk w) (w_allocs w)
                      (tl (tl (w_sends w)))) =? ESP_OK)%Z
                && (send_status 1
                      (mkWorld
                         (w_trace w
                            ++ [E_uart_send_command (set_min_command d);
                                E_uart_send_command (set_max_command d)]
                            ++ draws)
                         (w_live w) (w_brk w) (w_allocs w)
                         (tl (tl (w_sends w)))) =? ESP_OK)%Z = true).
  { unfold send_status in *. cbn [w_sends].
    destruct (w_sends w) as [|r0 [|r1 [|r2 [|r3 rs]]]]; cbn in *;
      subst; reflexivity. }
  rewrite Hok in Hout'. destruct Hout' as (Hmin'' & Hmax'' & Hsaved & Hmsg'').
  eexists. eexists. eexists. split; [exact E'|].
  split; [reflexivity|].
  rewrite sent_commands_app, (draws_send_nothing draws' Fd').
  unfold set_min_command, set_max_command in *. rewrite Hemin, Hemax in *.
  auto 10.
Qed.

Lemma send_failure_is_reported_witness :
  let d := ChannelTime.mk_data 100 300 120 400 0 false 0 false false
                               (zeroed 64) in
  let w := mkWorld [] [] 1 [] [0%Z; (-1)%Z] in
  ((KEY_ENTER = KEY_ENTER \/ KEY_ENTER = KEY_SPACE) /\
   ChannelTime.loading d = false /\
   sizeof (ChannelTime.status_msg d) = 64%nat /\
   values_valid d /\
   (send_status 0 w <> ESP_OK \/ send_status 1 w <> ESP_OK)) /\
  exists d' w' added,
    ChannelTime.on_key KEY_ENTER d w = Some (d', w') /\
    w_trace w' = w_trace w ++ added /\
    c_str (ChannelTime.status_msg d') = "Send failed!" /\
    ChannelTime.min_value d' = ChannelTime.min_value d /\
    ChannelTime.max_value d' = ChannelTime.max_value d /\
    sent_commands added = [set_min_command d; set_max_command d].
Proof.
  intros d w.
  assert (H : (KEY_ENTER = KEY_ENTER \/ KEY_ENTER = KEY_SPACE) /\
              ChannelTime.loading d = false /\
              sizeof (ChannelTime.status_msg d) = 64%nat /\
              values_valid d /\
              (send_status 0 w <> ESP_OK \/ send_status 1 w <> ESP_OK)).
  { split; [left; reflexivity|]. split; [reflexivity|].
    split; [reflexivity|]. split.
    - unfold values_valid. simpl. lia.
    - right. discriminate. }
  split; [exact H|].
  destruct H as (H1 & H2 & H3 & H4 & H5).
  destruct (send_failure_is_reported KEY_ENTER d w H1 H2 H3 H4 H5)
    as (d' & w' & added & E & Ht & Hm & Hmin & Hmax & Hsent & _).
  exists d', w', added. auto 10.
Defined.

(** ** Ownership of the parameter block *)

Lemma alloc_run :
  forall w,
    alloc w =
    if alloc_succeeds 0 w then
      Some (w_brk w, mkWorld (w_trace w) (w_brk w :: w_live w) (S (w_brk w))
                             (tl (w_allocs w)) (w_sends w))
    else
      Some (NULL, mkWorld (w_trace w) (w_live w) (w_brk w) (tl (w_allocs w))
                          (w_sends w)).
Proof.
  intros w. unfold alloc, alloc_succeeds.
  destruct (w_allocs w) as [|[|] rest]; reflexivity.
Qed.

Lemma draws_free_nothing :
  forall p t, forallb is_draw t = true -> times_freed p t = O.
Proof.
  intros p t. unfold times_freed, count_event.
  induction t as [|e t IH]; intros H; [reflexivity|].
  simpl in H. apply andb_true_iff in H as [He Ht].
  simpl. destruct e; try discriminate He; simpl; apply IH, Ht.
Qed.

Lemma times_freed_app :
  forall p t1 t2,
    times_freed p (t1 ++ t2) = (times_freed p t1 + times_freed p t2)%nat.
Proof.
  intros p t1 t2. unfold times_freed, count_event.
  rewrite filter_app, length_app. reflexivity.
Qed.

Lemma text_input_draw_screen_runs :
  forall n d, runs_emitting is_draw (TextInput.draw_screen n d).
Proof.
  intros n d.
  unfold TextInput.draw_screen, ui_clear, ui_draw_title, ui_print,
    ui_draw_status.
  repeat runs_step.
Qed.

Lemma network_info_draw_screen_runs :
  forall d, runs_emitting is_draw (NetworkInfo.draw_screen d).
Proof.
  intros d.
  unfold NetworkInfo.draw_screen, ui_clear, ui_draw_title, ui_print,
    ui_print_center, ui_draw_status.
  repeat runs_step.
Qed.

Lemma second_alloc_succeeds :
  forall t l b w s,
    alloc_succeeds 0 (mkWorld t l b (tl (w_allocs w)) s) = alloc_succeeds 1 w.
Proof.
  intros t l b w s. unfold alloc_succeeds. cbn [w_allocs].
  destruct (w_allocs w) as [|a [|a' r]]; reflexivity.
Qed.

Lemma title_copy_runs :
  forall (o : option string) (n : nat),
    exists b,
      match o with
      | Some s => strncpy (zeroed (S n)) s (S n - 1)
      | None => Some (zeroed (S n))
      end = Some b.
Proof.
  intros [s|] n; [|eexists; reflexivity].
  destruct (strncpy_result (zeroed (S n)) s (S n - 1)) as (b & E & _).
  - unfold sizeof, zeroed. rewrite repeat_length. lia.
  - exists b. exact E.
Qed.

Lemma text_input_factory :
  forall n p ip w,
    In p (w_live w) -> heap_ok w ->
    exists r w' added,
      run_factory (Create_text_input n p ip) w = Some (r, w') /\
      w_trace w' = w_trace w ++ added /\
      times_freed p added = 1%nat /\
      ~ In p (w_live w') /\
      (r = None <-> alloc_succeeds 0 w = false \/ alloc_succeeds 1 w = false) /\
      (forall s, r = Some s -> In s (w_live w')).
Proof.
  intros n p ip w Hin Hheap.
  pose proof (Hheap p Hin) as Hp.
  unfold run_factory, TextInput.text_input_screen_create.
  unfold bind at 1 2. rewrite alloc_run.
  destruct (alloc_succeeds 0 w) eqn:A0.
  - destruct (Nat.eqb_spec (w_brk w) NULL) as [Hz|_];
      [unfold NULL in Hz; lia|].
    unfold bind at 1. rewrite alloc_run, second_alloc_succeeds.
    destruct (alloc_succeeds 1 w) eqn:A1.
    + cbn [w_trace w_live w_brk w_allocs w_sends Nat.eqb NULL].
      destruct (title_copy_runs (TextInput.tp_title ip) 31) as (t & Et).
      destruct (title_copy_runs (TextInput.tp_hint ip) 47) as (h & Eh).
      destruct (store_result (zeroed (n + 1)) 0 NUL) as (i & Ei & _).
      { unfold sizeof, zeroed. rewrite repeat_length. lia. }
      unfold bind at 1, lift at 1. rewrite Et.
      unfold bind at 1, lift at 1. rewrite Eh.
      unfold bind at 1, lift at 1. rewrite Ei.
      unfold bind at 1. rewrite free_run by (cbn [w_live]; auto with datatypes).
      cbn [w_trace w_live w_brk w_allocs w_sends].
      match goal with
      | |- context [bind (TextInput.draw_screen n ?d) _ ?w1] =>
          destruct (text_input_draw_screen_runs n d w1) as (u & draws & Ed & Fd)
      end.
      unfold bind at 1. rewrite Ed. unfold ret.
      cbn [w_trace w_live w_brk w_allocs w_sends option_map screen_addr].
      eexists. eexists. exists ([E_free p] ++ draws).
      split; [rewrite <- app_assoc; reflexivity|].
      split; [reflexivity|].
      split.
      { rewrite times_freed_app, (draws_free_nothing p draws Fd).
        unfold times_freed, count_event. simpl. rewrite Nat.eqb_refl.
        reflexivity. }
      split; [apply freed_block_is_gone|].
      split.
      { split; [discriminate|]. intros [H|H]; discriminate H. }
      intros s [= <-]. apply other_block_stays; [lia|].
      simpl. auto.
    + cbn [w_trace w_live w_brk w_allocs w_sends Nat.eqb NULL].
      unfold bind at 1.
      rewrite free_run by (cbn [w_live]; auto with datatypes).
      cbn [w_trace w_live w_brk w_allocs w_sends].
      unfold bind at 1.
      rewrite free_run
        by (cbn [w_live]; simpl; rewrite Nat.eqb_refl; simpl;
            apply other_block_stays; [lia | exact Hin]).
      unfold ret. cbn [w_trace w_live w_brk w_allocs w_sends option_map].
      eexists. eexists. exists [E_free (w_brk w); E_free p].
      split; [rewrite <- app_assoc; reflexivity|].
      split; [reflexivity|].
      split.
      { unfold times_freed, count_event. simpl. rewrite Nat.eqb_refl.
        destruct (Nat.eqb_spec p (w_brk w)); [lia|reflexivity]. }
      split; [apply freed_block_is_gone|].
      split; [split; [auto | reflexivity]|].
      discriminate.
  - cbn [Nat.eqb NULL].
    unfold bind at 1. rewrite free_run by exact Hin.
    unfold ret. cbn [w_trace w_live w_brk w_allocs w_sends option_map].
    eexists. eexists. exists [E_free p].
    split; [reflexivity|]. split; [reflexivity|].
    split.
    { unfold times_freed, count_event. simpl. rewrite Nat.eqb_refl.
      reflexivity. }
    split; [apply freed_block_is_gone|].
    split; [split; [auto | reflexivity]|].
    discriminate.
Qed.

Lemma network_info_factory :
  forall p ip w,
    In p (w_live w) -> heap_ok w ->
    exists r w' added,
      run_factory (Create_network_info p ip) w = Some (r, w') /\
      w_trace w' = w_trace w ++ added /\
      times_freed p added = 1%nat /\
      ~ In p (w_live w') /\
      (r = None <->
       params_rejected (Create_network_info p ip) = true \/
       alloc_succeeds 0 w = false \/ alloc_succeeds 1 w = false) /\
      (forall s, r = Some s -> In s (w_live w')).
Proof.
  intros p [[net|]] w Hin Hheap.
  2:{ (* no network in the block: rejected *)
    unfold run_factory, NetworkInfo.network_info_screen_create.
    unfold bind at 1 2. rewrite free_run by exact Hin.
    unfold ret. cbn [w_trace w_live w_brk w_allocs w_sends option_map].
    eexists. eexists. exists [E_free p].
    split; [reflexivity|]. split; [reflexivity|].
    split.
    { unfold times_freed, count_event. simpl. rewrite Nat.eqb_refl.
      reflexivity. }
    split; [apply freed_block_is_gone|].
    split; [split; [left; reflexivity | reflexivity]|].
    discriminate. }
  pose proof (Hheap p Hin) as Hp.
  unfold run_factory, NetworkInfo.network_info_screen_create, params_rejected.
  cbn [NetworkInfo.np_network].
  unfold bind at 1 2. rewrite alloc_run.
  destruct (alloc_succeeds 0 w) eqn:A0.
  - destruct (Nat.eqb_spec (w_brk w) NULL) as [Hz|_];
      [unfold NULL in Hz; lia|].
    unfold bind at 1. rewrite alloc_run, second_alloc_succeeds.
    destruct (alloc_succeeds 1 w) eqn:A1.
    + cbn [w_trace w_live w_brk w_allocs w_sends Nat.eqb NULL].
      unfold bind at 1. rewrite free_run by (cbn [w_live]; auto with datatypes).
      cbn [w_trace w_live w_brk w_allocs w_sends].
      match goal with
      | |- context [bind (NetworkInfo.draw_screen ?d) _ ?w1] =>
          destruct (network_info_draw_screen_runs d w1)
            as (u & draws & Ed & Fd)
      end.
      unfold bind at 1. rewrite Ed. unfold ret.
      cbn [w_trace w_live w_brk w_allocs w_sends option_map screen_addr].
      eexists. eexists. exists ([E_free p] ++ draws).
      split; [rewrite <- app_assoc; reflexivity|].
      split; [reflexivity|].
      split.
      { rewrite times_freed_app, (draws_free_nothing p draws Fd).
        unfold times_freed, count_event. simpl. rewrite Nat.eqb_refl.
        reflexivity. }
      split; [apply freed_block_is_gone|].
      split.
      { split; [discriminate|]. intros [H|[H|H]]; discriminate H. }
      intros s [= <-]. apply other_block_stays; [lia|].
      simpl. auto.
    + cbn [w_trace w_live w_brk w_allocs w_sends Nat.eqb NULL].
      unfold bind at 1.
      rewrite free_run by (cbn [w_live]; auto with datatypes).
      cbn [w_trace w_live w_brk w_allocs w_sends].
      unfold bind at 1.
      rewrite free_run
        by (cbn [w_live]; simpl; rewrite Nat.eqb_refl; simpl;
            apply other_block_stays; [lia | exact Hin]).
      unfold ret. cbn [w_trace w_live w_brk w_allocs w_sends option_map].
      eexists. eexists. exists [E_free (w_brk w); E_free p].
      split; [rewrite <- app_assoc; reflexivity|].
      split; [reflexivity|].
      split.
      { unfold times_freed, count_event. simpl. rewrite Nat.eqb_refl.
        destruct (Nat.eqb_spec p (w_brk w)); [lia|reflexivity]. }
      split; [apply freed_block_is_gone|].
      split; [split; [auto | reflexivity]|].
      discriminate.
  - cbn [Nat.eqb NULL].
    unfold bind at 1. rewrite free_run by exact Hin.
    unfold ret. cbn [w_trace w_live w_brk w_allocs w_sends option_map].
    eexists. eexists. exists [E_free p].
    split; [reflexivity|]. split; [reflexivity|].
    split.
    { unfold times_freed, count_event. simpl. rewrite Nat.eqb_refl.
      reflexivity. }
    split; [apply freed_block_is_gone|].
    split; [split; [auto | reflexivity]|].
    discriminate.
Qed.

(** C9. Given a live parameter block, each parameterized factory
    (text input, network info) returns, frees the block exactly once on
    every path and leaves it no longer allocated; it returns [NULL]
    exactly when it rejects the parameters or one of its two allocations
    fails, and otherwise a screen that is allocated. *)
Theorem factory_frees_params_once :
  forall (c : factory_call) (w : world),
    In (params_of c) (w_live w) ->
    heap_ok w ->
    exists r w' added,
      run_factory c w = Some (r, w') /\
      w_trace w' = w_trace w ++ added /\
      times_freed (params_of c) added = 1%nat /\
      ~ In (params_of c) (w_live w') /\
      (r = None <->
       params_rejected c = true \/
       alloc_succeeds 0 w = false \/ alloc_succeeds 1 w = false) /\
      (forall s, r = Some s -> In s (w_live w')).
Proof.
  intros [n p ip | p ip] w Hin Hheap.
  - destruct (text_input_factory n p ip w Hin Hheap)
      as (r & w' & added & E & Ht & Hf & Hg & Hr & Hs).
    exists r, w', added.
    split; [exact E|]. split; [exact Ht|]. split; [exact Hf|].
    split; [exact Hg|]. split; [|exact Hs].
    rewrite Hr. cbn [params_rejected].
    split; [auto | intros [H|H]; [discriminate H | exact H]].
  - exact (network_info_factory p ip w Hin Hheap).
Qed.

Lemma factory_frees_params_once_witness :
  let c := Create_text_input 64 7
             (TextInput.mk_params (Some "Enter Password")
                                  (Some "WiFi password") 5 6) in
  let w := mkWorld [] [7; 6] 10 [true; false] [] in
  (In (params_of c) (w_live w) /\ heap_ok w) /\
  exists r w' added,
    run_factory c w = Some (r, w') /\
    w_trace w' = w_trace w ++ added /\
    times_freed (params_of c) added = 1%nat /\
    ~ In (params_of c) (w_live w') /\
    (r = None <->
     params_rejected c = true \/
     alloc_succeeds 0 w = false \/ alloc_succeeds 1 w = false) /\
    (forall s, r = Some s -> In s (w_live w')).
Proof.
  intros c w.
  assert (H : In (params_of c) (w_live w) /\ heap_ok w).
  { split; [simpl; auto|].
    intros p [<- | [<- | []]]; simpl; lia. }
  split; [exact H|].
  exact (factory_frees_params_once c w (proj1 H) (proj2 H)).
Defined.

(** ** The line consumers of the wardrive screens on arbitrary lines *)

Lemma promisc_parse_lat_lon_spec :
  forall str d,
    promisc_sizes d ->
    exists d',
      WardrivePromisc.parse_lat_lon str d = Some d' /\ promisc_sizes d' /\
      WardrivePromisc.state d' = WardrivePromisc.state d /\
      WardrivePromisc.last_ssid d' = WardrivePromisc.last_ssid d /\
      WardrivePromisc.gps_wait_elapsed d' = WardrivePromisc.gps_wait_elapsed d /\
      WardrivePromisc.gps_wait_timeout d' = WardrivePromisc.gps_wait_timeout d /\
      WardrivePromisc.unique_networks d' = WardrivePromisc.unique_networks d /\
      WardrivePromisc.needs_redraw d' = WardrivePromisc.needs_redraw d /\
      WardrivePromisc.refresh_timer d' = WardrivePromisc.refresh_timer d /\
      WardrivePromisc.self d' = WardrivePromisc.self d.
Proof.
  intros str d (Hs & Hla & Hlo).
  unfold WardrivePromisc.parse_lat_lon.
  destruct (strstr str "Lat=") as [k|];
    [|exists d; unfold promisc_sizes; auto 12].
  destruct (strchr (advance (k + strlen "Lat=") str) " ") as [n|];
    [|exists d; unfold promisc_sizes; auto 12].
  rewrite guarded_copy by (apply Nat.ltb_lt).
  cbn [obind].
  set (d1 := if (n <? sizeof (WardrivePromisc.lat d))%nat then _ else d).
  assert (H1 : promisc_sizes d1 /\
      WardrivePromisc.state d1 = WardrivePromisc.state d /\
      WardrivePromisc.last_ssid d1 = WardrivePromisc.last_ssid d /\
      WardrivePromisc.gps_wait_elapsed d1 = WardrivePromisc.gps_wait_elapsed d /\
      WardrivePromisc.gps_wait_timeout d1 = WardrivePromisc.gps_wait_timeout d /\
      WardrivePromisc.unique_networks d1 = WardrivePromisc.unique_networks d /\
      WardrivePromisc.needs_redraw d1 = WardrivePromisc.needs_redraw d /\
      WardrivePromisc.refresh_timer d1 = WardrivePromisc.refresh_timer d /\
      WardrivePromisc.self d1 = WardrivePromisc.self d).
  { unfold d1. destruct (Nat.ltb_spec n (sizeof (WardrivePromisc.lat d))).
    - unfold promisc_sizes, WardrivePromisc.set_lat.
      cbn [WardrivePromisc.last_ssid WardrivePromisc.lat WardrivePromisc.lon
           WardrivePromisc.state WardrivePromisc.gps_wait_elapsed
           WardrivePromisc.gps_wait_timeout WardrivePromisc.unique_networks
           WardrivePromisc.needs_redraw WardrivePromisc.refresh_timer
           WardrivePromisc.self].
      rewrite copy_sizeof by assumption. auto 12.
    - unfold promisc_sizes. auto 12. }
  clearbody d1.
  destruct H1 as ((Hs1 & Hla1 & Hlo1) & E1 & E2 & E3 & E4 & E5 & E6 & E7 & E8).
  destruct (strstr _ "Lon=") as [lp|];
    [|exists d1; unfold promisc_sizes; auto 12].
  rewrite guarded_copy by (intros G; apply guard_bound in G; exact (proj2 G)).
  eexists. split; [reflexivity|].
  destruct ((0 <? _)%nat && (_ <? sizeof (WardrivePromisc.lon d1))%nat) eqn:G.
  - apply guard_bound in G.
    unfold promisc_sizes, WardrivePromisc.set_lon.
    cbn [WardrivePromisc.last_ssid WardrivePromisc.lat WardrivePromisc.lon
         WardrivePromisc.state WardrivePromisc.gps_wait_elapsed
         WardrivePromisc.gps_wait_timeout WardrivePromisc.unique_networks
         WardrivePromisc.needs_redraw WardrivePromisc.refresh_timer
         WardrivePromisc.self].
    rewrite copy_sizeof by lia. auto 12.
  - unfold promisc_sizes. auto 12.
Qed.

Ltac promisc_fields :=
  unfold promisc_sizes, WardrivePromisc.set_needs_redraw,
    WardrivePromisc.set_unique_networks, WardrivePromisc.set_state,
    WardrivePromisc.set_gps_wait in *;
  cbn [WardrivePromisc.last_ssid WardrivePromisc.lat WardrivePromisc.lon
       WardrivePromisc.state WardrivePromisc.gps_wait_elapsed
       WardrivePromisc.gps_wait_timeout WardrivePromisc.unique_networks
       WardrivePromisc.needs_redraw WardrivePromisc.refresh_timer
       WardrivePromisc.self] in *.

(** One line through the consumer of the promiscuous wardrive screen: it
    returns, makes no external call, keeps the buffer sizes, the timer handle
    and the screen, and never sets the state back to waiting. *)
Lemma promisc_callback_runs :
  forall line d w,
    promisc_sizes d ->
    exists d',
      WardrivePromisc.uart_line_callback line (Some d) w = Some (Some d', w) /\
      promisc_sizes d' /\
      WardrivePromisc.refresh_timer d' = WardrivePromisc.refresh_timer d /\
      WardrivePromisc.self d' = WardrivePromisc.self d /\
      (WardrivePromisc.state d' = WardrivePromisc.state d \/
       WardrivePromisc.state d' = WardrivePromisc.STATE_RUNNING \/
       WardrivePromisc.state d' = WardrivePromisc.STATE_GPS_LOST).
Proof.
  intros line d w Hd.
  unfold WardrivePromisc.uart_line_callback.
  destruct (WardrivePromisc.is_mac_csv line).
  { destruct (csv_extract_spec line d Hd)
      as (d1 & E & Est & _ & _ & _ & _ & Et & Ese & Cs & Cla & Clo & _).
    unfold bind, lift, ret. rewrite E.
    eexists. split; [reflexivity|].
    destruct Hd as (Hs & Hla & Hlo).
    pose proof (proj1 Cs) as Zs. pose proof (proj1 Cla) as Zla.
    pose proof (proj1 Clo) as Zlo.
    promisc_fields. rewrite Zs, Zla, Zlo. auto 10. }
  destruct (strstr line "Still waiting for GPS fix") as [k|].
  { unfold ret. eexists. split; [reflexivity|].
    destruct (strchr (advance k line) "(") as [p|];
      [destruct (sscanf _ _) as [|e [|t [|x r]]]|];
      promisc_fields; auto 10. }
  destruct (found (strstr line "GPS fix obtained")).
  { destruct (promisc_parse_lat_lon_spec line
                (WardrivePromisc.set_state WardrivePromisc.STATE_RUNNING d))
      as (d1 & E & Hd1 & Est & _ & _ & _ & _ & _ & Et & Ese);
      [exact Hd|].
    unfold bind, lift, ret. rewrite E.
    eexists. split; [reflexivity|].
    promisc_fields. auto 10. }
  destruct (found (strstr line "GPS fix lost")).
  { unfold ret. eexists. split; [reflexivity|]. promisc_fields. auto 10. }
  destruct (found (strstr line "GPS fix recovered")).
  { destruct (promisc_parse_lat_lon_spec line
                (WardrivePromisc.set_state WardrivePromisc.STATE_RUNNING d))
      as (d1 & E & Hd1 & Est & _ & _ & _ & _ & _ & Et & Ese);
      [exact Hd|].
    unfold bind, lift, ret. rewrite E.
    eexists. split; [reflexivity|].
    promisc_fields. auto 10. }
  destruct (strstr line "Wardrive promisc:") as [k|];
    [destruct (sscanf _ _) as [|n [|x r]]|];
    unfold ret; (eexists; split; [reflexivity|]); promisc_fields; auto 10.
Qed.

Lemma wardrive_gps_branch_frame :
  forall line k d d2,
    Wardrive.gps_branch line k d = Some d2 ->
    Wardrive.refresh_timer d2 = Wardrive.refresh_timer d /\
    Wardrive.self d2 = Wardrive.self d /\
    Wardrive.last_log_line d2 = Wardrive.last_log_line d.
Proof.
  intros line k d d2. unfold Wardrive.gps_branch.
  destruct (strchr _ " ") as [n|]; [|intros [= <-]; auto].
  destruct (n <? sizeof (Wardrive.lat d))%nat;
    [destruct (copy_field (Wardrive.lat d) _ n); [|discriminate]|];
    cbn [obind];
    (destruct (strstr _ "Lon=") as [lp|];
     [destruct (strchr _ " ") as [m|];
      [match goal with
       | |- context [if ?c then _ else _] => destruct c
       end;
       [match goal with
        | |- context [copy_field ?a ?b ?c] => destruct (copy_field a b c)
        end; [|discriminate]|]|]|]);
    cbn [obind]; intros [= <-]; auto.
Qed.

Lemma wardrive_logged_branch_frame :
  forall line k d d2,
    Wardrive.logged_branch line k d = Some d2 ->
    Wardrive.refresh_timer d2 = Wardrive.refresh_timer d /\
    Wardrive.self d2 = Wardrive.self d /\
    Wardrive.lat d2 = Wardrive.lat d /\ Wardrive.lon d2 = Wardrive.lon d.
Proof.
  intros line k d d2. unfold Wardrive.logged_branch.
  destruct (found _); [|intros [= <-]; auto].
  destruct (strncpy _ _ _) as [b1|]; [|discriminate]. cbn [obind].
  destruct (store b1 _ _) as [b2|]; [|discriminate]. cbn [obind].
  destruct (Wardrive.trim_trailing b2 _) as [b3|]; [|discriminate].
  cbn [obind]. intros [= <-]. auto.
Qed.

Lemma wardrive_later_frame :
  forall line d,
    wardrive_sizes d ->
    exists d2,
      Wardrive.later_recognizers line d = Some d2 /\ wardrive_sizes d2 /\
      Wardrive.refresh_timer d2 = Wardrive.refresh_timer d /\
      Wardrive.self d2 = Wardrive.self d /\
      (Wardrive.state d2 = Wardrive.state d \/
       Wardrive.state d2 = Wardrive.STATE_RUNNING).
Proof.
  intros line d Hd. unfold Wardrive.later_recognizers.
  destruct (found (strstr line "GPS fix obtained")).
  - eexists. split; [reflexivity|]. split; [exact Hd|]. auto.
  - destruct (strstr line "GPS: Lat=") as [k|].
    + destruct (wardrive_gps_branch_spec line k d Hd) as (d2 & E & H2 & _ & Hst).
      destruct (wardrive_gps_branch_frame _ _ _ _ E) as (Ht & Hs & _).
      exists d2. auto 10.
    + destruct (strstr line "Logged ") as [k|].
      * destruct (wardrive_logged_branch_spec line k d Hd)
          as (d2 & E & H2 & _ & Hst).
        destruct (wardrive_logged_branch_frame _ _ _ _ E) as (Ht & Hs & _).
        exists d2. auto 10.
      * exists d. auto 10.
Qed.

(** The same for the wardrive screen, whose CSV test falls through to the
    later recognizers. *)
Lemma wardrive_callback_runs :
  forall line d w,
    wardrive_sizes d ->
    exists d',
      Wardrive.uart_line_callback line (Some d) w = Some (Some d', w) /\
      wardrive_sizes d' /\
      Wardrive.refresh_timer d' = Wardrive.refresh_timer d /\
      Wardrive.self d' = Wardrive.self d /\
      (Wardrive.state d' = Wardrive.state d \/
       Wardrive.state d' = Wardrive.STATE_RUNNING).
Proof.
  intros line d w Hd.
  assert (Hcsv : exists d1,
            (if Wardrive.is_mac_csv line then Wardrive.csv_branch line d
             else Some d) = Some d1 /\ wardrive_sizes d1 /\
            Wardrive.refresh_timer d1 = Wardrive.refresh_timer d /\
            Wardrive.self d1 = Wardrive.self d /\
            Wardrive.state d1 = Wardrive.state d).
  { destruct (Wardrive.is_mac_csv line); [|exists d; auto].
    destruct (wardrive_csv_branch_spec line d Hd)
      as (d1 & E & Hst & Hlog & Hla & Hlo & Cs).
    exists d1. split; [exact E|].
    destruct Hd as (Zl & Zs & Zla & Zlo), Cs as (Z1 & _).
    unfold wardrive_sizes. rewrite Hlog, Hla, Hlo, Z1.
    repeat split; auto.
    all: unfold Wardrive.csv_branch in E;
      destruct (strchr (advance 18 line) ",") as [n|]; [|congruence];
      destruct ((0 <? n)%nat && (n <? sizeof (Wardrive.last_ssid d))%nat);
      [|congruence];
      destruct (copy_field (Wardrive.last_ssid d) (advance 18 line) n);
      [|discriminate]; cbn [obind] in E; injection E as <-; reflexivity. }
  destruct Hcsv as (d1 & E1 & Hd1 & Et1 & Es1 & Est1).
  destruct (wardrive_later_frame line d1 Hd1) as (d2 & E2 & Hd2 & Et2 & Es2 & Est2).
  unfold Wardrive.uart_line_callback, bind, lift, ret. rewrite E1, E2.
  exists d2. split; [reflexivity|]. split; [exact Hd2|].
  rewrite Et2, Es2, Et1, Es1, <- Est1. auto.
Qed.

Lemma promisc_deliver_runs :
  forall ls d w,
    promisc_sizes d ->
    exists d',
      deliver WardrivePromisc.uart_line_callback ls (Some d) w
      = Some (Some d', w) /\
      promisc_sizes d' /\
      WardrivePromisc.refresh_timer d' = WardrivePromisc.refresh_timer d /\
      WardrivePromisc.self d' = WardrivePromisc.self d /\
      (WardrivePromisc.state d <> WardrivePromisc.STATE_WAITING_GPS ->
       WardrivePromisc.state d' <> WardrivePromisc.STATE_WAITING_GPS).
Proof.
  induction ls as [|l ls IH]; intros d w Hd.
  - exists d. simpl. unfold ret. auto.
  - destruct (promisc_callback_runs l d w Hd) as (d1 & E1 & Hd1 & Et & Es & Hst).
    destruct (IH d1 w Hd1) as (d2 & E2 & Hd2 & Et2 & Es2 & Hst2).
    exists d2. cbn [deliver]. unfold bind. rewrite E1, E2.
    split; [reflexivity|]. split; [exact Hd2|].
    rewrite Et2, Es2, Et, Es. repeat split.
    intros Hw. apply Hst2.
    destruct Hst as [-> | [-> | ->]]; [exact Hw | discriminate | discriminate].
Qed.

Lemma wardrive_deliver_runs :
  forall ls d w,
    wardrive_sizes d ->
    exists d',
      deliver Wardrive.uart_line_callback ls (Some d) w = Some (Some d', w) /\
      wardrive_sizes d' /\
      Wardrive.refresh_timer d' = Wardrive.refresh_timer d /\
      Wardrive.self d' = Wardrive.self d /\
      (Wardrive.state d = Wardrive.STATE_RUNNING ->
       Wardrive.state d' = Wardrive.STATE_RUNNING).
Proof.
  induction ls as [|l ls IH]; intros d w Hd.
  - exists d. simpl. unfold ret. auto.
  - destruct (wardrive_callback_runs l d w Hd) as (d1 & E1 & Hd1 & Et & Es & Hst).
    destruct (IH d1 w Hd1) as (d2 & E2 & Hd2 & Et2 & Es2 & Hst2).
    exists d2. cbn [deliver]. unfold bind. rewrite E1, E2.
    split; [reflexivity|]. split; [exact Hd2|].
    rewrite Et2, Es2, Et, Es. repeat split.
    intros Hw. apply Hst2.
    destruct Hst as [-> | ->]; [exact Hw | reflexivity].
Qed.

(** X1. Whatever lines the serial bridge delivers, and in whatever order,
    the line consumers of both wardrive screens return on each of them
    without a memory fault, make no external call at all (the world is the
    one they started in), and leave the buffers of the context block at
    their declared sizes and its timer handle and screen pointer as they
    were; with a NULL context they do nothing. *)
Theorem wardrive_consumers_run_on_every_line :
  (forall ls d w,
      promisc_sizes d ->
      exists d',
        deliver WardrivePromisc.uart_line_callback ls (Some d) w
        = Some (Some d', w) /\
        promisc_sizes d' /\
        WardrivePromisc.refresh_timer d' = WardrivePromisc.refresh_timer d /\
        WardrivePromisc.self d' = WardrivePromisc.self d) /\
  (forall ls d w,
      wardrive_sizes d ->
      exists d',
        deliver Wardrive.uart_line_callback ls (Some d) w
        = Some (Some d', w) /\
        wardrive_sizes d' /\
        Wardrive.refresh_timer d' = Wardrive.refresh_timer d /\
        Wardrive.self d' = Wardrive.self d) /\
  (forall ls w,
      deliver WardrivePromisc.uart_line_callback ls None w = Some (None, w) /\
      deliver Wardrive.uart_line_callback ls None w = Some (None, w)).
Proof.
  split; [|split].
  - intros ls d w Hd.
    destruct (promisc_deliver_runs ls d w Hd) as (d' & E & H1 & H2 & H3 & _).
    exists d'. auto.
  - intros ls d w Hd.
    destruct (wardrive_deliver_runs ls d w Hd) as (d' & E & H1 & H2 & H3 & _).
    exists d'. auto.
  - induction ls as [|l ls IH]; intros w; [split; reflexivity|].
    destruct (IH w) as [E1 E2]. cbn [deliver]. unfold bind.
    cbn [WardrivePromisc.uart_line_callback Wardrive.uart_line_callback ret].
    auto.
Qed.

Lemma wardrive_consumers_run_on_every_line_witness :
  let ls := ["AA:BB:CC:DD:EE:FF,MyNet,[WPA2],2024-01-01,6,-70,52.1,21.0,0,1,WIFI";
             "GPS fix obtained: Lat=52.1 Lon=21.0";
             "Still waiting for GPS fix... (7/30 seconds)"] in
  let d := WardrivePromisc.fresh 3 1 in
  let w := mkWorld [] [] 1 [] [] in
  promisc_sizes d /\
  exists d',
    deliver WardrivePromisc.uart_line_callback ls (Some d) w
    = Some (Some d', w) /\
    promisc_sizes d' /\
    WardrivePromisc.refresh_timer d' = WardrivePromisc.refresh_timer d /\
    WardrivePromisc.self d' = WardrivePromisc.self d.
Proof.
  intros ls d w.
  assert (H : promisc_sizes d) by (repeat split; reflexivity).
  split; [exact H|].
  exact (proj1 wardrive_consumers_run_on_every_line ls d w H).
Defined.

(** X2. Once a wardrive screen has left the waiting state no line brings it
    back: on the promiscuous screen the state stays RUNNING or GPS_LOST, on
    the older screen it stays RUNNING, whatever lines follow (the countdown
    line ["Still waiting for GPS fix"] included). *)
Theorem gps_fix_is_never_forgotten :
  (forall ls d w,
      promisc_sizes d ->
      WardrivePromisc.state d <> WardrivePromisc.STATE_WAITING_GPS ->
      exists d',
        deliver WardrivePromisc.uart_line_callback ls (Some d) w
        = Some (Some d', w) /\
        WardrivePromisc.state d' <> WardrivePromisc.STATE_WAITING_GPS) /\
  (forall ls d w,
      wardrive_sizes d ->
      Wardrive.state d = Wardrive.STATE_RUNNING ->
      exists d',
        deliver Wardrive.uart_line_callback ls (Some d) w
        = Some (Some d', w) /\
        Wardrive.state d' = Wardrive.STATE_RUNNING).
Proof.
  split.
  - intros ls d w Hd Hst.
    destruct (promisc_deliver_runs ls d w Hd) as (d' & E & _ & _ & _ & H).
    exists d'. auto.
  - intros ls d w Hd Hst.
    destruct (wardrive_deliver_runs ls d w Hd) as (d' & E & _ & _ & _ & H).
    exists d'. auto.
Qed.

Lemma gps_fix_is_never_forgotten_witness :
  let ls := ["GPS fix lost! Pausing wardrive...";
             "Still waiting for GPS fix... (7/30 seconds)"] in
  let d := WardrivePromisc.set_state WardrivePromisc.STATE_RUNNING
             (WardrivePromisc.fresh 3 1) in
  let w := mkWorld [] [] 1 [] [] in
  (promisc_sizes d /\
   WardrivePromisc.state d <> WardrivePromisc.STATE_WAITING_GPS) /\
  exists d',
    deliver WardrivePromisc.uart_line_callback ls (Some d) w
    = Some (Some d', w) /\
    WardrivePromisc.state d' <> WardrivePromisc.STATE_WAITING_GPS.
Proof.
  intros ls d w.
  assert (H : promisc_sizes d /\
              WardrivePromisc.state d <> WardrivePromisc.STATE_WAITING_GPS).
  { split; [repeat split; reflexivity | discriminate]. }
  split; [exact H|].
  exact (proj1 gps_fix_is_never_forgotten ls d w (proj1 H) (proj2 H)).
Defined.

(** ** The ["Logged "] line of the wardrive screen *)

Lemma strstr_prefix :
  forall s needle k,
    strstr s needle = Some k -> String.prefix needle (advance k s) = true.
Proof.
  induction s as [|a s IH]; intros needle k H.
  - cbn [strstr] in H.
    destruct (String.prefix needle "") eqn:E; [|discriminate].
    injection H as <-. exact E.
  - cbn [strstr] in H.
    destruct (String.prefix needle (String a s)) eqn:E.
    + injection H as <-. exact E.
    + destruct (strstr s needle) as [m|] eqn:Em; [|discriminate].
      injection H as <-. simpl. apply IH. exact Em.
Qed.

Lemma prefix_length :
  forall p s, String.prefix p s = true -> (strlen p <= strlen s)%nat.
Proof.
  induction p as [|a p IH]; intros s H; unfold strlen in *; simpl; [lia|].
  destruct s as [|b s]; simpl in H; [discriminate|].
  destruct (Ascii.ascii_dec a b); [|discriminate].
  apply IH in H. simpl. lia.
Qed.

Lemma c_string_advance :
  forall k s, c_string s = true -> c_string (advance k s) = true.
Proof.
  induction k as [|k IH]; intros s H; [exact H|].
  destruct s as [|a s]; [reflexivity|].
  simpl. apply IH. unfold c_string in H. simpl in H.
  apply andb_true_iff in H. exact (proj2 H).
Qed.

Lemma c_str_strncpy_chars :
  forall n s rest,
    c_string s = true ->
    c_str (strncpy_chars s n ++ NUL :: rest) = String.substring 0 n s.
Proof.
  induction n as [|n IH]; intros s rest H.
  - simpl. destruct s; reflexivity.
  - destruct s as [|a s].
    + reflexivity.
    + unfold c_string in H. simpl in H. apply andb_true_iff in H as [Ha Hs].
      cbn [strncpy_chars app c_str]. apply negb_true_iff in Ha. rewrite Ha.
      simpl. f_equal. apply IH. exact Hs.
Qed.

Lemma c_str_nth :
  forall b i, (i < strlen (c_str b))%nat -> nth i b NUL = char_at (c_str b) i.
Proof.
  induction b as [|c b IH]; intros i Hi; simpl in *; unfold strlen in *.
  - simpl in Hi. lia.
  - destruct (Ascii.eqb c NUL) eqn:E; simpl in Hi; [lia|].
    destruct i as [|i]; [reflexivity|].
    unfold char_at. simpl. apply IH. lia.
Qed.

Lemma c_str_store_nul :
  forall b i,
    (i < strlen (c_str b))%nat ->
    exists b1, store b i NUL = Some b1 /\ sizeof b1 = sizeof b /\
               c_str b1 = String.substring 0 i (c_str b).
Proof.
  intros b i Hi.
  pose proof (c_str_length b) as Hl.
  destruct (store_result b i NUL) as (b1 & E & Hs); [lia|].
  exists b1. split; [exact E|]. split; [exact Hs|].
  unfold store in E. destruct (i <? sizeof b)%nat; [|discriminate].
  injection E as <-. clear Hs Hl.
  revert i Hi. induction b as [|c b IH]; intros i Hi.
  - unfold strlen in Hi. simpl in Hi. lia.
  - unfold strlen in *. simpl in Hi. simpl c_str.
    destruct (Ascii.eqb c NUL) eqn:E; simpl in Hi; [lia|].
    destruct i as [|i].
    + reflexivity.
    + cbn [firstn app c_str skipn]. rewrite E. simpl. f_equal.
      apply IH. lia.
Qed.

Lemma substring_snoc :
  forall t i,
    strlen t = S i ->
    t = (String.substring 0 i t ++ String (char_at t i) EmptyString)%string.
Proof.
  induction t as [|a t IH]; intros i H; unfold strlen in *; simpl in H;
    [discriminate|].
  destruct i as [|i].
  - destruct t; [reflexivity | simpl in H; discriminate].
  - simpl. f_equal. unfold char_at in *. simpl. apply IH. lia.
Qed.

Lemma forallb_trailing_snoc :
  forall s c,
    forallb is_trailing (list_ascii_of_string s) = true ->
    is_trailing c = true ->
    forallb is_trailing
      (list_ascii_of_string (s ++ String c EmptyString)) = true.
Proof.
  induction s as [|a s IH]; intros c Hs Hc; simpl in *.
  - rewrite Hc. reflexivity.
  - apply andb_true_iff in Hs as [Ha Hs]. rewrite Ha. simpl. auto.
Qed.

Lemma append_assoc :
  forall a b c : string, ((a ++ b) ++ c = a ++ (b ++ c))%string.
Proof.
  induction a as [|x a IH]; intros b c; simpl; [reflexivity|].
  f_equal. apply IH.
Qed.

Lemma append_nil_r : forall a : string, (a ++ "")%string = a.
Proof.
  induction a as [|x a IH]; simpl; [reflexivity|]. f_equal. exact IH.
Qed.

(** The trimming loop started on the last character of the text a buffer
    holds. *)
Lemma trim_trailing_spec :
  forall e b,
    strlen (c_str b) = S e ->
    exists b' dropped,
      Wardrive.trim_trailing b e = Some b' /\ sizeof b' = sizeof b /\
      c_str b = (c_str b' ++ dropped)%string /\
      forallb is_trailing (list_ascii_of_string dropped) = true /\
      (strlen (c_str b') = 1%nat \/
       (1 < strlen (c_str b'))%nat /\
       is_trailing (char_at (c_str b') (strlen (c_str b') - 1)) = false).
Proof.
  induction e as [|e IH]; intros b Hlen.
  - exists b, EmptyString. simpl. rewrite append_nil_r. auto 10.
  - cbn [Wardrive.trim_trailing].
    rewrite c_str_nth by lia.
    fold (is_trailing (char_at (c_str b) (S e))).
    destruct (is_trailing (char_at (c_str b) (S e))) eqn:Et.
    + destruct (c_str_store_nul b (S e)) as (b1 & -> & Hs1 & Hc1); [lia|].
      cbn [obind].
      assert (Hl1 : strlen (c_str b1) = S e).
      { rewrite Hc1. apply substring_length_le. lia. }
      destruct (IH b1 Hl1) as (b' & dr & E & Hs & Hc & Hd & Hk).
      exists b', (dr ++ String (char_at (c_str b) (S e)) EmptyString)%string.
      split; [exact E|]. split; [lia|].
      split.
      { rewrite (substring_snoc (c_str b) (S e) Hlen) at 1.
        rewrite <- Hc1, Hc. apply append_assoc. }
      split; [apply forallb_trailing_snoc; assumption | exact Hk].
    + exists b, EmptyString. rewrite append_nil_r.
      repeat split; auto.
      right. rewrite Hlen. split; [lia|].
      replace (S (S e) - 1)%nat with (S e) by lia. exact Et.
Qed.

Lemma wardrive_csv_step :
  forall line d,
    wardrive_sizes d ->
    exists d1,
      (if Wardrive.is_mac_csv line then Wardrive.csv_branch line d
       else Some d) = Some d1 /\ wardrive_sizes d1 /\
      Wardrive.state d1 = Wardrive.state d /\
      Wardrive.last_log_line d1 = Wardrive.last_log_line d /\
      Wardrive.lat d1 = Wardrive.lat d /\
      Wardrive.lon d1 = Wardrive.lon d.
Proof.
  intros line d Hd.
  destruct (Wardrive.is_mac_csv line); [|exists d; auto 10].
  destruct (wardrive_csv_branch_spec line d Hd)
    as (d1 & E & Hst & Hlog & Hla & Hlo & Cs).
  exists d1. split; [exact E|].
  destruct Hd as (Zl & Zs & Zla & Zlo), Cs as (Z1 & _).
  unfold wardrive_sizes. rewrite Hlog, Hla, Hlo, Z1. auto 10.
Qed.

(** X3. A line of the wardrive screen that carries ["Logged "] followed by
    ["networks to"] (and none of the GPS markers, which are tried first) is
    stored in [last_log_line] from the word "Logged" on, cut to 127
    characters, without its trailing newlines, carriage returns and spaces;
    the first character is never removed. The coordinates and the state are
    left alone and a redraw is requested. *)
Theorem logged_line_is_kept_trimmed :
  forall line k d w,
    wardrive_sizes d ->
    c_string line = true ->
    strstr line "GPS fix obtained" = None ->
    strstr line "GPS: Lat=" = None ->
    strstr line "Logged " = Some k ->
    found (strstr (advance k line) "networks to") = true ->
    exists d' dropped,
      Wardrive.uart_line_callback line (Some d) w = Some (Some d', w) /\
      String.substring 0 127 (advance k line)
      = (c_str (Wardrive.last_log_line d') ++ dropped)%string /\
      forallb is_trailing (list_ascii_of_string dropped) = true /\
      (strlen (c_str (Wardrive.last_log_line d')) = 1%nat \/
       (1 < strlen (c_str (Wardrive.last_log_line d')))%nat /\
       is_trailing
         (char_at (c_str (Wardrive.last_log_line d'))
                  (strlen (c_str (Wardrive.last_log_line d')) - 1)) = false) /\
      Wardrive.needs_redraw d' = true /\
      Wardrive.lat d' = Wardrive.lat d /\ Wardrive.lon d' = Wardrive.lon d /\
      Wardrive.state d' = Wardrive.state d.
Proof.
  intros line k d w Hd Hc Hfix Hgps Hlog Hnet.
  destruct (wardrive_csv_step line d Hd)
    as (d1 & E1 & (Zl & Zs & Zla & Zlo) & Est & Ell & Ela & Elo).
  unfold Wardrive.uart_line_callback, bind, lift, ret. rewrite E1.
  unfold Wardrive.later_recognizers. rewrite Hfix, Hgps, Hlog.
  cbn [found]. unfold Wardrive.logged_branch. rewrite Hnet.
  set (s := advance k line).
  assert (Hcs : c_string s = true) by (apply c_string_advance; exact Hc).
  unfold strncpy. rewrite Zl.
  change (Wardrive.MAX_LOG_LINE - 1 <=? Wardrive.MAX_LOG_LINE)%nat with true.
  cbn [obind].
  set (b1 := strncpy_chars s (Wardrive.MAX_LOG_LINE - 1) ++ _).
  assert (Hb1 : sizeof b1 = 128%nat).
  { unfold b1, sizeof. rewrite length_app, strncpy_chars_length, length_skipn.
    fold (sizeof (Wardrive.last_log_line d1)). rewrite Zl. reflexivity. }
  unfold store at 1. rewrite Hb1.
  change (Wardrive.MAX_LOG_LINE - 1 <? 128)%nat with true. cbn [obind].
  set (b2 := firstn (Wardrive.MAX_LOG_LINE - 1) b1 ++ _).
  assert (Hb2 : c_str b2 = String.substring 0 127 s).
  { unfold b2, b1.
    rewrite firstn_app, strncpy_chars_length, Nat.sub_diag.
    rewrite firstn_all2 by (rewrite strncpy_chars_length; lia).
    cbn [firstn]. rewrite app_nil_r.
    apply (c_str_strncpy_chars 127 s _ Hcs). }
  assert (Hlen : (7 <= strlen s)%nat).
  { apply (prefix_length "Logged " s). apply strstr_prefix. exact Hlog. }
  assert (Hl2 : exists e, strlen (c_str b2) = S e).
  { rewrite Hb2.
    destruct (Nat.le_gt_cases 127 (strlen s)).
    - exists 126%nat. apply substring_length_le. assumption.
    - exists (strlen s - 1)%nat.
      assert (String.substring 0 127 s = s) as ->; [|lia].
      clear - H. revert H. generalize 127%nat.
      induction s as [|a s IH]; intros n H.
      + destruct n; reflexivity.
      + destruct n as [|n]; [unfold strlen in H; simpl in H; lia|].
        simpl. f_equal. apply IH. unfold strlen in *. simpl in H. lia. }
  destruct Hl2 as (e & He). rewrite He.
  replace (S e - 1)%nat with e by lia.
  destruct (trim_trailing_spec e b2 He) as (b3 & dr & -> & Hs3 & Hc3 & Hd3 & Hk).
  cbn [obind]. exists (Wardrive.set_needs_redraw true
                         (Wardrive.set_last_log_line b3 d1)), dr.
  split; [reflexivity|].
  cbn [Wardrive.set_needs_redraw Wardrive.set_last_log_line
       Wardrive.last_log_line Wardrive.needs_redraw Wardrive.lat Wardrive.lon
       Wardrive.state].
  rewrite <- Hb2. auto 10.
Qed.

Lemma logged_line_is_kept_trimmed_witness :
  let line := String.append "I (1234) wardrive: Logged 12 networks to /sd/w1.log "
                (String "013" (String "010" EmptyString)) in
  let d := Wardrive.fresh 3 1 in
  let w := mkWorld [] [] 1 [] [] in
  (wardrive_sizes d /\ c_string line = true /\
   strstr line "GPS fix obtained" = None /\
   strstr line "GPS: Lat=" = None /\
   strstr line "Logged " = Some 19%nat /\
   found (strstr (advance 19 line) "networks to") = true) /\
  exists d' dropped,
    Wardrive.uart_line_callback line (Some d) w = Some (Some d', w) /\
    String.substring 0 127 (advance 19 line)
    = (c_str (Wardrive.last_log_line d') ++ dropped)%string /\
    forallb is_trailing (list_ascii_of_string dropped) = true /\
    (strlen (c_str (Wardrive.last_log_line d')) = 1%nat \/
     (1 < strlen (c_str (Wardrive.last_log_line d')))%nat /\
     is_trailing
       (char_at (c_str (Wardrive.last_log_line d'))
                (strlen (c_str (Wardrive.last_log_line d')) - 1)) = false) /\
    Wardrive.needs_redraw d' = true /\
    Wardrive.lat d' = Wardrive.lat d /\ Wardrive.lon d' = Wardrive.lon d /\
    Wardrive.state d' = Wardrive.state d.
Proof.
  intros line d w.
  assert (H : wardrive_sizes d /\ c_string line = true /\
              strstr line "GPS fix obtained" = None /\
              strstr line "GPS: Lat=" = None /\
              strstr line "Logged " = Some 19%nat /\
              found (strstr (advance 19 line) "networks to") = true).
  { repeat split; reflexivity. }
  split; [exact H|].
  destruct H as (H1 & H2 & H3 & H4 & H5 & H6).
  exact (logged_line_is_kept_trimmed line 19 d w H1 H2 H3 H4 H5 H6).
Defined.

(** ** The ["Wardrive promisc:"] line of the promiscuous wardrive screen *)

Lemma prefix_split :
  forall p s,
    String.prefix p s = true -> s = (p ++ advance (strlen p) s)%string.
Proof.
  induction p as [|a p IH]; intros s H; [reflexivity|].
  destruct s as [|b s]; simpl in H; [discriminate|].
  destruct (Ascii.ascii_dec a b) as [->|]; [|discriminate].
  simpl. f_equal. apply IH. exact H.
Qed.

Lemma skip_space_idem : forall s, skip_space (skip_space s) = skip_space s.
Proof.
  induction s as [|c s IH]; [reflexivity|].
  simpl. destruct (isspace c) eqn:E; [exact IH|].
  simpl. rewrite E. reflexivity.
Qed.

Lemma strtol10_skip_space : forall s, strtol10 (skip_space s) = strtol10 s.
Proof.
  intros s. unfold strtol10. rewrite skip_space_idem. reflexivity.
Qed.

(** What [sscanf(promisc_stat, "Wardrive promisc: %d unique networks", &n)]
    assigns, by the text after the label. *)
Lemma sscanf_promisc_count :
  forall tail,
    sscanf ("Wardrive promisc:" ++ tail) "Wardrive promisc: %d unique networks"
    = match strtol10 tail with
      | Some (n, _) => [n]
      | None => []
      end.
Proof.
  intros tail. unfold sscanf.
  change (parse_format "Wardrive promisc: %d unique networks")
    with ([DLit "W"; DLit "a"; DLit "r"; DLit "d"; DLit "r"; DLit "i";
           DLit "v"; DLit "e"; DSpace; DLit "p"; DLit "r"; DLit "o";
           DLit "m"; DLit "i"; DLit "s"; DLit "c"; DLit ":"; DSpace; DInt]
            ++ [DSpace; DLit "u"; DLit "n"; DLit "i"; DLit "q"; DLit "u";
                DLit "e"; DSpace; DLit "n"; DLit "e"; DLit "t"; DLit "w";
                DLit "o"; DLit "r"; DLit "k"; DLit "s"]).
  cbn [app append scan].
  change (skip_space (String " " (String "p" (String "r" (String "o"
            (String "m" (String "i" (String "s" (String "c"
            (String ":" tail))))))))))
    with (String "p" (String "r" (String "o" (String "m" (String "i"
            (String "s" (String "c" (String ":" tail)))))))).
  repeat match goal with
         | |- context [Ascii.eqb ?a ?b] =>
             change (Ascii.eqb a b) with true; cbv iota
         end.
  rewrite strtol10_skip_space.
  destruct (strtol10 tail) as [[n r]|]; [|reflexivity].
  f_equal.
  exact (scan_without_conversion
           [DSpace; DLit "u"; DLit "n"; DLit "i"; DLit "q"; DLit "u";
            DLit "e"; DSpace; DLit "n"; DLit "e"; DLit "t"; DLit "w";
            DLit "o"; DLit "r"; DLit "k"; DLit "s"] r eq_refl).
Qed.

(** X4. On a line that reaches the last recognizer of the promiscuous
    wardrive screen, the network count becomes the integer that follows
    ["Wardrive promisc:"] (white space skipped, a sign accepted, the value
    kept in the [int] range) and a redraw is requested; the words after the
    integer are not compared. When no integer follows the label the line
    changes nothing, the redraw flag included. *)
Theorem promisc_count_line :
  forall line k d w,
    WardrivePromisc.is_mac_csv line = false ->
    strstr line "Still waiting for GPS fix" = None ->
    strstr line "GPS fix obtained" = None ->
    strstr line "GPS fix lost" = None ->
    strstr line "GPS fix recovered" = None ->
    strstr line "Wardrive promisc:" = Some k ->
    exists d',
      WardrivePromisc.uart_line_callback line (Some d) w
      = Some (Some d', w) /\
      match strtol10 (advance (k + 17) line) with
      | Some (n, _) =>
          d' = WardrivePromisc.set_needs_redraw true
                 (WardrivePromisc.set_unique_networks n d) /\
          (INT_MIN <= n <= INT_MAX)%Z
      | None => d' = d
      end.
Proof.
  intros line k d w Hcsv H1 H2 H3 H4 Hk.
  unfold WardrivePromisc.uart_line_callback.
  rewrite Hcsv, H1, H2, H3, H4, Hk. cbn [found]. cbv iota.
  rewrite (prefix_split "Wardrive promisc:" (advance k line))
    by (apply strstr_prefix; exact Hk).
  rewrite sscanf_promisc_count, <- advance_add.
  change (strlen "Wardrive promisc:") with 17%nat.
  destruct (strtol10 (advance (k + 17) line)) as [[n r]|] eqn:E.
  - eexists. split; [reflexivity|]. split; [reflexivity|].
    unfold strtol10 in E.
    destruct (skip_space (advance (k + 17) line)) as [|c s]; [discriminate|].
    set (q := match String c s with
              | String "-" r0 => (true, r0)
              | String "+" r0 => (false, r0)
              | _ => (false, String c s)
              end) in E.
    destruct q as [neg s2]. destruct s2 as [|c2 s2']; [discriminate|].
    destruct (isdigit c2); [|discriminate].
    assert (Hm : (0 <= fst (digits_acc (String c2 s2') 0))%Z).
    { rewrite digits_acc_value. apply decimal_fold_nonneg; [lia|].
      apply leading_digits_are_digits. }
    destruct (digits_acc (String c2 s2') 0) as [m rest]. cbn [fst] in Hm.
    injection E as <- _. unfold INT_MIN, INT_MAX. destruct neg; lia.
  - eexists. split; reflexivity.
Qed.

Lemma promisc_count_line_witness :
  let line := "I (77) wardrive: Wardrive promisc: 42 unique networks" in
  let d := WardrivePromisc.fresh 3 1 in
  let w := mkWorld [] [] 1 [] [] in
  (WardrivePromisc.is_mac_csv line = false /\
   strstr line "Still waiting for GPS fix" = None /\
   strstr line "GPS fix obtained" = None /\
   strstr line "GPS fix lost" = None /\
   strstr line "GPS fix recovered" = None /\
   strstr line "Wardrive promisc:" = Some 17%nat) /\
  exists d',
    WardrivePromisc.uart_line_callback line (Some d) w = Some (Some d', w) /\
    match strtol10 (advance (17 + 17) line) with
    | Some (n, _) =>
        d' = WardrivePromisc.set_needs_redraw true
               (WardrivePromisc.set_unique_networks n d) /\
        (INT_MIN <= n <= INT_MAX)%Z
    | None => d' = d
    end.
Proof.
  intros line d w.
  assert (H : WardrivePromisc.is_mac_csv line = false /\
              strstr line "Still waiting for GPS fix" = None /\
              strstr line "GPS fix obtained" = None /\
              strstr line "GPS fix lost" = None /\
              strstr line "GPS fix recovered" = None /\
              strstr line "Wardrive promisc:" = Some 17%nat).
  { repeat split; reflexivity. }
  split; [exact H|].
  destruct H as (H0 & H1 & H2 & H3 & H4 & H5).
  exact (promisc_count_line line 17 d w H0 H1 H2 H3 H4 H5).
Defined.

(** ** One redraw for each firing of the refresh timer *)

Lemma count_clear_content :
  forall t, forallb draws_content t = true -> count_event is_ui_clear t = O.
Proof.
  unfold count_event.
  induction t as [|e t IH]; intros H; [reflexivity|].
  simpl in H. apply andb_true_iff in H as [He Ht].
  unfold draws_content in He. apply andb_true_iff in He as [_ He].
  apply negb_true_iff in He. simpl. rewrite He. apply IH, Ht.
Qed.

Lemma content_is_draw :
  forall t, forallb draws_content t = true -> forallb is_draw t = true.
Proof.
  induction t as [|e t IH]; intros H; [reflexivity|].
  simpl in H. apply andb_true_iff in H as [He Ht].
  unfold draws_content in He. apply andb_true_iff in He as [He _].
  simpl. rewrite He. apply IH, Ht.
Qed.

(** A [draw_screen] that clears the display and then runs [k]. *)
Lemma cleared_frame :
  forall (k : M unit) w,
    runs_emitting draws_content k ->
    exists added,
      bind ui_clear (fun _ => k) w
      = Some (tt, mkWorld (w_trace w ++ added) (w_live w) (w_brk w)
                          (w_allocs w) (w_sends w)) /\
      count_event is_ui_clear added = 1%nat /\
      forallb is_draw added = true.
Proof.
  intros k w Hk. unfold bind, ui_clear, emit.
  destruct (Hk (mkWorld (w_trace w ++ [E_ui_clear]) (w_live w) (w_brk w)
                        (w_allocs w) (w_sends w)))
    as ([] & rest & E & F).
  exists (E_ui_clear :: rest). rewrite E. cbn [w_trace w_live w_brk w_allocs w_sends].
  rewrite <- app_assoc. split; [reflexivity|].
  split.
  - unfold count_event. simpl. f_equal. apply (count_clear_content rest F).
  - simpl. apply content_is_draw, F.
Qed.

Lemma promisc_draw_screen_frame :
  forall d w,
    exists added,
      WardrivePromisc.draw_screen d w
      = Some (tt, mkWorld (w_trace w ++ added) (w_live w) (w_brk w)
                          (w_allocs w) (w_sends w)) /\
      count_event is_ui_clear added = 1%nat /\
      forallb is_draw added = true.
Proof.
  intros d w. unfold WardrivePromisc.draw_screen. apply cleared_frame.
  unfold ui_draw_title, ui_print, ui_draw_status.
  repeat runs_step.
Qed.

Lemma wardrive_draw_screen_frame :
  forall d w,
    exists added,
      Wardrive.draw_screen d w
      = Some (tt, mkWorld (w_trace w ++ added) (w_live w) (w_brk w)
                          (w_allocs w) (w_sends w)) /\
      count_event is_ui_clear added = 1%nat /\
      forallb is_draw added = true.
Proof.
  intros d w. unfold Wardrive.draw_screen. apply cleared_frame.
  unfold ui_draw_title, ui_print, ui_draw_status.
  repeat runs_step.
Qed.

Lemma join_networks_runs :
  forall fuel nets i n line len,
    (Z.of_nat i + Z.of_nat fuel <= Z.of_nat (List.length nets))%Z ->
    exists s, Handshaker.join_networks fuel nets i n line len = Some s.
Proof.
  induction fuel as [|fuel IH]; intros nets i n line len H.
  - eexists. reflexivity.
  - cbn [Handshaker.join_networks].
    destruct ((Z.of_nat i <? n)%Z && (len <? 50)%nat); [|eexists; reflexivity].
    destruct (nth_error nets i) as [net|] eqn:E.
    + apply IH. lia.
    + apply nth_error_None in E. lia.
Qed.

Lemma draw_captured_content :
  forall rows i n row,
    runs_emitting draws_content (Handshaker.draw_captured rows i n row).
Proof.
  induction rows as [|b rows IH]; intros i n row; simpl.
  - apply runs_emitting_ret.
  - destruct ((Z.of_nat i <? n)%Z && (row <? 7)%Z); [|apply runs_emitting_ret].
    apply runs_emitting_bind; [apply runs_emitting_emit; reflexivity|].
    intros _. apply IH.
Qed.

Lemma runs_emitting_lift :
  forall p A (a : A), runs_emitting p (lift (Some a)).
Proof.
  intros p A a w. exists a, []. rewrite app_nil_r, world_eta. auto.
Qed.

Lemma handshaker_draw_screen_frame :
  forall d w,
    networks_readable d ->
    exists added,
      Handshaker.draw_screen d w
      = Some (tt, mkWorld (w_trace w ++ added) (w_live w) (w_brk w)
                          (w_allocs w) (w_sends w)) /\
      count_event is_ui_clear added = 1%nat /\
      forallb is_draw added = true.
Proof.
  intros d w Hr. unfold Handshaker.draw_screen. apply cleared_frame.
  unfold networks_readable in Hr.
  destruct (join_networks_runs (Z.to_nat (Handshaker.count d))
              (match Handshaker.networks d with
               | Some (_, nets) => nets
               | None => []
               end) 0 (Handshaker.count d) "" 0) as (s & ->); [lia|].
  unfold ui_draw_title, ui_print, ui_draw_status.
  repeat first [ apply draw_captured_content
               | apply runs_emitting_lift
               | runs_step ].
Qed.

(** X5. However many lines arrived since the last firing, a firing of the
    refresh timer of a wardrive screen returns and redraws the screen at
    most once: exactly one [ui_clear] when it finds [needs_redraw] set and a
    screen attached, no call otherwise; all its calls are draw primitives
    and it leaves [needs_redraw] clear, so that a firing that follows with
    no line in between makes no call at all. The same holds for the timer of
    the handshaker screen when its [networks] array holds [count] entries. *)
Theorem timer_redraws_once :
  (forall ls d w,
      promisc_sizes d ->
      exists d1 d2 added,
        deliver WardrivePromisc.uart_line_callback ls (Some d) w
        = Some (Some d1, w) /\
        WardrivePromisc.refresh_timer_callback (Some d1) w
        = Some (Some d2, mkWorld (w_trace w ++ added) (w_live w) (w_brk w)
                                 (w_allocs w) (w_sends w)) /\
        count_event is_ui_clear added
        = (if timer_finds_redraw (Timer_wardrive_promisc (Some d1))
           then 1%nat else O) /\
        forallb is_draw added = true /\
        forall w2,
          WardrivePromisc.refresh_timer_callback (Some d2) w2
          = Some (Some d2, w2)) /\
  (forall ls d w,
      wardrive_sizes d ->
      exists d1 d2 added,
        deliver Wardrive.uart_line_callback ls (Some d) w
        = Some (Some d1, w) /\
        Wardrive.refresh_timer_callback (Some d1) w
        = Some (Some d2, mkWorld (w_trace w ++ added) (w_live w) (w_brk w)
                                 (w_allocs w) (w_sends w)) /\
        count_event is_ui_clear added
        = (if timer_finds_redraw (Timer_wardrive (Some d1))
           then 1%nat else O) /\
        forallb is_draw added = true /\
        forall w2,
          Wardrive.refresh_timer_callback (Some d2) w2 = Some (Some d2, w2)) /\
  (forall d w,
      networks_readable d ->
      exists d2 added,
        Handshaker.refresh_timer_callback (Some d) w
        = Some (Some d2, mkWorld (w_trace w ++ added) (w_live w) (w_brk w)
                                 (w_allocs w) (w_sends w)) /\
        count_event is_ui_clear added
        = (if timer_finds_redraw (Timer_handshaker (Some d))
           then 1%nat else O) /\
        forallb is_draw added = true /\
        forall w2,
          Handshaker.refresh_timer_callback (Some d2) w2 = Some (Some d2, w2)).
Proof.
  split; [|split].
  - intros ls d w Hd.
    destruct (promisc_deliver_runs ls d w Hd) as (d1 & E & _).
    exists d1. rewrite E. clear E.
    unfold WardrivePromisc.refresh_timer_callback, timer_finds_redraw.
    destruct (WardrivePromisc.needs_redraw d1
              && negb (Nat.eqb (WardrivePromisc.self d1) NULL)) eqn:F.
    + destruct (promisc_draw_screen_frame
                  (WardrivePromisc.set_needs_redraw false d1) w)
        as (added & Ed & Hc & Hdr).
      exists (WardrivePromisc.set_needs_redraw false d1), added.
      unfold bind, ret. rewrite Ed.
      repeat (split; [first [reflexivity | assumption]|]).
      intros w2. reflexivity.
    + exists d1, []. unfold ret. rewrite app_nil_r, world_eta.
      repeat (split; [reflexivity|]). intros w2. rewrite F. reflexivity.
  - intros ls d w Hd.
    destruct (wardrive_deliver_runs ls d w Hd) as (d1 & E & _).
    exists d1. rewrite E. clear E.
    unfold Wardrive.refresh_timer_callback, timer_finds_redraw.
    destruct (Wardrive.needs_redraw d1
              && negb (Nat.eqb (Wardrive.self d1) NULL)) eqn:F.
    + destruct (wardrive_draw_screen_frame
                  (Wardrive.set_needs_redraw false d1) w)
        as (added & Ed & Hc & Hdr).
      exists (Wardrive.set_needs_redraw false d1), added.
      unfold bind, ret. rewrite Ed.
      repeat (split; [first [reflexivity | assumption]|]).
      intros w2. reflexivity.
    + exists d1, []. unfold ret. rewrite app_nil_r, world_eta.
      repeat (split; [reflexivity|]). intros w2. rewrite F. reflexivity.
  - intros d w Hr.
    unfold Handshaker.refresh_timer_callback, timer_finds_redraw.
    destruct (Handshaker.needs_redraw d
              && negb (Nat.eqb (Handshaker.self d) NULL)) eqn:F.
    + destruct (handshaker_draw_screen_frame
                  (Handshaker.set_needs_redraw false d) w)
        as (added & Ed & Hc & Hdr); [exact Hr|].
      exists (Handshaker.set_needs_redraw false d), added.
      unfold bind, ret. rewrite Ed.
      repeat (split; [first [reflexivity | assumption]|]).
      intros w2. reflexivity.
    + exists d, []. unfold ret. rewrite app_nil_r, world_eta.
      repeat (split; [reflexivity|]). intros w2. rewrite F. reflexivity.
Qed.

Lemma timer_redraws_once_witness :
  let ls := ["GPS fix obtained: Lat=52.1 Lon=21.0";
             "AA:BB:CC:DD:EE:FF,MyNet,[WPA2],2024-01-01,6,-70,52.1,21.0,0,1,WIFI"] in
  let d := WardrivePromisc.fresh 3 1 in
  let w := mkWorld [] [] 1 [] [] in
  promisc_sizes d /\
  exists d1 d2 added,
    deliver WardrivePromisc.uart_line_callback ls (Some d) w
    = Some (Some d1, w) /\
    WardrivePromisc.refresh_timer_callback (Some d1) w
    = Some (Some d2, mkWorld (w_trace w ++ added) (w_live w) (w_brk w)
                             (w_allocs w) (w_sends w)) /\
    count_event is_ui_clear added
    = (if timer_finds_redraw (Timer_wardrive_promisc (Some d1))
       then 1%nat else O) /\
    forallb is_draw added = true /\
    forall w2,
      WardrivePromisc.refresh_timer_callback (Some d2) w2
      = Some (Some d2, w2).
Proof.
  intros ls d w.
  assert (H : promisc_sizes d) by (repeat split; reflexivity).
  split; [exact H|].
  exact (proj1 timer_redraws_once ls d w H).
Defined.

(** ** Captured handshakes *)

(** The duplicate test of the handshaker consumer compares whole strings. *)
Lemma dedupe_test :
  forall row s len,
    (len <= strlen s)%nat -> (len < sizeof row)%nat ->
    Handshaker.strncmp_eq (c_str row) s len && Ascii.eqb (nth len row NUL) NUL
    = String.eqb (c_str row) (String.substring 0 len s).
Proof.
  unfold Handshaker.strncmp_eq.
  induction row as [|c row IH]; intros s len Hs Hr;
    [unfold sizeof in Hr; simpl in Hr; lia|].
  destruct len as [|l].
  - assert (E0 : forall x, String.substring 0 0 x = EmptyString)
      by (intros [|? ?]; reflexivity).
    rewrite !E0. cbn [nth c_str]. cbn [String.eqb andb].
    destruct (Ascii.eqb c NUL); reflexivity.
  - destruct s as [|a s]; [unfold strlen in Hs; simpl in Hs; lia|].
    cbn [c_str nth]. destruct (Ascii.eqb c NUL) eqn:Ec.
    + reflexivity.
    + cbn [String.substring String.eqb].
      rewrite <- (IH s l); [|unfold strlen in *; simpl in Hs; lia
                            |unfold sizeof in *; simpl in Hr; lia].
      destruct (Ascii.eqb c a); [reflexivity|reflexivity].
Qed.

Lemma existsb_ext_in :
  forall A (f g : A -> bool) l,
    (forall x, In x l -> f x = g x) -> existsb f l = existsb g l.
Proof.
  induction l as [|a l IH]; intros H; [reflexivity|].
  simpl. rewrite (H a) by (left; reflexivity).
  rewrite IH; [reflexivity|]. intros x Hx. apply H. right. exact Hx.
Qed.

Lemma existsb_map :
  forall A B (f : A -> B) (g : B -> bool) l,
    existsb g (map f l) = existsb (fun x => g (f x)) l.
Proof.
  induction l as [|a l IH]; [reflexivity|]. simpl. rewrite IH. reflexivity.
Qed.

Lemma store_row_result :
  forall rows i b,
    (i < List.length rows)%nat ->
    Handshaker.store_row rows i b
    = Some (firstn i rows ++ b :: skipn (S i) rows).
Proof.
  induction rows as [|x rows IH]; intros i b Hi; [simpl in Hi; lia|].
  destruct i as [|i]; [reflexivity|].
  cbn [Handshaker.store_row]. rewrite IH by (simpl in Hi; lia). reflexivity.
Qed.

Lemma in_firstn :
  forall A (x : A) n l, In x (firstn n l) -> In x l.
Proof.
  intros A x n l H. rewrite <- (firstn_skipn n l). apply in_or_app. auto.
Qed.

Lemma in_skipn :
  forall A (x : A) n l, In x (skipn n l) -> In x l.
Proof.
  intros A x n l H. rewrite <- (firstn_skipn n l). apply in_or_app. auto.
Qed.

Lemma string_eqb_sym : forall a b, String.eqb a b = String.eqb b a.
Proof.
  intros a b. destruct (String.eqb_spec a b) as [->|H].
  - symmetry. apply String.eqb_refl.
  - symmetry. apply String.eqb_neq. congruence.
Qed.

(** One line through the consumer of the handshaker screen. *)
Lemma handshaker_callback_spec :
  forall n line d w,
    handshaker_sizes n d ->
    c_string line = true ->
    exists d',
      Handshaker.uart_line_callback n line (Some d) w = Some (Some d', w) /\
      handshaker_sizes n d' /\
      match captured_ssid_of n line with
      | Some s =>
          if (Handshaker.captured_count d <? Handshaker.MAX_CAPTURED)%Z
             && negb (already_captured s d)
          then captured d' = captured d ++ [s] /\
               Handshaker.captured_count d'
               = (Handshaker.captured_count d + 1)%Z /\
               Handshaker.needs_redraw d' = true
          else d' = d
      | None => d' = d
      end.
Proof.
  intros n line d w Hd Hc.
  pose proof Hd as (Hn & Hlen & Hrows & Hcnt).
  unfold Handshaker.uart_line_callback, captured_ssid_of.
  destruct (strstr line Handshaker.marker) as [k|];
    [|(exists d; cbn [andb negb]; unfold ret;
     split; [reflexivity|split; [exact Hd|reflexivity]])].
  set (s := advance (k + strlen Handshaker.marker) line).
  assert (Hcs : c_string s = true) by (apply c_string_advance; exact Hc).
  set (len0 := match strchr s " " with Some m => m | None => strlen s end).
  assert (Hlen0 : (len0 <= strlen s)%nat).
  { unfold len0. destruct (strchr s " ") as [m|] eqn:E; [|lia].
    apply strchr_bound in E. lia. }
  assert (Elen : (if (n <=? len0)%nat then (n - 1)%nat else len0)
                 = Nat.min len0 (n - 1)).
  { destruct (Nat.leb_spec n len0); lia. }
  rewrite Elen. set (len := Nat.min len0 (n - 1)).
  assert (Hl1 : (len <= strlen s)%nat) by (unfold len; lia).
  assert (Hl2 : (len < n)%nat) by (unfold len; lia).
  destruct (Handshaker.captured_count d <? Handshaker.MAX_CAPTURED)%Z eqn:Eb;
    [|(exists d; cbn [andb negb]; unfold ret;
     split; [reflexivity|split; [exact Hd|reflexivity]])].
  apply Z.ltb_lt in Eb. unfold Handshaker.MAX_CAPTURED in *.
  cbn [andb].
  assert (Edup :
    existsb (fun row => Handshaker.strncmp_eq (c_str row) s len
                        && Ascii.eqb (nth len row NUL) NUL)
            (firstn (Z.to_nat (Handshaker.captured_count d))
                    (Handshaker.captured_ssids d))
    = already_captured (String.substring 0 len s) d).
  { unfold already_captured, captured. rewrite existsb_map.
    apply existsb_ext_in. intros row Hin.
    rewrite dedupe_test; [apply string_eqb_sym | exact Hl1 |].
    apply in_firstn in Hin. rewrite Forall_forall in Hrows.
    rewrite (Hrows row Hin). exact Hl2. }
  rewrite Edup.
  destruct (already_captured (String.substring 0 len s) d);
    [(exists d; cbn [andb negb]; unfold ret;
     split; [reflexivity|split; [exact Hd|reflexivity]])|].
  cbn [negb].
  remember (Z.to_nat (Handshaker.captured_count d)) as i eqn:Ei.
  assert (Hi : (i < List.length (Handshaker.captured_ssids d))%nat)
    by lia.
  destruct (nth_error (Handshaker.captured_ssids d) i) as [row|] eqn:Erow;
    [|apply nth_error_None in Erow; lia].
  assert (Hrow : sizeof row = n).
  { rewrite Forall_forall in Hrows. apply Hrows.
    apply (nth_error_In _ _ Erow). }
  unfold bind, lift, ret. cbv beta iota.
  rewrite copy_result by (rewrite Hrow; exact Hl2).
  rewrite store_row_result by exact Hi.
  eexists. split; [reflexivity|].
  assert (Ew : wrap_int (Handshaker.captured_count d + 1)
               = (Handshaker.captured_count d + 1)%Z).
  { unfold wrap_int. rewrite Z.mod_small; lia. }
  unfold handshaker_sizes, captured, Handshaker.set_needs_redraw,
    Handshaker.set_captured.
  cbn [Handshaker.captured_ssids Handshaker.captured_count
       Handshaker.needs_redraw].
  rewrite Ew. split; [|split; [|auto]].
  - split; [exact Hn|]. split.
    + rewrite length_app, length_firstn. cbn [Datatypes.length].
      rewrite length_skipn. lia.
    + split; [|unfold Handshaker.MAX_CAPTURED; lia]. apply Forall_app. split.
      * apply Forall_forall. intros x Hx. apply in_firstn in Hx.
        rewrite Forall_forall in Hrows. auto.
      * constructor;
          [rewrite copy_sizeof by (rewrite Hrow; exact Hl2); exact Hrow|].
        apply Forall_forall. intros x Hx.
        apply in_skipn in Hx. rewrite Forall_forall in Hrows. auto.
  - replace (Z.to_nat (Handshaker.captured_count d + 1)) with (S i) by lia.
    rewrite <- Ei.
    rewrite firstn_app, length_firstn.
    replace (Nat.min i (List.length (Handshaker.captured_ssids d))) with i
      by lia.
    replace (S i - i)%nat with 1%nat by lia.
    rewrite (firstn_all2 (n := S i) (firstn i _))
      by (rewrite length_firstn; lia).
    cbn [firstn]. rewrite map_app. cbn [map].
    rewrite c_str_strncpy_chars by exact Hcs. reflexivity.
Qed.

(** X6. A line handed to the consumer of the handshaker screen never makes
    it write outside [captured_ssids]: the consumer returns, makes no
    external call and keeps the eight rows at [MAX_SSID_LEN] characters and
    the count within 0..8. The SSID of a capture line (the text after the
    marker up to the first space or the end of the line, cut to
    [MAX_SSID_LEN - 1] characters) is appended to the captured SSIDs, and a
    redraw requested, exactly when fewer than eight are held and it is not
    among them; every other line leaves the context as it was. *)
Theorem handshake_capture :
  forall n line d w,
    handshaker_sizes n d ->
    c_string line = true ->
    exists d',
      Handshaker.uart_line_callback n line (Some d) w = Some (Some d', w) /\
      handshaker_sizes n d' /\
      match captured_ssid_of n line with
      | Some s =>
          if (Handshaker.captured_count d <? Handshaker.MAX_CAPTURED)%Z
             && negb (already_captured s d)
          then captured d' = captured d ++ [s] /\
               Handshaker.captured_count d'
               = (Handshaker.captured_count d + 1)%Z /\
               Handshaker.needs_redraw d' = true
          else d' = d
      | None => d' = d
      end.
Proof.
  exact handshaker_callback_spec.
Qed.

Lemma handshake_capture_witness :
  let line := "Complete 4-way handshake saved for SSID: MyNet (ch 6)" in
  let d := Handshaker.mk_data None 0 (repeat (zeroed 33) 8) 0 false 3 1 in
  let w := mkWorld [] [] 1 [] [] in
  (handshaker_sizes 33 d /\ c_string line = true) /\
  exists d',
    Handshaker.uart_line_callback 33 line (Some d) w = Some (Some d', w) /\
    handshaker_sizes 33 d' /\
    match captured_ssid_of 33 line with
    | Some s =>
        if (Handshaker.captured_count d <? Handshaker.MAX_CAPTURED)%Z
           && negb (already_captured s d)
        then captured d' = captured d ++ [s] /\
             Handshaker.captured_count d'
             = (Handshaker.captured_count d + 1)%Z /\
             Handshaker.needs_redraw d' = true
        else d' = d
    | None => d' = d
    end.
Proof.
  intros line d w.
  assert (H : handshaker_sizes 33 d /\ c_string line = true).
  { split; [|reflexivity]. unfold handshaker_sizes.
    split; [lia|]. split; [reflexivity|].
    split; [repeat constructor | simpl; unfold Handshaker.MAX_CAPTURED; lia]. }
  split; [exact H|].
  exact (handshake_capture 33 line d w (proj1 H) (proj2 H)).
Defined.

Lemma captured_length :
  forall n d,
    handshaker_sizes n d ->
    List.length (captured d) = Z.to_nat (Handshaker.captured_count d).
Proof.
  intros n d (_ & Hl & _ & Hc). unfold captured.
  rewrite length_map, length_firstn, Hl.
  unfold Handshaker.MAX_CAPTURED in Hc. lia.
Qed.

Lemma existsb_string_in :
  forall s l, existsb (String.eqb s) l = true <-> In s l.
Proof.
  intros s l. rewrite existsb_exists. split.
  - intros (x & Hx & E). apply String.eqb_eq in E. subst. exact Hx.
  - intros H. exists s. split; [exact H | apply String.eqb_refl].
Qed.

(** X7. Whatever lines arrive, the handshaker screen never holds the same
    SSID twice and never more than eight; an SSID once captured stays at its
    place in the list; and the SSID of every capture line that was
    delivered is in the list, unless the list is full. *)
Theorem captures_are_distinct_and_kept :
  forall n ls d w,
    handshaker_sizes n d ->
    forallb c_string ls = true ->
    NoDup (captured d) ->
    exists d',
      deliver (Handshaker.uart_line_callback n) ls (Some d) w
      = Some (Some d', w) /\
      handshaker_sizes n d' /\
      NoDup (captured d') /\
      (List.length (captured d') <= 8)%nat /\
      (exists more, captured d' = captured d ++ more) /\
      (forall l s,
          In l ls -> captured_ssid_of n l = Some s ->
          In s (captured d') \/ List.length (captured d') = 8%nat).
Proof.
  intros n ls. induction ls as [|l ls IH]; intros d w Hd Hls Hnd.
  - exists d. cbn [deliver]. unfold ret.
    split; [reflexivity|]. split; [exact Hd|]. split; [exact Hnd|].
    split.
    { rewrite (captured_length n d Hd). destruct Hd as (_ & _ & _ & Hc).
      unfold Handshaker.MAX_CAPTURED in Hc. lia. }
    split; [exists []; rewrite app_nil_r; reflexivity|].
    intros l s [].
  - cbn [forallb] in Hls. apply andb_true_iff in Hls as [Hl Hls].
    destruct (handshaker_callback_spec n l d w Hd Hl) as (d1 & E1 & Hd1 & Hstep).
    assert (Hnd1 : NoDup (captured d1) /\
                   (exists m1, captured d1 = captured d ++ m1) /\
                   (forall s, captured_ssid_of n l = Some s ->
                              In s (captured d1) \/
                              List.length (captured d1) = 8%nat)).
    { destruct (captured_ssid_of n l) as [s|].
      - destruct (Handshaker.captured_count d <? Handshaker.MAX_CAPTURED)%Z
          eqn:Eb.
        + destruct (already_captured s d) eqn:Ea; cbn [andb negb] in Hstep.
          * subst d1. split; [exact Hnd|].
            split; [exists []; rewrite app_nil_r; reflexivity|].
            intros s0 [= <-]. left. apply existsb_string_in. exact Ea.
          * destruct Hstep as (Ec & _ & _). rewrite Ec.
            split.
            { apply NoDup_app; [exact Hnd | repeat constructor; intros [] |].
              intros x Hx [<- | []].
              apply existsb_string_in in Hx.
              unfold already_captured in Ea. congruence. }
            split; [exists [s]; reflexivity|].
            intros s0 [= <-]. left. apply in_or_app. right. left. reflexivity.
        + cbn [andb] in Hstep. subst d1. split; [exact Hnd|].
          split; [exists []; rewrite app_nil_r; reflexivity|].
          intros s0 _. right. rewrite (captured_length n d Hd).
          apply Z.ltb_ge in Eb. destruct Hd as (_ & _ & _ & Hc).
          unfold Handshaker.MAX_CAPTURED in *. lia.
      - subst d1. split; [exact Hnd|].
        split; [exists []; rewrite app_nil_r; reflexivity|].
        intros s0 [=]. }
    destruct Hnd1 as (Hnd1 & (m1 & Em1) & Hin1).
    destruct (IH d1 w Hd1 Hls Hnd1) as (d2 & E2 & Hd2 & Hnd2 & Hlen2 & (m2 & Em2) & Hin2).
    exists d2. cbn [deliver]. unfold bind. rewrite E1, E2.
    split; [reflexivity|]. split; [exact Hd2|]. split; [exact Hnd2|].
    split; [exact Hlen2|].
    split; [exists (m1 ++ m2); rewrite Em2, Em1, app_assoc; reflexivity|].
    intros l0 s [<- | Hl0] Hs.
    + destruct (Hin1 s Hs) as [Hs1 | Hfull].
      * left. rewrite Em2. apply in_or_app. left. exact Hs1.
      * right. rewrite Em2, length_app in *. lia.
    + exact (Hin2 l0 s Hl0 Hs).
Qed.

Lemma captures_are_distinct_and_kept_witness :
  let ls := ["Complete 4-way handshake saved for SSID: MyNet (ch 6)";
             "Complete 4-way handshake saved for SSID: MyNet (ch 6)";
             "Complete 4-way handshake saved for SSID: Other"] in
  let d := Handshaker.mk_data None 0 (repeat (zeroed 33) 8) 0 false 3 1 in
  let w := mkWorld [] [] 1 [] [] in
  (handshaker_sizes 33 d /\ forallb c_string ls = true /\ NoDup (captured d)) /\
  exists d',
    deliver (Handshaker.uart_line_callback 33) ls (Some d) w
    = Some (Some d', w) /\
    handshaker_sizes 33 d' /\
    NoDup (captured d') /\
    (List.length (captured d') <= 8)%nat /\
    (exists more, captured d' = captured d ++ more) /\
    (forall l s,
        In l ls -> captured_ssid_of 33 l = Some s ->
        In s (captured d') \/ List.length (captured d') = 8%nat).
Proof.
  intros ls d w.
  assert (H : handshaker_sizes 33 d /\ forallb c_string ls = true /\
              NoDup (captured d)).
  { split; [|split; [reflexivity | constructor]].
    unfold handshaker_sizes.
    split; [lia|]. split; [reflexivity|].
    split; [repeat constructor | simpl; unfold Handshaker.MAX_CAPTURED; lia]. }
  split; [exact H|].
  destruct H as (H1 & H2 & H3).
  exact (captures_are_distinct_and_kept 33 ls d w H1 H2 H3).
Defined.

(** ** What the handshaker screen displays *)

Lemma substring_all :
  forall n s, (strlen s <= n)%nat -> String.substring 0 n s = s.
Proof.
  induction n as [|n IH]; intros s H.
  - destruct s; [reflexivity | unfold strlen in H; simpl in H; lia].
  - destruct s as [|a s]; [reflexivity|].
    simpl. f_equal. apply IH. unfold strlen in *. simpl in H. lia.
Qed.

Lemma strlen_append :
  forall a b, strlen (a ++ b) = (strlen a + strlen b)%nat.
Proof.
  induction a as [|x a IH]; intros b; unfold strlen in *; simpl; auto.
Qed.

Lemma substring_length_bound :
  forall n s, (strlen (String.substring 0 n s) <= n)%nat.
Proof.
  induction n as [|n IH]; intros s.
  - destruct s; unfold strlen; simpl; lia.
  - destruct s as [|a s]; unfold strlen in *; simpl; [lia|].
    specialize (IH s). lia.
Qed.

Lemma capture_row_text :
  forall s,
    snprintf_local 48 (" " ++ String.substring 0 18 s ++ " - Complete!")
    = (" " ++ String.substring 0 18 s ++ " - Complete!")%string.
Proof.
  intros s. unfold snprintf_local. apply substring_all.
  change (" " ++ String.substring 0 18 s ++ " - Complete!")%string
    with (String " " (String.substring 0 18 s ++ " - Complete!")).
  unfold strlen. cbn [String.length].
  fold (strlen (String.substring 0 18 s ++ " - Complete!")).
  rewrite strlen_append. pose proof (substring_length_bound 18 s).
  change (strlen " - Complete!") with 12%nat. lia.
Qed.

(** X8. A redraw of the handshaker screen shows at most two captured
    SSIDs, the two captured first, on rows 5 and 6 and each cut to 18
    characters, however many were captured; the line that names the
    attacked networks, on row 2, is never longer than 29 characters. *)
Theorem handshaker_shows_two_captures :
  forall n d w,
    handshaker_sizes n d ->
    networks_readable d ->
    exists added networks_line,
      Handshaker.draw_screen d w
      = Some (tt, mkWorld (w_trace w ++ added) (w_live w) (w_brk w)
                          (w_allocs w) (w_sends w)) /\
      capture_rows added
      = map capture_row (combine [5%Z; 6%Z] (captured d)) /\
      In (E_ui_print 0 2 (Txt networks_line) UI_COLOR_TEXT) added /\
      (strlen networks_line <= 29)%nat.
Proof.
  intros n d w (Hn & Hlen & Hrows & Hcnt) Hr.
  unfold networks_readable in Hr.
  unfold Handshaker.draw_screen.
  destruct (join_networks_runs (Z.to_nat (Handshaker.count d))
              (match Handshaker.networks d with
               | Some (_, nets) => nets
               | None => []
               end) 0 (Handshaker.count d) "" 0) as (j & Ej); [lia|].
  rewrite Ej.
  set (nl := if (29 <? strlen j)%nat
             then (String.substring 0 26 j ++ "...")%string else j).
  assert (Hnl : (strlen nl <= 29)%nat).
  { unfold nl. destruct (Nat.ltb_spec 29 (strlen j)); [|assumption].
    rewrite strlen_append.
    pose proof (substring_length_bound 26 j).
    change (strlen "...") with 3%nat. lia. }
  unfold captured.
  destruct (Handshaker.captured_ssids d) as [|r1 [|r2 [|r3 rest]]];
    try (simpl in Hlen; discriminate).
  unfold Handshaker.MAX_CAPTURED in Hcnt.
  change (1 + 1)%Z with 2%Z. change (2 + 2)%Z with 4%Z.
  change (4 + 1)%Z with 5%Z.
  unfold bind, lift, ui_clear, ui_draw_title, ui_print, ui_draw_status, emit,
    ret.
  cbn [w_trace w_live w_brk w_allocs w_sends].
  destruct (Z.ltb_spec 0 (Handshaker.captured_count d)) as [H0|H0].
  - cbn [Handshaker.draw_captured]. unfold bind, ui_print, emit, ret.
    cbn [w_trace w_live w_brk w_allocs w_sends].
    change (Z.of_nat 0) with 0%Z. change (Z.of_nat 1) with 1%Z.
    change (Z.of_nat 2) with 2%Z.
    change (5 + 1)%Z with 6%Z. change (6 + 1)%Z with 7%Z.
    change (5 <? 7)%Z with true. change (6 <? 7)%Z with true.
    change (7 <? 7)%Z with false.
    destruct (Z.ltb_spec 0 (Handshaker.captured_count d)) as [_|]; [|lia].
    cbn [andb]. rewrite andb_false_r.
    destruct (Z.ltb_spec 1 (Handshaker.captured_count d)) as [H1|H1].
    + cbn [andb w_trace w_live w_brk w_allocs w_sends].
      rewrite !capture_row_text.
      eexists. exists nl. split.
      { repeat rewrite <- app_assoc. cbn [app]. reflexivity. }
      split.
      { replace (Z.to_nat (Handshaker.captured_count d))
          with (S (S (Z.to_nat (Handshaker.captured_count d) - 2))) by lia.
        reflexivity. }
      split; [|exact Hnl]. cbn [In]. auto 10.
    + cbn [andb w_trace w_live w_brk w_allocs w_sends].
      rewrite !capture_row_text.
      eexists. exists nl. split.
      { repeat rewrite <- app_assoc. cbn [app]. reflexivity. }
      split.
      { replace (Z.to_nat (Handshaker.captured_count d)) with 1%nat by lia.
        reflexivity. }
      split; [|exact Hnl]. cbn [In]. auto 10.
  - cbn [w_trace w_live w_brk w_allocs w_sends].
    eexists. exists nl. split.
    { repeat rewrite <- app_assoc. cbn [app]. reflexivity. }
    split.
    { replace (Z.to_nat (Handshaker.captured_count d)) with O by lia.
      reflexivity. }
    split; [|exact Hnl]. cbn [In]. auto 10.
Qed.

Lemma handshaker_shows_two_captures_witness :
  let d := Handshaker.mk_data None 0 (repeat (zeroed 33) 8) 0 false 3 1 in
  let w := mkWorld [] [] 1 [] [] in
  (handshaker_sizes 33 d /\ networks_readable d) /\
  exists added networks_line,
    Handshaker.draw_screen d w
    = Some (tt, mkWorld (w_trace w ++ added) (w_live w) (w_brk w)
                        (w_allocs w) (w_sends w)) /\
    capture_rows added
    = map capture_row (combine [5%Z; 6%Z] (captured d)) /\
    In (E_ui_print 0 2 (Txt networks_line) UI_COLOR_TEXT) added /\
    (strlen networks_line <= 29)%nat.
Proof.
  intros d w.
  assert (H : handshaker_sizes 33 d /\ networks_readable d).
  { split; [|unfold networks_readable; simpl; lia].
    unfold handshaker_sizes.
    split; [lia|]. split; [reflexivity|].
    split; [repeat constructor | simpl; unfold Handshaker.MAX_CAPTURED; lia]. }
  split; [exact H|].
  exact (handshaker_shows_two_captures 33 d w (proj1 H) (proj2 H)).
Defined.

(** ** The result of a connection attempt *)

Lemma result_message_stored :
  forall (dst : buffer) ok,
    sizeof dst = 64%nat ->
    exists b,
      snprintf_s dst (outcome_message ok) = Some b /\ sizeof b = 64%nat /\
      c_str b = outcome_message ok.
Proof.
  intros dst ok Hs.
  rewrite snprintf_s_result by (rewrite Hs; destruct ok; simpl; lia).
  eexists. split; [reflexivity|].
  split; [rewrite copy_sizeof; [exact Hs | rewrite Hs; destruct ok; simpl; lia]|].
  rewrite c_str_strncpy_chars by (destruct ok; reflexivity).
  apply substring_all. lia.
Qed.

Lemma network_info_line :
  forall line d w,
    NetworkInfo.state d = NetworkInfo.STATE_CONNECTING ->
    sizeof (NetworkInfo.result_msg d) = 64%nat ->
    exists d',
      NetworkInfo.uart_line_callback line (Some d) w
      = Some (Some d', mkWorld (w_trace w ++ outcome_calls (reported_outcome line))
                               (w_live w) (w_brk w) (w_allocs w) (w_sends w)) /\
      match reported_outcome line with
      | Some ok =>
          NetworkInfo.state d' = NetworkInfo.STATE_RESULT /\
          NetworkInfo.success d' = ok /\
          c_str (NetworkInfo.result_msg d') = outcome_message ok /\
          NetworkInfo.needs_redraw d' = true /\
          NetworkInfo.network d' = NetworkInfo.network d /\
          NetworkInfo.password d' = NetworkInfo.password d
      | None => d' = d
      end.
Proof.
  intros line d w Hst Hs.
  unfold NetworkInfo.uart_line_callback, reported_outcome. rewrite Hst.
  cbn [NetworkInfo.is_connecting negb].
  destruct (found (strstr line "SUCCESS:") && found (strstr line "Connected")).
  - unfold NetworkInfo.connection_result, bind, lift, ret,
      uart_set_wifi_connected, emit.
    cbn [NetworkInfo.result_msg NetworkInfo.set_success].
    destruct (result_message_stored (NetworkInfo.result_msg d) true Hs)
      as (b & E & _ & Hc).
    change "Connected!" with (outcome_message true). rewrite E.
    eexists. split; [reflexivity|]. cbn. auto 10.
  - destruct (found (strstr line "FAILED:")).
    + unfold NetworkInfo.connection_result, bind, lift, ret,
        uart_set_wifi_connected, emit.
      cbn [NetworkInfo.result_msg NetworkInfo.set_success].
      destruct (result_message_stored (NetworkInfo.result_msg d) false Hs)
        as (b & E & _ & Hc).
      change "Connection failed" with (outcome_message false). rewrite E.
      eexists. split; [reflexivity|]. cbn. auto 10.
    + exists d. unfold ret. cbn [outcome_calls].
      rewrite app_nil_r, world_eta. auto.
Qed.

Lemma network_info_ignores :
  forall ls d w,
    NetworkInfo.state d <> NetworkInfo.STATE_CONNECTING ->
    deliver NetworkInfo.uart_line_callback ls (Some d) w = Some (Some d, w).
Proof.
  induction ls as [|l ls IH]; intros d w Hst; [reflexivity|].
  cbn [deliver]. unfold bind. unfold NetworkInfo.uart_line_callback at 1.
  destruct (NetworkInfo.state d) eqn:E; try congruence;
    cbn [NetworkInfo.is_connecting negb ret]; apply IH; congruence.
Qed.

Lemma data_detail_line :
  forall line d w,
    DataDetail.state d = DataDetail.STATE_CONNECTING ->
    sizeof (DataDetail.result_msg d) = 64%nat ->
    exists d',
      DataDetail.uart_line_callback line (Some d) w
      = Some (Some d', mkWorld (w_trace w ++ outcome_calls (reported_outcome line))
                               (w_live w) (w_brk w) (w_allocs w) (w_sends w)) /\
      match reported_outcome line with
      | Some ok =>
          DataDetail.state d' = DataDetail.STATE_RESULT /\
          DataDetail.connect_success d' = ok /\
          c_str (DataDetail.result_msg d') = outcome_message ok /\
          DataDetail.needs_redraw d' = true /\
          DataDetail.lines d' = DataDetail.lines d /\
          DataDetail.line_count d' = DataDetail.line_count d
      | None => d' = d
      end.
Proof.
  intros line d w Hst Hs.
  unfold DataDetail.uart_line_callback, reported_outcome. rewrite Hst.
  cbn [DataDetail.is_connecting negb].
  destruct (found (strstr line "SUCCESS:") && found (strstr line "Connected")).
  - unfold DataDetail.connection_result, bind, lift, ret,
      uart_set_wifi_connected, emit.
    destruct (result_message_stored (DataDetail.result_msg d) true Hs)
      as (b & E & _ & Hc).
    change "Connected!" with (outcome_message true). rewrite E.
    eexists. split; [reflexivity|]. cbn. auto 10.
  - destruct (found (strstr line "FAILED:")).
    + unfold DataDetail.connection_result, bind, lift, ret,
        uart_set_wifi_connected, emit.
      destruct (result_message_stored (DataDetail.result_msg d) false Hs)
        as (b & E & _ & Hc).
      change "Connection failed" with (outcome_message false). rewrite E.
      eexists. split; [reflexivity|]. cbn. auto 10.
    + exists d. unfold ret. cbn [outcome_calls].
      rewrite app_nil_r, world_eta. auto.
Qed.

Lemma data_detail_ignores :
  forall ls d w,
    DataDetail.state d <> DataDetail.STATE_CONNECTING ->
    deliver DataDetail.uart_line_callback ls (Some d) w = Some (Some d, w).
Proof.
  induction ls as [|l ls IH]; intros d w Hst; [reflexivity|].
  cbn [deliver]. unfold bind. unfold DataDetail.uart_line_callback at 1.
  destruct (DataDetail.state d) eqn:E; try congruence;
    cbn [DataDetail.is_connecting negb ret]; apply IH; congruence.
Qed.

(** X9. During a connection attempt of the network-info screen or of the
    data-detail screen the first line that reports an outcome decides it:
    a line with both ["SUCCESS:"] and ["Connected"] is a success even when
    it also carries ["FAILED:"], a line with ["FAILED:"] a failure. The
    screen then holds the result state, the outcome and its message, and
    [uart_set_wifi_connected] has been called exactly once; the lines that
    follow are ignored. Lines that report nothing, and all lines outside of
    an attempt, change nothing and cause no call. *)
Theorem first_connection_result_wins :
  (forall ls d w,
      sizeof (NetworkInfo.result_msg d) = 64%nat ->
      exists d',
        deliver NetworkInfo.uart_line_callback ls (Some d) w
        = Some (Some d',
                mkWorld (w_trace w
                         ++ (if NetworkInfo.is_connecting (NetworkInfo.state d)
                             then outcome_calls (first_outcome ls) else []))
                        (w_live w) (w_brk w) (w_allocs w) (w_sends w)) /\
        match (if NetworkInfo.is_connecting (NetworkInfo.state d)
               then first_outcome ls else None) with
        | Some ok =>
            NetworkInfo.state d' = NetworkInfo.STATE_RESULT /\
            NetworkInfo.success d' = ok /\
            c_str (NetworkInfo.result_msg d') = outcome_message ok /\
            NetworkInfo.needs_redraw d' = true
        | None => d' = d
        end) /\
  (forall ls d w,
      sizeof (DataDetail.result_msg d) = 64%nat ->
      exists d',
        deliver DataDetail.uart_line_callback ls (Some d) w
        = Some (Some d',
                mkWorld (w_trace w
                         ++ (if DataDetail.is_connecting (DataDetail.state d)
                             then outcome_calls (first_outcome ls) else []))
                        (w_live w) (w_brk w) (w_allocs w) (w_sends w)) /\
        match (if DataDetail.is_connecting (DataDetail.state d)
               then first_outcome ls else None) with
        | Some ok =>
            DataDetail.state d' = DataDetail.STATE_RESULT /\
            DataDetail.connect_success d' = ok /\
            c_str (DataDetail.result_msg d') = outcome_message ok /\
            DataDetail.needs_redraw d' = true
        | None => d' = d
        end).
Proof.
  split.
  - intros ls d w Hs.
    destruct (NetworkInfo.is_connecting (NetworkInfo.state d)) eqn:Ec.
    + assert (Hst : NetworkInfo.state d = NetworkInfo.STATE_CONNECTING)
        by (destruct (NetworkInfo.state d); try discriminate; reflexivity).
      clear Ec. revert d w Hs Hst.
      induction ls as [|l ls IH]; intros d w Hs Hst.
      * exists d. cbn [deliver first_outcome outcome_calls]. unfold ret.
        rewrite app_nil_r, world_eta. auto.
      * destruct (network_info_line l d w Hst Hs) as (d1 & E1 & H1).
        cbn [deliver first_outcome]. unfold bind. rewrite E1.
        destruct (reported_outcome l) as [ok|].
        { rewrite network_info_ignores
            by (destruct H1 as (-> & _); discriminate).
          exists d1. split; [reflexivity|].
          destruct H1 as (? & ? & ? & ? & _). auto. }
        subst d1. cbn [outcome_calls]. rewrite app_nil_r, world_eta.
        apply IH; assumption.
    + rewrite network_info_ignores
        by (intros E; rewrite E in Ec; discriminate).
      exists d. rewrite app_nil_r, world_eta. auto.
  - intros ls d w Hs.
    destruct (DataDetail.is_connecting (DataDetail.state d)) eqn:Ec.
    + assert (Hst : DataDetail.state d = DataDetail.STATE_CONNECTING)
        by (destruct (DataDetail.state d); try discriminate; reflexivity).
      clear Ec. revert d w Hs Hst.
      induction ls as [|l ls IH]; intros d w Hs Hst.
      * exists d. cbn [deliver first_outcome outcome_calls]. unfold ret.
        rewrite app_nil_r, world_eta. auto.
      * destruct (data_detail_line l d w Hst Hs) as (d1 & E1 & H1).
        cbn [deliver first_outcome]. unfold bind. rewrite E1.
        destruct (reported_outcome l) as [ok|].
        { rewrite data_detail_ignores
            by (destruct H1 as (-> & _); discriminate).
          exists d1. split; [reflexivity|].
          destruct H1 as (? & ? & ? & ? & _). auto. }
        subst d1. cbn [outcome_calls]. rewrite app_nil_r, world_eta.
        apply IH; assumption.
    + rewrite data_detail_ignores
        by (intros E; rewrite E in Ec; discriminate).
      exists d. rewrite app_nil_r, world_eta. auto.
Qed.

Lemma first_connection_result_wins_witness :
  let ls := ["I (1) wifi: connecting"; "SUCCESS: Connected, FAILED: 0 retries";
             "FAILED: timeout"] in
  let d := NetworkInfo.mk_data
             (mk_network (zeroed 33) (zeroed 18) (zeroed 32) (-60) 6)
             (zeroed 65) NetworkInfo.STATE_CONNECTING false (zeroed 64)
             false false 1 in
  let w := mkWorld [] [] 1 [] [] in
  sizeof (NetworkInfo.result_msg d) = 64%nat /\
  exists d',
    deliver NetworkInfo.uart_line_callback ls (Some d) w
    = Some (Some d',
            mkWorld (w_trace w
                     ++ (if NetworkInfo.is_connecting (NetworkInfo.state d)
                         then outcome_calls (first_outcome ls) else []))
                    (w_live w) (w_brk w) (w_allocs w) (w_sends w)) /\
    match (if NetworkInfo.is_connecting (NetworkInfo.state d)
           then first_outcome ls else None) with
    | Some ok =>
        NetworkInfo.state d' = NetworkInfo.STATE_RESULT /\
        NetworkInfo.success d' = ok /\
        c_str (NetworkInfo.result_msg d') = outcome_message ok /\
        NetworkInfo.needs_redraw d' = true
    | None => d' = d
    end.
Proof.
  intros ls d w.
  assert (H : sizeof (NetworkInfo.result_msg d) = 64%nat) by reflexivity.
  split; [exact H|].
  exact (proj1 first_connection_result_wins ls d w H).
Defined.

(** ** Editing the channel times *)

Lemma unsave_result :
  forall d,
    sizeof (ChannelTime.status_msg d) = 64%nat ->
    exists b,
      ChannelTime.unsave d
      = Some (ChannelTime.set_status_msg b (ChannelTime.set_saved false d)) /\
      c_str b = EmptyString /\ sizeof b = 64%nat.
Proof.
  intros d Hs. unfold ChannelTime.unsave.
  apply (clear_status_result (ChannelTime.set_saved false d)). exact Hs.
Qed.

Ltac channel_time_fields :=
  cbn [ChannelTime.loading ChannelTime.status_msg ChannelTime.edited_min
       ChannelTime.edited_max ChannelTime.selected_field ChannelTime.saved
       ChannelTime.min_value ChannelTime.max_value ChannelTime.loading_count
       ChannelTime.needs_redraw
       ChannelTime.set_status_msg ChannelTime.set_saved
       ChannelTime.set_selected_field ChannelTime.set_edited_min
       ChannelTime.set_edited_max ChannelTime.set_min_value
       ChannelTime.set_max_value ChannelTime.set_loading
       ChannelTime.set_loading_count ChannelTime.set_needs_redraw] in *.

(** A navigation key: the block is updated by [f] after the message and the
    saved mark are cleared, and the screen is redrawn. *)
Lemma navigation_step :
  forall (f : ChannelTime.channel_time_data_t -> ChannelTime.channel_time_data_t)
         d w,
    sizeof (ChannelTime.status_msg d) = 64%nat ->
    exists b draws,
      c_str b = EmptyString /\ sizeof b = 64%nat /\
      forallb is_draw draws = true /\
      bind (lift (ChannelTime.unsave d))
           (fun d1 => bind (ChannelTime.draw_screen (f d1))
                           (fun _ => ret (f d1))) w
      = Some (f (ChannelTime.set_status_msg b (ChannelTime.set_saved false d)),
              mkWorld (w_trace w ++ draws) (w_live w) (w_brk w)
                      (w_allocs w) (w_sends w)).
Proof.
  intros f d w Hs.
  destruct (unsave_result d Hs) as (b & E & Hb & Zb).
  unfold bind at 1, lift. rewrite E.
  destruct (channel_time_draw_screen_runs
              (f (ChannelTime.set_status_msg b (ChannelTime.set_saved false d)))
              w) as (u & draws & Ed & Fd).
  exists b, draws. unfold bind, ret. rewrite Ed. auto.
Qed.

Lemma on_key_enter_frame :
  forall d w d' w',
    ChannelTime.on_key_enter d w = Some (d', w') ->
    ChannelTime.selected_field d' = ChannelTime.selected_field d /\
    ChannelTime.loading d' = ChannelTime.loading d /\
    ChannelTime.edited_min d' = ChannelTime.edited_min d /\
    ChannelTime.edited_max d' = ChannelTime.edited_max d.
Proof.
  intros d w d' w'. unfold ChannelTime.on_key_enter, bind at 1, lift.
  unfold ChannelTime.validate_values, ChannelTime.print_status,
    ChannelTime.clear_status.
  unfold bind, lift, ret, uart_send_command.
  repeat (match goal with
          | |- context [ChannelTime.draw_screen ?x ?y] =>
              destruct (ChannelTime.draw_screen x y) as [[? ?]|]
          | |- context [if ?c then _ else _] => destruct c
          | |- context [snprintf_s ?a ?b] => destruct (snprintf_s a b)
          | |- context [store ?a ?b ?c] => destruct (store a b c)
          end; cbn [obind negb]; cbv beta iota; try discriminate).
  all: intros H; inversion H; subst; channel_time_fields; auto.
Qed.

(** One key on the settled screen. *)
Lemma settled_key :
  forall key d w,
    settled d ->
    exists d' w',
      ChannelTime.on_key key d w = Some (d', w') /\ settled d'.
Proof.
  intros key d w Hd. pose proof Hd as (Hl & Hs & Hmin & Hmax & Hsel).
  unfold ChannelTime.MIN_TIME_MS, ChannelTime.MAX_TIME_MS,
    ChannelTime.FIELD_MIN, ChannelTime.FIELD_MAX in *.
  assert (Hkeep : forall w0 : world,
             exists (d' : ChannelTime.channel_time_data_t) (w' : world),
               Some (d, w0) = Some (d', w') /\ settled d')
    by (intros w0; exists d, w0; auto).
  unfold ChannelTime.on_key. rewrite Hl.
  destruct key; try (unfold ret; apply Hkeep).
  - (* KEY_UP *)
    match goal with
    | |- context [ChannelTime.unsave ?arg] =>
        destruct (navigation_step (fun y => y) arg w)
          as (b & dr & Hb & Zb & _ & E)
    end; [destruct (0 <? _)%Z; exact Hs|].
    rewrite E. eexists. eexists. split; [reflexivity|].
    unfold settled, ChannelTime.MIN_TIME_MS, ChannelTime.MAX_TIME_MS,
      ChannelTime.FIELD_MIN, ChannelTime.FIELD_MAX, ChannelTime.FIELD_COUNT.
    destruct Hsel as [Hz | Hz]; rewrite Hz; cbn;
      repeat split; auto; try lia.
  - (* KEY_DOWN *)
    match goal with
    | |- context [ChannelTime.unsave ?arg] =>
        destruct (navigation_step (fun y => y) arg w)
          as (b & dr & Hb & Zb & _ & E)
    end; [destruct (_ <? _)%Z; exact Hs|].
    rewrite E. eexists. eexists. split; [reflexivity|].
    unfold settled, ChannelTime.MIN_TIME_MS, ChannelTime.MAX_TIME_MS,
      ChannelTime.FIELD_MIN, ChannelTime.FIELD_MAX, ChannelTime.FIELD_COUNT.
    destruct Hsel as [Hz | Hz]; rewrite Hz; cbn;
      repeat split; auto; try lia.
  - (* KEY_LEFT *)
    destruct (navigation_step
                (fun data =>
                   if (ChannelTime.selected_field data =? ChannelTime.FIELD_MIN)%Z
                   then
                     ChannelTime.set_edited_min
                       (if (wrap_int (ChannelTime.edited_min data
                                      - ChannelTime.STEP_LARGE)
                            <? ChannelTime.MIN_TIME_MS)%Z
                        then ChannelTime.MIN_TIME_MS
                        else wrap_int (ChannelTime.edited_min data
                                       - ChannelTime.STEP_LARGE)) data
                   else
                     ChannelTime.set_edited_max
                       (if (wrap_int (ChannelTime.edited_max data
                                      - ChannelTime.STEP_LARGE)
                            <? ChannelTime.MIN_TIME_MS)%Z
                        then ChannelTime.MIN_TIME_MS
                        else wrap_int (ChannelTime.edited_max data
                                       - ChannelTime.STEP_LARGE)) data)
                d w Hs) as (b & dr & Hb & Zb & _ & E).
    cbv beta zeta in E |- *. rewrite E.
    eexists. eexists. split; [reflexivity|].
    unfold settled, ChannelTime.MIN_TIME_MS, ChannelTime.MAX_TIME_MS,
      ChannelTime.FIELD_MIN, ChannelTime.FIELD_MAX, ChannelTime.STEP_LARGE.
    channel_time_fields.
    assert (Hw : forall v, (100 <= v <= 1500)%Z ->
                           wrap_int (v - 10) = (v - 10)%Z).
    { intros v Hv. unfold wrap_int. rewrite Z.mod_small; lia. }
    rewrite !Hw by assumption.
    destruct Hsel as [Hz | Hz]; rewrite Hz; cbn [Z.eqb]; channel_time_fields;
      repeat match goal with
             | |- context [(?a <? ?b)%Z] => destruct (Z.ltb_spec a b)
             end; channel_time_fields; repeat split; auto; try lia.
  - (* KEY_RIGHT *)
    destruct (navigation_step
                (fun data =>
                   if (ChannelTime.selected_field data =? ChannelTime.FIELD_MIN)%Z
                   then
                     ChannelTime.set_edited_min
                       (if (ChannelTime.MAX_TIME_MS
                            <? wrap_int (ChannelTime.edited_min data
                                         + ChannelTime.STEP_LARGE))%Z
                        then ChannelTime.MAX_TIME_MS
                        else wrap_int (ChannelTime.edited_min data
                                       + ChannelTime.STEP_LARGE)) data
                   else
                     ChannelTime.set_edited_max
                       (if (ChannelTime.MAX_TIME_MS
                            <? wrap_int (ChannelTime.edited_max data
                                         + ChannelTime.STEP_LARGE))%Z
                        then ChannelTime.MAX_TIME_MS
                        else wrap_int (ChannelTime.edited_max data
                                       + ChannelTime.STEP_LARGE)) data)
                d w Hs) as (b & dr & Hb & Zb & _ & E).
    cbv beta zeta in E |- *. rewrite E.
    eexists. eexists. split; [reflexivity|].
    unfold settled, ChannelTime.MIN_TIME_MS, ChannelTime.MAX_TIME_MS,
      ChannelTime.FIELD_MIN, ChannelTime.FIELD_MAX, ChannelTime.STEP_LARGE.
    channel_time_fields.
    assert (Hw : forall v, (100 <= v <= 1500)%Z ->
                           wrap_int (v + 10) = (v + 10)%Z).
    { intros v Hv. unfold wrap_int. rewrite Z.mod_small; lia. }
    rewrite !Hw by assumption.
    destruct Hsel as [Hz | Hz]; rewrite Hz; cbn [Z.eqb]; channel_time_fields;
      repeat match goal with
             | |- context [(?a <? ?b)%Z] => destruct (Z.ltb_spec a b)
             end; channel_time_fields; repeat split; auto; try lia.
  - (* KEY_ENTER *)
    destruct (values_valid_dec d) as [Hv | Hv].
    + destruct (enter_accepted d w Hv Hs)
        as (d' & dr & E & _ & El & Emin & Emax & Zs & _).
      destruct (on_key_enter_frame _ _ _ _ E) as (Esel & _).
      rewrite E. eexists. eexists. split; [reflexivity|].
      unfold settled, ChannelTime.MIN_TIME_MS, ChannelTime.MAX_TIME_MS,
        ChannelTime.FIELD_MIN, ChannelTime.FIELD_MAX.
      rewrite El, Emin, Emax, Esel. auto 10.
    + destruct (enter_rejected d w Hv Hs) as (b & dr & E & _ & _ & Zb).
      rewrite E. eexists. eexists. split; [reflexivity|].
      unfold settled, ChannelTime.MIN_TIME_MS, ChannelTime.MAX_TIME_MS,
        ChannelTime.FIELD_MIN, ChannelTime.FIELD_MAX.
      channel_time_fields. auto 10.
  - (* KEY_SPACE *)
    destruct (values_valid_dec d) as [Hv | Hv].
    + destruct (enter_accepted d w Hv Hs)
        as (d' & dr & E & _ & El & Emin & Emax & Zs & _).
      destruct (on_key_enter_frame _ _ _ _ E) as (Esel & _).
      rewrite E. eexists. eexists. split; [reflexivity|].
      unfold settled, ChannelTime.MIN_TIME_MS, ChannelTime.MAX_TIME_MS,
        ChannelTime.FIELD_MIN, ChannelTime.FIELD_MAX.
      rewrite El, Emin, Emax, Esel. auto 10.
    + destruct (enter_rejected d w Hv Hs) as (b & dr & E & _ & _ & Zb).
      rewrite E. eexists. eexists. split; [reflexivity|].
      unfold settled, ChannelTime.MIN_TIME_MS, ChannelTime.MAX_TIME_MS,
        ChannelTime.FIELD_MIN, ChannelTime.FIELD_MAX.
      channel_time_fields. auto 10.
Qed.

Lemma settled_keys :
  forall keys d w,
    settled d ->
    exists d' w', press keys d w = Some (d', w') /\ settled d'.
Proof.
  induction keys as [|k keys IH]; intros d w Hd.
  - exists d, w. auto.
  - destruct (settled_key k d w Hd) as (d1 & w1 & E1 & Hd1).
    destruct (IH d1 w1 Hd1) as (d2 & w2 & E2 & Hd2).
    exists d2, w2. cbn [press]. unfold bind. rewrite E1. auto.
Qed.

(** X10. Once the channel times are loaded and within 100..1500 ms, no
    sequence of keys takes the edited values out of that range, selects
    anything but one of the two fields, or makes the handler fault. RIGHT
    adds 10 to the value of the selected field and stops at 1500, LEFT
    subtracts 10 and stops at 100; both leave the other field and the
    values last loaded or saved alone, and clear the "Saved!" mark and the
    status message. *)
Theorem arrow_keys_keep_the_range :
  (forall keys d w,
      settled d ->
      exists d' w', press keys d w = Some (d', w') /\ settled d') /\
  (forall d w,
      settled d ->
      exists d' w',
        ChannelTime.on_key KEY_RIGHT d w = Some (d', w') /\
        selected_value d'
        = Z.min ChannelTime.MAX_TIME_MS (selected_value d + 10) /\
        other_value d' = other_value d /\
        ChannelTime.selected_field d' = ChannelTime.selected_field d /\
        ChannelTime.min_value d' = ChannelTime.min_value d /\
        ChannelTime.max_value d' = ChannelTime.max_value d /\
        ChannelTime.saved d' = false /\
        c_str (ChannelTime.status_msg d') = EmptyString) /\
  (forall d w,
      settled d ->
      exists d' w',
        ChannelTime.on_key KEY_LEFT d w = Some (d', w') /\
        selected_value d'
        = Z.max ChannelTime.MIN_TIME_MS (selected_value d - 10) /\
        other_value d' = other_value d /\
        ChannelTime.selected_field d' = ChannelTime.selected_field d /\
        ChannelTime.min_value d' = ChannelTime.min_value d /\
        ChannelTime.max_value d' = ChannelTime.max_value d /\
        ChannelTime.saved d' = false /\
        c_str (ChannelTime.status_msg d') = EmptyString).
Proof.
  split; [exact settled_keys|]. split.
  - intros d w (Hl & Hs & Hmin & Hmax & Hsel).
    unfold ChannelTime.MIN_TIME_MS, ChannelTime.MAX_TIME_MS,
      ChannelTime.FIELD_MIN, ChannelTime.FIELD_MAX in *.
    unfold ChannelTime.on_key. rewrite Hl.
    destruct (navigation_step
                (fun data =>
                   if (ChannelTime.selected_field data =? ChannelTime.FIELD_MIN)%Z
                   then
                     ChannelTime.set_edited_min
                       (if (ChannelTime.MAX_TIME_MS
                            <? wrap_int (ChannelTime.edited_min data
                                         + ChannelTime.STEP_LARGE))%Z
                        then ChannelTime.MAX_TIME_MS
                        else wrap_int (ChannelTime.edited_min data
                                       + ChannelTime.STEP_LARGE)) data
                   else
                     ChannelTime.set_edited_max
                       (if (ChannelTime.MAX_TIME_MS
                            <? wrap_int (ChannelTime.edited_max data
                                         + ChannelTime.STEP_LARGE))%Z
                        then ChannelTime.MAX_TIME_MS
                        else wrap_int (ChannelTime.edited_max data
                                       + ChannelTime.STEP_LARGE)) data)
                d w Hs) as (b & dr & Hb & Zb & _ & E).
    cbv beta zeta in E |- *. rewrite E.
    eexists. eexists. split; [reflexivity|].
    unfold selected_value, other_value, ChannelTime.MIN_TIME_MS,
      ChannelTime.MAX_TIME_MS, ChannelTime.FIELD_MIN, ChannelTime.FIELD_MAX,
      ChannelTime.STEP_LARGE.
    channel_time_fields.
    assert (Hw : forall v, (100 <= v <= 1500)%Z ->
                           wrap_int (v + 10) = (v + 10)%Z).
    { intros v Hv. unfold wrap_int. rewrite Z.mod_small; lia. }
    rewrite !Hw by assumption.
    destruct Hsel as [Hz | Hz]; rewrite Hz; cbn [Z.eqb]; channel_time_fields;
      rewrite ?Hz; cbn [Z.eqb];
      repeat match goal with
             | |- context [(?a <? ?b)%Z] => destruct (Z.ltb_spec a b)
             end; channel_time_fields; repeat split; auto; try lia.
  - intros d w (Hl & Hs & Hmin & Hmax & Hsel).
    unfold ChannelTime.MIN_TIME_MS, ChannelTime.MAX_TIME_MS,
      ChannelTime.FIELD_MIN, ChannelTime.FIELD_MAX in *.
    unfold ChannelTime.on_key. rewrite Hl.
    destruct (navigation_step
                (fun data =>
                   if (ChannelTime.selected_field data =? ChannelTime.FIELD_MIN)%Z
                   then
                     ChannelTime.set_edited_min
                       (if (wrap_int (ChannelTime.edited_min data
                                      - ChannelTime.STEP_LARGE)
                            <? ChannelTime.MIN_TIME_MS)%Z
                        then ChannelTime.MIN_TIME_MS
                        else wrap_int (ChannelTime.edited_min data
                                       - ChannelTime.STEP_LARGE)) data
                   else
                     ChannelTime.set_edited_max
                       (if (wrap_int (ChannelTime.edited_max data
                                      - ChannelTime.STEP_LARGE)
                            <? ChannelTime.MIN_TIME_MS)%Z
                        then ChannelTime.MIN_TIME_MS
                        else wrap_int (ChannelTime.edited_max data
                                       - ChannelTime.STEP_LARGE)) data)
                d w Hs) as (b & dr & Hb & Zb & _ & E).
    cbv beta zeta in E |- *. rewrite E.
    eexists. eexists. split; [reflexivity|].
    unfold selected_value, other_value, ChannelTime.MIN_TIME_MS,
      ChannelTime.MAX_TIME_MS, ChannelTime.FIELD_MIN, ChannelTime.FIELD_MAX,
      ChannelTime.STEP_LARGE.
    channel_time_fields.
    assert (Hw : forall v, (100 <= v <= 1500)%Z ->
                           wrap_int (v - 10) = (v - 10)%Z).
    { intros v Hv. unfold wrap_int. rewrite Z.mod_small; lia. }
    rewrite !Hw by assumption.
    destruct Hsel as [Hz | Hz]; rewrite Hz; cbn [Z.eqb]; channel_time_fields;
      rewrite ?Hz; cbn [Z.eqb];
      repeat match goal with
             | |- context [(?a <? ?b)%Z] => destruct (Z.ltb_spec a b)
             end; channel_time_fields; repeat split; auto; try lia.
Qed.

Lemma arrow_keys_keep_the_range_witness :
  let keys := [KEY_RIGHT; KEY_DOWN; KEY_LEFT; KEY_ENTER; KEY_UP; KEY_OTHER 7] in
  let d := ChannelTime.mk_data 100 300 1495 105 0 false 0 false false
             (zeroed 64) in
  let w := mkWorld [] [] 1 [] [] in
  settled d /\
  exists d' w', press keys d w = Some (d', w') /\ settled d'.
Proof.
  intros keys d w.
  assert (H : settled d).
  { unfold settled, ChannelTime.MIN_TIME_MS, ChannelTime.MAX_TIME_MS.
    simpl. repeat split; try lia. left. reflexivity. }
  split; [exact H|].
  exact (proj1 arrow_keys_keep_the_range keys d w H).
Defined.

(** ** Loading the channel times *)







(** ** The key matrix of the keyboard driver *)

Lemma in_matrix_cells :
  forall r c,
    (0 <= r < 8)%Z -> (0 <= c < 7)%Z -> In (r, c) matrix_cells.
Proof.
  intros r c Hr Hc. unfold matrix_cells. apply in_prod.
  - assert (H : (r = 0 \/ r = 1 \/ r = 2 \/ r = 3 \/ r = 4 \/ r = 5
                 \/ r = 6 \/ r = 7)%Z) by lia.
    simpl. intuition.
  - assert (H : (c = 0 \/ c = 1 \/ c = 2 \/ c = 3 \/ c = 4 \/ c = 5
                 \/ c = 6)%Z) by lia.
    simpl. intuition.
Qed.

Lemma raw_to_xy_in_matrix :
  forall r c x y,
    (0 <= r)%Z -> (0 <= c)%Z ->
    Keyboard.raw_to_xy r c = Some (x, y) -> (0 <= r < 8)%Z /\ (0 <= c < 7)%Z.
Proof.
  intros r c x y Hr Hc H. unfold Keyboard.raw_to_xy in H.
  unfold Keyboard.K132_ROWS, Keyboard.K132_COLS in H.
  destruct (Z.leb_spec 8 r); [discriminate|].
  destruct (Z.leb_spec 7 c); [discriminate|]. lia.
Qed.

(** X12. Every cell of the 4 x 14 layout map is wired to exactly one
    position of the 8 x 7 scan matrix: [raw_to_xy] accepts all 56 matrix
    positions (its second range check never fires, so [key_value_map] is
    never indexed out of bounds), rejects every position outside of the
    matrix, and sends no two positions to the same cell. *)
Theorem every_key_has_one_matrix_position :
  (forall r c,
      (0 <= r < 8)%Z -> (0 <= c < 7)%Z ->
      exists x y,
        Keyboard.raw_to_xy r c = Some (x, y) /\
        (0 <= x < 14)%Z /\ (0 <= y < 4)%Z) /\
  (forall r c,
      (0 <= r)%Z -> (0 <= c)%Z -> (8 <= r \/ 7 <= c)%Z ->
      Keyboard.raw_to_xy r c = None) /\
  (forall x y,
      (0 <= x < 14)%Z -> (0 <= y < 4)%Z ->
      exists r c,
        (0 <= r < 8)%Z /\ (0 <= c < 7)%Z /\
        Keyboard.raw_to_xy r c = Some (x, y) /\
        forall r' c',
          (0 <= r')%Z -> (0 <= c')%Z ->
          Keyboard.raw_to_xy r' c' = Some (x, y) -> r' = r /\ c' = c).
Proof.
  assert (Hall :
    forallb (fun p =>
               match Keyboard.raw_to_xy (fst p) (snd p) with
               | Some (x, y) =>
                   (0 <=? x)%Z && (x <? 14)%Z && (0 <=? y)%Z && (y <? 4)%Z
               | None => false
               end) matrix_cells = true) by (vm_compute; reflexivity).
  assert (Hinj :
    forallb (fun p =>
               forallb (fun q =>
                          match Keyboard.raw_to_xy (fst p) (snd p),
                                Keyboard.raw_to_xy (fst q) (snd q) with
                          | Some a, Some b =>
                              implb (cell_eqb a b) (cell_eqb p q)
                          | _, _ => true
                          end) matrix_cells) matrix_cells = true)
    by (vm_compute; reflexivity).
  assert (Hsur :
    forallb (fun xy =>
               existsb (fun p =>
                          match Keyboard.raw_to_xy (fst p) (snd p) with
                          | Some a => cell_eqb a xy
                          | None => false
                          end) matrix_cells)
            (list_prod [0; 1; 2; 3; 4; 5; 6; 7; 8; 9; 10; 11; 12; 13]%Z
                       [0; 1; 2; 3]%Z) = true)
    by (vm_compute; reflexivity).
  rewrite forallb_forall in Hall, Hinj, Hsur.
  split; [|split].
  - intros r c Hr Hc.
    specialize (Hall (r, c) (in_matrix_cells r c Hr Hc)). cbn [fst snd] in Hall.
    destruct (Keyboard.raw_to_xy r c) as [[x y]|]; [|discriminate].
    exists x, y. split; [reflexivity|].
    repeat (apply andb_true_iff in Hall as [Hall ?]). lia.
  - intros r c Hr Hc Hout. unfold Keyboard.raw_to_xy.
    unfold Keyboard.K132_ROWS, Keyboard.K132_COLS.
    destruct (Z.leb_spec 8 r); [reflexivity|].
    destruct (Z.leb_spec 7 c); [reflexivity|]. lia.
  - intros x y Hx Hy.
    assert (Hin : In (x, y)
                    (list_prod [0; 1; 2; 3; 4; 5; 6; 7; 8; 9; 10; 11; 12; 13]%Z
                               [0; 1; 2; 3]%Z)).
    { apply in_prod.
      - assert (H : (x = 0 \/ x = 1 \/ x = 2 \/ x = 3 \/ x = 4 \/ x = 5
                     \/ x = 6 \/ x = 7 \/ x = 8 \/ x = 9 \/ x = 10 \/ x = 11
                     \/ x = 12 \/ x = 13)%Z) by lia.
        simpl. intuition.
      - assert (H : (y = 0 \/ y = 1 \/ y = 2 \/ y = 3)%Z) by lia.
        simpl. intuition. }
    specialize (Hsur _ Hin). apply existsb_exists in Hsur as ([r c] & Hrc & E).
    cbn [fst snd] in E.
    destruct (Keyboard.raw_to_xy r c) as [[x0 y0]|] eqn:Exy; [|discriminate].
    unfold cell_eqb in E. cbn [fst snd] in E.
    apply andb_true_iff in E as [E1 E2]. apply Z.eqb_eq in E1, E2. subst x0 y0.
    assert (Hrange : (0 <= r < 8)%Z /\ (0 <= c < 7)%Z).
    { unfold matrix_cells in Hrc. apply in_prod_iff in Hrc as [H1 H2].
      simpl in H1, H2. lia. }
    exists r, c. split; [apply Hrange|]. split; [apply Hrange|].
    split; [exact Exy|].
    intros r' c' Hr' Hc' E'.
    destruct (raw_to_xy_in_matrix r' c' x y Hr' Hc' E') as [Rr Rc].
    specialize (Hinj (r', c') (in_matrix_cells r' c' Rr Rc)).
    rewrite forallb_forall in Hinj. specialize (Hinj (r, c) Hrc).
    cbn [fst snd] in Hinj. rewrite E', Exy in Hinj.
    unfold cell_eqb in Hinj. cbn [fst snd] in Hinj.
    rewrite !Z.eqb_refl in Hinj. cbn [andb implb] in Hinj.
    apply andb_true_iff in Hinj as [H1 H2]. apply Z.eqb_eq in H1, H2. auto.
Qed.

Lemma every_key_has_one_matrix_position_witness :
  ((0 <= 1 < 8)%Z /\ (0 <= 0 < 7)%Z) /\
  exists x y,
    Keyboard.raw_to_xy 1 0 = Some (x, y) /\
    (0 <= x < 14)%Z /\ (0 <= y < 4)%Z.
Proof.
  assert (H : (0 <= 1 < 8)%Z /\ (0 <= 0 < 7)%Z) by lia.
  split; [exact H|].
  exact (proj1 every_key_has_one_matrix_position 1%Z 0%Z (proj1 H) (proj2 H)).
Defined.

(** ** What the keyboard driver hands on *)




(** ** Scanning the key matrix *)












(** *** The text input screen *)

Lemma store_cons :
  forall c b i x, store (c :: b) (S i) x = option_map (cons c) (store b i x).
Proof.
  intros c b i x. unfold store, sizeof. cbn [Datatypes.length].
  change (S i <? S (Datatypes.length b))%nat with (i <? Datatypes.length b)%nat.
  destruct (i <? Datatypes.length b)%nat; reflexivity.
Qed.

Lemma c_str_store_char :
  forall b ch,
    (strlen (c_str b) + 1 < sizeof b)%nat -> ch <> NUL ->
    exists b1 b2,
      store b (strlen (c_str b)) ch = Some b1 /\
      store b1 (strlen (c_str b) + 1) NUL = Some b2 /\
      sizeof b2 = sizeof b /\
      c_str b2 = (c_str b ++ String ch EmptyString)%string.
Proof.
  induction b as [|c b IH]; intros ch Hk Hch.
  - unfold sizeof in Hk. simpl in Hk. lia.
  - cbn [c_str] in *. destruct (Ascii.eqb c NUL) eqn:E.
    + unfold strlen in *. cbn [String.length Nat.add] in *.
      destruct b as [|c' b]; [unfold sizeof in Hk; simpl in Hk; lia|].
      exists (ch :: c' :: b), (ch :: NUL :: b).
      split; [reflexivity|]. split; [reflexivity|]. split; [reflexivity|].
      cbn [c_str]. apply Ascii.eqb_neq in Hch. rewrite Hch.
      change (Ascii.eqb NUL NUL) with true. reflexivity.
    + unfold strlen in *. cbn [String.length] in *.
      destruct (IH ch) as (b1 & b2 & E1 & E2 & Hs & Hc);
        [unfold sizeof in *; cbn [Datatypes.length] in Hk; lia | exact Hch|].
      exists (c :: b1), (c :: b2).
      rewrite store_cons, E1. split; [reflexivity|].
      cbn [Nat.add]. rewrite store_cons, E2. split; [reflexivity|].
      split; [unfold sizeof in *; cbn [Datatypes.length]; lia|].
      cbn [c_str]. rewrite E, Hc. reflexivity.
Qed.

Lemma text_input_frame :
  forall n d w,
    (strlen (c_str (TextInput.input d)) <= n)%nat ->
    exists frame,
      TextInput.draw_screen n d w = Some (tt, after (E_ui_clear :: frame) w) /\
      In (E_ui_print 0 2 (Txt (c_str (TextInput.input d) ++ "_"))
                     UI_COLOR_HIGHLIGHT) frame /\
      forallb draws_content frame = true.
Proof.
  intros n d w Hn.
  assert (Hs : snprintf_local (n + 2) (c_str (TextInput.input d) ++ "_")
               = (c_str (TextInput.input d) ++ "_")%string).
  { unfold snprintf_local. apply substring_all. rewrite strlen_append.
    unfold strlen at 2. simpl. lia. }
  unfold TextInput.draw_screen, ui_clear, ui_draw_title, ui_print,
    ui_draw_status, bind, emit, ret, after.
  rewrite Hs.
  destruct (negb (Ascii.eqb (nth 0 (TextInput.hint d) NUL) NUL));
    cbn [w_trace w_live w_brk w_allocs w_sends];
    repeat rewrite <- app_assoc; cbn [app];
    eexists; (split; [reflexivity|]); split;
      try reflexivity; simpl; auto.
Qed.

Lemma wrap_int_id :
  forall z, (INT_MIN <= z <= INT_MAX)%Z -> wrap_int z = z.
Proof.
  intros z Hz. unfold wrap_int, INT_MIN, INT_MAX in *.
  rewrite Z.mod_small; lia.
Qed.

Lemma substring_append_char :
  forall t ch,
    String.substring 0 (strlen (t ++ String ch EmptyString) - 1)
                     (t ++ String ch EmptyString) = t.
Proof.
  intros t ch. rewrite strlen_append. unfold strlen at 2.
  cbn [String.length]. replace (strlen t + 1 - 1)%nat with (strlen t) by lia.
  induction t as [|a t IH]; [reflexivity|].
  unfold strlen in *. cbn [String.length append String.substring].
  f_equal. exact IH.
Qed.

Lemma append_char_neq :
  forall t ch, (t ++ String ch EmptyString)%string <> t.
Proof.
  intros t ch H. apply (f_equal strlen) in H. rewrite strlen_append in H.
  unfold strlen in H. simpl in H. lia.
Qed.

Lemma on_key_character :
  forall n kb key d,
    key <> Keyboard.KEY_ENTER -> key <> Keyboard.KEY_ESC ->
    key <> Keyboard.KEY_BACKSPACE -> key <> Keyboard.KEY_DEL ->
    TextInputKeys.on_key n kb key d
    = (let ch := TextInputKeys.key_to_char kb key in
       if negb (Ascii.eqb ch NUL)
          && (TextInput.cursor_pos d <? Z.of_nat n)%Z
       then
         (b <- lift (store_at (TextInput.input d) (TextInput.cursor_pos d) ch) ;;
          let data := TextInputKeys.set_cursor_pos
                        (wrap_int (TextInput.cursor_pos d + 1))
                        (TextInputKeys.set_input b d) in
          b <- lift (store_at (TextInput.input data)
                              (TextInput.cursor_pos data) NUL) ;;
          let data := TextInputKeys.set_input b data in
          TextInput.draw_screen n data ;;
          ret (data, @None TextInputKeys.submission))%M
       else ret (d, @None TextInputKeys.submission)) /\
    (forall t, typed n kb key t
               = let ch := TextInputKeys.key_to_char kb key in
                 if Ascii.eqb ch NUL || negb (strlen t <? n)%nat then t
                 else (t ++ String ch EmptyString)%string) /\
    submits key d = None.
Proof.
  intros n kb key d H1 H2 H3 H4.
  destruct key; try congruence; repeat split; reflexivity.
Qed.

(** A key that may type a character. *)
Lemma text_input_type_spec :
  forall n ch d w,
    (Z.of_nat n < 2147483648)%Z -> text_input_ok n d ->
    exists d' w',
      (if negb (Ascii.eqb ch NUL)
          && (TextInput.cursor_pos d <? Z.of_nat n)%Z
       then
         (b <- lift (store_at (TextInput.input d) (TextInput.cursor_pos d) ch) ;;
          let data := TextInputKeys.set_cursor_pos
                        (wrap_int (TextInput.cursor_pos d + 1))
                        (TextInputKeys.set_input b d) in
          b <- lift (store_at (TextInput.input data)
                              (TextInput.cursor_pos data) NUL) ;;
          let data := TextInputKeys.set_input b data in
          TextInput.draw_screen n data ;;
          ret (data, @None TextInputKeys.submission))%M
       else ret (d, @None TextInputKeys.submission)) w = Some ((d', None), w') /\
      text_input_ok n d' /\
      c_str (TextInput.input d')
      = (if Ascii.eqb ch NUL || negb (strlen (c_str (TextInput.input d)) <? n)%nat
         then c_str (TextInput.input d)
         else (c_str (TextInput.input d) ++ String ch EmptyString)%string) /\
      (TextInput.title d' = TextInput.title d /\
       TextInput.hint d' = TextInput.hint d /\
       TextInput.on_submit d' = TextInput.on_submit d /\
       TextInput.callback_user_data d' = TextInput.callback_user_data d) /\
      ((c_str (TextInput.input d') = c_str (TextInput.input d) /\ w' = w) \/
       (c_str (TextInput.input d') <> c_str (TextInput.input d) /\
        redrawn_with (c_str (TextInput.input d')) w w')).
Proof.
  intros n ch d w Hn (Hsz & Hlen & Hcur).
  destruct (Ascii.eqb ch NUL) eqn:Ech; cbn [negb andb orb].
  { exists d, w. unfold ret. repeat split; auto. }
  destruct (Nat.ltb_spec (strlen (c_str (TextInput.input d))) n) as [Hlt|Hge];
    cbn [negb].
  2:{ destruct (Z.ltb_spec (TextInput.cursor_pos d) (Z.of_nat n)) as [Hc|_];
        [lia|].
      exists d, w. unfold ret. repeat split; auto. }
  destruct (Z.ltb_spec (TextInput.cursor_pos d) (Z.of_nat n)) as [_|Hc]; [|lia].
  apply Ascii.eqb_neq in Ech.
  destruct (c_str_store_char (TextInput.input d) ch) as (b1 & b2 & E1 & E2 & Hs & Hc);
    [lia | exact Ech |].
  assert (Hl2 : strlen (c_str b2) = (strlen (c_str (TextInput.input d)) + 1)%nat).
  { rewrite Hc, strlen_append. reflexivity. }
  destruct (text_input_frame n
              (TextInputKeys.set_input b2
                 (TextInputKeys.set_cursor_pos
                    (wrap_int (TextInput.cursor_pos d + 1))
                    (TextInputKeys.set_input b1 d))) w)
    as (frame & Ed & Hin & Hall).
  { cbn [TextInputKeys.set_input TextInput.input]. lia. }
  eexists. exists (after (E_ui_clear :: frame) w).
  unfold bind at 1. unfold store_at at 1. rewrite Hcur.
  destruct (Z.ltb_spec (Z.of_nat (strlen (c_str (TextInput.input d)))) 0)
    as [Hneg|_]; [lia|].
  rewrite Nat2Z.id, E1. cbn [lift]. cbv zeta.
  unfold bind at 1. unfold store_at at 1.
  cbn [TextInputKeys.set_cursor_pos TextInputKeys.set_input
       TextInput.cursor_pos TextInput.input TextInput.title TextInput.hint
       TextInput.on_submit TextInput.callback_user_data].
  rewrite wrap_int_id by (unfold INT_MIN, INT_MAX; lia).
  destruct (Z.ltb_spec (Z.of_nat (strlen (c_str (TextInput.input d))) + 1) 0)
    as [Hneg|_]; [lia|].
  replace (Z.to_nat (Z.of_nat (strlen (c_str (TextInput.input d))) + 1))
    with (strlen (c_str (TextInput.input d)) + 1)%nat by lia.
  rewrite E2. cbn [lift].
  unfold bind at 1.
  cbn [TextInputKeys.set_cursor_pos TextInputKeys.set_input
       TextInput.cursor_pos TextInput.input TextInput.title TextInput.hint
       TextInput.on_submit TextInput.callback_user_data] in Ed |- *.
  rewrite wrap_int_id in Ed by (unfold INT_MIN, INT_MAX; lia).
  rewrite Hcur in Ed. rewrite Ed. unfold ret.
  split; [reflexivity|].
  cbn [TextInputKeys.set_cursor_pos TextInputKeys.set_input
       TextInput.cursor_pos TextInput.input TextInput.title TextInput.hint
       TextInput.on_submit TextInput.callback_user_data] in Hin |- *.
  split.
  { unfold text_input_ok.
    cbn [TextInputKeys.set_cursor_pos TextInputKeys.set_input
         TextInput.cursor_pos TextInput.input]. rewrite Hl2, Hs.
    split; [exact Hsz|]. split; lia. }
  split; [exact Hc|].
  split; [auto|].
  right. split.
  - rewrite Hc. apply append_char_neq.
  - exists frame. auto.
Qed.

Ltac text_fields :=
  cbn [TextInputKeys.set_cursor_pos TextInputKeys.set_input
       TextInput.cursor_pos TextInput.input TextInput.title TextInput.hint
       TextInput.on_submit TextInput.callback_user_data] in *.

(** BACKSPACE and DEL. *)
Lemma text_input_delete_spec :
  forall n d w,
    (Z.of_nat n < 2147483648)%Z -> text_input_ok n d ->
    exists d' w',
      (if (0 <? TextInput.cursor_pos d)%Z then
         (let data := TextInputKeys.set_cursor_pos
                        (wrap_int (TextInput.cursor_pos d - 1)) d in
          b <- lift (store_at (TextInput.input data)
                              (TextInput.cursor_pos data) NUL) ;;
          let data := TextInputKeys.set_input b data in
          TextInput.draw_screen n data ;;
          ret (data, @None TextInputKeys.submission))%M
       else ret (d, @None TextInputKeys.submission)) w = Some ((d', None), w') /\
      text_input_ok n d' /\
      c_str (TextInput.input d')
      = String.substring 0 (strlen (c_str (TextInput.input d)) - 1)
                         (c_str (TextInput.input d)) /\
      (TextInput.title d' = TextInput.title d /\
       TextInput.hint d' = TextInput.hint d /\
       TextInput.on_submit d' = TextInput.on_submit d /\
       TextInput.callback_user_data d' = TextInput.callback_user_data d) /\
      ((c_str (TextInput.input d') = c_str (TextInput.input d) /\ w' = w) \/
       (c_str (TextInput.input d') <> c_str (TextInput.input d) /\
        redrawn_with (c_str (TextInput.input d')) w w')).
Proof.
  intros n d w Hn (Hsz & Hlen & Hcur).
  destruct (Z.ltb_spec 0 (TextInput.cursor_pos d)) as [Hpos|Hzero].
  2:{ exists d, w. unfold ret.
      assert (H0 : strlen (c_str (TextInput.input d)) = O) by lia.
      assert (He : String.substring 0 (strlen (c_str (TextInput.input d)) - 1)
                     (c_str (TextInput.input d)) = c_str (TextInput.input d)).
      { apply substring_all. lia. }
      unfold text_input_ok. rewrite He. auto 10. }
  destruct (c_str_store_nul (TextInput.input d)
              (strlen (c_str (TextInput.input d)) - 1))
    as (b1 & E1 & Hs & Hc); [lia|].
  assert (Hl1 : strlen (c_str b1) = (strlen (c_str (TextInput.input d)) - 1)%nat).
  { rewrite Hc. apply substring_length_le. lia. }
  destruct (text_input_frame n
              (TextInputKeys.set_input b1
                 (TextInputKeys.set_cursor_pos
                    (wrap_int (TextInput.cursor_pos d - 1)) d)) w)
    as (frame & Ed & Hin & Hall).
  { text_fields. lia. }
  eexists. exists (after (E_ui_clear :: frame) w).
  cbv zeta. unfold bind at 1. unfold store_at at 1.
  text_fields.
  rewrite wrap_int_id in Ed |- * by (unfold INT_MIN, INT_MAX; lia).
  rewrite Hcur in Ed |- *.
  destruct (Z.ltb_spec (Z.of_nat (strlen (c_str (TextInput.input d))) - 1) 0)
    as [Hneg|_]; [lia|].
  replace (Z.to_nat (Z.of_nat (strlen (c_str (TextInput.input d))) - 1))
    with (strlen (c_str (TextInput.input d)) - 1)%nat by lia.
  rewrite E1. cbn [lift]. unfold bind at 1. rewrite Ed. unfold ret.
  split; [reflexivity|]. text_fields.
  split.
  { unfold text_input_ok. text_fields. rewrite Hl1, Hs.
    split; [exact Hsz|]. split; lia. }
  split; [exact Hc|].
  split; [auto|].
  right. split.
  - intros H. apply (f_equal strlen) in H. lia.
  - exists frame. auto.
Qed.

Lemma text_input_on_key_spec :
  forall n kb key d w,
    (Z.of_nat n < 2147483648)%Z -> text_input_ok n d ->
    exists d' w',
      TextInputKeys.on_key n kb key d w = Some ((d', submits key d), w') /\
      text_input_ok n d' /\
      c_str (TextInput.input d') = typed n kb key (c_str (TextInput.input d)) /\
      (TextInput.title d' = TextInput.title d /\
       TextInput.hint d' = TextInput.hint d /\
       TextInput.on_submit d' = TextInput.on_submit d /\
       TextInput.callback_user_data d' = TextInput.callback_user_data d) /\
      ((key = Keyboard.KEY_ESC /\ w' = after [E_screen_manager_pop] w) \/
       (key <> Keyboard.KEY_ESC /\
        c_str (TextInput.input d') = c_str (TextInput.input d) /\ w' = w) \/
       (key <> Keyboard.KEY_ESC /\
        c_str (TextInput.input d') <> c_str (TextInput.input d) /\
        redrawn_with (c_str (TextInput.input d')) w w')).
Proof.
  intros n kb key d w Hn Hok.
  destruct (key_code_eq_dec key Keyboard.KEY_ENTER) as [->|H1].
  { exists d, w. cbn [TextInputKeys.on_key submits typed].
    destruct Hok as (Hsz & Hlen & Hcur).
    assert (Hz : (0 <? TextInput.cursor_pos d)%Z
                 = (0 <? strlen (c_str (TextInput.input d)))%nat).
    { rewrite Hcur.
      destruct (Z.ltb_spec 0 (Z.of_nat (strlen (c_str (TextInput.input d)))));
        destruct (Nat.ltb_spec 0 (strlen (c_str (TextInput.input d))));
        try reflexivity; lia. }
    rewrite Hz.
    split.
    { destruct ((0 <? strlen (c_str (TextInput.input d)))%nat
                && negb (Nat.eqb (TextInput.on_submit d) NULL)); reflexivity. }
    unfold text_input_ok. split; [auto|]. split; [reflexivity|].
    split; [auto|]. right. left. split; [discriminate|]. auto. }
  destruct (key_code_eq_dec key Keyboard.KEY_ESC) as [->|H2].
  { exists d, (after [E_screen_manager_pop] w).
    cbn [TextInputKeys.on_key submits typed].
    split; [reflexivity|]. split; [exact Hok|]. split; [reflexivity|].
    split; [auto|]. left. auto. }
  assert (Hdel : key = Keyboard.KEY_BACKSPACE \/ key = Keyboard.KEY_DEL ->
                 TextInputKeys.on_key n kb key d
                 = (if (0 <? TextInput.cursor_pos d)%Z then
                      (let data := TextInputKeys.set_cursor_pos
                                     (wrap_int (TextInput.cursor_pos d - 1)) d in
                       b <- lift (store_at (TextInput.input data)
                                           (TextInput.cursor_pos data) NUL) ;;
                       let data := TextInputKeys.set_input b data in
                       TextInput.draw_screen n data ;;
                       ret (data, @None TextInputKeys.submission))%M
                    else ret (d, @None TextInputKeys.submission)) /\
                 typed n kb key (c_str (TextInput.input d))
                 = String.substring 0 (strlen (c_str (TextInput.input d)) - 1)
                                    (c_str (TextInput.input d)) /\
                 submits key d = None).
  { intros [->| ->]; repeat split; reflexivity. }
  destruct (key_code_eq_dec key Keyboard.KEY_BACKSPACE) as [E3|H3];
    [|destruct (key_code_eq_dec key Keyboard.KEY_DEL) as [E4|H4]].
  1, 2: destruct Hdel as (-> & -> & ->); [auto|];
        destruct (text_input_delete_spec n d w Hn Hok)
          as (d' & w' & E & Hok' & Ht & Hf & Hw);
        exists d', w'; split; [exact E|]; split; [exact Hok'|];
        split; [exact Ht|]; split; [exact Hf|];
        right; destruct Hw as [(Hs & ->)|(Hs & Hr)]; [left|right]; auto.
  destruct (on_key_character n kb key d H1 H2 H3 H4) as (-> & Ety & ->).
  rewrite Ety. cbv zeta.
  destruct (text_input_type_spec n (TextInputKeys.key_to_char kb key) d w Hn Hok)
    as (d' & w' & E & Hok' & Ht & Hf & Hw).
  exists d', w'. split; [exact E|]. split; [exact Hok'|].
  split; [exact Ht|]. split; [exact Hf|].
  right. destruct Hw as [(Hs & ->)|(Hs & Hr)]; [left|right]; auto.
Qed.

Lemma text_input_factory_block :
  forall n p ip w,
    In p (w_live w) -> heap_ok w ->
    alloc_succeeds 0 w = true -> alloc_succeeds 1 w = true ->
    exists s w',
      TextInput.text_input_screen_create n (Some (p, ip)) w = Some (Some s, w') /\
      text_input_ok n (user_data s) /\
      c_str (TextInput.input (user_data s)) = EmptyString /\
      TextInput.on_submit (user_data s) = TextInput.tp_on_submit ip /\
      TextInput.callback_user_data (user_data s) = TextInput.tp_user_data ip /\
      ~ In p (w_live w') /\
      (forall q, q <> p -> In q (w_live w) -> In q (w_live w')).
Proof.
  intros n p ip w Hin Hheap A0 A1.
  pose proof (Hheap p Hin) as Hp.
  unfold TextInput.text_input_screen_create.
  unfold bind at 1. rewrite alloc_run, A0.
  destruct (Nat.eqb_spec (w_brk w) NULL) as [Hz|_];
    [unfold NULL in Hz; lia|].
  unfold bind at 1. rewrite alloc_run, second_alloc_succeeds, A1.
  cbn [w_trace w_live w_brk w_allocs w_sends Nat.eqb NULL].
  destruct (title_copy_runs (TextInput.tp_title ip) 31) as (t & Et).
  destruct (title_copy_runs (TextInput.tp_hint ip) 47) as (h & Eh).
  unfold bind at 1, lift at 1. rewrite Et.
  unfold bind at 1, lift at 1. rewrite Eh.
  replace (n + 1)%nat with (S n) by lia.
  unfold bind at 1, lift at 1. cbn [store zeroed repeat sizeof Datatypes.length
                                     Nat.ltb Nat.leb firstn skipn app].
  unfold bind at 1. rewrite free_run by (cbn [w_live]; auto with datatypes).
  cbn [w_trace w_live w_brk w_allocs w_sends].
  match goal with
  | |- context [bind (TextInput.draw_screen ?m ?d) _ ?w1] =>
      destruct (text_input_draw_screen_runs m d w1) as (u & draws & Ed & Fd)
  end.
  unfold bind at 1. rewrite Ed. unfold ret.
  eexists. eexists. split; [reflexivity|].
  cbn [user_data TextInput.input TextInput.on_submit
       TextInput.callback_user_data].
  unfold text_input_ok.
  cbn [TextInput.input TextInput.cursor_pos c_str].
  change (Ascii.eqb NUL NUL) with true. cbv iota.
  unfold sizeof, strlen. cbn [Datatypes.length String.length].
  rewrite repeat_length. cbn [w_live].
  split; [repeat split; try reflexivity; lia|].
  split; [reflexivity|]. split; [reflexivity|]. split; [reflexivity|].
  split; [apply freed_block_is_gone|].
  intros q Hq Hl. apply other_block_stays; [congruence|].
  simpl. auto.
Qed.

(** X15. A key pressed on the text input screen never writes outside of
    the input field and keeps the cursor behind the text: a character key
    appends its character while there is room, BACKSPACE and DEL drop the
    last character, ENTER submits a text that is not empty to the
    callback, ESC leaves the screen; the screen is redrawn exactly when
    the text changed, and then shows it. The block the factory builds is
    such a field, and empty; the factory releases its parameter block and
    no other. *)
Theorem text_input_keys_edit_the_field :
  (forall n kb key d w,
      (Z.of_nat n < 2147483648)%Z -> text_input_ok n d ->
      exists d' w',
        TextInputKeys.on_key n kb key d w = Some ((d', submits key d), w') /\
        text_input_ok n d' /\
        c_str (TextInput.input d') = typed n kb key (c_str (TextInput.input d)) /\
        (TextInput.title d' = TextInput.title d /\
         TextInput.hint d' = TextInput.hint d /\
         TextInput.on_submit d' = TextInput.on_submit d /\
         TextInput.callback_user_data d' = TextInput.callback_user_data d) /\
        ((key = Keyboard.KEY_ESC /\ w' = after [E_screen_manager_pop] w) \/
         (key <> Keyboard.KEY_ESC /\
          c_str (TextInput.input d') = c_str (TextInput.input d) /\ w' = w) \/
         (key <> Keyboard.KEY_ESC /\
          c_str (TextInput.input d') <> c_str (TextInput.input d) /\
          redrawn_with (c_str (TextInput.input d')) w w'))) /\
  (forall n p ip w,
      In p (w_live w) -> heap_ok w ->
      alloc_succeeds 0 w = true -> alloc_succeeds 1 w = true ->
      exists s w',
        TextInput.text_input_screen_create n (Some (p, ip)) w
        = Some (Some s, w') /\
        text_input_ok n (user_data s) /\
        c_str (TextInput.input (user_data s)) = EmptyString /\
        TextInput.on_submit (user_data s) = TextInput.tp_on_submit ip /\
        TextInput.callback_user_data (user_data s) = TextInput.tp_user_data ip /\
        ~ In p (w_live w') /\
        (forall q, q <> p -> In q (w_live w) -> In q (w_live w'))).
Proof.
  split.
  - exact text_input_on_key_spec.
  - exact text_input_factory_block.
Qed.

Lemma text_input_keys_edit_the_field_witness :
  let n := 64%nat in
  let kb := Keyboard.boot in
  let key := Keyboard.KEY_A in
  let d := TextInput.mk_data (zeroed 32) (zeroed 48)
             (["h"; "i"]%char ++ zeroed 63) 2 5 9 in
  let w := mkWorld [] [] 1 [] [] in
  let ip := TextInput.mk_params (Some "Enter Password") (Some "WiFi password")
              5 9 in
  let w0 := mkWorld [] [7] 8 [] [] in
  (((Z.of_nat n < 2147483648)%Z /\ text_input_ok n d) /\
   exists d' w',
     TextInputKeys.on_key n kb key d w = Some ((d', submits key d), w') /\
     text_input_ok n d' /\
     c_str (TextInput.input d') = typed n kb key (c_str (TextInput.input d)) /\
     (TextInput.title d' = TextInput.title d /\
      TextInput.hint d' = TextInput.hint d /\
      TextInput.on_submit d' = TextInput.on_submit d /\
      TextInput.callback_user_data d' = TextInput.callback_user_data d) /\
     ((key = Keyboard.KEY_ESC /\ w' = after [E_screen_manager_pop] w) \/
      (key <> Keyboard.KEY_ESC /\
       c_str (TextInput.input d') = c_str (TextInput.input d) /\ w' = w) \/
      (key <> Keyboard.KEY_ESC /\
       c_str (TextInput.input d') <> c_str (TextInput.input d) /\
       redrawn_with (c_str (TextInput.input d')) w w'))) /\
  ((In 7 (w_live w0) /\ heap_ok w0 /\
    alloc_succeeds 0 w0 = true /\ alloc_succeeds 1 w0 = true) /\
   exists s w',
     TextInput.text_input_screen_create n (Some (7, ip)) w0
     = Some (Some s, w') /\
     text_input_ok n (user_data s) /\
     c_str (TextInput.input (user_data s)) = EmptyString /\
     TextInput.on_submit (user_data s) = TextInput.tp_on_submit ip /\
     TextInput.callback_user_data (user_data s) = TextInput.tp_user_data ip /\
     ~ In 7%nat (w_live w') /\
     (forall q, q <> 7%nat -> In q (w_live w0) -> In q (w_live w'))).
Proof.
  intros n kb key d w ip w0.
  assert (H1 : (Z.of_nat n < 2147483648)%Z /\ text_input_ok n d).
  { split; [vm_compute; reflexivity|].
    unfold text_input_ok. split; [reflexivity|].
    split; [vm_compute; lia | reflexivity]. }
  assert (H2 : In 7 (w_live w0) /\ heap_ok w0 /\
               alloc_succeeds 0 w0 = true /\ alloc_succeeds 1 w0 = true).
  { split; [simpl; auto|]. split; [|split; reflexivity].
    intros q [<-|[]]. simpl. lia. }
  split.
  - split; [exact H1|].
    exact (proj1 text_input_keys_edit_the_field n kb key d w
                 (proj1 H1) (proj2 H1)).
  - split; [exact H2|].
    exact (proj2 text_input_keys_edit_the_field n 7 ip w0
                 (proj1 H2) (proj1 (proj2 H2)) (proj1 (proj2 (proj2 H2)))
                 (proj2 (proj2 (proj2 H2)))).
Defined.

Lemma press_keys_cons :
  forall n kb key rest d w d1 s w1 d2 subs w2,
    TextInputKeys.on_key n kb key d w = Some ((d1, s), w1) ->
    press_keys n rest d1 w1 = Some ((d2, subs), w2) ->
    press_keys n ((kb, key) :: rest) d w
    = Some ((d2, match s with Some x => x :: subs | None => subs end), w2).
Proof.
  intros n kb key rest d w d1 s w1 d2 subs w2 E1 E2.
  cbn [press_keys]. unfold bind at 1. rewrite E1. cbn [fst snd].
  unfold bind at 1. rewrite E2. reflexivity.
Qed.

Lemma press_keys_app :
  forall n a b d w d1 s1 w1 d2 s2 w2,
    press_keys n a d w = Some ((d1, s1), w1) ->
    press_keys n b d1 w1 = Some ((d2, s2), w2) ->
    press_keys n (a ++ b) d w = Some ((d2, s1 ++ s2), w2).
Proof.
  induction a as [|[kb key] a IH]; intros b d w d1 s1 w1 d2 s2 w2 E1 E2.
  - cbn [press_keys] in E1. unfold ret in E1. inversion E1; subst. exact E2.
  - cbn [press_keys] in E1. unfold bind at 1 in E1.
    destruct (TextInputKeys.on_key n kb key d w) as [[[d0 s0] w0]|] eqn:E0;
      [|discriminate].
    cbn [fst snd] in E1. unfold bind at 1 in E1.
    destruct (press_keys n a d0 w0) as [[[d3 s3] w3]|] eqn:E3; [|discriminate].
    unfold ret in E1. cbn [fst snd] in E1.
    injection E1 as Ed Es Ew. subst d3 w3 s1.
    cbn [app].
    rewrite (press_keys_cons n kb key (a ++ b) d w d0 s0 w0 d2 (s3 ++ s2) w2 E0
               (IH b d0 w0 d1 s3 w1 d2 s2 w2 E3 E2)).
    destruct s0; reflexivity.
Qed.

Lemma substring_append_full :
  forall t x, String.substring 0 (strlen t) (t ++ x) = t.
Proof.
  induction t as [|a t IH]; intros x.
  - destruct x; reflexivity.
  - unfold strlen in *. cbn [String.length append String.substring].
    f_equal. apply IH.
Qed.

Lemma character_key :
  forall kb key,
    TextInputKeys.key_to_char kb key <> NUL ->
    key <> Keyboard.KEY_ENTER /\ key <> Keyboard.KEY_ESC /\
    key <> Keyboard.KEY_BACKSPACE /\ key <> Keyboard.KEY_DEL.
Proof.
  intros kb key H.
  repeat split; intros ->; apply H; reflexivity.
Qed.

Lemma press_characters :
  forall n keys d w,
    (Z.of_nat n < 2147483648)%Z -> text_input_ok n d ->
    forallb types_a_char keys = true ->
    exists d' w',
      press_keys n keys d w = Some ((d', []), w') /\
      text_input_ok n d' /\
      c_str (TextInput.input d')
      = String.substring 0 n (c_str (TextInput.input d) ++ chars_of keys) /\
      TextInput.on_submit d' = TextInput.on_submit d /\
      TextInput.callback_user_data d' = TextInput.callback_user_data d.
Proof.
  intros n keys. induction keys as [|[kb key] keys IH]; intros d w Hn Hok Hk.
  - exists d, w. cbn [press_keys chars_of]. unfold ret.
    rewrite append_nil_r.
    rewrite substring_all by (destruct Hok as (_ & H & _); exact H).
    auto.
  - cbn [forallb] in Hk. apply andb_true_iff in Hk as [Hc Hk].
    unfold types_a_char in Hc. cbn [fst snd] in Hc.
    apply negb_true_iff in Hc. pose proof Hc as Hne.
    apply Ascii.eqb_neq in Hne.
    destruct (character_key kb key Hne) as (H1 & H2 & H3 & H4).
    destruct (on_key_character n kb key d H1 H2 H3 H4) as (_ & Ety & Esub).
    destruct (text_input_on_key_spec n kb key d w Hn Hok)
      as (d1 & w1 & E1 & Hok1 & Ht1 & (_ & _ & Hs1 & Hu1) & _).
    rewrite Esub in E1. rewrite Ety in Ht1. cbv zeta in Ht1.
    rewrite Hc in Ht1. cbn [orb] in Ht1.
    destruct (IH d1 w1 Hn Hok1 Hk) as (d2 & w2 & E2 & Hok2 & Ht2 & Hs2 & Hu2).
    exists d2, w2.
    rewrite (press_keys_cons n kb key keys d w d1 None w1 d2 [] w2 E1 E2).
    split; [reflexivity|]. split; [exact Hok2|].
    split; [|split; congruence].
    rewrite Ht2, Ht1. cbn [chars_of].
    destruct (Nat.ltb_spec (strlen (c_str (TextInput.input d))) n) as [Hlt|Hge];
      cbn [negb].
    + rewrite append_assoc. reflexivity.
    + assert (Hfull : strlen (c_str (TextInput.input d)) = n)
        by (destruct Hok as (_ & H & _); lia).
      rewrite <- Hfull. rewrite !substring_append_full. reflexivity.
Qed.

Lemma substring_substring :
  forall k m t,
    (k <= m)%nat ->
    String.substring 0 k (String.substring 0 m t) = String.substring 0 k t.
Proof.
  induction k as [|k IH]; intros m t Hkm.
  - destruct (String.substring 0 m t), t; reflexivity.
  - destruct m as [|m]; [lia|]. destruct t as [|a t]; [reflexivity|].
    cbn [String.substring]. f_equal. apply IH. lia.
Qed.

Lemma press_deletes :
  forall n keys d w,
    (Z.of_nat n < 2147483648)%Z -> text_input_ok n d ->
    forallb deletes keys = true ->
    exists d' w',
      press_keys n keys d w = Some ((d', []), w') /\
      text_input_ok n d' /\
      c_str (TextInput.input d')
      = String.substring 0 (strlen (c_str (TextInput.input d))
                            - List.length keys)
                         (c_str (TextInput.input d)).
Proof.
  intros n keys. induction keys as [|[kb key] keys IH]; intros d w Hn Hok Hk.
  - exists d, w. cbn [press_keys Datatypes.length]. unfold ret.
    rewrite substring_all by lia. auto.
  - cbn [forallb] in Hk. apply andb_true_iff in Hk as [Hc Hk].
    unfold deletes in Hc. cbn [snd] in Hc.
    destruct (text_input_on_key_spec n kb key d w Hn Hok)
      as (d1 & w1 & E1 & Hok1 & Ht1 & _ & _).
    assert (Hd : submits key d = None /\
                 typed n kb key (c_str (TextInput.input d))
                 = String.substring 0 (strlen (c_str (TextInput.input d)) - 1)
                                    (c_str (TextInput.input d))).
    { destruct key; try discriminate Hc; split; reflexivity. }
    destruct Hd as (Esub & Ety). rewrite Esub in E1. rewrite Ety in Ht1.
    destruct (IH d1 w1 Hn Hok1 Hk) as (d2 & w2 & E2 & Hok2 & Ht2).
    exists d2, w2.
    rewrite (press_keys_cons n kb key keys d w d1 None w1 d2 [] w2 E1 E2).
    split; [reflexivity|]. split; [exact Hok2|].
    rewrite Ht2, Ht1. cbn [Datatypes.length].
    rewrite (substring_length_le (strlen (c_str (TextInput.input d)) - 1)) by lia.
    replace (strlen (c_str (TextInput.input d)) - S (Datatypes.length keys))%nat
      with (strlen (c_str (TextInput.input d)) - 1 - Datatypes.length keys)%nat
      by lia.
    apply substring_substring. lia.
Qed.

Lemma chars_of_length :
  forall keys, strlen (chars_of keys) = List.length keys.
Proof.
  induction keys as [|[kb key] keys IH]; [reflexivity|].
  unfold strlen in *. cbn [chars_of String.length Datatypes.length].
  f_equal. exact IH.
Qed.

(** X16. What is typed is what is submitted: after a run of character keys
    and ENTER, the callback of the screen is handed the text of the field
    followed by the characters typed, cut to the [TEXT_INPUT_MAX_LEN]
    characters of the field, once; an empty text or a missing callback
    submits nothing. *)
Theorem typed_text_is_submitted :
  forall n keys kb d w,
    (Z.of_nat n < 2147483648)%Z -> text_input_ok n d ->
    forallb types_a_char keys = true ->
    exists d' w',
      let text := String.substring 0 n
                    (c_str (TextInput.input d) ++ chars_of keys) in
      press_keys n (keys ++ [(kb, Keyboard.KEY_ENTER)]) d w
      = Some ((d', if (0 <? strlen text)%nat
                      && negb (Nat.eqb (TextInput.on_submit d) NULL)
                   then [(TextInput.on_submit d, text,
                          TextInput.callback_user_data d)]
                   else []), w') /\
      c_str (TextInput.input d') = text.
Proof.
  intros n keys kb d w Hn Hok Hk.
  destruct (press_characters n keys d w Hn Hok Hk)
    as (d1 & w1 & E1 & Hok1 & Ht1 & Hs1 & Hu1).
  destruct (text_input_on_key_spec n kb Keyboard.KEY_ENTER d1 w1 Hn Hok1)
    as (d2 & w2 & E2 & _ & Ht2 & _ & _).
  cbn [typed] in Ht2.
  exists d2, w2. cbv zeta.
  assert (E3 : press_keys n [] d2 w2 = Some ((d2, []), w2)) by reflexivity.
  pose proof (press_keys_cons n kb Keyboard.KEY_ENTER [] d1 w1 d2 _ w2 d2 [] w2
                E2 E3) as E4.
  rewrite (press_keys_app n keys [(kb, Keyboard.KEY_ENTER)] d w d1 [] w1 d2 _ w2
             E1 E4).
  cbn [app submits]. rewrite Ht1, Hs1, Hu1.
  split; [|congruence].
  destruct ((0 <? strlen (String.substring 0 n
                            (c_str (TextInput.input d) ++ chars_of keys)))%nat
            && negb (Nat.eqb (TextInput.on_submit d) NULL)); reflexivity.
Qed.

Lemma typed_text_is_submitted_witness :
  let n := 4%nat in
  let shift := Keyboard.set_shift_held true Keyboard.boot in
  let keys := [(shift, Keyboard.KEY_P); (Keyboard.boot, Keyboard.KEY_W);
               (Keyboard.boot, Keyboard.KEY_1); (shift, Keyboard.KEY_2);
               (Keyboard.boot, Keyboard.KEY_X)] in
  let d := TextInput.mk_data (zeroed 32) (zeroed 48) (zeroed 5) 0 5 9 in
  let w := mkWorld [] [] 1 [] [] in
  ((Z.of_nat n < 2147483648)%Z /\ text_input_ok n d /\
   forallb types_a_char keys = true) /\
  exists d' w',
    press_keys n (keys ++ [(Keyboard.boot, Keyboard.KEY_ENTER)]) d w
    = Some ((d', [(5%nat, "Pw1@"%string, 9%nat)]), w') /\
    c_str (TextInput.input d') = "Pw1@"%string.
Proof.
  intros n shift keys d w.
  assert (H : (Z.of_nat n < 2147483648)%Z /\ text_input_ok n d /\
              forallb types_a_char keys = true).
  { split; [vm_compute; reflexivity|]. split; [|vm_compute; reflexivity].
    unfold text_input_ok. split; [reflexivity|].
    split; [vm_compute; lia | reflexivity]. }
  split; [exact H|].
  exact (typed_text_is_submitted n keys Keyboard.boot d w
           (proj1 H) (proj1 (proj2 H)) (proj2 (proj2 H))).
Defined.

(** X17. BACKSPACE and DEL take back what was typed: a run of them drops
    as many characters from the end of the text as there are keys, and
    stops at the empty text without moving the cursor before the field;
    characters typed into the room left and deleted again leave the text
    as it was. *)
Theorem deleting_takes_back_typing :
  (forall n dels d w,
      (Z.of_nat n < 2147483648)%Z -> text_input_ok n d ->
      forallb deletes dels = true ->
      exists d' w',
        press_keys n dels d w = Some ((d', []), w') /\
        text_input_ok n d' /\
        c_str (TextInput.input d')
        = String.substring 0 (strlen (c_str (TextInput.input d))
                              - List.length dels)
                           (c_str (TextInput.input d))) /\
  (forall n keys dels d w,
      (Z.of_nat n < 2147483648)%Z -> text_input_ok n d ->
      forallb types_a_char keys = true -> forallb deletes dels = true ->
      List.length dels = List.length keys ->
      (strlen (c_str (TextInput.input d)) + List.length keys <= n)%nat ->
      exists d' w',
        press_keys n (keys ++ dels) d w = Some ((d', []), w') /\
        text_input_ok n d' /\
        c_str (TextInput.input d') = c_str (TextInput.input d)).
Proof.
  split; [exact press_deletes|].
  intros n keys dels d w Hn Hok Hk Hd Hlen Hroom.
  destruct (press_characters n keys d w Hn Hok Hk)
    as (d1 & w1 & E1 & Hok1 & Ht1 & _ & _).
  destruct (press_deletes n dels d1 w1 Hn Hok1 Hd)
    as (d2 & w2 & E2 & Hok2 & Ht2).
  exists d2, w2.
  rewrite (press_keys_app n keys dels d w d1 [] w1 d2 [] w2 E1 E2).
  split; [reflexivity|]. split; [exact Hok2|].
  rewrite Ht2, Ht1.
  rewrite (substring_all n (c_str (TextInput.input d) ++ chars_of keys))
    by (rewrite strlen_append, chars_of_length; exact Hroom).
  rewrite strlen_append, chars_of_length, Hlen.
  replace (strlen (c_str (TextInput.input d)) + Datatypes.length keys
           - Datatypes.length keys)%nat
    with (strlen (c_str (TextInput.input d))) by lia.
  apply substring_append_full.
Qed.

Lemma deleting_takes_back_typing_witness :
  let n := 8%nat in
  let d := TextInput.mk_data (zeroed 32) (zeroed 48)
             (["h"; "i"]%char ++ zeroed 7) 2 5 9 in
  let w := mkWorld [] [] 1 [] [] in
  let dels := [(Keyboard.boot, Keyboard.KEY_BACKSPACE);
               (Keyboard.boot, Keyboard.KEY_DEL);
               (Keyboard.boot, Keyboard.KEY_BACKSPACE)] in
  let keys := [(Keyboard.boot, Keyboard.KEY_A);
               (Keyboard.boot, Keyboard.KEY_SPACE);
               (Keyboard.boot, Keyboard.KEY_7)] in
  (((Z.of_nat n < 2147483648)%Z /\ text_input_ok n d /\
    forallb deletes dels = true) /\
   exists d' w',
     press_keys n dels d w = Some ((d', []), w') /\
     text_input_ok n d' /\
     c_str (TextInput.input d') = EmptyString) /\
  ((forallb types_a_char keys = true /\
    List.length dels = List.length keys /\
    (strlen (c_str (TextInput.input d)) + List.length keys <= n)%nat) /\
   exists d' w',
     press_keys n (keys ++ dels) d w = Some ((d', []), w') /\
     text_input_ok n d' /\
     c_str (TextInput.input d') = "hi"%string).
Proof.
  intros n d w dels keys.
  assert (H : (Z.of_nat n < 2147483648)%Z /\ text_input_ok n d /\
              forallb deletes dels = true).
  { split; [vm_compute; reflexivity|]. split; [|vm_compute; reflexivity].
    unfold text_input_ok. split; [reflexivity|].
    split; [vm_compute; lia | reflexivity]. }
  assert (H' : forallb types_a_char keys = true /\
               List.length dels = List.length keys /\
               (strlen (c_str (TextInput.input d)) + List.length keys <= n)%nat).
  { split; [vm_compute; reflexivity|]. split; [reflexivity|].
    vm_compute. lia. }
  split.
  - split; [exact H|].
    exact (proj1 deleting_takes_back_typing n dels d w
                 (proj1 H) (proj1 (proj2 H)) (proj2 (proj2 H))).
  - split; [exact H'|].
    exact (proj2 deleting_takes_back_typing n keys dels d w
                 (proj1 H) (proj1 (proj2 H)) (proj1 H') (proj2 (proj2 H))
                 (proj1 (proj2 H')) (proj2 (proj2 H'))).
Defined.

(** *** The handlers of the network info screen *)

Lemma network_info_password_spec :
  forall text p d w,
    c_string text = true ->
    sizeof (NetworkInfo.password d) = 65%nat ->
    exists b frame,
      NetworkInfoKeys.on_password_submitted text p d w
      = Some (NetworkInfo.set_state NetworkInfo.STATE_CONNECTING
                (NetworkInfoKeys.set_password b d),
              mkWorld
                (w_trace w ++ [E_screen_manager_pop] ++ frame
                 ++ [E_uart_register_line_callback CB_network_info p;
                     E_uart_send_command
                       (String.substring 0 127
                          ("wifi_connect " ++ c_str (ssid (NetworkInfo.network d))
                           ++ " " ++ String.substring 0 64 text))])
                (w_live w) (w_brk w) (w_allocs w) (tl (w_sends w))) /\
      sizeof b = 65%nat /\
      c_str b = String.substring 0 64 text /\
      forallb is_draw frame = true /\
      In (E_ui_print_center 4 (Txt "Connecting...") UI_COLOR_DIMMED) frame.
Proof.
  intros text p d w Ht Hs.
  unfold NetworkInfoKeys.on_password_submitted.
  unfold bind at 1. unfold copy_field.
  change (65 - 1)%nat with 64%nat.
  rewrite copy_result by lia. cbn [lift].
  exists (strncpy_chars text 64 ++ NUL :: skipn 65 (NetworkInfo.password d)).
  exists [E_ui_clear; E_ui_draw_title "Network Info";
          E_ui_print_center 2
            (Txt (snprintf_local 32
                    (String.substring 0 28
                       (NetworkInfo.ssid_or_hidden (NetworkInfo.network d)))))
            UI_COLOR_HIGHLIGHT;
          E_ui_print_center 4 (Txt "Connecting...") UI_COLOR_DIMMED;
          E_ui_draw_status "Please wait..."].
  assert (Hc : c_str (strncpy_chars text 64
                      ++ NUL :: skipn 65 (NetworkInfo.password d))
               = String.substring 0 64 text)
    by (apply c_str_strncpy_chars; exact Ht).
  split.
  - unfold screen_manager_pop, NetworkInfo.draw_screen, ui_clear,
      ui_draw_title, ui_print_center, ui_draw_status,
      uart_register_line_callback, uart_send_command, bind, emit, ret.
    cbn [NetworkInfo.state NetworkInfo.set_state NetworkInfoKeys.set_password
         NetworkInfo.network NetworkInfo.password
         w_trace w_live w_brk w_allocs w_sends].
    rewrite Hc. unfold snprintf_local. change (128 - 1)%nat with 127%nat.
    repeat rewrite <- app_assoc. cbn [app]. reflexivity.
  - split; [rewrite copy_sizeof by lia; exact Hs|].
    split; [exact Hc|].
    split; [reflexivity|]. simpl. auto.
Qed.

(** X18. A submitted password starts the connection: the first 64
    characters of the text replace the stored password, whatever it was;
    the text input is popped, the screen shows that it is connecting, the
    line consumer is registered and only then is the command
    [wifi_connect <ssid> <password>] sent, cut to 127 characters. The
    line that reports the outcome afterwards is taken. *)
Theorem submitted_password_starts_the_connection :
  forall text p d w,
    c_string text = true ->
    sizeof (NetworkInfo.password d) = 65%nat ->
    sizeof (NetworkInfo.result_msg d) = 64%nat ->
    exists d' w' frame,
      NetworkInfoKeys.on_password_submitted text p d w = Some (d', w') /\
      NetworkInfo.state d' = NetworkInfo.STATE_CONNECTING /\
      NetworkInfo.network d' = NetworkInfo.network d /\
      sizeof (NetworkInfo.password d') = 65%nat /\
      c_str (NetworkInfo.password d') = String.substring 0 64 text /\
      w_trace w'
      = w_trace w ++ [E_screen_manager_pop] ++ frame
        ++ [E_uart_register_line_callback CB_network_info p;
            E_uart_send_command
              (String.substring 0 127
                 ("wifi_connect " ++ c_str (ssid (NetworkInfo.network d))
                  ++ " " ++ String.substring 0 64 text))] /\
      forallb is_draw frame = true /\
      In (E_ui_print_center 4 (Txt "Connecting...") UI_COLOR_DIMMED) frame /\
      w_live w' = w_live w /\
      (forall line ok,
          reported_outcome line = Some ok ->
          exists d'',
            NetworkInfo.uart_line_callback line (Some d') w'
            = Some (Some d'', after [E_uart_set_wifi_connected ok] w') /\
            NetworkInfo.state d'' = NetworkInfo.STATE_RESULT /\
            NetworkInfo.success d'' = ok /\
            c_str (NetworkInfo.result_msg d'') = outcome_message ok).
Proof.
  intros text p d w Ht Hp Hr.
  destruct (network_info_password_spec text p d w Ht Hp)
    as (b & frame & E & Hb & Hc & Hf & Hin).
  eexists. eexists. exists frame.
  split; [exact E|].
  cbn [NetworkInfo.state NetworkInfo.set_state NetworkInfoKeys.set_password
       NetworkInfo.network NetworkInfo.password w_trace w_live].
  repeat (split; [first [reflexivity | assumption]|]).
  intros line ok Ho.
  match goal with
  | |- context [NetworkInfo.uart_line_callback line (Some ?d1) ?w1] =>
      destruct (network_info_line line d1 w1) as (d2 & E2 & H2);
        [reflexivity | exact Hr |]
  end.
  rewrite Ho in E2, H2. cbn [outcome_calls] in E2.
  exists d2. split; [exact E2|].
  destruct H2 as (H21 & H22 & H23 & _). auto.
Qed.

Lemma submitted_password_starts_the_connection_witness :
  let text := "correct horse"%string in
  let net := mk_network (["H"; "o"; "m"; "e"]%char ++ zeroed 29)
                        (zeroed 18) (zeroed 24) (-60) 6 in
  let d := NetworkInfo.mk_data net (["o"; "l"; "d"]%char ++ zeroed 62)
             NetworkInfo.STATE_VIEW false (zeroed 64) false false 3 in
  let w := mkWorld [] [3; 4] 5 [] [] in
  (c_string text = true /\
   sizeof (NetworkInfo.password d) = 65%nat /\
   sizeof (NetworkInfo.result_msg d) = 64%nat) /\
  exists d' w' frame,
    NetworkInfoKeys.on_password_submitted text 4 d w = Some (d', w') /\
    NetworkInfo.state d' = NetworkInfo.STATE_CONNECTING /\
    NetworkInfo.network d' = NetworkInfo.network d /\
    sizeof (NetworkInfo.password d') = 65%nat /\
    c_str (NetworkInfo.password d') = "correct horse"%string /\
    w_trace w'
    = [E_screen_manager_pop] ++ frame
      ++ [E_uart_register_line_callback CB_network_info 4;
          E_uart_send_command "wifi_connect Home correct horse"] /\
    forallb is_draw frame = true /\
    In (E_ui_print_center 4 (Txt "Connecting...") UI_COLOR_DIMMED) frame /\
    w_live w' = w_live w /\
    (forall line ok,
        reported_outcome line = Some ok ->
        exists d'',
          NetworkInfo.uart_line_callback line (Some d') w'
          = Some (Some d'', after [E_uart_set_wifi_connected ok] w') /\
          NetworkInfo.state d'' = NetworkInfo.STATE_RESULT /\
          NetworkInfo.success d'' = ok /\
          c_str (NetworkInfo.result_msg d'') = outcome_message ok).
Proof.
  intros text net d w.
  assert (H : c_string text = true /\
              sizeof (NetworkInfo.password d) = 65%nat /\
              sizeof (NetworkInfo.result_msg d) = 64%nat).
  { repeat split; reflexivity. }
  split; [exact H|].
  exact (submitted_password_starts_the_connection text 4 d w
           (proj1 H) (proj1 (proj2 H)) (proj2 (proj2 H))).
Defined.

Lemma alloc_succeeds_tl :
  forall k t l b w s,
    alloc_succeeds k (mkWorld t l b (tl (w_allocs w)) s)
    = alloc_succeeds (S k) w.
Proof.
  intros k t l b w s. unfold alloc_succeeds. cbn [w_allocs].
  destruct (w_allocs w) as [|a r]; [destruct k; reflexivity | reflexivity].
Qed.

Lemma network_info_frame :
  forall d w,
    exists frame,
      NetworkInfo.draw_screen d w = Some (tt, after (E_ui_clear :: frame) w) /\
      forallb draws_content frame = true.
Proof.
  intros d w.
  unfold NetworkInfo.draw_screen, ui_clear, ui_draw_title, ui_print,
    ui_print_center, ui_draw_status, bind, emit, ret, after.
  destruct (NetworkInfo.state d); [| |destruct (NetworkInfo.success d)];
    cbn [w_trace w_live w_brk w_allocs w_sends];
    repeat rewrite <- app_assoc; cbn [app];
    eexists; (split; [reflexivity|]); reflexivity.
Qed.

(** X19. The password prompt is opened on the tick that follows the
    request, before any redraw: the request is cleared, nothing is drawn,
    and a fresh parameter block naming the password handler and this
    screen's context is pushed, which the text input factory releases
    again; when no memory is left, the request is dropped without a
    trace. Without a request, a pending redraw is done once. *)
Theorem password_prompt_is_pushed_on_the_tick :
  (forall addr p d w,
      NetworkInfo.needs_push_password d = true ->
      In p (w_live w) -> heap_ok w ->
      exists r w',
        NetworkInfoKeys.on_tick addr p d w
        = Some ((NetworkInfoKeys.set_needs_push_password false d, r), w') /\
        w_trace w' = w_trace w /\
        (alloc_succeeds 0 w = false -> r = None /\ w_live w' = w_live w) /\
        (alloc_succeeds 0 w = true ->
         exists params,
           let ip := TextInput.mk_params (Some "Enter Password")
                       (Some "WiFi password") addr p in
           r = Some (NetworkInfoKeys.Push_text_input params ip) /\
           ~ In params (w_live w) /\ In params (w_live w') /\
           (forall n,
               alloc_succeeds 1 w = true -> alloc_succeeds 2 w = true ->
               exists s w'',
                 TextInput.text_input_screen_create n (Some (params, ip)) w'
                 = Some (Some s, w'') /\
                 text_input_ok n (user_data s) /\
                 TextInput.on_submit (user_data s) = addr /\
                 TextInput.callback_user_data (user_data s) = p /\
                 ~ In params (w_live w'') /\ In p (w_live w'')))) /\
  (forall addr p d w,
      NetworkInfo.needs_push_password d = false ->
      exists d' w',
        NetworkInfoKeys.on_tick addr p d w = Some ((d', None), w') /\
        d' = NetworkInfo.set_needs_redraw false d /\
        (if NetworkInfo.needs_redraw d
         then exists frame, w' = after (E_ui_clear :: frame) w /\
                            forallb draws_content frame = true
         else w' = w) /\
        NetworkInfoKeys.on_tick addr p d' w' = Some ((d', None), w')).
Proof.
  split.
  - intros addr p d w Hpush Hin Hheap.
    pose proof (Hheap p Hin) as Hp.
    unfold NetworkInfoKeys.on_tick. rewrite Hpush. cbv zeta.
    unfold bind at 1. rewrite alloc_run.
    destruct (alloc_succeeds 0 w) eqn:A0.
    + destruct (Nat.eqb_spec (w_brk w) NULL) as [Hz|Hnz];
        [unfold NULL in Hz; lia|].
      cbn [negb]. unfold ret.
      eexists. eexists. split; [reflexivity|].
      split; [reflexivity|]. split; [discriminate|].
      intros _. exists (w_brk w). cbv zeta.
      split; [reflexivity|].
      split; [intros H; specialize (Hheap _ H); lia|].
      cbn [w_live]. split; [simpl; auto|].
      intros n A1 A2.
      destruct (text_input_factory_block n (w_brk w)
                  (TextInput.mk_params (Some "Enter Password")
                     (Some "WiFi password") addr p)
                  (mkWorld (w_trace w) (w_brk w :: w_live w) (S (w_brk w))
                           (tl (w_allocs w)) (w_sends w)))
        as (s & w2 & E & Hok & _ & Hs & Hu & Hgone & Hstay).
      * simpl. auto.
      * intros q [<-|Hq]; cbn [w_brk]; [lia|].
        specialize (Hheap q Hq). lia.
      * rewrite alloc_succeeds_tl. exact A1.
      * rewrite alloc_succeeds_tl. exact A2.
      * exists s, w2. split; [exact E|]. split; [exact Hok|].
        split; [exact Hs|]. split; [exact Hu|]. split; [exact Hgone|].
        apply Hstay; [lia|]. simpl. auto.
    + change (Nat.eqb NULL NULL) with true. cbn [negb]. unfold ret.
      eexists. eexists. split; [reflexivity|].
      split; [reflexivity|]. split; [auto|]. discriminate.
  - intros addr p d w Hpush.
    unfold NetworkInfoKeys.on_tick. rewrite Hpush.
    destruct (NetworkInfo.needs_redraw d) eqn:Hr.
    + cbv zeta.
      destruct (network_info_frame (NetworkInfo.set_needs_redraw false d) w)
        as (frame & E & Hf).
      unfold bind at 1. rewrite E. unfold ret.
      eexists. eexists. split; [reflexivity|]. split; [reflexivity|].
      split; [exists frame; auto|].
      cbn [NetworkInfo.set_needs_redraw NetworkInfo.needs_push_password
           NetworkInfo.needs_redraw].
      rewrite Hpush. reflexivity.
    + unfold ret. exists d, w. split; [reflexivity|].
      split; [destruct d; cbn in Hr |- *; rewrite Hr; reflexivity|].
      split; [reflexivity|].
      rewrite Hpush, Hr. reflexivity.
Qed.

Lemma password_prompt_is_pushed_on_the_tick_witness :
  let d := NetworkInfo.mk_data
             (mk_network (zeroed 33) (zeroed 18) (zeroed 24) (-60) 6)
             (zeroed 65) NetworkInfo.STATE_VIEW false (zeroed 64) true true 3 in
  let d0 := NetworkInfoKeys.set_needs_push_password false d in
  let w := mkWorld [] [3; 4] 5 [] [] in
  ((NetworkInfo.needs_push_password d = true /\ In 4%nat (w_live w) /\
    heap_ok w) /\
   exists r w',
     NetworkInfoKeys.on_tick 77 4 d w
     = Some ((NetworkInfoKeys.set_needs_push_password false d, r), w') /\
     w_trace w' = w_trace w /\
     (alloc_succeeds 0 w = false -> r = None /\ w_live w' = w_live w) /\
     (alloc_succeeds 0 w = true ->
      exists params,
        let ip := TextInput.mk_params (Some "Enter Password")
                    (Some "WiFi password") 77 4 in
        r = Some (NetworkInfoKeys.Push_text_input params ip) /\
        ~ In params (w_live w) /\ In params (w_live w') /\
        (forall n,
            alloc_succeeds 1 w = true -> alloc_succeeds 2 w = true ->
            exists s w'',
              TextInput.text_input_screen_create n (Some (params, ip)) w'
              = Some (Some s, w'') /\
              text_input_ok n (user_data s) /\
              TextInput.on_submit (user_data s) = 77%nat /\
              TextInput.callback_user_data (user_data s) = 4%nat /\
              ~ In params (w_live w'') /\ In 4%nat (w_live w'')))) /\
  (NetworkInfo.needs_push_password d0 = false /\
   exists d' w',
     NetworkInfoKeys.on_tick 77 4 d0 w = Some ((d', None), w') /\
     d' = NetworkInfo.set_needs_redraw false d0 /\
     (if NetworkInfo.needs_redraw d0
      then exists frame, w' = after (E_ui_clear :: frame) w /\
                         forallb draws_content frame = true
      else w' = w) /\
     NetworkInfoKeys.on_tick 77 4 d' w' = Some ((d', None), w')).
Proof.
  intros d d0 w.
  assert (H : NetworkInfo.needs_push_password d = true /\ In 4%nat (w_live w) /\
              heap_ok w).
  { split; [reflexivity|]. split; [simpl; auto|].
    intros q [<-|[<-|[]]]; simpl; lia. }
  split.
  - split; [exact H|].
    exact (proj1 password_prompt_is_pushed_on_the_tick 77%nat 4%nat d w
                 (proj1 H) (proj1 (proj2 H)) (proj2 (proj2 H))).
  - split; [reflexivity|].
    exact (proj2 password_prompt_is_pushed_on_the_tick 77%nat 4%nat d0 w
                 eq_refl).
Defined.

Lemma network_info_other_key :
  forall key d,
    key <> Keyboard.KEY_ENTER -> key <> Keyboard.KEY_SPACE ->
    key <> Keyboard.KEY_ESC -> key <> Keyboard.KEY_BACKSPACE ->
    key <> Keyboard.KEY_Q ->
    NetworkInfoKeys.on_key key d = ret (d, None).
Proof.
  intros key d H1 H2 H3 H4 H5. unfold NetworkInfoKeys.on_key.
  destruct (NetworkInfo.state d); destruct key; try reflexivity; congruence.
Qed.

Lemma draw_calls_send_nothing :
  forall t, forallb is_draw t = true -> count_event is_send t = O.
Proof.
  unfold count_event.
  induction t as [|e t IH]; intros H; [reflexivity|].
  simpl in H. apply andb_true_iff in H as [He Ht].
  simpl. destruct e; try discriminate He; simpl; apply IH, Ht.
Qed.

Lemma draw_calls_pop_nothing :
  forall t, forallb is_draw t = true -> ~ In E_screen_manager_pop t.
Proof.
  induction t as [|e t IH]; intros H; [intros []|].
  simpl in H. apply andb_true_iff in H as [He Ht].
  intros [->|Hin]; [discriminate He | exact (IH Ht Hin)].
Qed.

Lemma emit_after :
  forall A e (k : M A) w, bind (emit e) (fun _ => k) w = k (after [e] w).
Proof. reflexivity. Qed.

Ltac network_info_key_done :=
  cbn [NetworkInfo.network NetworkInfo.password NetworkInfo.success
       NetworkInfo.result_msg NetworkInfo.needs_redraw NetworkInfo.state
       NetworkInfo.set_state NetworkInfoKeys.set_needs_push_password];
  repeat match goal with
         | |- _ /\ _ => split
         | |- _ -> _ => intro
         end;
  try reflexivity; try discriminate; try congruence;
  try (simpl in *; intuition (try discriminate; try congruence; auto); fail).

Lemma network_info_on_key_spec :
  forall key d w,
    exists d' r added,
      NetworkInfoKeys.on_key key d w = Some ((d', r), after added w) /\
      (NetworkInfo.network d' = NetworkInfo.network d /\
       NetworkInfo.password d' = NetworkInfo.password d /\
       NetworkInfo.success d' = NetworkInfo.success d /\
       NetworkInfo.result_msg d' = NetworkInfo.result_msg d /\
       NetworkInfo.needs_redraw d' = NetworkInfo.needs_redraw d) /\
      count_event is_send added = O /\
      (key = Keyboard.KEY_ESC ->
       d' = d /\ r = None /\
       added = match NetworkInfo.state d with
               | NetworkInfo.STATE_VIEW => [E_screen_manager_pop]
               | _ => [E_uart_clear_line_callback; E_screen_manager_pop]
               end) /\
      (In E_screen_manager_pop added ->
       key = Keyboard.KEY_ESC \/ key = Keyboard.KEY_Q \/
       key = Keyboard.KEY_BACKSPACE) /\
      (NetworkInfo.state d = NetworkInfo.STATE_CONNECTING ->
       key <> Keyboard.KEY_ESC -> d' = d /\ r = None /\ added = []) /\
      (r = None \/
       (r = Some NetworkInfoKeys.Push_arp_hosts /\
        NetworkInfo.state d = NetworkInfo.STATE_RESULT /\
        NetworkInfo.success d = true /\
        added = [E_uart_clear_line_callback])).
Proof.
  intros key d w.
  assert (Hfail : NetworkInfo.state d = NetworkInfo.STATE_RESULT ->
                  NetworkInfo.success d = false ->
                  exists frame,
                    (let data := NetworkInfo.set_state NetworkInfo.STATE_VIEW d in
                     NetworkInfo.draw_screen data ;;
                     ret (data, @None NetworkInfoKeys.push_request))%M w
                    = Some ((NetworkInfo.set_state NetworkInfo.STATE_VIEW d, None),
                            after (E_ui_clear :: frame) w) /\
                    forallb draws_content frame = true).
  { intros _ _. cbv zeta.
    destruct (network_info_frame
                (NetworkInfo.set_state NetworkInfo.STATE_VIEW d) w)
      as (frame & E & Hf).
    exists frame. unfold bind. rewrite E. auto. }
  destruct (key_code_eq_dec key Keyboard.KEY_ESC) as [->|H3].
  { unfold NetworkInfoKeys.on_key.
    destruct (NetworkInfo.state d) eqn:Es.
    - exists d, None, [E_screen_manager_pop]. network_info_key_done.
    - exists d, None, [E_uart_clear_line_callback; E_screen_manager_pop].
      unfold uart_clear_line_callback, screen_manager_pop.
      rewrite !emit_after, after_after. network_info_key_done.
    - exists d, None, [E_uart_clear_line_callback; E_screen_manager_pop].
      unfold uart_clear_line_callback, screen_manager_pop.
      rewrite !emit_after, after_after. network_info_key_done. }
  destruct (key_code_eq_dec key Keyboard.KEY_BACKSPACE) as [->|H4].
  { unfold NetworkInfoKeys.on_key.
    destruct (NetworkInfo.state d) eqn:Es.
    - exists d, None, [E_screen_manager_pop]. network_info_key_done.
    - exists d, None, []. rewrite after_nil. network_info_key_done.
    - exists d, None, [E_uart_clear_line_callback; E_screen_manager_pop].
      unfold uart_clear_line_callback, screen_manager_pop.
      rewrite !emit_after, after_after. network_info_key_done. }
  destruct (key_code_eq_dec key Keyboard.KEY_Q) as [->|H5].
  { unfold NetworkInfoKeys.on_key.
    destruct (NetworkInfo.state d) eqn:Es.
    - exists d, None, [E_screen_manager_pop]. network_info_key_done.
    - exists d, None, []. rewrite after_nil. network_info_key_done.
    - exists d, None, []. rewrite after_nil. network_info_key_done. }
  assert (Henter : key = Keyboard.KEY_ENTER \/ key = Keyboard.KEY_SPACE ->
                   NetworkInfoKeys.on_key key d
                   = NetworkInfoKeys.on_key Keyboard.KEY_ENTER d).
  { intros [->| ->]; reflexivity. }
  destruct (key_code_eq_dec key Keyboard.KEY_ENTER) as [E1|H1];
    [|destruct (key_code_eq_dec key Keyboard.KEY_SPACE) as [E2|H2]].
  1, 2: rewrite Henter by auto; unfold NetworkInfoKeys.on_key;
        destruct (NetworkInfo.state d) eqn:Es;
        [ exists (NetworkInfoKeys.set_needs_push_password true d), None, [];
          rewrite after_nil; network_info_key_done
        | exists d, None, []; rewrite after_nil; network_info_key_done
        | destruct (NetworkInfo.success d) eqn:Esuc;
          [ exists d, (Some NetworkInfoKeys.Push_arp_hosts),
              [E_uart_clear_line_callback];
            network_info_key_done; right; auto
          | destruct (Hfail eq_refl eq_refl) as (frame & E & Hf);
            apply content_is_draw in Hf;
            change (forallb is_draw (E_ui_clear :: frame) = true) in Hf;
            exists (NetworkInfo.set_state NetworkInfo.STATE_VIEW d), None,
              (E_ui_clear :: frame);
            split; [exact E|];
            split; [network_info_key_done|];
            split; [exact (draw_calls_send_nothing (E_ui_clear :: frame) Hf)|];
            split; [congruence|];
            split; [intros Hin; exfalso;
                    exact (draw_calls_pop_nothing (E_ui_clear :: frame) Hf Hin)|];
            split; [congruence | left; reflexivity] ] ].
  exists d, None, [].
  rewrite (network_info_other_key key d H1 H2 H3 H4 H5), after_nil.
  network_info_key_done.
Qed.

(** X20. The keys of the network info screen: no key sends a command or
    touches the network, the password or the result; ESC leaves the
    screen in every state, and unregisters the line consumer first
    unless the screen is in its view; the screen is left on ESC, Q and
    BACKSPACE only; while connecting every key but ESC is ignored; the
    ARP screen is pushed only after a successful connection, with the
    line consumer unregistered. *)
Theorem network_info_keys :
  forall key d w,
    exists d' r added,
      NetworkInfoKeys.on_key key d w = Some ((d', r), after added w) /\
      (NetworkInfo.network d' = NetworkInfo.network d /\
       NetworkInfo.password d' = NetworkInfo.password d /\
       NetworkInfo.success d' = NetworkInfo.success d /\
       NetworkInfo.result_msg d' = NetworkInfo.result_msg d /\
       NetworkInfo.needs_redraw d' = NetworkInfo.needs_redraw d) /\
      count_event is_send added = O /\
      (key = Keyboard.KEY_ESC ->
       d' = d /\ r = None /\
       added = match NetworkInfo.state d with
               | NetworkInfo.STATE_VIEW => [E_screen_manager_pop]
               | _ => [E_uart_clear_line_callback; E_screen_manager_pop]
               end) /\
      (In E_screen_manager_pop added ->
       key = Keyboard.KEY_ESC \/ key = Keyboard.KEY_Q \/
       key = Keyboard.KEY_BACKSPACE) /\
      (NetworkInfo.state d = NetworkInfo.STATE_CONNECTING ->
       key <> Keyboard.KEY_ESC -> d' = d /\ r = None /\ added = []) /\
      (r = None \/
       (r = Some NetworkInfoKeys.Push_arp_hosts /\
        NetworkInfo.state d = NetworkInfo.STATE_RESULT /\
        NetworkInfo.success d = true /\
        added = [E_uart_clear_line_callback])).
Proof. exact network_info_on_key_spec. Qed.


